(** * HISAT read input and ordered output: a shallow embedding

    This development embeds two translation units of the aligner in Rocq:

    - [outq.cpp], the [OutputQueue] that lets worker threads finish reads in
      any order and still writes their records in read-id order;
    - [pat.cpp], the pattern sources (the light parsers of FASTQ, FASTA, raw
      and tab-delimited files, the heavy parsers of FASTA and FASTQ reads,
      the source of reads given on the command line), the composers that
      dispatch batches of reads to threads and their set-up, the per-read
      seeds, and the per-thread reader.

    Every C++ member function is a Rocq function from the object's state to
    an [outcome]: either a new state (and a result), or the way in which the
    call left the program (a failed assertion, a [throw 1] or [exit(1)]
    after a diagnostic, undefined behaviour).  Mutexes only serialise the
    calls; one call is one atomic step of the model and a multi-threaded run
    is a sequence of such steps. *)

From Stdlib Require Import ZArith String Ascii List Bool Lia.
From stdpp Require Import base tactics option list.

Local Open Scope string_scope.
Local Open Scope nat_scope.

(** ** Outcomes of a call *)

Inductive failure : Type :=
| AssertionFailed          (* an assert_* macro found its condition false *)
| Thrown (msg : string)    (* [cerr << msg; throw 1] *)
| Exited (msg : string)    (* [cerr << msg; exit(1)] *)
| Undefined                (* unchecked out-of-range access, division by 0 *)
| OutOfFuel.               (* the step budget of the model ran out *)

Inductive outcome (A : Type) : Type :=
| Ok (a : A)
| Fail (f : failure).

Arguments Ok {A} a.
Arguments Fail {A} f.

Definition bind {A B : Type} (m : outcome A) (k : A -> outcome B) : outcome B :=
  match m with
  | Ok a => k a
  | Fail f => Fail f
  end.

Notation "'do' x <- m ; k" := (bind m (fun x => k))
  (at level 10, x pattern, m at level 100, k at level 200, only parsing).
Notation "'check' m ; k" := (bind m (fun _ : unit => k))
  (at level 10, m at level 100, k at level 200, only parsing).

Definition is_ok {A : Type} (m : outcome A) : bool :=
  match m with Ok _ => true | Fail _ => false end.


(** ** Machine integers

    [TReadId] is a 64-bit unsigned integer and [size_t] is 64 bits wide on
    the supported targets; both are modelled as [Z] reduced modulo [2^64]
    after every arithmetic operation of the source. *)

Definition two64 : Z := 18446744073709551616%Z.

Definition wrap64 (z : Z) : Z := (z mod two64)%Z.



(** A counted loop [for (i = lo; i < lo + n; i++) body(i)] over a state. *)
Fixpoint for_range {St : Type} (lo n : nat) (body : nat -> St -> outcome St) (s : St)
  : outcome St :=
  match n with
  | O => Ok s
  | S n' => do s' <- body lo s; for_range (S lo) n' body s'
  end.

(** [assert(e)] and the [assert_*] macros: [e] is evaluated only in a debug
    build; [NDEBUG] tells that the assertions are compiled out. *)
Definition assert_ (NDEBUG : bool) (e : outcome bool) : outcome unit :=
  if NDEBUG then Ok tt
  else do b <- e; if b then Ok tt else Fail AssertionFailed.

(** Two calls end alike: both return, with results that [R] relates, or
    both leave the program in the same way. *)
Definition outcome_rel {A : Type} (R : A -> A -> Prop) (m1 m2 : outcome A) : Prop :=
  match m1, m2 with
  | Ok a, Ok b => R a b
  | Fail f, Fail g => f = g
  | _, _ => False
  end.

(** * The output queue ([outq.cpp]) *)

Module OutQ.

(** [EList<T>] (declared in [ds.h]) as a list.  [resize] keeps the first
    [sz] elements; the slots that it adds are not initialised: they show
    what the storage of the container holds at their index, which [storage]
    gives.  [erase(0,n)] shifts the elements down by [n]. *)
Definition EList_resize {A : Type} (storage : nat -> A) (sz : nat) (l : list A) : list A :=
  take sz l ++ (storage <$> seq (length l) (sz - length l)).

Definition EList_erase0 {A : Type} (n : nat) (l : list A) : list A := drop n l.

Record OutputQueue : Type := mkQ {
  reorder_ : bool;                (* write records in read-id order? *)
  threadSafe_ : bool;
  nthreads_ : nat;
  nmulti_output_ : nat;
  perThreadBufSize_ : Z;
  cur_ : Z;                       (* TReadId of the slot at index 0 *)
  lines_ : list string;           (* EList<BTString> *)
  started_ : list bool;           (* EList<bool> *)
  finished_ : list bool;          (* EList<bool> *)
  perThreadBuf_ : list (list string);
  perThreadCounter_ : list Z;
  perThreadStarted_ : list Z;
  perThreadFinished_ : list Z;
  perThreadFlushed_ : list Z;
  ofhs_ : list string             (* bytes written so far to each output *)
}.

(** What the storage of [lines_], [started_] and [finished_] holds past
    their sizes when [beginReadImpl] resizes them: what is left of erased
    elements, or what the memory held when it was allocated. *)
Record Storage : Type := mkStorage {
  lines_storage : nat -> string;
  started_storage : nat -> bool;
  finished_storage : nat -> bool
}.

(** Storage that holds nothing of that kind. *)
Definition cleared : Storage :=
  mkStorage (fun _ => "") (fun _ => false) (fun _ => false).

Definition set_cur (v : Z) (q : OutputQueue) : OutputQueue :=
  mkQ (reorder_ q) (threadSafe_ q) (nthreads_ q) (nmulti_output_ q) (perThreadBufSize_ q)
      v (lines_ q) (started_ q) (finished_ q)
      (perThreadBuf_ q) (perThreadCounter_ q) (perThreadStarted_ q)
      (perThreadFinished_ q) (perThreadFlushed_ q) (ofhs_ q).

Definition set_lines (v : list string) (q : OutputQueue) : OutputQueue :=
  mkQ (reorder_ q) (threadSafe_ q) (nthreads_ q) (nmulti_output_ q) (perThreadBufSize_ q)
      (cur_ q) v (started_ q) (finished_ q)
      (perThreadBuf_ q) (perThreadCounter_ q) (perThreadStarted_ q)
      (perThreadFinished_ q) (perThreadFlushed_ q) (ofhs_ q).

Definition set_started (v : list bool) (q : OutputQueue) : OutputQueue :=
  mkQ (reorder_ q) (threadSafe_ q) (nthreads_ q) (nmulti_output_ q) (perThreadBufSize_ q)
      (cur_ q) (lines_ q) v (finished_ q)
      (perThreadBuf_ q) (perThreadCounter_ q) (perThreadStarted_ q)
      (perThreadFinished_ q) (perThreadFlushed_ q) (ofhs_ q).

Definition set_finished (v : list bool) (q : OutputQueue) : OutputQueue :=
  mkQ (reorder_ q) (threadSafe_ q) (nthreads_ q) (nmulti_output_ q) (perThreadBufSize_ q)
      (cur_ q) (lines_ q) (started_ q) v
      (perThreadBuf_ q) (perThreadCounter_ q) (perThreadStarted_ q)
      (perThreadFinished_ q) (perThreadFlushed_ q) (ofhs_ q).

Definition set_perThreadBuf (v : list (list string)) (q : OutputQueue) : OutputQueue :=
  mkQ (reorder_ q) (threadSafe_ q) (nthreads_ q) (nmulti_output_ q) (perThreadBufSize_ q)
      (cur_ q) (lines_ q) (started_ q) (finished_ q)
      v (perThreadCounter_ q) (perThreadStarted_ q)
      (perThreadFinished_ q) (perThreadFlushed_ q) (ofhs_ q).

Definition set_perThreadCounter (v : list Z) (q : OutputQueue) : OutputQueue :=
  mkQ (reorder_ q) (threadSafe_ q) (nthreads_ q) (nmulti_output_ q) (perThreadBufSize_ q)
      (cur_ q) (lines_ q) (started_ q) (finished_ q)
      (perThreadBuf_ q) v (perThreadStarted_ q)
      (perThreadFinished_ q) (perThreadFlushed_ q) (ofhs_ q).

Definition set_perThreadStarted (v : list Z) (q : OutputQueue) : OutputQueue :=
  mkQ (reorder_ q) (threadSafe_ q) (nthreads_ q) (nmulti_output_ q) (perThreadBufSize_ q)
      (cur_ q) (lines_ q) (started_ q) (finished_ q)
      (perThreadBuf_ q) (perThreadCounter_ q) v
      (perThreadFinished_ q) (perThreadFlushed_ q) (ofhs_ q).

Definition set_perThreadFinished (v : list Z) (q : OutputQueue) : OutputQueue :=
  mkQ (reorder_ q) (threadSafe_ q) (nthreads_ q) (nmulti_output_ q) (perThreadBufSize_ q)
      (cur_ q) (lines_ q) (started_ q) (finished_ q)
      (perThreadBuf_ q) (perThreadCounter_ q) (perThreadStarted_ q)
      v (perThreadFlushed_ q) (ofhs_ q).

Definition set_perThreadFlushed (v : list Z) (q : OutputQueue) : OutputQueue :=
  mkQ (reorder_ q) (threadSafe_ q) (nthreads_ q) (nmulti_output_ q) (perThreadBufSize_ q)
      (cur_ q) (lines_ q) (started_ q) (finished_ q)
      (perThreadBuf_ q) (perThreadCounter_ q) (perThreadStarted_ q)
      (perThreadFinished_ q) v (ofhs_ q).

Definition set_ofhs (v : list string) (q : OutputQueue) : OutputQueue :=
  mkQ (reorder_ q) (threadSafe_ q) (nthreads_ q) (nmulti_output_ q) (perThreadBufSize_ q)
      (cur_ q) (lines_ q) (started_ q) (finished_ q)
      (perThreadBuf_ q) (perThreadCounter_ q) (perThreadStarted_ q)
      (perThreadFinished_ q) (perThreadFlushed_ q) v.

Section Impl.

(** [NDEBUG] tells whether the assertions are compiled out (a release
    build).  [NFLUSH_THRESH] is the constant of [outq.h]. *)
Variable NDEBUG : bool.
Variable NFLUSH_THRESH : nat.

(** [EList::operator[]] checks its index with an assertion. *)
Definition oob : failure := if NDEBUG then Undefined else AssertionFailed.

Definition EList_get {A : Type} (l : list A) (i : Z) : outcome A :=
  match l !! Z.to_nat i with
  | Some x => Ok x
  | None => Fail oob
  end.

Definition EList_set {A : Type} (l : list A) (i : Z) (x : A) : outcome (list A) :=
  if (i <? Z.of_nat (length l))%Z then Ok (<[Z.to_nat i := x]> l) else Fail oob.

(** The per-thread tallies are plain arrays. *)
Definition arr_get {A : Type} (l : list A) (i : nat) : outcome A :=
  match l !! i with
  | Some x => Ok x
  | None => Fail Undefined
  end.

Definition arr_set {A : Type} (l : list A) (i : nat) (x : A) : outcome (list A) :=
  if i <? length l then Ok (<[i := x]> l) else Fail Undefined.

Definition arr_add (l : list Z) (i : nat) (d : Z) : outcome (list Z) :=
  do x <- arr_get l i; arr_set l i (x + d)%Z.

(** [writeString]: [fwrite] is taken to accept all [slen] bytes, so the
    short-write branch (which throws) is not taken. *)
Definition writeString (s : string) (outidx : nat) (q : OutputQueue)
  : outcome OutputQueue :=
  do o <- arr_get (ofhs_ q) outidx;
  do o' <- arr_set (ofhs_ q) outidx (o ++ s);
  Ok (set_ofhs o' q).

(** The loop of [beginReadImpl] that clears the flags of the new slots. *)
Definition clear_new_slots (oldsz : nat) (q : OutputQueue) : outcome OutputQueue :=
  for_range oldsz (length (lines_ q) - oldsz)
    (fun i q =>
       do f <- EList_set (finished_ q) (Z.of_nat i) false;
       do s <- EList_set (started_ q) (Z.of_nat i) false;
       Ok (set_started s (set_finished f q)))
    q.

Definition beginReadImpl_on (st : Storage) (rdid : Z) (threadId : nat) (q : OutputQueue)
  : outcome OutputQueue :=
  check assert_ NDEBUG (Ok (threadId <? nthreads_ q));
  check assert_ NDEBUG (do c <- arr_get (perThreadCounter_ q) threadId;
           Ok (c <=? perThreadBufSize_ q)%Z);
  do ps <- arr_add (perThreadStarted_ q) threadId 1;
  let q := set_perThreadStarted ps q in
  if reorder_ q then
    check assert_ NDEBUG (Ok (cur_ q <=? rdid)%Z);
    check assert_ NDEBUG (Ok (length (lines_ q) =? length (finished_ q)));
    check assert_ NDEBUG (Ok (length (lines_ q) =? length (started_ q)));
    let off := wrap64 (rdid - cur_ q) in
    do q <-
      (if (Z.of_nat (length (lines_ q)) <=? off)%Z then
         (* Make sure there's enough room in lines_, started_ and finished_ *)
         let oldsz := length (lines_ q) in
         let newsz := Z.to_nat (wrap64 (off + 1)) in
         let q := set_lines (EList_resize (lines_storage st) newsz (lines_ q)) q in
         let q := set_started (EList_resize (started_storage st) newsz (started_ q)) q in
         let q := set_finished (EList_resize (finished_storage st) newsz (finished_ q)) q in
         clear_new_slots oldsz q
       else Ok q);
    do s <- EList_set (started_ q) off true;
    do f <- EList_set (finished_ q) off false;
    Ok (set_finished f (set_started s q))
  else Ok q.

(** [beginReadImpl] on storage that holds nothing.  What the storage holds
    does not show in what a run writes ([run_on_any_storage]). *)
Definition beginReadImpl : Z -> nat -> OutputQueue -> outcome OutputQueue :=
  beginReadImpl_on cleared.

(** The scan of [flushImpl]:
    [while(nflush < finished_.size() && finished_[nflush])].  At most
    [finished_.size()] iterations run, which is the fuel given below. *)
Fixpoint scan_finished (fuel : nat) (q : OutputQueue) (nflush : nat) : outcome nat :=
  match fuel with
  | O => Ok nflush
  | S fuel' =>
      if nflush <? length (finished_ q) then
        do fin <- EList_get (finished_ q) (Z.of_nat nflush);
        if (fin : bool) then
          check assert_ NDEBUG (EList_get (started_ q) (Z.of_nat nflush));
          scan_finished fuel' q (S nflush)
        else Ok nflush
      else Ok nflush
  end.

Definition flushImpl (force : bool) (q : OutputQueue) : outcome OutputQueue :=
  if negb (reorder_ q) then
    for_range 0 (nthreads_ q)
      (fun i q =>
         do cnt <- arr_get (perThreadCounter_ q) i;
         do q <- for_range 0 (Z.to_nat cnt)
                   (fun j q =>
                      do row <- arr_get (perThreadBuf_ q) i;
                      do s <- arr_get row j;
                      writeString s 0 q)
                   q;
         do fl <- arr_add (perThreadFlushed_ q) i cnt;
         do ctr <- arr_set (perThreadCounter_ q) i 0%Z;
         Ok (set_perThreadCounter ctr (set_perThreadFlushed fl q)))
      q
  else
    do nflush <- scan_finished (length (finished_ q)) q 0;
    (* Waiting until we have several in a row to flush cuts down on copies *)
    if force || (NFLUSH_THRESH <=? nflush) then
      do q <- for_range 0 nflush
                (fun i q =>
                   check assert_ NDEBUG (EList_get (started_ q) (Z.of_nat i));
                   check assert_ NDEBUG (EList_get (finished_ q) (Z.of_nat i));
                   do s <- EList_get (lines_ q) (Z.of_nat i);
                   writeString s 0 q)
                q;
      let q := set_lines (EList_erase0 nflush (lines_ q)) q in
      let q := set_started (EList_erase0 nflush (started_ q)) q in
      let q := set_finished (EList_erase0 nflush (finished_ q)) q in
      let q := set_cur (wrap64 (cur_ q + Z.of_nat nflush)) q in
      do fl <- arr_add (perThreadFlushed_ q) 0 (Z.of_nat nflush);
      Ok (set_perThreadFlushed fl q)
    else Ok q.

(** [flush]: taking the lock ([getLock]) does not change the state. *)
Definition flush (force getLock : bool) (q : OutputQueue) : outcome OutputQueue :=
  if getLock && threadSafe_ q then flushImpl force q else flushImpl force q.

Definition finishReadImpl (rec : string) (rdid : Z) (threadId : nat) (q : OutputQueue)
  : outcome OutputQueue :=
  check assert_ NDEBUG (Ok (threadId <? nthreads_ q));
  if reorder_ q then
    check assert_ NDEBUG (Ok (cur_ q <=? rdid)%Z);
    check assert_ NDEBUG (Ok (length (lines_ q) =? length (finished_ q)));
    check assert_ NDEBUG (Ok (length (lines_ q) =? length (started_ q)));
    let off := wrap64 (rdid - cur_ q) in
    check assert_ NDEBUG (Ok (off <? Z.of_nat (length (lines_ q)))%Z);
    check assert_ NDEBUG (EList_get (started_ q) off);
    check assert_ NDEBUG (do f <- EList_get (finished_ q) off; Ok (negb f));
    do l <- EList_set (lines_ q) off rec;
    let q := set_lines l q in
    do pf <- arr_add (perThreadFinished_ q) threadId 1;
    let q := set_perThreadFinished pf q in
    do f <- EList_set (finished_ q) off true;
    let q := set_finished f q in
    flush false false q (* don't force; already have lock *)
  else
    do pf <- arr_add (perThreadFinished_ q) threadId 1;
    let q := set_perThreadFinished pf q in
    do cnt <- arr_get (perThreadCounter_ q) threadId;
    do q <-
      (if (perThreadBufSize_ q <=? cnt)%Z then
         check assert_ NDEBUG (Ok (cnt =? perThreadBufSize_ q)%Z);
         if nmulti_output_ q =? 0 then Fail Undefined else
         let outidx := threadId mod nmulti_output_ q in
         do q <- for_range 0 (Z.to_nat (perThreadBufSize_ q))
                   (fun i q =>
                      do row <- arr_get (perThreadBuf_ q) threadId;
                      do s <- arr_get row i;
                      writeString s outidx q)
                   q;
         do fl <- arr_add (perThreadFlushed_ q) threadId (perThreadBufSize_ q);
         do ctr <- arr_set (perThreadCounter_ q) threadId 0%Z;
         Ok (set_perThreadCounter ctr (set_perThreadFlushed fl q))
       else Ok q);
    do cnt <- arr_get (perThreadCounter_ q) threadId;
    do row <- arr_get (perThreadBuf_ q) threadId;
    if (cnt <? 0)%Z then Fail Undefined else
    do row' <- arr_set row (Z.to_nat cnt) rec;
    do buf <- arr_set (perThreadBuf_ q) threadId row';
    do ctr <- arr_set (perThreadCounter_ q) threadId (cnt + 1)%Z;
    Ok (set_perThreadCounter ctr (set_perThreadBuf buf q)).

(** [beginRead] and [finishRead] take [mutex_global_] when the queue is
    shared and reordering; the work is the same in both branches. *)
Definition beginRead_on (st : Storage) (rdid : Z) (threadId : nat) (q : OutputQueue)
  : outcome OutputQueue :=
  if reorder_ q && threadSafe_ q then beginReadImpl_on st rdid threadId q
  else beginReadImpl_on st rdid threadId q.

Definition beginRead (rdid : Z) (threadId : nat) (q : OutputQueue)
  : outcome OutputQueue :=
  if reorder_ q && threadSafe_ q then beginReadImpl rdid threadId q
  else beginReadImpl rdid threadId q.

Definition finishRead (rec : string) (rdid : Z) (threadId : nat) (q : OutputQueue)
  : outcome OutputQueue :=
  check assert_ NDEBUG (Ok (threadId <? nthreads_ q));
  if threadSafe_ q && reorder_ q then finishReadImpl rec rdid threadId q
  else finishReadImpl rec rdid threadId q.

End Impl.

(** ** Properties of the reordering queue *)

(** The bytes written so far to the (single) ordered output. *)
Definition out (q : OutputQueue) : string := default "" (ofhs_ q !! 0).

(** Number of leading [true] flags: the length of the finished run that
    starts at [cur_]. *)
Fixpoint run_length (l : list bool) : nat :=
  match l with
  | true :: l' => S (run_length l')
  | _ => 0
  end.

(** Concatenation of records in list order. *)
Definition cat_all (l : list string) : string := foldr String.append "" l.

(** The window invariant: the three parallel lists have one size and a
    finished slot is a started slot. *)
Definition sizes_ok (q : OutputQueue) : Prop :=
  length (started_ q) = length (lines_ q) /\
  length (finished_ q) = length (lines_ q).

Definition finished_started (q : OutputQueue) : Prop :=
  forall i, finished_ q !! i = Some true -> started_ q !! i = Some true.

Definition flags_ok (q : OutputQueue) : Prop :=
  sizes_ok q /\ finished_started q.

(** The per-thread tallies and the output are allocated for [nthreads_]
    threads, thread 0 exists, and the ordered output (index 0) is open. *)
Definition tallies_ok (q : OutputQueue) : Prop :=
  0 < nthreads_ q /\
  length (perThreadCounter_ q) = nthreads_ q /\
  length (perThreadStarted_ q) = nthreads_ q /\
  length (perThreadFinished_ q) = nthreads_ q /\
  length (perThreadFlushed_ q) = nthreads_ q /\
  Forall (fun c => (c <= perThreadBufSize_ q)%Z) (perThreadCounter_ q) /\
  0 < length (ofhs_ q).

(** The state after [flushImpl] has written and erased [n] slots. *)
Definition flushed (n : nat) (q : OutputQueue) : OutputQueue :=
  mkQ (reorder_ q) (threadSafe_ q) (nthreads_ q) (nmulti_output_ q) (perThreadBufSize_ q)
      (wrap64 (cur_ q + Z.of_nat n))
      (drop n (lines_ q)) (drop n (started_ q)) (drop n (finished_ q))
      (perThreadBuf_ q) (perThreadCounter_ q) (perThreadStarted_ q)
      (perThreadFinished_ q)
      (<[0 := (default 0%Z (perThreadFlushed_ q !! 0%nat) + Z.of_nat n)%Z]> (perThreadFlushed_ q))
      (<[0 := out q ++ cat_all (take n (lines_ q))]> (ofhs_ q)).

(** A window list extended at its tail to at least [sz] slots. *)
Definition grow {A : Type} (sz : nat) (fill : A) (l : list A) : list A :=
  l ++ replicate (sz - length l) fill.

(** Index of [rdid] in the window, as the source computes it. *)
Definition slot_of (rdid : Z) (q : OutputQueue) : nat :=
  Z.to_nat (wrap64 (rdid - cur_ q)).

(** The state after a successful [beginReadImpl] on a reordering queue. *)
Definition begun (rdid : Z) (threadId : nat) (q : OutputQueue) : OutputQueue :=
  let k := slot_of rdid q in
  mkQ (reorder_ q) (threadSafe_ q) (nthreads_ q) (nmulti_output_ q) (perThreadBufSize_ q)
      (cur_ q)
      (grow (S k) "" (lines_ q))
      (<[k := true]> (grow (S k) false (started_ q)))
      (<[k := false]> (grow (S k) false (finished_ q)))
      (perThreadBuf_ q) (perThreadCounter_ q)
      (<[threadId := (default 0%Z (perThreadStarted_ q !! threadId) + 1)%Z]>
         (perThreadStarted_ q))
      (perThreadFinished_ q) (perThreadFlushed_ q) (ofhs_ q).

(** The same after a call on the storage [st]: the lines of the added
    slots are what the storage holds. *)
Definition begun_on (st : Storage) (rdid : Z) (threadId : nat) (q : OutputQueue)
  : OutputQueue :=
  let k := slot_of rdid q in
  mkQ (reorder_ q) (threadSafe_ q) (nthreads_ q) (nmulti_output_ q) (perThreadBufSize_ q)
      (cur_ q)
      (lines_ q ++ (lines_storage st <$>
                      seq (length (lines_ q)) (S k - length (lines_ q))))%list
      (<[k := true]> (grow (S k) false (started_ q)))
      (<[k := false]> (grow (S k) false (finished_ q)))
      (perThreadBuf_ q) (perThreadCounter_ q)
      (<[threadId := (default 0%Z (perThreadStarted_ q !! threadId) + 1)%Z]>
         (perThreadStarted_ q))
      (perThreadFinished_ q) (perThreadFlushed_ q) (ofhs_ q).

(** The state of [finishReadImpl] on a reordering queue just before its
    call to [flush]. *)
Definition stored (rec : string) (rdid : Z) (threadId : nat) (q : OutputQueue)
  : OutputQueue :=
  let k := slot_of rdid q in
  mkQ (reorder_ q) (threadSafe_ q) (nthreads_ q) (nmulti_output_ q) (perThreadBufSize_ q)
      (cur_ q)
      (<[k := rec]> (lines_ q)) (started_ q) (<[k := true]> (finished_ q))
      (perThreadBuf_ q) (perThreadCounter_ q) (perThreadStarted_ q)
      (<[threadId := (default 0%Z (perThreadFinished_ q !! threadId) + 1)%Z]>
         (perThreadFinished_ q))
      (perThreadFlushed_ q) (ofhs_ q).

(** What the assertions on [started_] need: nothing in a release build,
    "finished implies started" in a debug build. *)
Definition checks_ok (NDEBUG : bool) (q : OutputQueue) : Prop :=
  sizes_ok q /\ (NDEBUG = true \/ finished_started q).

(** The state after a flush attempt on a reordering queue. *)
Definition after_flush (NFLUSH_THRESH : nat) (force : bool) (q : OutputQueue)
  : OutputQueue :=
  if force || (NFLUSH_THRESH <=? run_length (finished_ q))
  then flushed (run_length (finished_ q)) q else q.

(** Calls made by the worker threads, in the order in which they hold the
    queue's lock. *)
Inductive op : Type :=
| BeginRead (rdid : Z) (threadId : nat)
| FinishRead (rec : string) (rdid : Z) (threadId : nat)
| Flush (force : bool).

Definition step (NDEBUG : bool) (NFLUSH_THRESH : nat) (o : op) (q : OutputQueue)
  : outcome OutputQueue :=
  match o with
  | BeginRead rdid threadId => beginRead NDEBUG rdid threadId q
  | FinishRead rec rdid threadId => finishRead NDEBUG NFLUSH_THRESH rec rdid threadId q
  | Flush force => flush NDEBUG NFLUSH_THRESH force true q
  end.

(** A call on the storage [st]; only [beginRead] resizes the lists. *)
Definition step_on (NDEBUG : bool) (NFLUSH_THRESH : nat) (st : Storage) (o : op)
    (q : OutputQueue) : outcome OutputQueue :=
  match o with
  | BeginRead rdid threadId => beginRead_on NDEBUG st rdid threadId q
  | FinishRead rec rdid threadId => finishRead NDEBUG NFLUSH_THRESH rec rdid threadId q
  | Flush force => flush NDEBUG NFLUSH_THRESH force true q
  end.

Fixpoint run (NDEBUG : bool) (NFLUSH_THRESH : nat) (ops : list op) (q : OutputQueue)
  : outcome OutputQueue :=
  match ops with
  | [] => Ok q
  | o :: ops' => do q' <- step NDEBUG NFLUSH_THRESH o q; run NDEBUG NFLUSH_THRESH ops' q'
  end.

(** [q'] is [q] but for the lines of slots that are not finished. *)
Definition same_but_unfinished_lines (q q' : OutputQueue) : Prop :=
  q' = set_lines (lines_ q') q /\
  length (lines_ q') = length (lines_ q) /\
  forall i, finished_ q !! i = Some true -> lines_ q' !! i = lines_ q !! i.

(** A run in which each call finds its own storage. *)
Fixpoint run_on (NDEBUG : bool) (NFLUSH_THRESH : nat) (ops : list (Storage * op))
    (q : OutputQueue) : outcome OutputQueue :=
  match ops with
  | [] => Ok q
  | (st, o) :: ops' =>
      do q' <- step_on NDEBUG NFLUSH_THRESH st o q;
      run_on NDEBUG NFLUSH_THRESH ops' q'
  end.

(** A well-formed reordering queue [q], and a queue [q'] that differs from
    it at most in lines of unfinished slots. *)
Definition related (NDEBUG : bool) (q q' : OutputQueue) : Prop :=
  (reorder_ q = true /\ checks_ok NDEBUG q /\ tallies_ok q) /\
  same_but_unfinished_lines q q'.

(** Values of type [TReadId]. *)
Definition is_TReadId (z : Z) : Prop := (0 <= z < two64)%Z.

(** The fields of the queue hold values of their C++ types. *)
Definition machine_ok (q : OutputQueue) : Prop :=
  is_TReadId (cur_ q) /\ (Z.of_nat (length (lines_ q)) < two64)%Z.

(** The window has grown at its tail, by the [k] slots that it lacked up
    to the slot of [rdid] (none if that slot was in the window): the old
    slots keep their place and their lines, the new ones are unstarted and
    unfinished, and the slot of [rdid], which is in the window then, is
    marked started and not finished. *)
Definition grown_at_tail (rdid : Z) (q q' : OutputQueue) : Prop :=
  let k := S (slot_of rdid q) - length (lines_ q) in
  cur_ q' = cur_ q /\
  length (lines_ q') = length (lines_ q) + k /\
  take (length (lines_ q)) (lines_ q') = lines_ q /\
  slot_of rdid q < length (lines_ q') /\
  started_ q' = <[slot_of rdid q := true]> (started_ q ++ replicate k false)%list /\
  finished_ q' = <[slot_of rdid q := false]> (finished_ q ++ replicate k false)%list.

(** The window has lost its first [n] slots, all finished; their records
    went to the output in slot order and [cur_] advanced by [n]. *)
Definition shrunk_from_head (n : nat) (q q' : OutputQueue) : Prop :=
  n <= length (lines_ q) /\
  (forall i, i < n -> finished_ q !! i = Some true) /\
  lines_ q' = drop n (lines_ q) /\
  started_ q' = drop n (started_ q) /\
  finished_ q' = drop n (finished_ q) /\
  cur_ q' = wrap64 (cur_ q + Z.of_nat n) /\
  out q' = out q ++ cat_all (take n (lines_ q)).

(** What a release build leaves to the caller and a debug build asserts:
    a read that is finished has been begun. *)
Definition contract (NDEBUG : bool) (o : op) (q : OutputQueue) : Prop :=
  match o with
  | FinishRead _ rdid _ =>
      NDEBUG = true -> started_ q !! slot_of rdid q = Some true
  | _ => True
  end.

(** [rdid] is in the window and not finished: it has not been written. *)
Definition pending (rdid : Z) (q : OutputQueue) : Prop :=
  (cur_ q <= rdid)%Z /\ finished_ q !! slot_of rdid q = Some false.

(** The calls of a trace that are not [finishRead] on [rdid]; every id
    passed is a [TReadId]. *)
Definition leaves_unfinished (rdid : Z) (o : op) : Prop :=
  match o with
  | BeginRead r _ => is_TReadId r
  | FinishRead _ r _ => is_TReadId r /\ r <> rdid
  | Flush _ => True
  end.

(** The invariant of a trace that never finishes [rdid]. *)
Definition stays_pending (NDEBUG : bool) (rdid : Z) (q : OutputQueue) : Prop :=
  reorder_ q = true /\ checks_ok NDEBUG q /\ tallies_ok q /\
  is_TReadId (cur_ q) /\ pending rdid q.

(** *** The callers' protocol

    Each read id in [0..N-1] goes through [Fresh] (not begun), [Begun] and
    [Done] (finished, with the record that was passed). *)
Inductive phase : Type :=
| Fresh
| Begun
| Done (text : string).

Definition text_of (p : phase) : string :=
  match p with Done t => t | _ => "" end.

(** One call seen from the callers' side: [beginRead] on a fresh id,
    [finishRead] on a begun and not yet finished id, or a flush. *)
Definition client_step (ph : list phase) (o : op) : option (list phase) :=
  match o with
  | BeginRead rdid _ =>
      if (rdid <? 0)%Z then None else
      match ph !! Z.to_nat rdid with
      | Some Fresh => Some (<[Z.to_nat rdid := Begun]> ph)
      | _ => None
      end
  | FinishRead rec rdid _ =>
      if (rdid <? 0)%Z then None else
      match ph !! Z.to_nat rdid with
      | Some Begun => Some (<[Z.to_nat rdid := Done rec]> ph)
      | _ => None
      end
  | Flush _ => Some ph
  end.

Fixpoint client_run (ph : list phase) (ops : list op) : option (list phase) :=
  match ops with
  | [] => Some ph
  | o :: ops' =>
      match client_step ph o with
      | Some ph' => client_run ph' ops'
      | None => None
      end
  end.

(** The calls come from threads the queue was built for. *)
Definition thread_ok (n : nat) (o : op) : Prop :=
  match o with
  | BeginRead _ t => t < n
  | FinishRead _ _ t => t < n
  | Flush _ => True
  end.

(** How a window slot reflects the phase of its id. *)
Definition slot_rel (p : option phase) (s f : option bool) (l : option string) : Prop :=
  match p with
  | Some Fresh => s <> Some true /\ f <> Some true
  | Some Begun => s = Some true /\ f = Some false
  | Some (Done t) => s = Some true /\ f = Some true /\ l = Some t
  | None => True
  end.

(** The queue [q] after the callers brought the ids to the phases [ph]:
    the ids below [c] are done and written, in order, after the initial
    output [out0]; the window starts at id [c]. *)
Definition sim (out0 : string) (ph : list phase) (c : nat) (q : OutputQueue) : Prop :=
  reorder_ q = true /\ sizes_ok q /\ tallies_ok q /\
  (Z.of_nat (length ph) < two64)%Z /\
  cur_ q = Z.of_nat c /\
  c + length (lines_ q) <= length ph /\
  (forall i, i < c -> exists t, ph !! i = Some (Done t)) /\
  (forall i, slot_rel (ph !! (c + i)) (started_ q !! i) (finished_ q !! i) (lines_ q !! i)) /\
  out q = out0 ++ cat_all (text_of <$> take c ph).

(** *** Fixtures: the scenarios of the test driver in [outq.cpp] *)

Definition LF : string := String "010"%char "".

(** An empty reordering queue for [n] threads, writing to one output. *)
Definition fresh_queue (n : nat) : OutputQueue :=
  mkQ true true n 1 0%Z 0%Z [] [] [] []
      (replicate n 0%Z) (replicate n 0%Z) (replicate n 0%Z) (replicate n 0%Z) [""].

(** "Case 2": begin 0..4, finish in the order 4, 1, 0, 2, 3. *)
Definition case2_texts : list string :=
  ["A" ++ LF; "B" ++ LF; "C" ++ LF; "D" ++ LF; "E" ++ LF].

Definition case2_ops : list op :=
  [BeginRead 0 0; BeginRead 1 1; BeginRead 2 0; BeginRead 3 1; BeginRead 4 0;
   FinishRead ("E" ++ LF) 4 0; FinishRead ("B" ++ LF) 1 1; FinishRead ("A" ++ LF) 0 0;
   FinishRead ("C" ++ LF) 2 1; FinishRead ("D" ++ LF) 3 0].

(** "Case 1": begin 1, 3, 2, 0 with unforced flushes in between, finish 0. *)
Definition case1_ops : list op :=
  [BeginRead 1 0; BeginRead 3 0; BeginRead 2 0; Flush false; BeginRead 0 0;
   Flush false; FinishRead "r0" 0 0; Flush false].

(** A one-slot window whose read 0 is begun ([slot_begun]) or finished
    and not yet flushed ([slot_finished]). *)
Definition slot_begun : OutputQueue :=
  mkQ true true 1 1 0%Z 0%Z [""] [true] [false] [] [0%Z] [1%Z] [0%Z] [0%Z] [""].

Definition slot_finished : OutputQueue :=
  mkQ true true 1 1 0%Z 0%Z ["a"] [true] [true] [] [0%Z] [1%Z] [1%Z] [0%Z] [""].

(** Storage that shows an old line and set flags at every index. *)
Definition stale : Storage :=
  mkStorage (fun _ => "old") (fun _ => true) (fun _ => true).

(** ** Unordered output ([reorder_] off)

    Each thread collects its records in its own buffer of
    [perThreadBufSize_] entries; a full buffer and a flush write them. *)

(** The queue as its constructor allocates it for unordered output to one
    file. *)
Definition unordered_ok (q : OutputQueue) : Prop :=
  reorder_ q = false /\
  nmulti_output_ q = 1 /\
  0 < length (ofhs_ q) /\
  (1 <= perThreadBufSize_ q)%Z /\
  length (perThreadCounter_ q) = nthreads_ q /\
  length (perThreadStarted_ q) = nthreads_ q /\
  length (perThreadFinished_ q) = nthreads_ q /\
  length (perThreadFlushed_ q) = nthreads_ q /\
  length (perThreadBuf_ q) = nthreads_ q /\
  Forall (fun row => length row = Z.to_nat (perThreadBufSize_ q)) (perThreadBuf_ q) /\
  Forall (fun c => (0 <= c <= perThreadBufSize_ q)%Z) (perThreadCounter_ q).

(** The records that thread [t] holds in its buffer. *)
Definition buffered (t : nat) (q : OutputQueue) : list string :=
  take (Z.to_nat (default 0%Z (perThreadCounter_ q !! t)))
       (default [] (perThreadBuf_ q !! t)).

(** [numFlushed + buffered = numFinished], thread by thread. *)
Definition tally_balance (q : OutputQueue) : Prop :=
  forall t fl c fi,
    perThreadFlushed_ q !! t = Some fl ->
    perThreadCounter_ q !! t = Some c ->
    perThreadFinished_ q !! t = Some fi ->
    (fl + c)%Z = fi.



(** Every output file of [q'] starts with what [q] had written to it. *)
Definition extends (q q' : OutputQueue) : Prop :=
  length (ofhs_ q') = length (ofhs_ q) /\
  forall k s, ofhs_ q !! k = Some s -> exists w, ofhs_ q' !! k = Some (s ++ w).

(** The queue after the records that thread [i] holds were written to
    output 0 and its buffer was emptied. *)
Definition thread_flushed (i : nat) (q : OutputQueue) : OutputQueue :=
  mkQ (reorder_ q) (threadSafe_ q) (nthreads_ q) (nmulti_output_ q) (perThreadBufSize_ q)
      (cur_ q) (lines_ q) (started_ q) (finished_ q)
      (perThreadBuf_ q) (<[i := 0%Z]> (perThreadCounter_ q)) (perThreadStarted_ q)
      (perThreadFinished_ q)
      (<[i := (default 0%Z (perThreadFlushed_ q !! i) +
               default 0%Z (perThreadCounter_ q !! i))%Z]> (perThreadFlushed_ q))
      (<[0 := out q ++ cat_all (buffered i q)]> (ofhs_ q)).





End OutQ.

(** * The pattern sources ([pat.cpp]) *)

Module Pat.

(** Bytes are the [int] values that [getc] returns: [0..255], or [-1] at the
    end of the file.  The [char] variables of the light parser are only
    compared with ASCII constants, which narrowing to [char] does not
    change, so they hold the same values here. *)
Definition EOF : Z := (-1)%Z.
Definition ch_LF : Z := 10%Z.
Definition ch_CR : Z := 13%Z.
Definition ch_at : Z := 64%Z.       (* '@' *)
Definition ch_star : Z := 42%Z.     (* '*' *)
Definition ch_dash : Z := 45%Z.     (* '-' *)

Definition is_newline (c : Z) : bool := (c =? ch_LF)%Z || (c =? ch_CR)%Z.

Definition bytes_of (s : string) : list Z :=
  map (fun a => Z.of_nat (nat_of_ascii a)) (list_ascii_of_string s).

(** A double quote, for the diagnostics that quote a file name. *)
Definition DQ : string := String "034"%char "".

(** Conversion of a [size_t] count to the [int] of [pair<bool, int>]. *)
Definition to_int (z : Z) : Z := ((z + 2147483648) mod 4294967296 - 2147483648)%Z.

(** The part of [PerThreadReadBuf] (declared in [pat.h]) that the FASTQ
    light parser and [nextBatch] touch: the id of the first read of the
    batch, the two raw byte buffers with their lengths, and the target size
    and head-room of a raw buffer. *)
Record PerThreadReadBuf : Type := mkPT {
  rdid_ : Z;
  use_byte_buffer : bool;
  raw_bufa_ : list Z;
  raw_bufb_ : list Z;
  raw_bufa_length : nat;
  raw_bufb_length : nat;
  max_raw_buf_ : nat;
  max_raw_buf_overrun_ : nat
}.

Definition setReadId (rdid : Z) (pt : PerThreadReadBuf) : PerThreadReadBuf :=
  mkPT rdid (use_byte_buffer pt) (raw_bufa_ pt) (raw_bufb_ pt)
       (raw_bufa_length pt) (raw_bufb_length pt) (max_raw_buf_ pt) (max_raw_buf_overrun_ pt).

Definition set_use_byte_buffer (v : bool) (pt : PerThreadReadBuf) : PerThreadReadBuf :=
  mkPT (rdid_ pt) v (raw_bufa_ pt) (raw_bufb_ pt)
       (raw_bufa_length pt) (raw_bufb_length pt) (max_raw_buf_ pt) (max_raw_buf_overrun_ pt).

(** The buffer and length selected by [batch_a]. *)
Definition raw_buf (batch_a : bool) (pt : PerThreadReadBuf) : list Z :=
  if batch_a then raw_bufa_ pt else raw_bufb_ pt.

Definition raw_buf_length (batch_a : bool) (pt : PerThreadReadBuf) : nat :=
  if batch_a then raw_bufa_length pt else raw_bufb_length pt.

Definition set_raw_buf (batch_a : bool) (v : list Z) (pt : PerThreadReadBuf)
  : PerThreadReadBuf :=
  if batch_a
  then mkPT (rdid_ pt) (use_byte_buffer pt) v (raw_bufb_ pt)
            (raw_bufa_length pt) (raw_bufb_length pt) (max_raw_buf_ pt)
            (max_raw_buf_overrun_ pt)
  else mkPT (rdid_ pt) (use_byte_buffer pt) (raw_bufa_ pt) v
            (raw_bufa_length pt) (raw_bufb_length pt) (max_raw_buf_ pt)
            (max_raw_buf_overrun_ pt).

Definition set_raw_buf_length (batch_a : bool) (v : nat) (pt : PerThreadReadBuf)
  : PerThreadReadBuf :=
  if batch_a
  then mkPT (rdid_ pt) (use_byte_buffer pt) (raw_bufa_ pt) (raw_bufb_ pt)
            v (raw_bufb_length pt) (max_raw_buf_ pt) (max_raw_buf_overrun_ pt)
  else mkPT (rdid_ pt) (use_byte_buffer pt) (raw_bufa_ pt) (raw_bufb_ pt)
            (raw_bufa_length pt) v (max_raw_buf_ pt) (max_raw_buf_overrun_ pt).

(** [readBuf[i] = c] on a buffer of fixed capacity. *)
Definition buf_set (buf : list Z) (i : nat) (c : Z) : outcome (list Z) :=
  if i <? length buf then Ok (<[i := c]> buf) else Fail Undefined.

(** A [CFilePatternSource] that parses FASTQ: the list of input files with
    their error flags and cursor, the open stream ([fp_], as the bytes not
    read yet), the count of reads handed out, and the [first_] flag of
    [FastqPatternSource].  [cerr_] collects the lines written to [cerr]. *)
Record CFilePatternSource : Type := mkSrc {
  infiles_ : list string;
  errs_ : list bool;
  filecur_ : nat;
  is_open_ : bool;
  fp_ : list Z;
  readCnt_ : Z;
  first_ : bool;
  cerr_ : list string
}.

Definition set_errs (v : list bool) (s : CFilePatternSource) : CFilePatternSource :=
  mkSrc (infiles_ s) v (filecur_ s) (is_open_ s) (fp_ s) (readCnt_ s) (first_ s) (cerr_ s).

Definition set_filecur (v : nat) (s : CFilePatternSource) : CFilePatternSource :=
  mkSrc (infiles_ s) (errs_ s) v (is_open_ s) (fp_ s) (readCnt_ s) (first_ s) (cerr_ s).

Definition set_stream (open : bool) (v : list Z) (s : CFilePatternSource)
  : CFilePatternSource :=
  mkSrc (infiles_ s) (errs_ s) (filecur_ s) open v (readCnt_ s) (first_ s) (cerr_ s).

Definition set_readCnt (v : Z) (s : CFilePatternSource) : CFilePatternSource :=
  mkSrc (infiles_ s) (errs_ s) (filecur_ s) (is_open_ s) (fp_ s) v (first_ s) (cerr_ s).

Definition set_first (v : bool) (s : CFilePatternSource) : CFilePatternSource :=
  mkSrc (infiles_ s) (errs_ s) (filecur_ s) (is_open_ s) (fp_ s) (readCnt_ s) v (cerr_ s).

Definition log (line : string) (s : CFilePatternSource) : CFilePatternSource :=
  mkSrc (infiles_ s) (errs_ s) (filecur_ s) (is_open_ s) (fp_ s) (readCnt_ s) (first_ s)
        (cerr_ s ++ [line])%list.

Definition msg_could_not_open (name : string) : string :=
  "Warning: Could not open read file " ++ DQ ++ name ++ DQ ++ " for reading; skipping...".

Definition msg_no_valid_files : string := "Error: No input read files were valid".

Definition msg_not_fastq : string := "Error: reads file does not look like a FASTQ file".

Section Files.

(** The file system: the bytes of each file that [fopen] can open, and the
    bytes on standard input (the file name "-"). *)
Variable fs : string -> option (list Z).
Variable stdin_ : list Z.

(** The loop of [CFilePatternSource::open].  Each iteration that does not
    return moves [filecur_] forward, so [length infiles_ - filecur_ + 1]
    steps are enough. *)
Fixpoint open_loop (fuel : nat) (s : CFilePatternSource) : outcome CFilePatternSource :=
  match fuel with
  | O => Fail OutOfFuel
  | S fuel' =>
      if filecur_ s <? length (infiles_ s) then
        match infiles_ s !! filecur_ s with
        | None => Fail Undefined
        | Some name =>
            if String.eqb name "-" then Ok (set_stream true stdin_ s)
            else
              match fs name with
              | None =>
                  match errs_ s !! filecur_ s with
                  | None => Fail Undefined
                  | Some e =>
                      let s := if (e : bool) then s
                               else set_errs (<[filecur_ s := true]> (errs_ s))
                                             (log (msg_could_not_open name) s) in
                      open_loop fuel' (set_filecur (S (filecur_ s)) s)
                  end
              | Some bytes => Ok (set_stream true bytes s)
              end
        end
      else Fail (Exited msg_no_valid_files)
  end.

Definition open (s : CFilePatternSource) : outcome CFilePatternSource :=
  let s := if is_open_ s then set_stream false [] s else s in
  open_loop (S (length (infiles_ s) - filecur_ s)) s.

End Files.

(** *** The FASTQ light parser *)

(** [c = getc_unlocked(fp_); while(c == '\r' || c == '\n') c = getc_unlocked(fp_);]
    returns the first byte that is not a newline (or [EOF]) and the rest of
    the stream. *)
Fixpoint skip_newlines (fp : list Z) : Z * list Z :=
  match fp with
  | [] => (EOF, [])
  | c :: fp' => if is_newline c then skip_newlines fp' else (c, fp')
  end.

(** The loop that fills the buffer up to its target size; [n] is
    [max_raw_buf_ - bytes_read]. *)
Fixpoint fill (n bytes_read : nat) (fp buf : list Z) : outcome (nat * list Z * list Z) :=
  match n with
  | O => Ok (bytes_read, fp, buf)
  | S n' =>
      match fp with
      | [] => Ok (bytes_read, [], buf)            (* c < 0: break *)
      | c :: fp' =>
          do buf <- buf_set buf bytes_read c;
          fill n' (S bytes_read) fp' buf
      end
  end.

(** The local variables of the loop that reads on to a record boundary. *)
Record scan_state : Type := mkScan {
  sc_c : Z;
  sc_i : nat;
  sc_prev_line_start_c : Z;
  sc_prev_c : Z;
  sc_new_record : bool;
  sc_newlines : Z;
  sc_buf : list Z
}.

Definition scan_continues (headroom : nat) (st : scan_state) : bool :=
  (0 <=? sc_c st)%Z && (sc_i st <? headroom) &&
  (negb (sc_new_record st) || (sc_newlines st <? 4)%Z).

(** One iteration of the loop; [c'] is the byte that [getc_unlocked]
    returns in it. *)
Definition scan_body (bytes_read : nat) (c' : Z) (st : scan_state) : outcome scan_state :=
  do buf <- buf_set (sc_buf st) (bytes_read + sc_i st) (sc_c st);
  let prev_c := sc_c st in
  let c := c' in
  let i := S (sc_i st) in
  (* check for new FASTQ record *)
  let found := negb (sc_new_record st) && is_newline prev_c &&
               (sc_prev_line_start_c st =? ch_at)%Z &&
               ((65 <=? c)%Z || (c =? ch_star)%Z || (c =? ch_dash)%Z) in
  let new_record := if found then true else sc_new_record st in
  let newlines := if found then 1%Z else sc_newlines st in
  let prev_line_start_c := if is_newline prev_c then c else sc_prev_line_start_c st in
  let newlines := if is_newline c then (newlines + 1)%Z else newlines in
  Ok (mkScan c i prev_line_start_c prev_c new_record newlines buf).

(** The loop itself.  Every iteration reads one byte; at the end of the
    file [getc_unlocked] returns [EOF] and the loop condition fails. *)
Fixpoint scan (headroom bytes_read : nat) (fp : list Z) (st : scan_state)
  : outcome (scan_state * list Z) :=
  if scan_continues headroom st then
    match fp with
    | [] => do st <- scan_body bytes_read EOF st; Ok (st, [])
    | c' :: fp' => do st <- scan_body bytes_read c' st; scan headroom bytes_read fp' st
    end
  else Ok (st, fp).

(** [getc_unlocked] on the bytes not read yet. *)
Definition getc (fp : list Z) : Z * list Z :=
  match fp with
  | [] => (EOF, [])
  | c :: fp' => (c, fp')
  end.

(** The branch of [nextBatchFromFile] taken when bytes were read: finish by
    filling the buffer out to the end of a FASTQ record. *)
Definition FastqPatternSource_finishRecord
    (pt : PerThreadReadBuf) (batch_a : bool) (s : CFilePatternSource)
    (bytes_read : nat) (fp readBuf : list Z)
  : outcome (CFilePatternSource * PerThreadReadBuf * (bool * Z)) :=
  let headroom := (max_raw_buf_ pt - bytes_read) + max_raw_buf_overrun_ pt in
  let (c, fp) := getc fp in
  do (st, fp) <- scan headroom bytes_read fp
                   (mkScan c 0 (-1)%Z (-1)%Z false 0%Z readBuf);
  (* get last newline *)
  do readBuf <-
    (if (0 <=? sc_c st)%Z && (sc_i st <? headroom)
     then buf_set (sc_buf st) (bytes_read + sc_i st) (sc_c st)
     else Ok (sc_buf st));
  let done := (sc_c st <? 0)%Z in
  let len := bytes_read + sc_i st + (if 0 <? sc_i st then 1 else 0) in
  let s := set_stream (is_open_ s) fp s in
  let pt := set_raw_buf_length batch_a len (set_raw_buf batch_a readBuf pt) in
  Ok (s, pt, (done, to_int (Z.of_nat len))).

Definition FastqPatternSource_nextBatchFromFile
    (pt : PerThreadReadBuf) (batch_a : bool) (s : CFilePatternSource)
  : outcome (CFilePatternSource * PerThreadReadBuf * (bool * Z)) :=
  let pt := set_use_byte_buffer true pt in
  let readBuf := raw_buf batch_a pt in
  do (s, fp, readBuf, bytes_read) <-
    (if first_ s then
       let (c, fp) := skip_newlines (fp_ s) in
       if negb (c =? ch_at)%Z then Fail (Thrown msg_not_fastq) else
       do readBuf <- buf_set readBuf 0 ch_at;
       Ok (set_first false s, fp, readBuf, 1)
     else Ok (s, fp_ s, readBuf, 0));
  do (bytes_read, fp, readBuf) <- fill (max_raw_buf_ pt - bytes_read) bytes_read fp readBuf;
  if bytes_read =? 0 then
    let s := set_stream (is_open_ s) fp s in
    let pt := set_raw_buf batch_a readBuf pt in
    Ok (s, pt, (true, to_int (Z.of_nat (raw_buf_length batch_a pt))))
  else FastqPatternSource_finishRecord pt batch_a s bytes_read fp readBuf.

(** Modelled from the spec: [FastqPatternSource::resetForNextFile] is
    declared in [pat.h]; at its call site it is to "reset state to handle a
    fresh file", which for this parser is to expect the leading '@' of the
    new file again. *)
Definition FastqPatternSource_resetForNextFile (s : CFilePatternSource)
  : CFilePatternSource := set_first true s.

Section NextBatch.

Variable NDEBUG : bool.
Variable fs : string -> option (list Z).
Variable stdin_ : list Z.

(** The virtual members that [CFilePatternSource::nextBatch] calls. *)
Variable nextBatchFromFile :
  PerThreadReadBuf -> bool -> CFilePatternSource ->
  outcome (CFilePatternSource * PerThreadReadBuf * (bool * Z)).
Variable resetForNextFile : CFilePatternSource -> CFilePatternSource.

(** [do { ... } while(!done && nread == 0)] *)
Fixpoint draw (fuel : nat) (pt : PerThreadReadBuf) (batch_a : bool) (s : CFilePatternSource)
  : outcome (CFilePatternSource * PerThreadReadBuf * (bool * Z)) :=
  match fuel with
  | O => Fail OutOfFuel
  | S fuel' =>
      do (s, pt, (done, nread)) <- nextBatchFromFile pt batch_a s;
      if negb done && (nread =? 0)%Z then draw fuel' pt batch_a s
      else Ok (s, pt, (done, nread))
  end.

(** [while(true)]: the loop that moves on to the next file when needed. *)
Fixpoint next_file_loop (fuel : nat) (pt : PerThreadReadBuf) (batch_a : bool)
    (s : CFilePatternSource)
  : outcome (CFilePatternSource * PerThreadReadBuf * (bool * Z)) :=
  match fuel with
  | O => Fail OutOfFuel
  | S fuel' =>
      do (s, pt, (done, nread)) <- draw fuel pt batch_a s;
      if done && (filecur_ s <? length (infiles_ s)) then
        (* finished with this file *)
        do s <- open fs stdin_ s;
        let s := resetForNextFile s in
        let s := set_filecur (S (filecur_ s)) s in
        if (nread =? 0)%Z then next_file_loop fuel' pt batch_a s
        else Ok (s, pt, (done, nread))
      else Ok (s, pt, (done, nread))
  end.

(** [CFilePatternSource::nextBatch]; holding the source's mutex ([lock])
    does not change the state. *)
Definition CFilePatternSource_nextBatch (fuel : nat)
    (pt : PerThreadReadBuf) (batch_a lock : bool) (s : CFilePatternSource)
  : outcome (CFilePatternSource * PerThreadReadBuf * (bool * Z)) :=
  let pt := setReadId (readCnt_ s) pt in
  do (s, pt, (done, nread)) <- next_file_loop fuel pt batch_a s;
  check assert_ NDEBUG (Ok (0 <=? nread)%Z);
  let s := set_readCnt (wrap64 (readCnt_ s + nread)) s in
  Ok (s, pt, (done, nread)).

End NextBatch.

(** *** The composers

    [PatternSource] is the interface of a source as the composers use it:
    the virtual [nextBatch(pt, batch_a, lock)] and [readCount()]. *)
Class PatternSource (Src : Type) : Type := {
  nextBatch : PerThreadReadBuf -> bool -> bool -> Src ->
              outcome (Src * PerThreadReadBuf * (bool * Z));
  readCount : Src -> Z
}.

(** A FASTQ source reading files; [fuel] bounds the loops of one call. *)
Definition FastqPatternSource (NDEBUG : bool) (fs : string -> option (list Z))
    (stdin_ : list Z) (fuel : nat) : PatternSource CFilePatternSource := {|
  nextBatch := CFilePatternSource_nextBatch NDEBUG fs stdin_
                 FastqPatternSource_nextBatchFromFile
                 FastqPatternSource_resetForNextFile fuel;
  readCount := readCnt_
|}.

(** A source that plays back a script of results: a stand-in for exercising
    the composers with results that the file sources do not produce. *)
Definition ScriptedSource : PatternSource (list (bool * Z) * Z) := {|
  nextBatch := fun pt _ _ s =>
    match fst s with
    | [] => Ok (s, pt, (true, 0%Z))
    | r :: rest => Ok ((rest, (snd s + snd r)%Z), pt, r)
    end;
  readCount := snd
|}.

Definition msg_fewer_1 : string :=
  "Error, fewer reads in file specified with -1 than in file specified with -2".

Definition msg_fewer_2 : string :=
  "Error, fewer reads in file specified with -2 than in file specified with -1".

(** [EList::operator[]] on the lists of sources. *)
Definition src_get {A : Type} (NDEBUG : bool) (l : list A) (i : nat) : outcome A :=
  match l !! i with
  | Some x => Ok x
  | None => Fail (if NDEBUG then Undefined else AssertionFailed)
  end.

Module Solo.

Record SoloPatternComposer (Src : Type) : Type := mkSolo {
  cur_ : nat;             (* current element in the parallel srca_, srcb_ vectors *)
  src_ : list Src
}.

Arguments mkSolo {Src} _ _.
Arguments cur_ {Src} _.
Arguments src_ {Src} _.

Section Solo.

Context {Src : Type} `{PatternSource Src}.
Variable NDEBUG : bool.

(** [do { res = src_[cur]->nextBatch(pt, true, true); }
     while(!res.first && res.second == 0);] *)
Fixpoint draw (fuel : nat) (pt : PerThreadReadBuf) (s : Src)
  : outcome (Src * PerThreadReadBuf * (bool * Z)) :=
  match fuel with
  | O => Fail OutOfFuel
  | S fuel' =>
      do (s, pt, res) <- nextBatch pt true true s;
      if negb (fst res) && (snd res =? 0)%Z then draw fuel' pt s
      else Ok (s, pt, res)
  end.

(** [while(cur < src_->size())] with [cur] the local copy of [cur_]. *)
Fixpoint loop (fuel : nat) (cur : nat) (pt : PerThreadReadBuf)
    (c : SoloPatternComposer Src)
  : outcome (SoloPatternComposer Src * PerThreadReadBuf * (bool * Z)) :=
  match fuel with
  | O => Fail OutOfFuel
  | S fuel' =>
      if cur <? length (src_ c) then
        (* Patterns from srca_[cur_] are unpaired *)
        do s <- src_get NDEBUG (src_ c) cur;
        do (s, pt, res) <- draw fuel pt s;
        let c := mkSolo (cur_ c) (<[cur := s]> (src_ c)) in
        if (snd res =? 0)%Z then
          let c := if cur_ c <? cur + 1 then mkSolo (S (cur_ c)) (src_ c) else c in
          loop fuel' (cur_ c) pt c      (* on to next pair of PatternSources *)
        else Ok (c, pt, res)
      else
        check assert_ NDEBUG (Ok (cur <=? length (src_ c)));
        Ok (c, pt, (true, 0%Z))
  end.

Definition nextBatch (fuel : nat) (pt : PerThreadReadBuf) (c : SoloPatternComposer Src)
  : outcome (SoloPatternComposer Src * PerThreadReadBuf * (bool * Z)) :=
  loop fuel (cur_ c) pt c.

End Solo.

End Solo.

Module Dual.

Record DualPatternComposer (Src : Type) : Type := mkDual {
  cur_ : nat;
  srca_ : list Src;
  srcb_ : list (option Src)     (* [None] is the NULL of an unpaired source *)
}.

Arguments mkDual {Src} _ _ _.
Arguments cur_ {Src} _.
Arguments srca_ {Src} _.
Arguments srcb_ {Src} _.

Section Dual.

Context {Src : Type} `{PatternSource Src}.
Variable NDEBUG : bool.

(** [if(cur + 1 > cur_) cur_++;] *)
Definition advance (cur : nat) (c : DualPatternComposer Src) : DualPatternComposer Src :=
  if cur_ c <? cur + 1 then mkDual (S (cur_ c)) (srca_ c) (srcb_ c) else c.

Fixpoint loop (fuel : nat) (cur : nat) (pt : PerThreadReadBuf)
    (c : DualPatternComposer Src)
  : outcome (DualPatternComposer Src * PerThreadReadBuf * (bool * Z)) :=
  match fuel with
  | O => Fail OutOfFuel
  | S fuel' =>
      if cur <? length (srca_ c) then
        do b <- src_get NDEBUG (srcb_ c) cur;
        do a <- src_get NDEBUG (srca_ c) cur;
        match b with
        | None =>
            (* Patterns from srca_ are unpaired *)
            do (a, pt, res) <- nextBatch pt true true a;
            let c := mkDual (cur_ c) (<[cur := a]> (srca_ c)) (srcb_ c) in
            let done := fst res in
            if negb done && (snd res =? 0)%Z then
              let c := advance cur c in
              loop fuel' (cur_ c) pt c      (* on to next pair of PatternSources *)
            else Ok (c, pt, (done, snd res))
        | Some b =>
            (* one lock spans both draws *)
            do (a, pt, resa) <- nextBatch pt true false a;
            do (b, pt, resb) <- nextBatch pt false false b;
            let c := mkDual (cur_ c) (<[cur := a]> (srca_ c)) (<[cur := Some b]> (srcb_ c)) in
            check assert_ NDEBUG (Ok (readCount a =? readCount b)%Z);
            if (snd resa <? snd resb)%Z then Fail (Thrown msg_fewer_1)
            else if (snd resa =? 0)%Z && (snd resb =? 0)%Z then
              let c := advance cur c in
              loop fuel' (cur_ c) pt c      (* on to next pair of PatternSources *)
            else if (snd resb <? snd resa)%Z then Fail (Thrown msg_fewer_2)
            else
              check assert_ NDEBUG (Ok (Bool.eqb (fst resa) (fst resb)));
              check assert_ NDEBUG (Ok (snd resa =? snd resb)%Z);
              Ok (c, pt, (fst resa, snd resa))
        end
      else
        check assert_ NDEBUG (Ok (cur <=? length (srca_ c)));
        Ok (c, pt, (true, 0%Z))
  end.

Definition nextBatch (fuel : nat) (pt : PerThreadReadBuf) (c : DualPatternComposer Src)
  : outcome (DualPatternComposer Src * PerThreadReadBuf * (bool * Z)) :=
  loop fuel (cur_ c) pt c.

End Dual.

End Dual.

(** *** The per-thread reader *)

Module PerThread.

(** [PatternSourcePerThread]: the thread's buffer, what the last batch
    request returned, and the composer it draws from. *)
Record PatternSourcePerThread (Buf Composer : Type) : Type := mkPerThread {
  buf_ : Buf;
  last_batch_ : bool;
  last_batch_size_ : Z;
  composer_ : Composer
}.

Arguments mkPerThread {Buf Composer} _ _ _ _.
Arguments buf_ {Buf Composer} _.
Arguments last_batch_ {Buf Composer} _.
Arguments last_batch_size_ {Buf Composer} _.
Arguments composer_ {Buf Composer} _.

Section PerThread.

Variable NDEBUG : bool.
Variables Buf Composer : Type.

(** The members of [PerThreadReadBuf] and of the parser that
    [nextReadPair] calls; they are declared in [pat.h] and [read.h]. *)
Variable exhausted : Buf -> bool.
Variable next : Buf -> Buf.
Variable cur_buf_ : Buf -> nat.
Variable read_a_empty : Buf -> bool.
Variable read_b_readOrigBuf_empty : Buf -> bool.
Variable is_last : Buf -> Z -> bool.
Variable parse : Buf -> outcome (Buf * bool).
Variable finalize : Buf -> Buf.
Variable finalizePair : Buf -> Buf.
Variable composer_nextBatch : Buf -> Composer -> outcome (Composer * Buf * (bool * Z)).

(** Modelled from the spec: [PatternSourcePerThread::nextBatch()] is
    declared in [pat.h]; it requests a new batch from the dispatcher for the
    thread's buffer. *)
Definition nextBatch (st : PatternSourcePerThread Buf Composer)
  : outcome (PatternSourcePerThread Buf Composer * (bool * Z)) :=
  do (c, b, res) <- composer_nextBatch (buf_ st) (composer_ st);
  Ok (mkPerThread b (last_batch_ st) (last_batch_size_ st) c, res).

(** Returns a pair of bools; first indicates whether we were successful,
    second indicates whether we're done. *)
Definition nextReadPair (st : PatternSourcePerThread Buf Composer)
  : outcome (PatternSourcePerThread Buf Composer * (bool * bool)) :=
  (* Prepare batch *)
  do prepared <-
    (if exhausted (buf_ st) then
       do (st, res) <- nextBatch st;
       if fst res && (snd res =? 0)%Z then Ok (st, true)
       else
         let st := mkPerThread (buf_ st) (fst res) (snd res) (composer_ st) in
         check assert_ NDEBUG (Ok (cur_buf_ (buf_ st) =? 0));
         Ok (st, false)
     else
       let st := mkPerThread (next (buf_ st)) (last_batch_ st) (last_batch_size_ st)
                             (composer_ st) in
       check assert_ NDEBUG (Ok (0 <? cur_buf_ (buf_ st)));
       Ok (st, false));
  let (st, no_more_work) := prepared : PatternSourcePerThread Buf Composer * bool in
  if no_more_work then Ok (st, (false, true)) else
  (* Now fully parse read/pair outside the critical section *)
  check assert_ NDEBUG (Ok (read_a_empty (buf_ st)));
  do (b, parsed) <- parse (buf_ st);
  let st := mkPerThread b (last_batch_ st) (last_batch_size_ st) (composer_ st) in
  if negb parsed then Ok (st, (false, false)) else
  (* Finalize read/pair *)
  let b := if negb (read_b_readOrigBuf_empty (buf_ st))
           then finalizePair (buf_ st) else finalize (buf_ st) in
  let st := mkPerThread b (last_batch_ st) (last_batch_size_ st) (composer_ st) in
  let this_is_last := is_last (buf_ st) (last_batch_size_ st) in
  Ok (st, (true, if this_is_last then last_batch_ st else false)).

End PerThread.

End PerThread.

(** *** Well-formed FASTQ text, for the statement about record boundaries *)

Definition ch_plus : Z := 43%Z.     (* '+' *)

(** The bytes of one line, without its newline. *)
Definition text_line (l : list Z) : Prop :=
  Forall (fun c => (0 <= c)%Z /\ is_newline c = false) l.

(** What the parser accepts as the first byte of a sequence line. *)
Definition seq_start (c : Z) : bool :=
  (65 <=? c)%Z || (c =? ch_star)%Z || (c =? ch_dash)%Z.

(** A four-line record, without and with its last line feed. *)
Definition record_body (name seq plus qual : list Z) : list Z :=
  (ch_at :: name ++ ch_LF :: seq ++ ch_LF :: ch_plus :: plus ++ ch_LF :: qual)%list.

Definition fastq_record (name seq plus qual : list Z) : list Z :=
  (record_body name seq plus qual ++ [ch_LF])%list.

(** Lines, each with the line feed that ends it. *)
Definition lines_text (lines : list (list Z)) : list Z :=
  concat ((fun l => l ++ [ch_LF])%list <$> lines).

(** The lines of a record that follow the line in which the buffer is
    full: the sequence, '+' and quality line after a header line, the '+'
    and quality line after a sequence line, the quality line after a '+'
    line, and none after a quality line. *)
Inductive record_rest : list (list Z) -> Prop :=
| after_header (seq plus qual : list Z) :
    text_line seq -> text_line plus -> text_line qual ->
    record_rest [seq; ch_plus :: plus; qual]
| after_sequence (plus qual : list Z) :
    text_line plus -> text_line qual -> record_rest [ch_plus :: plus; qual]
| after_plus (qual : list Z) :
    text_line qual -> record_rest [qual]
| after_quality : record_rest [].

(** What follows the record in which the buffer is full: one more record
    and whatever comes after it, or the end of the input. *)
Inductive ending : Type :=
| NextRecord (name : list Z) (s0 : Z) (seq plus qual more : list Z)
| EndOfInput.

(** The lines of the record that follows hold no line break, and its
    sequence line starts as the parser expects. *)
Definition ending_ok (e : ending) : Prop :=
  match e with
  | NextRecord name s0 seq plus qual _ =>
      text_line name /\ text_line (s0 :: seq) /\ seq_start s0 = true /\
      text_line plus /\ text_line qual
  | EndOfInput => True
  end.

(** The bytes of the ending that the parser is to take into the buffer,
    those that it is to leave in the stream, and whether the input ends. *)
Definition read_on (e : ending) : list Z :=
  match e with
  | NextRecord name s0 seq plus qual _ => fastq_record name (s0 :: seq) plus qual
  | EndOfInput => []
  end.

Definition left_unread (e : ending) : list Z :=
  match e with
  | NextRecord _ _ _ _ _ more => more
  | EndOfInput => []
  end.

Definition at_end (e : ending) : bool :=
  match e with
  | NextRecord _ _ _ _ _ _ => false
  | EndOfInput => true
  end.

(** No line of [lines] is taken for the sequence line of a new record:
    none follows a line that starts with '@' and starts itself as a
    sequence line does.  [pls] is the first byte of the line before. *)
Fixpoint no_record_start (pls : Z) (lines : list (list Z)) : Prop :=
  match lines with
  | [] => True
  | l :: ls =>
      (pls =? ch_at)%Z && seq_start (hd ch_LF l) = false /\
      no_record_start (hd ch_LF l) ls
  end.

(** The stream of [s] starts with the bytes [filled] that fill the buffer
    to its target size, followed by [stream]; in the first batch of a file
    the newlines before the leading '@' are skipped. *)
Definition batch_input (s : CFilePatternSource) (filled stream : list Z) : Prop :=
  if first_ s
  then exists nls filled',
         Forall (fun c => is_newline c = true) nls /\
         filled = ch_at :: filled' /\
         fp_ s = (nls ++ filled ++ stream)%list
  else fp_ s = (filled ++ stream)%list.

(** *** Fixtures: a small FASTQ file and the objects that read it *)

Definition fq_record (name seq qual : string) : string :=
  "@" ++ name ++ OutQ.LF ++ seq ++ OutQ.LF ++ "+" ++ OutQ.LF ++ qual ++ OutQ.LF.

(** Three reads, 16 bytes each. *)
Definition reads_fq : list Z :=
  bytes_of (fq_record "r1" "ACGT" "IIII" ++ fq_record "r2" "GGCC" "JJJJ" ++
            fq_record "r3" "TTAA" "KKKK").

(** The same reads with lines ended by carriage return and line feed, 20
    bytes each. *)
Definition CRLF : string := String "013"%char OutQ.LF.

Definition fq_record_crlf (name seq qual : string) : string :=
  "@" ++ name ++ CRLF ++ seq ++ CRLF ++ "+" ++ CRLF ++ qual ++ CRLF.

Definition reads_crlf : string :=
  fq_record_crlf "r1" "ACGT" "IIII" ++ fq_record_crlf "r2" "GGCC" "JJJJ" ++
  fq_record_crlf "r3" "TTAA" "KKKK".

(** A file system that holds [reads.fq] (and [mates.fq], with one read)
    and nothing else. *)
Definition demo_fs (name : string) : option (list Z) :=
  if String.eqb name "reads.fq" then Some reads_fq
  else if String.eqb name "mates.fq" then Some (bytes_of (fq_record "r1" "ACGT" "IIII"))
  else None.

(** A thread buffer with target size [max] and head-room [overrun]. *)
Definition demo_pt (max overrun : nat) : PerThreadReadBuf :=
  mkPT 0%Z false (replicate (max + overrun) 0%Z) (replicate (max + overrun) 0%Z)
       0 0 max overrun.

(** A mate file that holds [text], open and unread, for the paired
    composer. *)
Definition mate_file (text : string) : CFilePatternSource :=
  mkSrc ["mate.fq"] [false] 1 true (bytes_of text) 0%Z true [].

(** A source over [infiles] before any file is opened. *)
Definition unopened (infiles : list string) : CFilePatternSource :=
  mkSrc infiles (replicate (length infiles) false) 0 false [] 0%Z true [].

(** A source whose first file [reads.fq] is open and unread; [filecur_]
    already points at the next file, as it does after every [open()] in
    [nextBatch]. *)
Definition reading (infiles : list string) : CFilePatternSource :=
  mkSrc infiles (replicate (length infiles) false) 1 true reads_fq 0%Z true [].

(** What [open()] gets for a file name: standard input for "-", else the
    file if [fopen] succeeds. *)
Definition opens (fs : string -> option (list Z)) (stdin_ : list Z) (name : string)
  : option (list Z) :=
  if String.eqb name "-" then Some stdin_ else fs name.

(** The warnings for the files [names] that could not be opened: one for
    each file whose error flag in [errs] is not set yet. *)
Fixpoint warnings (names : list string) (errs : list bool) : list string :=
  match names, errs with
  | name :: names', e :: errs' =>
      ((if (e : bool) then [] else [msg_could_not_open name]) ++ warnings names' errs')%list
  | _, _ => []
  end.

(** What one call of the light parser leaves as it was, and what it
    returns. *)
Definition light_parse_ok (pt : PerThreadReadBuf) (s : CFilePatternSource)
    (r : CFilePatternSource * PerThreadReadBuf * (bool * Z)) : Prop :=
  let '(s', pt', (done, n)) := r in
  readCnt_ s' = readCnt_ s /\ infiles_ s' = infiles_ s /\ filecur_ s' = filecur_ s /\
  errs_ s' = errs_ s /\ rdid_ pt' = rdid_ pt /\
  max_raw_buf_ pt' = max_raw_buf_ pt /\ max_raw_buf_overrun_ pt' = max_raw_buf_overrun_ pt /\
  (done = false -> (0 < n)%Z).


End Pat.

(** * Per-read seeds and the set-up of the composers ([pat.cpp]) *)

Module Seed.

(** [uint32_t] arithmetic. *)
Definition two32 : Z := 4294967296%Z.

Definition wrap32 (z : Z) : Z := (z mod two32)%Z.

Definition ch_slash : Z := 47%Z.    (* '/' *)

(** [rseed ^= (p << off)]: [p] is an [int]; the shifted value is converted
    to [uint32_t], that is reduced modulo [2^32]. *)
Definition xor_shifted (rseed p off : Z) : Z :=
  Z.lxor rseed (wrap32 (Z.shiftl p off)).

Section GenRandSeed.

Variable NDEBUG : bool.

(** [operator[]] of the strings of [sstring.h] checks its index with an
    assertion. *)
Definition SString_get (l : list Z) (i : nat) : outcome Z :=
  match l !! i with
  | Some c => Ok c
  | None => Fail (if NDEBUG then Undefined else AssertionFailed)
  end.

(** Throw all the characters of the read into the random seed:
    [for(i = 0; i < qlen; i++)] over [qry], entered with [i] and the
    characters from index [i] on. *)
Fixpoint mix_query (i : nat) (qry : list Z) (rseed : Z) : outcome Z :=
  match qry with
  | [] => Ok rseed
  | p :: qry' =>
      check assert_ NDEBUG (Ok (p <=? 4)%Z);
      let off := Z.shiftl (Z.land (Z.of_nat i) 15) 1 in
      mix_query (S i) qry' (xor_shifted rseed p off)
  end.

(** Throw all the quality values for the read into the random seed: the
    loop runs to the length of the read, [n] rounds are left. *)
Fixpoint mix_quals (n i : nat) (qual : list Z) (rseed : Z) : outcome Z :=
  match n with
  | O => Ok rseed
  | S n' =>
      do p <- SString_get qual i;
      check assert_ NDEBUG (Ok (p <=? 255)%Z);
      let off := Z.shiftl (Z.land (Z.of_nat i) 3) 3 in
      mix_quals n' (S i) qual (xor_shifted rseed p off)
  end.

(** Throw all the characters in the read name into the random seed, up to
    the first '/'. *)
Fixpoint mix_name (i : nat) (name : list Z) (rseed : Z) : outcome Z :=
  match name with
  | [] => Ok rseed
  | p :: name' =>
      if (p =? ch_slash)%Z then Ok rseed
      else
        check assert_ NDEBUG (Ok (p <=? 255)%Z);
        let off := Z.shiftl (Z.land (Z.of_nat i) 3) 3 in
        mix_name (S i) name' (xor_shifted rseed p off)
  end.

(** Calculate a per-read random seed based on a combination of the read
    data (incl. sequence, name, quals) and the global seed. *)
Definition genRandSeed (qry qual name : list Z) (seed : Z) : outcome Z :=
  let rseed := wrap32 (wrap32 (wrap32 (wrap32 (wrap32 (wrap32 (wrap32
                 (wrap32 (seed + 101) * 59) * 61) * 67) * 71) * 73) * 79) * 83) in
  do rseed <- mix_query 0 qry rseed;
  do rseed <- mix_quals (length qry) 0 qual rseed;
  mix_name 0 name rseed.

End GenRandSeed.

End Seed.

Module Setup.

(** The formats of [formats.h] that [patsrcFromStrings] tells apart;
    [OTHER_FORMAT] stands for any further value of the type. *)
Inductive file_format : Type :=
| FASTA | FASTA_CONT | RAW | FASTQ | TAB_MATE5 | TAB_MATE6 | CMDLINE | QSEQ
| SRA_FASTA | SRA_FASTQ | OTHER_FORMAT.

(** The fields of [PatternParams] that are read here. *)
Record PatternParams : Type := mkParams {
  format : file_format;
  fileParallel : bool       (* true -> wrap files with separate PatternComposers *)
}.

(** A source object as [new] makes it: its class and the arguments of its
    constructor (the parameters [p] are the same for all). *)
Inductive PatternSourceObj : Type :=
| new_FastaPatternSource (qs : list string)
| new_FastaContinuousPatternSource (qs : list string)
| new_RawPatternSource (qs : list string)
| new_FastqPatternSource (qs : list string)
| new_TabbedPatternSource (qs : list string) (secondName : bool)
| new_VectorPatternSource (qs : list string)
| new_QseqPatternSource (qs : list string)
| new_SRAPatternSource (qs : list string) (nthreads : nat).

(** A composer object: [NULL] entries of [srcb] are [None]. *)
Inductive PatternComposerObj : Type :=
| new_SoloPatternComposer (src : list PatternSourceObj)
| new_DualPatternComposer (srca : list PatternSourceObj)
                          (srcb : list (option PatternSourceObj)).

Definition msg_bad_format : string := "Internal error; bad patsrc format: ".

Section Setup.

(** [USE_SRA] tells whether the SRA sources are compiled in. *)
Variable USE_SRA : bool.
Variable NDEBUG : bool.

Definition patsrcFromStrings (p : PatternParams) (qs : list string) (nthreads : nat)
  : outcome PatternSourceObj :=
  match format p with
  | FASTA => Ok (new_FastaPatternSource qs)
  | FASTA_CONT => Ok (new_FastaContinuousPatternSource qs)
  | RAW => Ok (new_RawPatternSource qs)
  | FASTQ => Ok (new_FastqPatternSource qs)
  | TAB_MATE5 => Ok (new_TabbedPatternSource qs false)
  | TAB_MATE6 => Ok (new_TabbedPatternSource qs true)
  | CMDLINE => Ok (new_VectorPatternSource qs)
  | QSEQ => Ok (new_QseqPatternSource qs)
  | SRA_FASTA | SRA_FASTQ =>
      if USE_SRA then Ok (new_SRAPatternSource qs nthreads)
      else Fail (Thrown msg_bad_format)
  | OTHER_FORMAT => Fail (Thrown msg_bad_format)
  end.

(** [for(size_t i = 0; i < m.size(); i++)]: the sources for one kind of
    input; [rest] are the files from index [i] on.  With [fileParallel]
    each source gets one file; otherwise the first round passes the whole
    list [m] and leaves the loop. *)
Fixpoint sources_for (p : PatternParams) (nthreads : nat) (m rest : list string)
  : outcome (list PatternSourceObj) :=
  match rest with
  | [] => Ok []
  | f :: rest' =>
      let qs := if fileParallel p then [f] else m in
      do src <- patsrcFromStrings p qs nthreads;
      if negb (fileParallel p) then Ok [src]
      else do srcs <- sources_for p nthreads m rest'; Ok (src :: srcs)
  end.

(** Given the values for all of the various arguments used to specify the
    read and quality input, create a list of pattern sources to dispense
    them.  ([q], [q1], [q2] and [verbose] are not used.) *)
Definition setupPatternComposer (si m1 m2 m12 : list string) (p : PatternParams)
    (nthreads : nat) : outcome PatternComposerObj :=
  (* paired reads appearing interleaved in a single file *)
  do ab <- sources_for p nthreads m12 m12;
  (* paired reads *)
  do a <- sources_for p nthreads m1 m1;
  do b <- sources_for p nthreads m2 m2;
  (* All mates/mate files must be paired *)
  check assert_ NDEBUG (Ok (length a =? length b));
  (* the unpaired reads *)
  do s <- sources_for p nthreads si si;
  let a := (a ++ s)%list in
  let b := ((Some <$> b) ++ ((fun _ => None) <$> s))%list in
  if 0 <? length m12 then Ok (new_SoloPatternComposer ab)
  else Ok (new_DualPatternComposer a b).

End Setup.

(** The sources for a list of files when the format is one that
    [patsrcFromStrings] knows: one source for each file, or one for all. *)
Definition grouped (p : PatternParams) (mk : list string -> PatternSourceObj)
    (m : list string) : list PatternSourceObj :=
  if fileParallel p then (fun f => mk [f]) <$> m
  else match m with [] => [] | _ => [mk m] end.

End Setup.

(** * Reads: the record-oriented light parser and the heavy parsers *)

Module Reads.

Import Pat.

Definition ch_gt : Z := 62%Z.       (* '>' *)
Definition ch_dot : Z := 46%Z.      (* '.' *)
Definition ch_N : Z := 78%Z.        (* 'N' *)
Definition ch_I : Z := 73%Z.        (* 'I' *)
Definition ch_space : Z := 32%Z.    (* ' ' *)

(** [isalpha] in the "C" locale. *)
Definition isalpha (c : Z) : bool :=
  ((65 <=? c)%Z && (c <=? 90)%Z) || ((97 <=? c)%Z && (c <=? 122)%Z).

(** The text of a byte string, for the diagnostics that print a read
    name. *)
Definition string_of_bytes (l : list Z) : string :=
  string_of_list_ascii (map (fun c => ascii_of_nat (Z.to_nat c)) l).

(** The fields of [Read] (declared in [read.h]) that the parsers use.
    [readOrigRawBuf] points into a raw buffer: it is modelled by the bytes
    from the pointer to the end of the buffer's memory.  [cur_raw_buf_]
    points to a cursor: it is the index of that cursor among the cursors
    [mem] that the parser is given. *)
Record Read : Type := mkRead {
  readOrigBuf : list Z;
  readOrigRawBuf : list Z;
  raw_buf_len_ : nat;
  cur_raw_buf_ : nat;
  name : list Z;
  patFw : list Z;
  qual : list Z;
  trimmed5 : Z;
  trimmed3 : Z;
  parsed : bool
}.

Definition set_readOrigBuf (v : list Z) (r : Read) : Read :=
  mkRead v (readOrigRawBuf r) (raw_buf_len_ r) (cur_raw_buf_ r) (name r) (patFw r) (qual r)
         (trimmed5 r) (trimmed3 r) (parsed r).

Definition set_name (v : list Z) (r : Read) : Read :=
  mkRead (readOrigBuf r) (readOrigRawBuf r) (raw_buf_len_ r) (cur_raw_buf_ r) v (patFw r)
         (qual r) (trimmed5 r) (trimmed3 r) (parsed r).

Definition set_patFw (v : list Z) (r : Read) : Read :=
  mkRead (readOrigBuf r) (readOrigRawBuf r) (raw_buf_len_ r) (cur_raw_buf_ r) (name r) v
         (qual r) (trimmed5 r) (trimmed3 r) (parsed r).

Definition set_qual (v : list Z) (r : Read) : Read :=
  mkRead (readOrigBuf r) (readOrigRawBuf r) (raw_buf_len_ r) (cur_raw_buf_ r) (name r)
         (patFw r) v (trimmed5 r) (trimmed3 r) (parsed r).

Definition set_trimmed (t5 t3 : Z) (r : Read) : Read :=
  mkRead (readOrigBuf r) (readOrigRawBuf r) (raw_buf_len_ r) (cur_raw_buf_ r) (name r)
         (patFw r) (qual r) t5 t3 (parsed r).

Definition set_parsed (v : bool) (r : Read) : Read :=
  mkRead (readOrigBuf r) (readOrigRawBuf r) (raw_buf_len_ r) (cur_raw_buf_ r) (name r)
         (patFw r) (qual r) (trimmed5 r) (trimmed3 r) v.

(** ** The light parser of FASTA files *)

(** The part of [PerThreadReadBuf] that the record-oriented light parsers
    touch: the id of the first read of the batch, the two lists of reads and
    the number of reads that a batch may hold. *)
Record PerThreadReadBuf : Type := mkPT {
  rdid_ : Z;
  bufa_ : list Read;
  bufb_ : list Read;
  max_buf_ : nat
}.

Definition setReadId (rdid : Z) (pt : PerThreadReadBuf) : PerThreadReadBuf :=
  mkPT rdid (bufa_ pt) (bufb_ pt) (max_buf_ pt).

Definition readbuf (batch_a : bool) (pt : PerThreadReadBuf) : list Read :=
  if batch_a then bufa_ pt else bufb_ pt.

Definition set_readbuf (batch_a : bool) (v : list Read) (pt : PerThreadReadBuf)
  : PerThreadReadBuf :=
  if batch_a then mkPT (rdid_ pt) v (bufb_ pt) (max_buf_ pt)
  else mkPT (rdid_ pt) (bufa_ pt) v (max_buf_ pt).

(** A [BufferedFilePatternSource] that parses FASTA: as the FASTQ source,
    with a [FileBuf] ([fb_], as the bytes not read yet) for the stream. *)
Record BufferedFilePatternSource : Type := mkSrc {
  infiles_ : list string;
  errs_ : list bool;
  filecur_ : nat;
  fb_isOpen : bool;
  fb_ : list Z;
  readCnt_ : Z;
  first_ : bool;
  cerr_ : list string
}.

Definition set_errs (v : list bool) (s : BufferedFilePatternSource)
  : BufferedFilePatternSource :=
  mkSrc (infiles_ s) v (filecur_ s) (fb_isOpen s) (fb_ s) (readCnt_ s) (first_ s) (cerr_ s).

Definition set_filecur (v : nat) (s : BufferedFilePatternSource)
  : BufferedFilePatternSource :=
  mkSrc (infiles_ s) (errs_ s) v (fb_isOpen s) (fb_ s) (readCnt_ s) (first_ s) (cerr_ s).

Definition set_fb (open : bool) (v : list Z) (s : BufferedFilePatternSource)
  : BufferedFilePatternSource :=
  mkSrc (infiles_ s) (errs_ s) (filecur_ s) open v (readCnt_ s) (first_ s) (cerr_ s).

Definition set_readCnt (v : Z) (s : BufferedFilePatternSource)
  : BufferedFilePatternSource :=
  mkSrc (infiles_ s) (errs_ s) (filecur_ s) (fb_isOpen s) (fb_ s) v (first_ s) (cerr_ s).

Definition set_first (v : bool) (s : BufferedFilePatternSource)
  : BufferedFilePatternSource :=
  mkSrc (infiles_ s) (errs_ s) (filecur_ s) (fb_isOpen s) (fb_ s) (readCnt_ s) v (cerr_ s).

Definition log (line : string) (s : BufferedFilePatternSource)
  : BufferedFilePatternSource :=
  mkSrc (infiles_ s) (errs_ s) (filecur_ s) (fb_isOpen s) (fb_ s) (readCnt_ s) (first_ s)
        (cerr_ s ++ [line])%list.

Definition msg_not_fasta : string := "Error: reads file does not look like a FASTA file".

(** [while(true) { c = fb_.get(); done = c < 0; if(c < 0 || c == '>') break;
    buf.append(c); }]: the bytes of one record, up to the '>' of the next
    one or the end of the file. *)
Fixpoint read_record (fb buf : list Z) : bool * list Z * list Z :=
  match fb with
  | [] => (true, [], buf)
  | c :: fb' =>
      if (c <? 0)%Z then (true, fb', buf)
      else if (c =? ch_gt)%Z then (false, fb', buf)
      else read_record fb' (buf ++ [c])%list
  end.

Section Light.

Variable NDEBUG : bool.

(** [for(; readi < pt.max_buf_ && !done; readi++)]: read until we run out
    of input or until we've filled the buffer; [n] is [max_buf_ - readi]. *)
Fixpoint read_records (n readi : nat) (fb : list Z) (readbuf : list Read)
  : outcome (bool * nat * list Z * list Read) :=
  match n with
  | O => Ok (false, readi, fb, readbuf)
  | S n' =>
      do r <- src_get NDEBUG readbuf readi;
      let '(done, fb, buf) := read_record fb [ch_gt] in
      let readbuf := <[readi := set_readOrigBuf buf r]> readbuf in
      if (done : bool) then Ok (true, S readi, fb, readbuf)
      else read_records n' (S readi) fb readbuf
  end.

(** Read another pattern from a FASTA input file. *)
Definition FastaPatternSource_nextBatchFromFile
    (pt : PerThreadReadBuf) (batch_a : bool) (s : BufferedFilePatternSource)
  : outcome (BufferedFilePatternSource * PerThreadReadBuf * (bool * Z)) :=
  do s <-
    (if first_ s then
       let (c, fb) := skip_newlines (fb_ s) in
       if negb (c =? ch_gt)%Z then Fail (Thrown msg_not_fasta)
       else Ok (set_first false (set_fb (fb_isOpen s) fb s))
     else Ok s);
  do (done, readi, fb, rb) <- read_records (max_buf_ pt) 0 (fb_ s) (readbuf batch_a pt);
  Ok (set_fb (fb_isOpen s) fb s, set_readbuf batch_a rb pt, (done, to_int (Z.of_nat readi))).

End Light.

(** ** [BufferedFilePatternSource]: the files behind the stream *)

Section BufferedFile.

Variable NDEBUG : bool.
Variable fs : string -> option (list Z).
Variable stdin_ : list Z.

(** The loop of [BufferedFilePatternSource::open]. *)
Fixpoint open_loop (fuel : nat) (s : BufferedFilePatternSource)
  : outcome BufferedFilePatternSource :=
  match fuel with
  | O => Fail OutOfFuel
  | S fuel' =>
      if filecur_ s <? length (infiles_ s) then
        match infiles_ s !! filecur_ s with
        | None => Fail Undefined
        | Some name =>
            if String.eqb name "-" then Ok (set_fb true stdin_ s)
            else
              match fs name with
              | None =>
                  match errs_ s !! filecur_ s with
                  | None => Fail Undefined
                  | Some e =>
                      let s := if (e : bool) then s
                               else set_errs (<[filecur_ s := true]> (errs_ s))
                                             (log (msg_could_not_open name) s) in
                      open_loop fuel' (set_filecur (S (filecur_ s)) s)
                  end
              | Some bytes => Ok (set_fb true bytes s)
              end
        end
      else Fail (Exited msg_no_valid_files)
  end.

Definition open (s : BufferedFilePatternSource) : outcome BufferedFilePatternSource :=
  let s := if fb_isOpen s then set_fb false [] s else s in
  open_loop (S (length (infiles_ s) - filecur_ s)) s.

(** The virtual members that [BufferedFilePatternSource::nextBatch]
    calls. *)
Variable nextBatchFromFile :
  PerThreadReadBuf -> bool -> BufferedFilePatternSource ->
  outcome (BufferedFilePatternSource * PerThreadReadBuf * (bool * Z)).
Variable resetForNextFile : BufferedFilePatternSource -> BufferedFilePatternSource.

(** [do { ... } while(!done && nread == 0)] *)
Fixpoint draw (fuel : nat) (pt : PerThreadReadBuf) (batch_a : bool)
    (s : BufferedFilePatternSource)
  : outcome (BufferedFilePatternSource * PerThreadReadBuf * (bool * Z)) :=
  match fuel with
  | O => Fail OutOfFuel
  | S fuel' =>
      do (s, pt, (done, nread)) <- nextBatchFromFile pt batch_a s;
      if negb done && (nread =? 0)%Z then draw fuel' pt batch_a s
      else Ok (s, pt, (done, nread))
  end.

(** [while(true)]: the loop that moves on to the next file when needed. *)
Fixpoint next_file_loop (fuel : nat) (pt : PerThreadReadBuf) (batch_a : bool)
    (s : BufferedFilePatternSource)
  : outcome (BufferedFilePatternSource * PerThreadReadBuf * (bool * Z)) :=
  match fuel with
  | O => Fail OutOfFuel
  | S fuel' =>
      do (s, pt, (done, nread)) <- draw fuel pt batch_a s;
      if done && (filecur_ s <? length (infiles_ s)) then
        (* finished with this file *)
        do s <- open s;
        let s := resetForNextFile s in
        let s := set_filecur (S (filecur_ s)) s in
        if (nread =? 0)%Z then next_file_loop fuel' pt batch_a s
        else Ok (s, pt, (done, nread))
      else Ok (s, pt, (done, nread))
  end.

Definition BufferedFilePatternSource_nextBatch (fuel : nat)
    (pt : PerThreadReadBuf) (batch_a lock : bool) (s : BufferedFilePatternSource)
  : outcome (BufferedFilePatternSource * PerThreadReadBuf * (bool * Z)) :=
  let pt := setReadId (readCnt_ s) pt in
  do (s, pt, (done, nread)) <- next_file_loop fuel pt batch_a s;
  check assert_ NDEBUG (Ok (0 <=? nread)%Z);
  let s := set_readCnt (wrap64 (readCnt_ s + nread)) s in
  Ok (s, pt, (done, nread)).

End BufferedFile.

(** Modelled from the spec: [FastaPatternSource::resetForNextFile] is
    declared in [pat.h]; as for the FASTQ source, the state to reset for a
    fresh file is the expectation of its leading marker. *)
Definition FastaPatternSource_resetForNextFile (s : BufferedFilePatternSource)
  : BufferedFilePatternSource := set_first true s.

(** The bytes of the records [bodies] in a FASTA stream after the first
    '>': each record without its '>', joined by '>'. *)
Fixpoint joined (bodies : list (list Z)) : list Z :=
  match bodies with
  | [] => []
  | [b] => b
  | b :: bodies' => (b ++ ch_gt :: joined bodies')%list
  end.

(** The body of a record: bytes of a file other than '>'. *)
Definition record_text (b : list Z) : Prop :=
  Forall (fun c => (0 <= c)%Z /\ c <> ch_gt) b.

(** The stream of [s] holds [stream] after the '>' of its first record; at
    the start of a file that '>' is still to be read, after line breaks. *)
Definition fasta_input (s : BufferedFilePatternSource) (stream : list Z) : Prop :=
  if first_ s
  then exists nls, Forall (fun c => is_newline c = true) nls /\
                   fb_ s = (nls ++ ch_gt :: stream)%list
  else fb_ s = stream.

End Reads.

(** * The heavy parsers ([FastaPatternSource::parse],
      [FastqPatternSource::parse]) *)

Module Heavy.

Import Pat Reads.

Definition msg_wrong_quality (read_name : list Z) : string :=
  "Error: Encountered one or more spaces while parsing the quality string for read " ++
  string_of_bytes read_name ++
  ".  If this is a FASTQ file with integer (non-ASCII-encoded) qualities, " ++
  "try re-running with the --integer-quals option.".

Definition msg_too_few_qualities (read_name : list Z) : string :=
  "Error: Read " ++ string_of_bytes read_name ++
  " has more read characters than quality values.".

Definition msg_too_many_qualities (read_name : list Z) : string :=
  "Error: Read " ++ string_of_bytes read_name ++
  " has more quality values than read characters.".

(** [void wrongQualityFormat(const BTString& read_name)] and its two
    siblings write their message and [throw 1]. *)
Definition wrongQualityFormat {A : Type} (read_name : list Z) : outcome A :=
  Fail (Thrown (msg_wrong_quality read_name)).

Definition tooFewQualities {A : Type} (read_name : list Z) : outcome A :=
  Fail (Thrown (msg_too_few_qualities read_name)).

Definition tooManyQualities {A : Type} (read_name : list Z) : outcome A :=
  Fail (Thrown (msg_too_many_qualities read_name)).

Section Parsers.

(** [NDEBUG] as before.  The globals [gTrim5] and [gTrim3] and the members
    [intQuals_], [solQuals_], [phred64Quals_], [readCnt_] of the source are
    given; so are the functions of other files that the parsers call:
    [asc2dna] (the table of [alphabet.cpp]), [charToPhred33] ([qual.h],
    which can throw), [itoa10] and the two [trimEnd] members of
    [sstring.h], which take the number of characters to trim and return the
    trimmed string with the number they report. *)
Variable NDEBUG : bool.
Variable gTrim5 gTrim3 : Z.
Variable intQuals_ solQuals_ phred64Quals_ : bool.
Variable readCnt_ : Z.
Variable asc2dna : Z -> Z.
Variable charToPhred33 : Z -> bool -> bool -> outcome Z.
Variable itoa10 : Z -> list Z.
Variable patFw_trimEnd : Z -> list Z -> list Z * Z.
Variable qual_trimEnd : Z -> list Z -> list Z * Z.
Variable Read_empty : Read -> bool.

Definition is_nil {A : Type} (l : list A) : bool :=
  match l with [] => true | _ => false end.

(** One round of the sequence loops of both parsers:
    [if(c == '.') c = 'N'; if(isalpha(c)) { if(nchar++ >= gTrim5)
    r.patFw.append(asc2dna[c]); }] *)
Definition take_base (c : Z) (nchar : nat) (pat : list Z) : nat * list Z :=
  let c := if (c =? ch_dot)%Z then ch_N else c in
  if isalpha c then
    (S nchar, if (gTrim5 <=? Z.of_nat nchar)%Z then (pat ++ [asc2dna c])%list else pat)
  else (nchar, pat).

(** [do { c = buf[cur++]; } while(c == '\n' || c == '\r');] on a raw
    buffer: [rest] are the bytes from [cur] on. *)
Fixpoint skip_breaks (rest : list Z) (cur : nat) : outcome (Z * nat * list Z) :=
  match rest with
  | [] => Fail Undefined
  | c :: rest' => if is_newline c then skip_breaks rest' (S cur) else Ok (c, S cur, rest')
  end.

(** ** FASTQ *)

(** [do { c = r.readOrigRawBuf[cur++]; } while(cur < buflen && c != '@');] *)
Fixpoint find_at (rest : list Z) (cur buflen : nat) : outcome (Z * nat * list Z) :=
  match rest with
  | [] => Fail Undefined
  | c :: rest' =>
      if (S cur <? buflen) && negb (c =? ch_at)%Z then find_at rest' (S cur) buflen
      else Ok (c, S cur, rest')
  end.

(** Parse read name. *)
Fixpoint fastq_name (rest : list Z) (cur buflen : nat) (nm : list Z)
  : outcome (Z * nat * list Z * list Z) :=
  match rest with
  | [] => check assert_ NDEBUG (Ok (cur <? buflen)); Fail Undefined
  | c :: rest' =>
      check assert_ NDEBUG (Ok (cur <? buflen));
      if is_newline c then
        do (c, cur, rest) <- skip_breaks rest' (S cur);
        Ok (c, cur, rest, nm)
      else fastq_name rest' (S cur) buflen (nm ++ [c])%list
  end.

(** Parse sequence: [while(c != '+')]. *)
Fixpoint fastq_seq (rest : list Z) (c : Z) (cur buflen nchar : nat) (pat : list Z)
  : outcome (nat * list Z * nat * list Z) :=
  if (c =? ch_plus)%Z then Ok (cur, rest, nchar, pat)
  else
    let (nchar, pat) := take_base c nchar pat in
    check assert_ NDEBUG (Ok (cur <? buflen));
    match rest with
    | [] => Fail Undefined
    | c' :: rest' => fastq_seq rest' c' (S cur) buflen nchar pat
    end.

(** [do { c = r.readOrigRawBuf[cur++]; } while(c != '\n' && c != '\r');] *)
Fixpoint skip_plus_line (rest : list Z) (cur buflen : nat) : outcome (Z * nat * list Z) :=
  match rest with
  | [] => check assert_ NDEBUG (Ok (cur <? buflen)); Fail Undefined
  | c :: rest' =>
      check assert_ NDEBUG (Ok (cur <? buflen));
      if is_newline c then Ok (c, S cur, rest') else skip_plus_line rest' (S cur) buflen
  end.

(** [while(cur < buflen && (c == '\n' || c == '\r')) c = r.readOrigRawBuf[cur++];] *)
Fixpoint skip_breaks_within (rest : list Z) (c : Z) (cur buflen : nat)
  : outcome (Z * nat * list Z) :=
  if (cur <? buflen) && is_newline c then
    match rest with
    | [] => Fail Undefined
    | c' :: rest' => skip_breaks_within rest' c' (S cur) buflen
    end
  else Ok (c, cur, rest).

(** The loop over the quality values after the first one. *)
Fixpoint fastq_quals (rest : list Z) (cur buflen nqual : nat) (t5 : Z) (nm q : list Z)
  : outcome (nat * list Z * list Z) :=
  if cur <? buflen then
    match rest with
    | [] => Fail Undefined
    | c :: rest' =>
        if (c =? ch_space)%Z then wrongQualityFormat nm
        else if is_newline c then Ok (S cur, rest', q)
        else
          do c <- charToPhred33 c solQuals_ phred64Quals_;
          let q := if (t5 <=? Z.of_nat nqual)%Z then (q ++ [c])%list else q in
          fastq_quals rest' (S cur) buflen (S nqual) t5 nm q
    end
  else Ok (cur, rest, q).

(** [*r.cur_raw_buf_ = v] and [*r.cur_raw_buf_ += v] *)
Definition cursor_store (mem : list nat) (p v : nat) : outcome (list nat) :=
  if p <? length mem then Ok (<[p := v]> mem) else Fail Undefined.

Definition cursor_add (mem : list nat) (p v : nat) : outcome (list nat) :=
  match mem !! p with
  | Some x => Ok (<[p := x + v]> mem)
  | None => Fail Undefined
  end.

(** The second half of the parse of one read: the quality values.  [c] is
    the byte read last, [rest] are the bytes from [cur] on. *)
Definition fastq_parse_quals (r : Read) (c : Z) (cur : nat) (rest : list Z)
    (mem : list nat) : outcome (bool * Read * list nat) :=
  let buflen := raw_buf_len_ r in
  check assert_ NDEBUG (Ok (is_nil (qual r)));
  if intQuals_ then Fail (Thrown "") (* not yet implemented *)
  else
    do c <- charToPhred33 c solQuals_ phred64Quals_;
    let q := if (trimmed5 r <=? 0)%Z then (qual r ++ [c])%list else qual r in
    do (cur, rest, q) <- fastq_quals rest cur buflen 1 (trimmed5 r) (name r) q;
    let (q, _) := qual_trimEnd (wrap64 (trimmed3 r)) q in
    let r := set_qual q r in
    if length (qual r) <? length (patFw r) then tooFewQualities (name r)
    else if length (patFw r) <? length (qual r) then tooManyQualities (name r)
    else
      (* Set up a default name if one hasn't been set *)
      let r := if is_nil (name r) then set_name (itoa10 readCnt_) r else r in
      let r := set_parsed true r in
      (* update perthread buffer cursor so next read will start on the
         right position *)
      do mem <- cursor_add mem (cur_raw_buf_ r) cur;
      Ok (true, r, mem).

(** The body of [FastqPatternSource::parse] up to its last [if]: the parse
    of one read. *)
Definition fastq_parse_read (r : Read) (mem : list nat) : outcome (bool * Read * list nat) :=
  check assert_ NDEBUG (Ok (0 <? raw_buf_len_ r));
  check assert_ NDEBUG (Ok (Read_empty r));
  let buflen := raw_buf_len_ r in
  (* make sure we're not stuck in the middle of a previously
     failed-to-parse read *)
  do (c, cur, rest) <- find_at (readOrigRawBuf r) 0 buflen;
  if buflen <=? cur then
    (* if we end up at the end of the buffer, bail *)
    do mem <- cursor_store mem (cur_raw_buf_ r) buflen;
    Ok (false, r, mem)
  else
    check assert_ NDEBUG (Ok (is_nil (name r)));
    do (c, cur, rest, nm) <- fastq_name rest cur buflen (name r);
    let r := set_name nm r in
    check assert_ NDEBUG (Ok (is_nil (patFw r)));
    do (cur, rest, nchar, pat) <- fastq_seq rest c cur buflen 0 (patFw r);
    let t5 := to_int (Z.of_nat nchar - Z.of_nat (length pat)) in
    let (pat, n3) := patFw_trimEnd (wrap64 gTrim3) pat in
    let t3 := to_int n3 in
    let r := set_trimmed t5 t3 (set_patFw pat r) in
    (* assert_eq('+', c) holds: the loop ends on '+' *)
    do (c, cur, rest) <- skip_plus_line rest cur buflen;
    do (c, cur, rest) <- skip_breaks_within rest c cur buflen;
    fastq_parse_quals r c cur rest mem.

(** Finalize FASTQ parsing outside critical section.  The call of itself
    with the two reads exchanged is the recursion on [fuel]; the read that
    was parsed is marked [parsed], so it goes one level deep. *)
Fixpoint FastqPatternSource_parse (fuel : nat) (r rb : Read) (mem : list nat)
  : outcome (bool * Read * Read * list nat) :=
  match fuel with
  | O => Fail OutOfFuel
  | S fuel' =>
      do (ok, r, mem) <- fastq_parse_read r mem;
      if negb ok then Ok (false, r, rb, mem)
      else if negb (parsed rb) && (0 <? raw_buf_len_ rb) then
        do (ok, rb, r, mem) <- FastqPatternSource_parse fuel' rb r mem;
        Ok (ok, r, rb, mem)
      else Ok (true, r, rb, mem)
  end.

(** ** FASTA *)

(** [operator[]] of [readOrigBuf] checks its index with an assertion;
    this is how a read past the end of [readOrigBuf] ends. *)
Definition past_end : failure := if NDEBUG then Undefined else AssertionFailed.

(** [do { c = r.readOrigBuf[cur++]; } while(c == '\n' || c == '\r');] with
    [rest] the bytes from [cur] on. *)
Fixpoint fasta_skip_breaks (rest : list Z) (cur : nat) : outcome (Z * nat * list Z) :=
  match rest with
  | [] => Fail past_end
  | c :: rest' =>
      if is_newline c then fasta_skip_breaks rest' (S cur) else Ok (c, S cur, rest')
  end.

(** Parse read name. *)
Fixpoint fasta_name (rest : list Z) (cur : nat) (nm : list Z)
  : outcome (Z * nat * list Z * list Z) :=
  match rest with
  | [] => Fail past_end          (* assert(cur < r.readOrigBuf.length()) *)
  | c :: rest' =>
      if is_newline c then
        do (c, cur, rest) <- fasta_skip_breaks rest' (S cur);
        Ok (c, cur, rest, nm)
      else fasta_name rest' (S cur) (nm ++ [c])%list
  end.

(** Parse sequence: [while(c != '\n')]. *)
Fixpoint fasta_seq (rest : list Z) (c : Z) (cur nchar : nat) (pat : list Z)
  : outcome (nat * list Z * nat * list Z) :=
  if (c =? ch_LF)%Z then Ok (cur, rest, nchar, pat)
  else
    let (nchar, pat) := take_base c nchar pat in
    match rest with
    | [] => Fail past_end        (* assert(cur < r.readOrigBuf.length()) *)
    | c' :: rest' => fasta_seq rest' c' (S cur) nchar pat
    end.

(** The body of [FastaPatternSource::parse] up to its last [if]. *)
Definition fasta_parse_read (r : Read) : outcome Read :=
  check assert_ NDEBUG (Ok (negb (is_nil (readOrigBuf r))));
  check assert_ NDEBUG (Ok (Read_empty r));
  (* size_t cur = 1 *)
  check assert_ NDEBUG (Ok (is_nil (name r)));
  do (c, cur, rest, nm) <- fasta_name (drop 1 (readOrigBuf r)) 1 (name r);
  let r := set_name nm r in
  check assert_ NDEBUG (Ok (is_nil (patFw r)));
  do (cur, rest, nchar, pat) <- fasta_seq rest c cur 0 (patFw r);
  let t5 := to_int (Z.of_nat nchar - Z.of_nat (length pat)) in
  let (pat, n3) := patFw_trimEnd (wrap64 gTrim3) pat in
  let r := set_trimmed t5 (to_int n3) (set_patFw pat r) in
  let r := set_qual (qual r ++ replicate (length (patFw r)) ch_I)%list r in
  (* Set up a default name if one hasn't been set *)
  let r := if is_nil (name r) then set_name (itoa10 readCnt_) r else r in
  Ok r.

(** [FastaPatternSource::parse]; here nothing marks the read that was
    parsed, and the call of itself is repeated as long as the other read
    has raw bytes and no sequence. *)
Fixpoint FastaPatternSource_parse (fuel : nat) (r rb : Read) : outcome (bool * Read * Read) :=
  match fuel with
  | O => Fail OutOfFuel
  | S fuel' =>
      do r <- fasta_parse_read r;
      if negb (is_nil (readOrigBuf rb)) && is_nil (patFw rb) then
        do (ok, rb, r) <- FastaPatternSource_parse fuel' rb r;
        Ok (ok, r, rb)
      else Ok (true, r, rb)
  end.

End Parsers.

(** The bytes of a sequence line as the parsers take them: '.' becomes 'N',
    letters are kept and mapped by [asc2dna], other bytes are skipped. *)
Definition bases (asc2dna : Z -> Z) (line : list Z) : list Z :=
  asc2dna <$> List.filter isalpha
                ((fun c => if (c =? ch_dot)%Z then ch_N else c) <$> line).

(** [l] without its first [n5] and, of what is left, its last [n3]
    elements. *)
Definition trimmed (n5 n3 : Z) (l : list Z) : list Z :=
  take (length (drop (Z.to_nat n5) l) - Z.to_nat n3) (drop (Z.to_nat n5) l).

(** What the parsers need of [trimEnd]: it removes [n] characters from
    the end, all of them if there are fewer, and reports how many. *)
Definition trims_end (trimEnd : Z -> list Z -> list Z * Z) : Prop :=
  forall (n : nat) (l : list Z),
    trimEnd (Z.of_nat n) l = (take (length l - n) l, Z.of_nat (Nat.min n (length l))).

(** A FASTA read with a header line and a sequence line of which trimming
    leaves nothing, and with no sequence parsed (yet). *)
Definition trims_to_nothing (gTrim5 gTrim3 : Z) (asc2dna : Z -> Z) (r : Read) : Prop :=
  exists nm line more,
    readOrigBuf r = (ch_gt :: nm ++ ch_LF :: line ++ ch_LF :: more)%list /\
    text_line nm /\ text_line line /\ line <> [] /\
    (Z.of_nat (length line) < 2147483648)%Z /\
    (Z.of_nat (length (bases asc2dna line)) <= gTrim5 + gTrim3)%Z /\
    patFw r = [].

(** The lines of a FASTQ record before its quality values, after bytes
    [junk] without '@': the name, a sequence line without '+' that is not
    empty, and the rest of the '+' line. *)
Definition fastq_lines (junk nm line plus : list Z) : Prop :=
  Forall (fun c => c <> ch_at) junk /\ text_line nm /\
  text_line line /\ line <> [] /\ Forall (fun c => c <> ch_plus) line /\
  text_line plus.

Definition fastq_head (junk nm line plus : list Z) : list Z :=
  (junk ++ ch_at :: nm ++ ch_LF :: line ++ ch_LF :: ch_plus :: plus ++ [ch_LF])%list.

(** Quality values that [charToPhred33] converts as [phred] tells. *)
Definition quality_values (charToPhred33 : Z -> bool -> bool -> outcome Z)
    (solQuals phred64Quals : bool) (phred : Z -> Z) (ql : list Z) : Prop :=
  Forall (fun c => is_newline c = false /\ c <> ch_space /\
                   charToPhred33 c solQuals phred64Quals = Ok (phred c)) ql.

(** *** Fixtures: stand-ins for the functions of other files *)

Definition demo_asc2dna (c : Z) : Z :=
  if (c =? 65)%Z || (c =? 97)%Z then 0%Z
  else if (c =? 67)%Z || (c =? 99)%Z then 1%Z
  else if (c =? 71)%Z || (c =? 103)%Z then 2%Z
  else if (c =? 84)%Z || (c =? 116)%Z then 3%Z
  else 4%Z.

Definition demo_trimEnd (n : Z) (l : list Z) : list Z * Z :=
  (take (length l - Z.to_nat n) l, Z.min n (Z.of_nat (length l))).

Definition demo_charToPhred33 (c : Z) (solQuals phred64Quals : bool) : outcome Z :=
  if (c <? 33)%Z then Fail (Thrown "") else Ok c.

Definition demo_itoa10 (z : Z) : list Z := [48%Z].

(** A read whose raw bytes are [text], as the light parser of FASTA files
    leaves it. *)
Definition fasta_read (text : string) : Read :=
  mkRead (bytes_of text) [] 0 0 [] [] [] 0%Z 0%Z false.

(** A read on a raw buffer that holds [text]; its cursor is cursor 0. *)
Definition fastq_read (text : string) : Read :=
  mkRead [] (bytes_of text) (String.length text) 0 [] [] [] 0%Z 0%Z false.

End Heavy.

(** * The light parsers of raw and tab-delimited files
      ([RawPatternSource::nextBatchFromFile],
      [TabbedPatternSource::nextBatchFromFile]) *)

Module Raw.

Import Pat Reads.

(** [while(true) { c = fb_.get(); if(c < 0 || c == '>') { done = true; break; }
    buf.append(c); }]: the bytes up to the next '>' or the end of the
    file; [done] is set on both ways out. *)
Fixpoint read_chunk (fb buf : list Z) : list Z * list Z :=
  match fb with
  | [] => ([], buf)
  | c :: fb' =>
      if (c <? 0)%Z || (c =? ch_gt)%Z then (fb', buf)
      else read_chunk fb' (buf ++ [c])%list
  end.

Section Light.

Variable NDEBUG : bool.

(** [for(; readi < pt.max_buf_ && !done; readi++)]: read until we run out
    of input or until we've filled the buffer; [n] is [max_buf_ - readi]. *)
Fixpoint read_chunks (n readi : nat) (done : bool) (fb : list Z) (readbuf : list Read)
  : outcome (nat * list Z * list Read) :=
  match n with
  | O => Ok (readi, fb, readbuf)
  | S n' =>
      if done then Ok (readi, fb, readbuf)
      else
        do r <- src_get NDEBUG readbuf readi;
        let (fb, buf) := read_chunk fb [ch_gt] in
        read_chunks n' (S readi) true fb (<[readi := set_readOrigBuf buf r]> readbuf)
  end.

(** Light-parse a batch into the given buffer. *)
Definition RawPatternSource_nextBatchFromFile
    (pt : PerThreadReadBuf) (batch_a : bool) (s : BufferedFilePatternSource)
  : outcome (BufferedFilePatternSource * PerThreadReadBuf * (bool * Z)) :=
  let success := true in
  do s <-
    (if first_ s then
       let (c, fb) := skip_newlines (fb_ s) in
       if negb (c =? ch_gt)%Z then Fail (Thrown msg_not_fastq)
       else Ok (set_first false (set_fb (fb_isOpen s) fb s))
     else Ok s);
  do (readi, fb, rb) <- read_chunks (max_buf_ pt) 0 false (fb_ s) (readbuf batch_a pt);
  Ok (set_fb (fb_isOpen s) fb s, set_readbuf batch_a rb pt,
      (success, to_int (Z.of_nat readi))).

(** "Light" parser of tab-delimited files. *)
Definition TabbedPatternSource_nextBatchFromFile
    (pt : PerThreadReadBuf) (batch_a : bool) (s : BufferedFilePatternSource)
  : outcome (BufferedFilePatternSource * PerThreadReadBuf * (bool * Z)) :=
  let success := true in
  do s <-
    (if first_ s then
       let (c, fb) := skip_newlines (fb_ s) in
       if negb (c =? ch_gt)%Z then Fail (Thrown msg_not_fastq)
       else Ok (set_first false (set_fb (fb_isOpen s) fb s))
     else Ok s);
  do (readi, fb, rb) <- read_chunks (max_buf_ pt) 0 false (fb_ s) (readbuf batch_a pt);
  Ok (set_fb (fb_isOpen s) fb s, set_readbuf batch_a rb pt,
      (success, to_int (Z.of_nat readi))).

End Light.

(** Modelled from the spec: [resetForNextFile] of the two sources is
    declared in [pat.h]; as for the FASTA source, the state to reset for a
    fresh file is the expectation of its leading marker. *)
Definition RawPatternSource_resetForNextFile (s : BufferedFilePatternSource)
  : BufferedFilePatternSource := set_first true s.

(** The two light parsers. *)
Definition light_parsers (NDEBUG : bool)
  : list (PerThreadReadBuf -> bool -> BufferedFilePatternSource ->
          outcome (BufferedFilePatternSource * PerThreadReadBuf * (bool * Z))) :=
  [RawPatternSource_nextBatchFromFile NDEBUG; TabbedPatternSource_nextBatchFromFile NDEBUG].

End Raw.

(** * Reads given on the command line ([VectorPatternSource]) *)

Module Vector.

Import Pat.

(** The members of [VectorPatternSource]; [readCnt_] is the one of its base
    class [PatternSource]. *)
Record VectorPatternSource : Type := mkVec {
  readCnt_ : Z;
  cur_ : Z;
  skip_ : Z;
  paired_ : bool;
  v_ : list (list Z);        (* forward sequences *)
  quals_ : list (list Z);    (* forward qualities *)
  names_ : list string;
  trimmed3_ : list Z;
  trimmed5_ : list Z
}.

Definition set_readCnt (v : Z) (s : VectorPatternSource) : VectorPatternSource :=
  mkVec v (cur_ s) (skip_ s) (paired_ s) (v_ s) (quals_ s) (names_ s)
        (trimmed3_ s) (trimmed5_ s).

(** [os << n] for a [size_t]: the decimal digits. *)
Fixpoint digits (d : Decimal.uint) : string :=
  match d with
  | Decimal.Nil => ""
  | Decimal.D0 d => String "0" (digits d)
  | Decimal.D1 d => String "1" (digits d)
  | Decimal.D2 d => String "2" (digits d)
  | Decimal.D3 d => String "3" (digits d)
  | Decimal.D4 d => String "4" (digits d)
  | Decimal.D5 d => String "5" (digits d)
  | Decimal.D6 d => String "6" (digits d)
  | Decimal.D7 d => String "7" (digits d)
  | Decimal.D8 d => String "8" (digits d)
  | Decimal.D9 d => String "9" (digits d)
  end.

Definition decimal (n : nat) : string := digits (Nat.to_uint n).

(** [std::string::erase] throws [std::out_of_range] when its position is
    past the end of the string; nothing is written. *)
Definition msg_out_of_range : string := "std::out_of_range".

(** [s.erase(0, n)] *)
Definition erase_front (s : list Z) (n : Z) : outcome (list Z) :=
  Ok (drop (Z.to_nat n) s).

(** [s.erase(pos)], with [pos] a [size_t]: the string up to [pos]. *)
Definition erase_from (s : list Z) (pos : Z) : outcome (list Z) :=
  if (Z.of_nat (length s) <? pos)%Z then Fail (Thrown msg_out_of_range)
  else Ok (take (Z.to_nat pos) s).

(** [while(vq.length() < s.length()) vq.push_back('I');] in [n] rounds. *)
Fixpoint pad (n : nat) (vq : list Z) : list Z :=
  match n with
  | O => vq
  | S n' => pad n' (vq ++ [Reads.ch_I])%list
  end.

Section Vector.

Variable NDEBUG : bool.

(** The globals [gTrim5] and [gTrim3] (two [int]s), [tokenize] of
    [tokenize.h] with the tokens it appends to an empty list, and
    [installChars] of [sstring.h] with the string it installs. *)
Variables gTrim5 gTrim3 : Z.
Variable tokenize : list Z -> string -> nat -> list (list Z).
Variable installChars : list Z -> list Z.

(** [(size_t)(gTrim3 + mytrim5)]: a sum of two [int]s, converted. *)
Definition trim_sum (mytrim5 : Z) : outcome Z :=
  let sum := (gTrim3 + mytrim5)%Z in
  if (-2147483648 <=? sum)%Z && (sum <=? 2147483647)%Z then Ok (wrap64 sum)
  else Fail Undefined.

(** Trim on 5' (high-quality) end, then on 3' (low-quality) end. *)
Definition trim_ends (s : list Z) (mytrim5 : Z) : outcome (list Z) :=
  do s <- (if (0 <? mytrim5)%Z then erase_front s mytrim5 else Ok s);
  if (0 <? gTrim3)%Z then erase_from s (wrap64 (Z.of_nat (length s) - gTrim3))
  else Ok s.

(** One round of the loop of the constructor, up to the [push_back]s: the
    sequence and the qualities of the entry [x]. *)
Definition entry (x : list Z) : outcome (list Z * list Z) :=
  let ss := tokenize x ":" 2 in
  check assert_ NDEBUG (Ok (0 <? length ss));
  check assert_ NDEBUG (Ok (length ss <=? 2));
  (* Initialize s *)
  do s <- src_get NDEBUG ss 0;
  let mytrim5 := gTrim5 in
  do sum <- trim_sum mytrim5;
  do s <- (if (Z.of_nat (length s) <=? sum)%Z
           then Ok []  (* Entire read is trimmed away *)
           else trim_ends s mytrim5);
  (* Initialize vq *)
  do vq <- (if length ss =? 2 then src_get NDEBUG ss 1 else Ok []);
  (* Trim qualities *)
  do sum <- trim_sum mytrim5;
  do vq <- (if (sum <? Z.of_nat (length vq))%Z then trim_ends vq mytrim5 else Ok vq);
  (* Pad quals with Is if necessary; this shouldn't happen *)
  let vq := pad (length s - length vq) vq in
  (* Truncate quals to match length of read if necessary;
     this shouldn't happen *)
  do vq <- (if length s <? length vq then erase_from vq (Z.of_nat (length s)) else Ok vq);
  check assert_ NDEBUG (Ok (length vq =? length s));
  Ok (s, vq).

(** [for(size_t i = 0; i < v.size(); i++)]; [v] are the entries from [i]
    on. *)
Fixpoint entries (v : list (list Z)) (src : VectorPatternSource)
  : outcome VectorPatternSource :=
  match v with
  | [] => Ok src
  | x :: v' =>
      do (s, vq) <- entry x;
      let mytrim5 := gTrim5 in
      entries v'
        (mkVec (readCnt_ src) (cur_ src) (skip_ src) (paired_ src)
               (v_ src ++ [installChars s]) (quals_ src ++ [vq])
               (names_ src ++ [decimal (length (names_ src))])
               (trimmed3_ src ++ [gTrim3]) (trimmed5_ src ++ [mytrim5]))%list
  end.

(** [VectorPatternSource::VectorPatternSource(v, p)]; [skip] is [p.skip]
    and [readCnt] the count that the constructor of the base class leaves. *)
Definition VectorPatternSource_new (v : list (list Z)) (skip readCnt : Z)
  : outcome VectorPatternSource :=
  do src <- entries v (mkVec readCnt skip skip false [] [] [] [] []);
  check assert_ NDEBUG (Ok (length (v_ src) =? length (quals_ src)));
  Ok src.

(** [pt.reset()] is declared in [pat.h]. *)
Variable PerThreadReadBuf_reset : PerThreadReadBuf -> PerThreadReadBuf.

(** Read next batch.  However, batch concept is not very applicable for
    this PatternSource where all the info has already been parsed into the
    fields in the constructor. *)
Definition VectorPatternSource_nextBatch (pt : PerThreadReadBuf) (batch_a lock : bool)
    (s : VectorPatternSource)
  : outcome (VectorPatternSource * PerThreadReadBuf * (bool * Z)) :=
  let success := true in
  let nread := 0%Z in
  let pt := PerThreadReadBuf_reset pt in
  let pt := setReadId (readCnt_ s) pt in
  let s := set_readCnt (wrap64 (readCnt_ s + nread)) s in
  Ok (s, pt, (success, nread)).

(** A source of reads given on the command line. *)
Definition VectorSource : PatternSource VectorPatternSource := {|
  nextBatch := VectorPatternSource_nextBatch;
  readCount := readCnt_
|}.

End Vector.

(** An entry [sequence] or [sequence:qualities] as its tokens. *)
Definition tokens (e : list Z * option (list Z)) : list (list Z) :=
  match snd e with
  | Some q => [fst e; q]
  | None => [fst e]
  end.

(** The entry [x] has the tokens of [e]; the lengths of strings are
    [size_t] values. *)
Definition entry_of (tokenize : list Z -> string -> nat -> list (list Z))
    (x : list Z) (e : list Z * option (list Z)) : Prop :=
  tokenize x ":" 2 = tokens e /\
  (Z.of_nat (length (fst e)) < two64)%Z /\
  (Z.of_nat (length (default [] (snd e))) < two64)%Z.

(** The qualities that the constructor stores for a read of [len] bases:
    the given ones, trimmed if they are longer than what is to be trimmed,
    made [len] long with 'I' or by cutting. *)
Definition stored_quals (gTrim5 gTrim3 : Z) (len : nat) (oq : option (list Z)) : list Z :=
  let vq := default [] oq in
  let vq := if (gTrim5 + gTrim3 <? Z.of_nat (length vq))%Z
            then Heavy.trimmed gTrim5 gTrim3 vq else vq in
  take len (vq ++ replicate (len - length vq) Reads.ch_I)%list.

(** *** Fixtures *)

(** A stand-in for [tokenize] with ":" and at most two tokens: the bytes
    before the first ':' and, if there is one, the bytes after it. *)
Fixpoint demo_split (x acc : list Z) : list (list Z) :=
  match x with
  | [] => [acc]
  | c :: x' => if (c =? 58)%Z then [acc; x'] else demo_split x' (acc ++ [c])%list
  end.

Definition demo_tokenize (x : list Z) (delims : string) (max : nat) : list (list Z) :=
  demo_split x [].

(** A source of two reads, as the constructor leaves it. *)
Definition demo_source : VectorPatternSource :=
  mkVec 0 0 0 false [[0; 1]%Z; [2; 3]%Z] [[73; 73]%Z; [73; 73]%Z] ["0"; "1"]
        [0; 0]%Z [0; 0]%Z.

End Vector.


(** * Properties *)

Lemma bind_Ok_inv {A B : Type} (m : outcome A) (k : A -> outcome B) (b : B) :
  bind m k = Ok b -> exists a, m = Ok a /\ k a = Ok b.
Proof. destruct m as [a|f]; simpl; [eauto | discriminate]. Qed.

Lemma append_assoc (s1 s2 s3 : string) : (s1 ++ s2) ++ s3 = s1 ++ (s2 ++ s3).
Proof. induction s1 as [|c s1 IH]; simpl; [reflexivity | now rewrite IH]. Qed.

Lemma append_nil_r (s : string) : s ++ "" = s.
Proof. induction s as [|c s IH]; simpl; [reflexivity | now rewrite IH]. Qed.

Lemma wrap64_small (z : Z) : (0 <= z < two64)%Z -> wrap64 z = z.
Proof. intros H. unfold wrap64. now apply Z.mod_small. Qed.

Lemma wrap64_range (z : Z) : (0 <= wrap64 z < two64)%Z.
Proof. unfold wrap64. apply Z.mod_pos_bound. reflexivity. Qed.

Lemma take_insert_snoc {A : Type} (l : list A) (i : nat) (x : A) :
  i < length l -> take (S i) (<[i := x]> l) = (take i l ++ [x])%list.
Proof.
  intros Hi. rewrite (take_S_r _ _ x) by now apply list_lookup_insert_eq.
  now rewrite take_insert_ge by lia.
Qed.

(** ** The reordering queue *)

Import OutQ.

Ltac qsimpl :=
  cbn [reorder_ threadSafe_ nthreads_ nmulti_output_ perThreadBufSize_ cur_ lines_
       started_ finished_ perThreadBuf_ perThreadCounter_ perThreadStarted_
       perThreadFinished_ perThreadFlushed_ ofhs_
       set_cur set_lines set_started set_finished set_perThreadBuf
       set_perThreadCounter set_perThreadStarted set_perThreadFinished
       set_perThreadFlushed set_ofhs bind] in *.

Section OutQ_Proofs.

Variable NDEBUG : bool.
Variable NFLUSH_THRESH : nat.

Local Abbreviation checks_ok := (OutQ.checks_ok NDEBUG).


Lemma flags_checks (q : OutputQueue) : flags_ok q -> checks_ok q.
Proof. intros [H1 H2]. split; [assumption | now right]. Qed.

Lemma assert_started (q : OutputQueue) (i : nat) :
  NDEBUG = true \/ finished_started q ->
  finished_ q !! i = Some true ->
  assert_ NDEBUG (EList_get NDEBUG (started_ q) (Z.of_nat i)) = Ok tt.
Proof.
  intros [->|Himp] Hfin; [reflexivity|].
  unfold assert_, EList_get. rewrite Nat2Z.id, (Himp _ Hfin). now destruct NDEBUG.
Qed.

Lemma assert_true (e : outcome bool) : e = Ok true -> assert_ NDEBUG e = Ok tt.
Proof. intros ->. unfold assert_. now destruct NDEBUG. Qed.

Lemma EList_get_lookup {A : Type} (l : list A) (i : nat) (x : A) :
  l !! i = Some x -> EList_get NDEBUG l (Z.of_nat i) = Ok x.
Proof. intros H. unfold EList_get. now rewrite Nat2Z.id, H. Qed.

Lemma EList_set_lt {A : Type} (l : list A) (i : nat) (x : A) :
  i < length l -> EList_set NDEBUG l (Z.of_nat i) x = Ok (<[i := x]> l).
Proof.
  intros H. unfold EList_set.
  destruct (Z.ltb_spec (Z.of_nat i) (Z.of_nat (length l))); [|lia].
  now rewrite Nat2Z.id.
Qed.

Lemma arr_add_lookup (l : list Z) (i : nat) (x d : Z) :
  l !! i = Some x -> arr_add l i d = Ok (<[i := (x + d)%Z]> l).
Proof.
  intros H. unfold arr_add, arr_get, arr_set. rewrite H. simpl.
  apply lookup_lt_Some in H.
  destruct (Nat.ltb_spec i (length l)); [reflexivity | lia].
Qed.

Lemma run_length_le (l : list bool) : run_length l <= length l.
Proof. induction l as [|[] l IH]; simpl; lia. Qed.

Lemma run_length_lookup (l : list bool) (i : nat) :
  i < run_length l -> l !! i = Some true.
Proof.
  revert i. induction l as [|[] l IH]; simpl; intros i Hi; try lia.
  destruct i as [|i]; [reflexivity|]. apply IH. lia.
Qed.

Lemma run_length_stop (l : list bool) : l !! run_length l <> Some true.
Proof. induction l as [|[] l IH]; simpl; [discriminate | exact IH | discriminate]. Qed.

Lemma run_length_all (l : list bool) :
  (forall i, i < length l -> l !! i = Some true) -> run_length l = length l.
Proof.
  intros H. pose proof (run_length_le l) as Hle.
  destruct (Nat.eq_dec (run_length l) (length l)) as [|Hne]; [assumption|].
  exfalso. apply (run_length_stop l). apply H. lia.
Qed.

Lemma cat_all_app (l1 l2 : list string) :
  cat_all (l1 ++ l2) = cat_all l1 ++ cat_all l2.
Proof.
  induction l1 as [|x l1 IH]; simpl; [reflexivity|].
  fold (cat_all (l1 ++ l2)). fold (cat_all l1).
  rewrite IH. now rewrite append_assoc.
Qed.

(** The scan stops exactly at the end of the finished run. *)
Lemma scan_finished_run (q : OutputQueue) (fuel n : nat) :
  checks_ok q -> length (finished_ q) <= fuel + n ->
  scan_finished NDEBUG fuel q n = Ok (n + run_length (drop n (finished_ q))).
Proof.
  intros [_ Hok]. revert n. induction fuel as [|fuel IH]; intros n Hlen; simpl.
  - rewrite drop_ge by lia. simpl. f_equal. lia.
  - destruct (Nat.ltb_spec n (length (finished_ q))) as [Hlt|Hge].
    + destruct (lookup_lt_is_Some_2 _ _ Hlt) as [b Hb].
      rewrite (EList_get_lookup _ _ _ Hb). simpl.
      rewrite (drop_S _ _ _ Hb). destruct b; simpl.
      * rewrite (assert_started q n Hok Hb). simpl.
        rewrite IH by lia. f_equal. lia.
      * f_equal. lia.
    + rewrite drop_ge by lia. simpl. f_equal. lia.
Qed.

Lemma flush_is_flushImpl (force getLock : bool) (q : OutputQueue) :
  flush NDEBUG NFLUSH_THRESH force getLock q = flushImpl NDEBUG NFLUSH_THRESH force q.
Proof. unfold flush. now destruct (getLock && threadSafe_ q). Qed.

(** C4. With reordering enabled, if one of the first [NFLUSH_THRESH] slots
    after [cur_] is missing or not finished (fewer than [NFLUSH_THRESH]
    contiguous records starting at [cur_] are finished), an unforced flush
    returns the queue as it was: nothing is written, and [cur_], the window
    and the flushed tallies are unchanged. *)
Theorem unforced_flush_below_threshold (getLock : bool) (q : OutputQueue) :
  reorder_ q = true ->
  flags_ok q ->
  (exists i, i < NFLUSH_THRESH /\ finished_ q !! i <> Some true) ->
  flush NDEBUG NFLUSH_THRESH false getLock q = Ok q.
Proof.
  intros Hre Hok (i & Hi & Hnot).
  rewrite flush_is_flushImpl. unfold flushImpl. rewrite Hre. simpl.
  rewrite (scan_finished_run q _ 0 (flags_checks q Hok)) by lia. simpl. rewrite drop_0.
  destruct (Nat.leb_spec NFLUSH_THRESH (run_length (finished_ q))) as [Hle|Hlt];
    [|reflexivity].
  exfalso. apply Hnot. apply run_length_lookup. lia.
Qed.

Lemma writeString_ok (s : string) (i : nat) (q : OutputQueue) (x : string) :
  ofhs_ q !! i = Some x ->
  writeString s i q = Ok (set_ofhs (<[i := x ++ s]> (ofhs_ q)) q).
Proof.
  intros H. unfold writeString, arr_get, arr_set. rewrite H. simpl.
  apply lookup_lt_Some in H.
  destruct (Nat.ltb_spec i (length (ofhs_ q))); [reflexivity | lia].
Qed.

(** The write loop of [flushImpl] appends the first slots to output 0. *)
Lemma write_loop (q : OutputQueue) (k lo : nat) (o : list string) :
  lo + k <= run_length (finished_ q) ->
  checks_ok q -> 0 < length o ->
  for_range lo k
    (fun i q =>
       check assert_ NDEBUG (EList_get NDEBUG (started_ q) (Z.of_nat i));
       check assert_ NDEBUG (EList_get NDEBUG (finished_ q) (Z.of_nat i));
       do s <- EList_get NDEBUG (lines_ q) (Z.of_nat i);
       writeString s 0 q)
    (set_ofhs o q)
  = Ok (set_ofhs (<[0 := default "" (o !! 0) ++ cat_all (take k (drop lo (lines_ q)))]> o) q).
Proof.
  intros Hrun Hok. revert lo o Hrun.
  induction k as [|k IH]; intros lo o Hrun Ho; simpl.
  - rewrite append_nil_r. f_equal. f_equal. symmetry. apply list_insert_id.
    destruct o; simpl in *; [lia | reflexivity].
  - pose proof (run_length_le (finished_ q)) as Hle.
    pose proof Hok as ((Hs & Hf) & Himp).
    assert (Hfin : finished_ q !! lo = Some true) by (apply run_length_lookup; lia).
    destruct (lookup_lt_is_Some_2 (lines_ q) lo) as [s Hline]; [lia|].
    rewrite (assert_started q lo Himp Hfin). simpl.
    rewrite (assert_true _ (EList_get_lookup _ _ _ Hfin)). simpl.
    rewrite (EList_get_lookup _ _ _ Hline). simpl.
    destruct o as [|o0 o]; simpl in Ho; [lia|].
    rewrite (writeString_ok s 0 (set_ofhs (o0 :: o) q) o0) by reflexivity.
    change (set_ofhs _ (set_ofhs (o0 :: o) q))
      with (set_ofhs ((o0 ++ s) :: o) q).
    cbn [bind]. rewrite (IH (S lo) ((o0 ++ s) :: o)); simpl; try lia.
    rewrite (drop_S _ _ _ Hline). simpl. fold (cat_all (take k (drop (S lo) (lines_ q)))).
    now rewrite append_assoc.
Qed.

(** What [flushImpl] does to a reordering queue: it finds the finished run
    of length [n] and, when forced or when [n] reaches the threshold, writes
    and erases exactly these [n] slots. *)
Lemma flushImpl_reorder (force : bool) (q : OutputQueue) :
  reorder_ q = true -> checks_ok q -> tallies_ok q ->
  flushImpl NDEBUG NFLUSH_THRESH force q =
  Ok (if force || (NFLUSH_THRESH <=? run_length (finished_ q))
      then flushed (run_length (finished_ q)) q else q).
Proof.
  intros Hre Hok Htal. unfold flushImpl. rewrite Hre. simpl.
  rewrite (scan_finished_run q _ 0 Hok) by lia. simpl. rewrite drop_0.
  destruct (force || (NFLUSH_THRESH <=? run_length (finished_ q))); [|reflexivity].
  destruct Htal as (Hn & _ & _ & _ & Hfl & _ & Ho).
  pose proof (write_loop q (run_length (finished_ q)) 0 (ofhs_ q)) as Hw.
  replace (set_ofhs (ofhs_ q) q) with q in Hw by (now destruct q).
  rewrite Hw; [|lia|assumption|assumption]. simpl.
  destruct (lookup_lt_is_Some_2 (perThreadFlushed_ q) 0) as [x Hx]; [lia|].
  rewrite (arr_add_lookup _ _ _ _ Hx). simpl.
  unfold flushed, out. rewrite Hx, drop_0. reflexivity.
Qed.

Lemma grow_length {A : Type} (sz : nat) (fill : A) (l : list A) :
  length (grow sz fill l) = Nat.max sz (length l).
Proof. unfold grow. rewrite length_app, length_replicate. lia. Qed.

Lemma grow_lookup_old {A : Type} (sz : nat) (fill : A) (l : list A) (i : nat) :
  i < length l -> grow sz fill l !! i = l !! i.
Proof. intros H. unfold grow. now apply lookup_app_l. Qed.

Lemma grow_lookup_new {A : Type} (sz : nat) (fill : A) (l : list A) (i : nat) :
  length l <= i -> i < sz -> grow sz fill l !! i = Some fill.
Proof.
  intros H1 H2. unfold grow. rewrite lookup_app_r by assumption.
  apply lookup_replicate_2. lia.
Qed.

Lemma grow_lookup_out {A : Type} (sz : nat) (fill : A) (l : list A) (i : nat) :
  length l <= i -> sz <= i -> grow sz fill l !! i = None.
Proof. intros H1 H2. apply lookup_ge_None_2. rewrite grow_length. lia. Qed.

Lemma grow_small {A : Type} (sz : nat) (fill : A) (l : list A) :
  sz <= length l -> grow sz fill l = l.
Proof.
  intros H. unfold grow. replace (sz - length l) with 0 by lia.
  simpl. apply app_nil_r.
Qed.

Lemma EList_resize_grow {A : Type} (sz : nat) (storage : nat -> A) (l : list A) :
  length l <= sz ->
  EList_resize storage sz l = (l ++ (storage <$> seq (length l) (sz - length l)))%list.
Proof. intros H. unfold EList_resize. now rewrite take_ge. Qed.

Lemma EList_resize_length {A : Type} (sz : nat) (storage : nat -> A) (l : list A) :
  length (EList_resize storage sz l) = sz.
Proof.
  unfold EList_resize. rewrite length_app, length_take, length_fmap, length_seq. lia.
Qed.

(** Storage that holds [x] everywhere shows as a run of [x]. *)
Lemma storage_const {A : Type} (x : A) (a n : nat) :
  ((fun _ => x) <$> seq a n) = replicate n x.
Proof.
  revert a. induction n as [|n IH]; intros a; simpl; [reflexivity|].
  f_equal. apply IH.
Qed.

(** Clearing one more slot. *)
Lemma clear_next {A : Type} (x : A) (l : list A) (lo n : nat) :
  lo < length l ->
  (take (S lo) (<[lo := x]> l) ++ replicate n x ++ drop (S lo + n) (<[lo := x]> l))%list =
  (take lo l ++ replicate (S n) x ++ drop (lo + S n) l)%list.
Proof.
  intros H. rewrite take_insert_snoc by assumption.
  rewrite drop_insert_lt by lia. rewrite <- app_assoc.
  now replace (S lo + n) with (lo + S n) by lia.
Qed.

(** The clearing loop puts [false] in the [n] slots from [lo] on, whatever
    they held, and leaves the others as they are. *)
Lemma clear_loop (n lo : nat) (q : OutputQueue) :
  lo + n <= length (started_ q) -> lo + n <= length (finished_ q) ->
  for_range lo n
    (fun i q =>
       do f <- EList_set NDEBUG (finished_ q) (Z.of_nat i) false;
       do s <- EList_set NDEBUG (started_ q) (Z.of_nat i) false;
       Ok (set_started s (set_finished f q)))
    q =
  Ok (set_started
        (take lo (started_ q) ++ replicate n false ++ drop (lo + n) (started_ q))%list
        (set_finished
           (take lo (finished_ q) ++ replicate n false ++ drop (lo + n) (finished_ q))%list
           q)).
Proof.
  revert lo q. induction n as [|n IH]; intros lo q Hs Hf; cbn [for_range].
  - cbn [replicate app]. rewrite Nat.add_0_r, !take_drop. now destruct q.
  - rewrite !EList_set_lt by lia. cbn [bind].
    rewrite IH by (qsimpl; rewrite length_insert; lia). qsimpl.
    rewrite !clear_next by lia. reflexivity.
Qed.

(** After a resize the loop clears exactly the slots that were added. *)
Lemma clear_added (l added : list bool) (m n : nat) :
  m = length l -> n = length added ->
  (take m (l ++ added) ++ replicate n false ++ drop (m + n) (l ++ added))%list =
  (l ++ replicate n false)%list.
Proof.
  intros -> ->. rewrite take_app_length. rewrite drop_ge.
  - now rewrite app_nil_r.
  - rewrite length_app. lia.
Qed.

Lemma slot_of_Z (rdid : Z) (q : OutputQueue) :
  Z.of_nat (slot_of rdid q) = wrap64 (rdid - cur_ q).
Proof. unfold slot_of. apply Z2Nat.id. apply wrap64_range. Qed.

(** What [beginReadImpl] does to a reordering queue, whatever the storage
    holds: the storage shows only in the lines of the added slots. *)
Lemma beginReadImpl_on_spec (st : Storage) (rdid : Z) (t : nat) (q : OutputQueue) :
  reorder_ q = true -> sizes_ok q -> tallies_ok q ->
  beginReadImpl_on NDEBUG st rdid t q =
    if negb NDEBUG && negb ((t <? nthreads_ q) && (cur_ q <=? rdid)%Z)
    then Fail AssertionFailed
    else if negb (t <? nthreads_ q) then Fail Undefined
    else if (slot_of rdid q <? length (lines_ q)) ||
            (wrap64 (rdid - cur_ q) + 1 <? two64)%Z
    then Ok (begun_on st rdid t q)
    else Fail (oob NDEBUG).
Proof.
  intros Hre (Hs & Hf) (Hn & Hc & Hst & Hfi & Hfl & Hall & Ho).
  unfold beginReadImpl_on.
  destruct (Nat.ltb_spec t (nthreads_ q)) as [Ht|Ht]; cycle 1.
  { unfold assert_, arr_add, arr_get. rewrite (lookup_ge_None_2 (perThreadStarted_ q) t) by lia.
    destruct NDEBUG; reflexivity. }
  destruct (lookup_lt_is_Some_2 (perThreadCounter_ q) t) as [c Hcl]; [lia|].
  assert (Hcb : (c <=? perThreadBufSize_ q)%Z = true).
  { apply Z.leb_le. rewrite Forall_forall in Hall. apply Hall.
    eapply list_elem_of_lookup_2; eauto. }
  destruct (lookup_lt_is_Some_2 (perThreadStarted_ q) t) as [x Hx]; [lia|].
  rewrite (assert_true (Ok true)) by reflexivity. cbn [bind].
  rewrite (assert_true).
  2:{ unfold arr_get. rewrite Hcl. simpl. now rewrite Hcb. }
  cbn [bind]. rewrite (arr_add_lookup _ _ _ _ Hx). cbn [bind].
  qsimpl. rewrite Hre, Hs, Hf, Nat.eqb_refl.
  rewrite (assert_true (Ok true)) by reflexivity.
  rewrite <- (slot_of_Z rdid q).
  set (k := slot_of rdid q).
  assert (Hk : (0 <= Z.of_nat k < two64)%Z).
  { unfold k. rewrite slot_of_Z. apply wrap64_range. }
  match goal with |- bind _ (fun _ => bind _ (fun _ => bind _ (fun _ => ?tail))) = _ =>
    assert (Htail : tail =
      if (k <? length (lines_ q)) || (Z.of_nat k + 1 <? two64)%Z
      then Ok (begun_on st rdid t q) else Fail (oob NDEBUG))
  end.
  { destruct (Nat.ltb_spec k (length (lines_ q))) as [Hlt|Hge]; simpl orb.
    - destruct (Z.leb_spec (Z.of_nat (length (lines_ q))) (Z.of_nat k)); [lia|].
      qsimpl. rewrite !EList_set_lt by lia. qsimpl.
      unfold begun_on. fold k. rewrite !grow_small by lia.
      replace (S k - length (lines_ q)) with 0 by lia. cbn [seq fmap list_fmap].
      rewrite app_nil_r. now rewrite Hx.
    - destruct (Z.leb_spec (Z.of_nat (length (lines_ q))) (Z.of_nat k)); [|lia].
      destruct (Z.ltb_spec (Z.of_nat k + 1) two64) as [Hw|Hw].
      + rewrite wrap64_small by lia.
        replace (Z.to_nat (Z.of_nat k + 1)) with (S k) by lia.
        rewrite !EList_resize_grow by lia.
        unfold clear_new_slots. qsimpl.
        rewrite clear_loop
          by (qsimpl; rewrite !length_app, !length_fmap, !length_seq; lia).
        qsimpl. rewrite length_app, length_fmap, length_seq.
        replace (length (lines_ q) + (S k - length (lines_ q)) - length (lines_ q))
          with (S k - length (lines_ q)) by lia.
        rewrite !clear_added by (rewrite ?length_fmap, ?length_seq; lia).
        rewrite !EList_set_lt by (rewrite length_app, length_replicate; lia). qsimpl.
        unfold begun_on, grow. fold k. rewrite Hs, Hf. now rewrite Hx.
      + replace (Z.of_nat k + 1)%Z with two64 by lia.
        change (Z.to_nat (wrap64 two64)) with 0.
        unfold EList_resize, clear_new_slots. rewrite !take_0. qsimpl.
        rewrite !Nat.sub_0_l. cbn [seq fmap list_fmap app length for_range].
        rewrite ?Nat.sub_0_l. cbn [for_range]. qsimpl.
        unfold EList_set. cbn [length].
        destruct (Z.ltb_spec (Z.of_nat k) (Z.of_nat 0)); [lia | reflexivity]. }
  rewrite Htail. unfold assert_.
  destruct NDEBUG; simpl; [reflexivity|]. now destruct (cur_ q <=? rdid)%Z.
Qed.

Lemma begun_on_cleared (rdid : Z) (t : nat) (q : OutputQueue) :
  begun_on cleared rdid t q = begun rdid t q.
Proof. unfold begun_on, begun, grow. cbn [lines_storage cleared]. now rewrite storage_const. Qed.

Lemma beginReadImpl_spec (rdid : Z) (t : nat) (q : OutputQueue) :
  reorder_ q = true -> sizes_ok q -> tallies_ok q ->
  beginReadImpl NDEBUG rdid t q =
    if negb NDEBUG && negb ((t <? nthreads_ q) && (cur_ q <=? rdid)%Z)
    then Fail AssertionFailed
    else if negb (t <? nthreads_ q) then Fail Undefined
    else if (slot_of rdid q <? length (lines_ q)) ||
            (wrap64 (rdid - cur_ q) + 1 <? two64)%Z
    then Ok (begun rdid t q)
    else Fail (oob NDEBUG).
Proof.
  intros Hre Hsz Htal. unfold beginReadImpl.
  rewrite beginReadImpl_on_spec by assumption. now rewrite begun_on_cleared.
Qed.

Lemma finishReadImpl_spec (rec : string) (rdid : Z) (t : nat) (q : OutputQueue) :
  reorder_ q = true -> sizes_ok q -> tallies_ok q ->
  finishReadImpl NDEBUG NFLUSH_THRESH rec rdid t q =
    let k := slot_of rdid q in
    if negb NDEBUG &&
       negb ((t <? nthreads_ q) && (cur_ q <=? rdid)%Z && (k <? length (lines_ q)) &&
             default false (started_ q !! k) && negb (default true (finished_ q !! k)))
    then Fail AssertionFailed
    else if negb ((k <? length (lines_ q)) && (t <? nthreads_ q)) then Fail Undefined
    else flushImpl NDEBUG NFLUSH_THRESH false (stored rec rdid t q).
Proof.
  intros Hre (Hs & Hf) (Hn & Hc & Hst & Hfi & Hfl & Hall & Ho).
  unfold finishReadImpl. rewrite Hre, Hs, Hf, Nat.eqb_refl.
  rewrite <- (slot_of_Z rdid q). cbv zeta.
  set (k := slot_of rdid q).
  assert (Hlt : (Z.of_nat k <? Z.of_nat (length (lines_ q)))%Z = (k <? length (lines_ q))).
  { destruct (Z.ltb_spec (Z.of_nat k) (Z.of_nat (length (lines_ q))));
      destruct (Nat.ltb_spec k (length (lines_ q))); try reflexivity; lia. }
  match goal with |- context [bind (EList_set NDEBUG (lines_ q) (Z.of_nat k) rec) ?K] =>
    assert (Htail : bind (EList_set NDEBUG (lines_ q) (Z.of_nat k) rec) K =
      if negb ((k <? length (lines_ q)) && (t <? nthreads_ q))
      then Fail (if (k <? length (lines_ q)) then Undefined else oob NDEBUG)
      else flushImpl NDEBUG NFLUSH_THRESH false (stored rec rdid t q))
  end.
  { unfold EList_set at 1. rewrite Hlt.
    destruct (Nat.ltb_spec k (length (lines_ q))) as [Hk|Hk]; [|reflexivity].
    qsimpl. destruct (Nat.ltb_spec t (nthreads_ q)) as [Ht|Ht]; simpl negb; cbv iota.
    - destruct (lookup_lt_is_Some_2 (perThreadFinished_ q) t) as [x Hx]; [lia|].
      rewrite (arr_add_lookup _ _ _ _ Hx). qsimpl.
      rewrite EList_set_lt by lia. qsimpl.
      rewrite Nat2Z.id. unfold flush. simpl andb. cbv iota.
      unfold stored. fold k. now rewrite Hx.
    - unfold arr_add, arr_get. now rewrite (lookup_ge_None_2 (perThreadFinished_ q) t) by lia. }
  rewrite Htail. clear Htail.
  unfold assert_, EList_get. rewrite Nat2Z.id, Hlt.
  destruct NDEBUG; simpl negb; simpl andb; cbv iota.
  - unfold oob. now destruct (k <? length (lines_ q)).
  - destruct (t <? nthreads_ q); simpl; [|reflexivity].
    destruct (cur_ q <=? rdid)%Z; simpl; [|reflexivity].
    destruct (Nat.ltb_spec k (length (lines_ q))) as [Hk|Hk]; simpl; [|reflexivity].
    destruct (lookup_lt_is_Some_2 (started_ q) k) as [b Hb]; [lia|].
    destruct (lookup_lt_is_Some_2 (finished_ q) k) as [b' Hb']; [lia|].
    rewrite Hb, Hb'. simpl.
    destruct b; simpl; [|reflexivity]. destruct b'; reflexivity.
Qed.

Lemma stored_sizes (rec : string) (rdid : Z) (t : nat) (q : OutputQueue) :
  sizes_ok q -> sizes_ok (stored rec rdid t q).
Proof. intros (Hs & Hf). unfold sizes_ok, stored. qsimpl. now rewrite !length_insert. Qed.

Lemma stored_tallies (rec : string) (rdid : Z) (t : nat) (q : OutputQueue) :
  tallies_ok q -> tallies_ok (stored rec rdid t q).
Proof.
  intros (Hn & Hc & Hst & Hfi & Hfl & Hall & Ho).
  unfold tallies_ok, stored. qsimpl. rewrite !length_insert. repeat split; assumption.
Qed.

Lemma stored_finished_started (rec : string) (rdid : Z) (t : nat) (q : OutputQueue) :
  finished_started q ->
  started_ q !! slot_of rdid q = Some true ->
  finished_started (stored rec rdid t q).
Proof.
  intros Himp Hk i. unfold stored. qsimpl.
  destruct (Nat.eq_dec (slot_of rdid q) i) as [<-|Hne]; [intros _; assumption|].
  rewrite list_lookup_insert_ne by assumption. apply Himp.
Qed.

Lemma stored_checks (rec : string) (rdid : Z) (t : nat) (q : OutputQueue) :
  checks_ok q ->
  NDEBUG = true \/ started_ q !! slot_of rdid q = Some true ->
  checks_ok (stored rec rdid t q).
Proof.
  intros [Hsz Himp] Hk. split; [now apply stored_sizes|].
  destruct Himp as [|Himp]; [now left|].
  destruct Hk as [|Hk]; [now left|]. right. now apply stored_finished_started.
Qed.

Lemma flushed_sizes (n : nat) (q : OutputQueue) : sizes_ok q -> sizes_ok (flushed n q).
Proof. intros (Hs & Hf). unfold sizes_ok, flushed. qsimpl. rewrite !length_drop. lia. Qed.

Lemma flushed_finished_started (n : nat) (q : OutputQueue) :
  finished_started q -> finished_started (flushed n q).
Proof.
  intros Himp i. unfold flushed. qsimpl. rewrite !lookup_drop. apply Himp.
Qed.

Lemma flushed_tallies (n : nat) (q : OutputQueue) : tallies_ok q -> tallies_ok (flushed n q).
Proof.
  intros (Hn & Hc & Hst & Hfi & Hfl & Hall & Ho).
  unfold tallies_ok, flushed. qsimpl. rewrite !length_insert. repeat split; assumption.
Qed.

Lemma begun_sizes (rdid : Z) (t : nat) (q : OutputQueue) :
  sizes_ok q -> sizes_ok (begun rdid t q).
Proof.
  intros (Hs & Hf). unfold sizes_ok, begun. qsimpl.
  rewrite !length_insert, !grow_length. lia.
Qed.

Lemma begun_tallies (rdid : Z) (t : nat) (q : OutputQueue) :
  tallies_ok q -> tallies_ok (begun rdid t q).
Proof.
  intros (Hn & Hc & Hst & Hfi & Hfl & Hall & Ho).
  unfold tallies_ok, begun. qsimpl. rewrite !length_insert. repeat split; assumption.
Qed.

Lemma begun_finished_started (rdid : Z) (t : nat) (q : OutputQueue) :
  sizes_ok q -> finished_started q -> finished_started (begun rdid t q).
Proof.
  intros (Hs & Hf) Himp i. unfold begun. qsimpl. set (k := slot_of rdid q).
  destruct (Nat.eq_dec k i) as [<-|Hne].
  - rewrite list_lookup_insert_eq by (rewrite grow_length; lia). discriminate.
  - rewrite !list_lookup_insert_ne by assumption.
    destruct (Nat.lt_ge_cases i (length (lines_ q))) as [Hi|Hi].
    + rewrite !grow_lookup_old by lia. apply Himp.
    + intros H. apply lookup_lt_Some in H as Hlen. rewrite grow_length in Hlen.
      rewrite grow_lookup_new in H by lia. discriminate.
Qed.

Lemma begun_on_sizes (st : Storage) (rdid : Z) (t : nat) (q : OutputQueue) :
  sizes_ok q -> sizes_ok (begun_on st rdid t q).
Proof.
  intros (Hs & Hf). unfold sizes_ok, begun_on. qsimpl.
  rewrite !length_insert, !grow_length, length_app, length_fmap, length_seq. lia.
Qed.

(** The flags and the tallies after [beginReadImpl] are those of [begun],
    whatever the storage holds. *)
Lemma begun_on_tallies (st : Storage) (rdid : Z) (t : nat) (q : OutputQueue) :
  tallies_ok q -> tallies_ok (begun_on st rdid t q).
Proof. exact (begun_tallies rdid t q). Qed.

Lemma begun_on_finished_started (st : Storage) (rdid : Z) (t : nat) (q : OutputQueue) :
  sizes_ok q -> finished_started q -> finished_started (begun_on st rdid t q).
Proof. exact (begun_finished_started rdid t q). Qed.

Lemma flush_reorder (force getLock : bool) (q : OutputQueue) :
  reorder_ q = true -> checks_ok q -> tallies_ok q ->
  flush NDEBUG NFLUSH_THRESH force getLock q = Ok (after_flush NFLUSH_THRESH force q).
Proof. intros. rewrite flush_is_flushImpl. now apply flushImpl_reorder. Qed.

Lemma finishRead_is_Impl (rec : string) (rdid : Z) (t : nat) (q : OutputQueue) :
  reorder_ q = true -> sizes_ok q -> tallies_ok q ->
  finishRead NDEBUG NFLUSH_THRESH rec rdid t q =
  finishReadImpl NDEBUG NFLUSH_THRESH rec rdid t q.
Proof.
  intros Hre Hsz Htal. unfold finishRead.
  replace (if threadSafe_ q && reorder_ q
           then finishReadImpl NDEBUG NFLUSH_THRESH rec rdid t q
           else finishReadImpl NDEBUG NFLUSH_THRESH rec rdid t q)
    with (finishReadImpl NDEBUG NFLUSH_THRESH rec rdid t q)
    by (now destruct (threadSafe_ q && reorder_ q)).
  rewrite finishReadImpl_spec by assumption.
  unfold assert_. destruct NDEBUG; [reflexivity|]. cbn [bind].
  destruct (t <? nthreads_ q); reflexivity.
Qed.

Lemma beginRead_is_Impl (rdid : Z) (t : nat) (q : OutputQueue) :
  beginRead NDEBUG rdid t q = beginReadImpl NDEBUG rdid t q.
Proof. unfold beginRead. now destruct (reorder_ q && threadSafe_ q). Qed.

Lemma beginRead_on_is_Impl (st : Storage) (rdid : Z) (t : nat) (q : OutputQueue) :
  beginRead_on NDEBUG st rdid t q = beginReadImpl_on NDEBUG st rdid t q.
Proof. unfold beginRead_on. now destruct (reorder_ q && threadSafe_ q). Qed.

(** A successful [beginRead] met the asserted conditions and produced
    [begun_on], whatever the storage holds. *)
Lemma beginRead_on_Ok_inv (st : Storage) (rdid : Z) (t : nat) (q q' : OutputQueue) :
  reorder_ q = true -> sizes_ok q -> tallies_ok q ->
  beginRead_on NDEBUG st rdid t q = Ok q' ->
  t < nthreads_ q /\
  (NDEBUG = false -> (cur_ q <= rdid)%Z) /\
  (slot_of rdid q < length (lines_ q) \/ (Z.of_nat (slot_of rdid q) + 1 < two64)%Z) /\
  q' = begun_on st rdid t q.
Proof.
  intros Hre Hsz Htal. rewrite beginRead_on_is_Impl, beginReadImpl_on_spec by assumption.
  destruct (Nat.ltb_spec t (nthreads_ q)) as [Ht|Ht]; cycle 1.
  { destruct NDEBUG; discriminate. }
  rewrite <- slot_of_Z.
  destruct (Nat.ltb_spec (slot_of rdid q) (length (lines_ q))) as [Hk|Hk];
    destruct (Z.ltb_spec (Z.of_nat (slot_of rdid q) + 1) two64) as [Hw|Hw];
    destruct (Z.leb_spec (cur_ q) rdid) as [Hc|Hc];
    destruct NDEBUG; simpl; intros H; try discriminate; injection H as <-;
    (split; [assumption|]); (split; [intros; (assumption || discriminate)|]);
    (split; [|reflexivity]); auto.
Qed.

(** A successful [beginRead] met the asserted conditions and produced
    [begun]. *)
Lemma beginRead_Ok_inv (rdid : Z) (t : nat) (q q' : OutputQueue) :
  reorder_ q = true -> sizes_ok q -> tallies_ok q ->
  beginRead NDEBUG rdid t q = Ok q' ->
  t < nthreads_ q /\
  (NDEBUG = false -> (cur_ q <= rdid)%Z) /\
  (slot_of rdid q < length (lines_ q) \/ (Z.of_nat (slot_of rdid q) + 1 < two64)%Z) /\
  q' = begun rdid t q.
Proof.
  intros Hre Hsz Htal. rewrite beginRead_is_Impl, beginReadImpl_spec by assumption.
  destruct (Nat.ltb_spec t (nthreads_ q)) as [Ht|Ht]; cycle 1.
  { destruct NDEBUG; discriminate. }
  rewrite <- slot_of_Z.
  destruct (Nat.ltb_spec (slot_of rdid q) (length (lines_ q))) as [Hk|Hk];
    destruct (Z.ltb_spec (Z.of_nat (slot_of rdid q) + 1) two64) as [Hw|Hw];
    destruct (Z.leb_spec (cur_ q) rdid) as [Hc|Hc];
    destruct NDEBUG; simpl; intros H; try discriminate; injection H as <-;
    (split; [assumption|]); (split; [intros; (assumption || discriminate)|]);
    (split; [|reflexivity]); auto.
Qed.

(** A successful [finishRead] met the asserted conditions, stored the
    record and attempted an unforced flush. *)
Lemma finishRead_Ok_inv (rec : string) (rdid : Z) (t : nat) (q q' : OutputQueue) :
  reorder_ q = true -> checks_ok q -> tallies_ok q ->
  finishRead NDEBUG NFLUSH_THRESH rec rdid t q = Ok q' ->
  slot_of rdid q < length (lines_ q) /\ t < nthreads_ q /\
  (NDEBUG = false ->
     (cur_ q <= rdid)%Z /\ started_ q !! slot_of rdid q = Some true /\
     finished_ q !! slot_of rdid q = Some false) /\
  checks_ok (stored rec rdid t q) /\
  q' = after_flush NFLUSH_THRESH false (stored rec rdid t q).
Proof.
  intros Hre Hck Htal. pose proof Hck as [Hsz Himp].
  rewrite finishRead_is_Impl, finishReadImpl_spec by assumption. cbv zeta.
  set (k := slot_of rdid q).
  destruct (Nat.ltb_spec k (length (lines_ q))) as [Hk|Hk]; cycle 1.
  { rewrite !andb_false_r. destruct NDEBUG; discriminate. }
  destruct (Nat.ltb_spec t (nthreads_ q)) as [Ht|Ht]; cycle 1.
  { destruct NDEBUG; discriminate. }
  destruct Hsz as [Hs Hf].
  destruct (lookup_lt_is_Some_2 (started_ q) k) as [b Hb]; [lia|].
  destruct (lookup_lt_is_Some_2 (finished_ q) k) as [b' Hb']; [lia|].
  rewrite Hb, Hb'. simpl default.
  assert (Hgo : NDEBUG = true \/
                ((cur_ q <= rdid)%Z /\ b = true /\ b' = false) ->
                flushImpl NDEBUG NFLUSH_THRESH false (stored rec rdid t q) = Ok q' ->
                k < length (lines_ q) /\ t < nthreads_ q /\
                (NDEBUG = false ->
                 (cur_ q <= rdid)%Z /\ Some b = Some true /\ Some b' = Some false) /\
                checks_ok (stored rec rdid t q) /\
                q' = after_flush NFLUSH_THRESH false (stored rec rdid t q)).
  { intros Hpre Hfl.
    assert (Hck' : checks_ok (stored rec rdid t q)).
    { apply stored_checks; [assumption|]. fold k. rewrite Hb.
      destruct Hpre as [|(_ & -> & _)]; [now left | now right]. }
    rewrite flushImpl_reorder in Hfl; [|assumption|assumption|now apply stored_tallies].
    injection Hfl as <-. split; [assumption|]. split; [assumption|].
    split; [|split; [assumption | reflexivity]].
    intros Hnd. destruct Hpre as [Hpre|(? & -> & ->)]; [congruence | auto]. }
  destruct NDEBUG eqn:Hnd; simpl.
  - apply Hgo. now left.
  - destruct (Z.leb_spec (cur_ q) rdid) as [Hc|Hc]; simpl; [|discriminate].
    destruct b; simpl; [|discriminate]. destruct b'; simpl; [discriminate|].
    apply Hgo. right. auto.
Qed.

End OutQ_Proofs.

Lemma slot_of_nowrap (rdid : Z) (q : OutputQueue) :
  (cur_ q <= rdid)%Z -> is_TReadId rdid -> is_TReadId (cur_ q) ->
  Z.of_nat (slot_of rdid q) = (rdid - cur_ q)%Z.
Proof.
  intros H1 [H2 H3] [H4 H5]. rewrite slot_of_Z. apply wrap64_small. lia.
Qed.

Lemma andb5_false (a b c d e : bool) :
  a = false \/ b = false \/ c = false \/ d = false \/ e = false ->
  a && b && c && d && e = false.
Proof. destruct a, b, c, d, e; simpl; intuition congruence. Qed.

(** C9. In a build with assertions, once [finishRead] has succeeded for an
    id, a second [finishRead] for the same id fails an assertion, whatever
    record and thread it is called with; while the id is still in the window
    (not flushed) its slot is marked finished, which is the precondition
    [!finished_[rdid - cur_]] that the second call violates. *)
Theorem double_finish_asserted (T : nat) (rec rec' : string) (rdid : Z) (t t' : nat)
    (q q' : OutputQueue) :
  reorder_ q = true -> flags_ok q -> tallies_ok q -> machine_ok q -> is_TReadId rdid ->
  finishRead false T rec rdid t q = Ok q' ->
  finishRead false T rec' rdid t' q' = Fail AssertionFailed /\
  ((cur_ q <= cur_ q' <= rdid)%Z -> finished_ q' !! slot_of rdid q' = Some true).
Proof.
  intros Hre Hfl Htal [Hcur Hlen] Hid Hfin.
  destruct (finishRead_Ok_inv false T rec rdid t q q' Hre (flags_checks false q Hfl)
              Htal Hfin) as (Hk & Ht & Hpre & Hck & ->).
  destruct (Hpre eq_refl) as (Hc & Hst & Hnf). clear Hpre.
  pose proof (slot_of_nowrap rdid q Hc Hid Hcur) as Hslot.
  set (s := stored rec rdid t q) in *.
  assert (Hs_fin : finished_ s !! slot_of rdid q = Some true).
  { unfold s, stored. qsimpl. apply list_lookup_insert_eq.
    destruct Hfl as [[_ Hf] _]. lia. }
  assert (Hs_len : length (lines_ s) = length (lines_ q)).
  { unfold s, stored. qsimpl. apply length_insert. }
  assert (Hs_cur : cur_ s = cur_ q) by reflexivity.
  assert (Hs_slot : slot_of rdid s = slot_of rdid q) by reflexivity.
  pose proof (stored_tallies rec rdid t q Htal) as Hs_tal. fold s in Hs_tal.
  assert (Hs_re : reorder_ s = true) by exact Hre.
  pose proof (run_length_le (finished_ s)) as Hn_le.
  pose proof (run_length_stop (finished_ s)) as Hn_stop.
  destruct Hck as [Hs_sz Hs_imp]. pose proof Hs_sz as [_ Hs_f].
  set (n := run_length (finished_ s)) in *.
  assert (Hcase : after_flush T false s = s \/ after_flush T false s = flushed n s).
  { unfold after_flush. fold n. destruct (false || (T <=? n)); auto. }
  assert (Hgoal : forall q2, q2 = s \/ q2 = flushed n s ->
            reorder_ q2 = true /\ sizes_ok q2 /\ tallies_ok q2 /\
            ((cur_ q2 <=? rdid)%Z && (slot_of rdid q2 <? length (lines_ q2)) = true ->
             (cur_ q <= cur_ q2)%Z /\ finished_ q2 !! slot_of rdid q2 = Some true) /\
            ((cur_ q <= cur_ q2 <= rdid)%Z -> finished_ q2 !! slot_of rdid q2 = Some true)).
  { intros q2 [->| ->].
    - split; [exact Hre|]. split; [exact Hs_sz|]. split; [exact Hs_tal|].
      split; [intros _; split; [rewrite Hs_cur; lia | now rewrite Hs_slot]
             | intros _; now rewrite Hs_slot].
    - split; [exact Hre|]. split; [now apply flushed_sizes|].
      split; [now apply flushed_tallies|].
      unfold flushed, slot_of. qsimpl. rewrite length_drop, lookup_drop.
      fold (slot_of rdid q) in *. rewrite Hs_cur.
      destruct Hcur as [Hc0 Hc1]. destruct Hid as [Hi0 Hi1].
      destruct (Nat.lt_ge_cases (slot_of rdid q) n) as [Hkn|Hkn].
      + (* the slot was erased *)
        assert (Hno : ~ ((wrap64 (cur_ q + Z.of_nat n) <= rdid)%Z /\
                         (Z.to_nat (wrap64 (rdid - wrap64 (cur_ q + Z.of_nat n)))
                          < length (lines_ s) - n)%nat) /\
                      ~ (cur_ q <= wrap64 (cur_ q + Z.of_nat n) <= rdid)%Z).
        { unfold wrap64, two64 in *. Z.div_mod_to_equations. lia. }
        destruct Hno as [Hno1 Hno2]. split; [|intros H; now destruct (Hno2 H)].
        intros H. apply andb_true_iff in H as [H1 H2].
        apply Z.leb_le in H1. apply Nat.ltb_lt in H2. destruct Hno1. split; assumption.
      + (* the slot is still in the window *)
        assert (Hne : slot_of rdid q <> n) by (intros E; apply Hn_stop; now rewrite <- E).
        assert (Hcur' : wrap64 (cur_ q + Z.of_nat n) = (cur_ q + Z.of_nat n)%Z).
        { apply wrap64_small. lia. }
        rewrite Hcur'.
        assert (Hsl : Z.to_nat (wrap64 (rdid - (cur_ q + Z.of_nat n))) = slot_of rdid q - n).
        { rewrite wrap64_small by lia. lia. }
        rewrite Hsl. replace (n + (slot_of rdid q - n)) with (slot_of rdid q) by lia.
        split; [intros _; split; [lia | assumption] | intros _; assumption]. }
  destruct (Hgoal _ Hcase) as (Hre2 & Hsz2 & Htal2 & Hpre2 & Hstill).
  split; [|exact Hstill].
  rewrite finishRead_is_Impl, finishReadImpl_spec by assumption. cbv zeta.
  match goal with |- context [negb (?a && ?b && ?c && ?d && ?e)] =>
    assert (Hf : a && b && c && d && e = false)
  end.
  { apply andb5_false.
    destruct (cur_ (after_flush T false s) <=? rdid)%Z eqn:E1; [|auto].
    destruct (slot_of rdid (after_flush T false s) <?
              length (lines_ (after_flush T false s))) eqn:E2; [|auto].
    destruct Hpre2 as [_ Hp]; [reflexivity|]. rewrite Hp. simpl. auto. }
  rewrite Hf. reflexivity.
Qed.

Ltac concrete_flags :=
  split; [split; reflexivity |];
  let i := fresh "i" in let Hi := fresh "Hi" in
  intros i Hi;
  repeat (destruct i as [|i]; simpl in Hi; try discriminate Hi; try reflexivity).

Ltac concrete_tallies :=
  unfold tallies_ok; simpl; repeat split; try lia; repeat constructor; lia.

Lemma double_finish_asserted_witness :
  finishRead false 8 "b" 0%Z 0 slot_finished = Fail AssertionFailed /\
  ((cur_ slot_begun <= cur_ slot_finished <= 0)%Z ->
   finished_ slot_finished !! slot_of 0%Z slot_finished = Some true).
Proof.
  apply (double_finish_asserted 8 "a" "b" 0%Z 0 0 slot_begun slot_finished).
  - reflexivity.
  - concrete_flags.
  - concrete_tallies.
  - split; [split|]; vm_compute; (reflexivity || discriminate).
  - split; vm_compute; (reflexivity || discriminate).
  - reflexivity.
Defined.

Section OutQ_Claims.

Variable NDEBUG : bool.
Variable NFLUSH_THRESH : nat.

Local Abbreviation stays_pending := (OutQ.stays_pending NDEBUG).

Lemma after_flush_shrunk (force : bool) (q : OutputQueue) :
  sizes_ok q -> tallies_ok q -> machine_ok q ->
  exists n, shrunk_from_head n q (after_flush NFLUSH_THRESH force q).
Proof.
  intros [_ Hf] (_ & _ & _ & _ & _ & _ & Ho) [Hcur _]. unfold after_flush.
  destruct (force || (NFLUSH_THRESH <=? run_length (finished_ q))).
  - exists (run_length (finished_ q)). unfold shrunk_from_head, flushed. qsimpl.
    pose proof (run_length_le (finished_ q)).
    repeat split; try reflexivity.
    + lia.
    + intros i Hi. now apply run_length_lookup.
    + unfold out at 1. qsimpl. now rewrite list_lookup_insert_eq by assumption.
  - exists 0. unfold shrunk_from_head. rewrite !drop_0, take_0. simpl.
    rewrite append_nil_r, Z.add_0_r, wrap64_small by exact Hcur.
    repeat split; try reflexivity; try lia.
Qed.

Lemma after_flush_flags (force : bool) (q : OutputQueue) :
  flags_ok q -> flags_ok (after_flush NFLUSH_THRESH force q).
Proof.
  intros [Hsz Himp]. unfold after_flush.
  destruct (force || (NFLUSH_THRESH <=? run_length (finished_ q))); [|now split].
  split; [now apply flushed_sizes | now apply flushed_finished_started].
Qed.

Lemma after_flush_checks (force : bool) (q : OutputQueue) :
  checks_ok NDEBUG q -> checks_ok NDEBUG (after_flush NFLUSH_THRESH force q).
Proof.
  intros [Hsz Himp]. unfold after_flush.
  destruct (force || (NFLUSH_THRESH <=? run_length (finished_ q))); [|now split].
  split; [now apply flushed_sizes|].
  destruct Himp; [now left | right; now apply flushed_finished_started].
Qed.

Lemma after_flush_tallies (force : bool) (q : OutputQueue) :
  tallies_ok q -> tallies_ok (after_flush NFLUSH_THRESH force q).
Proof.
  intros H. unfold after_flush.
  destruct (force || (NFLUSH_THRESH <=? run_length (finished_ q))); [|assumption].
  now apply flushed_tallies.
Qed.

Lemma after_flush_reorder (force : bool) (q : OutputQueue) :
  reorder_ (after_flush NFLUSH_THRESH force q) = reorder_ q.
Proof.
  unfold after_flush.
  now destruct (force || (NFLUSH_THRESH <=? run_length (finished_ q))).
Qed.

Lemma after_flush_machine (force : bool) (q : OutputQueue) :
  machine_ok q -> machine_ok (after_flush NFLUSH_THRESH force q).
Proof.
  intros [Hc Hl]. unfold after_flush.
  destruct (force || (NFLUSH_THRESH <=? run_length (finished_ q))); [|now split].
  split; unfold flushed; qsimpl; [apply wrap64_range | rewrite length_drop; lia].
Qed.

(** C5. On a reordering queue every successful [beginRead], [finishRead]
    and [flush] keeps the window invariants ("finished implies started",
    one size for the three lists), whatever the storage of the lists holds
    past their sizes.  [beginRead] only extends the window at its tail: the
    window grows by exactly the slots that it lacked up to the slot of the
    read, the old slots keep their place and their lines, the clearing loop
    leaves the added slots unstarted and unfinished whatever the storage
    showed in them, and the slot of the read, which is in the window then,
    is marked started and not finished; nothing is said of the lines of the
    added slots.  A flush (also the one that ends [finishRead]) removes
    exactly a finished prefix of some length [n], writes it, and advances
    [cur_] by [n].  In a release build the caller has to finish only reads
    it has begun, which a debug build asserts. *)
Theorem window_invariants (st : Storage) (o : op) (q q' : OutputQueue) :
  reorder_ q = true -> flags_ok q -> tallies_ok q -> machine_ok q ->
  contract NDEBUG o q ->
  step_on NDEBUG NFLUSH_THRESH st o q = Ok q' ->
  (reorder_ q' = true /\ flags_ok q' /\ tallies_ok q' /\ machine_ok q') /\
  match o with
  | BeginRead rdid _ => grown_at_tail rdid q q'
  | FinishRead rec rdid t => exists n, shrunk_from_head n (stored rec rdid t q) q'
  | Flush _ => exists n, shrunk_from_head n q q'
  end.
Proof.
  intros Hre Hfl Htal Hm Hcon Hstep. pose proof Hfl as [Hsz Himp].
  destruct o as [rdid t|rec rdid t|force]; simpl in Hstep.
  - destruct (beginRead_on_Ok_inv NDEBUG st rdid t q q' Hre Hsz Htal Hstep)
      as (Ht & _ & Hroom & ->).
    split; [split; [exact Hre|split; [|split]]|].
    + split; [now apply begun_on_sizes | now apply begun_on_finished_started].
    + now apply begun_on_tallies.
    + destruct Hm as [Hc Hl]. split; [exact Hc|]. unfold begun_on. qsimpl.
      rewrite length_app, length_fmap, length_seq. lia.
    + destruct Hsz as [Hs Hf]. unfold grown_at_tail, begun_on, grow. qsimpl.
      rewrite length_app, length_fmap, length_seq, take_app_length, Hs, Hf.
      repeat split; lia.
  - destruct (finishRead_Ok_inv NDEBUG NFLUSH_THRESH rec rdid t q q' Hre
                (flags_checks NDEBUG q Hfl) Htal Hstep) as (Hk & Ht & Hpre & Hck & ->).
    assert (Hst : started_ q !! slot_of rdid q = Some true).
    { destruct NDEBUG eqn:Hnd; [now apply Hcon | now apply Hpre]. }
    assert (Hfl' : flags_ok (stored rec rdid t q)).
    { split; [now apply stored_sizes | now apply stored_finished_started]. }
    assert (Hm' : machine_ok (stored rec rdid t q)).
    { destruct Hm as [Hc Hl]. split; [exact Hc|]. unfold stored. qsimpl.
      now rewrite length_insert. }
    split; [split; [|split; [|split]]|].
    + now rewrite after_flush_reorder.
    + now apply after_flush_flags.
    + apply after_flush_tallies. now apply stored_tallies.
    + now apply after_flush_machine.
    + apply after_flush_shrunk; [apply Hfl' | now apply stored_tallies | exact Hm'].
  - rewrite (flush_reorder NDEBUG NFLUSH_THRESH force true q Hre
               (flags_checks NDEBUG q Hfl) Htal) in Hstep.
    injection Hstep as <-.
    split; [split; [|split; [|split]]|].
    + now rewrite after_flush_reorder.
    + now apply after_flush_flags.
    + now apply after_flush_tallies.
    + now apply after_flush_machine.
    + now apply after_flush_shrunk.
Qed.

Lemma pending_slot (rdid : Z) (q : OutputQueue) :
  is_TReadId rdid -> is_TReadId (cur_ q) -> pending rdid q ->
  Z.of_nat (slot_of rdid q) = (rdid - cur_ q)%Z /\
  slot_of rdid q < length (finished_ q).
Proof.
  intros Hid Hc [Hle Hf]. split; [now apply slot_of_nowrap|].
  now apply lookup_lt_Some in Hf.
Qed.

Lemma stays_pending_after_flush (rdid : Z) (force : bool) (q : OutputQueue) :
  is_TReadId rdid -> stays_pending rdid q ->
  stays_pending rdid (after_flush NFLUSH_THRESH force q).
Proof.
  intros Hid (Hre & Hck & Htal & Hc & Hp).
  split; [now rewrite after_flush_reorder|].
  split; [now apply after_flush_checks|].
  split; [now apply after_flush_tallies|].
  unfold after_flush.
  destruct (force || (NFLUSH_THRESH <=? run_length (finished_ q))); [|now split].
  destruct (pending_slot rdid q Hid Hc Hp) as [Hk Hlen]. destruct Hp as [Hle Hf].
  set (n := run_length (finished_ q)).
  assert (Hn : n <= slot_of rdid q).
  { destruct (Nat.le_gt_cases n (slot_of rdid q)) as [|Hlt]; [assumption|].
    apply run_length_lookup in Hlt. congruence. }
  destruct Hid as [Hi0 Hi1]. destruct Hc as [Hc0 Hc1].
  assert (Hcur : wrap64 (cur_ q + Z.of_nat n) = (cur_ q + Z.of_nat n)%Z)
    by (apply wrap64_small; lia).
  unfold flushed, pending, slot_of, is_TReadId. qsimpl. rewrite Hcur.
  split; [lia|]. split; [lia|].
  rewrite lookup_drop, wrap64_small by lia.
  replace (n + Z.to_nat (rdid - (cur_ q + Z.of_nat n))) with (slot_of rdid q) by lia.
  exact Hf.
Qed.

Lemma slot_of_inj (r rdid : Z) (q : OutputQueue) :
  is_TReadId r -> is_TReadId rdid -> is_TReadId (cur_ q) ->
  slot_of r q = slot_of rdid q -> r = rdid.
Proof.
  intros [Hr0 Hr1] [Hi0 Hi1] [Hc0 Hc1] H.
  apply (f_equal Z.of_nat) in H. rewrite !slot_of_Z in H.
  unfold wrap64, two64 in *. Z.div_mod_to_equations. lia.
Qed.

Lemma stays_pending_step (rdid : Z) (o : op) (q q' : OutputQueue) :
  is_TReadId rdid -> leaves_unfinished rdid o -> stays_pending rdid q ->
  step NDEBUG NFLUSH_THRESH o q = Ok q' -> stays_pending rdid q'.
Proof.
  intros Hid Ho (Hre & Hck & Htal & Hc & Hp) Hstep. pose proof Hck as [Hsz Himp].
  destruct (pending_slot rdid q Hid Hc Hp) as [Hk Hlen].
  destruct o as [r t|rec r t|force]; simpl in Hstep, Ho.
  - destruct (beginRead_Ok_inv NDEBUG r t q q' Hre Hsz Htal Hstep) as (_ & _ & _ & ->).
    split; [exact Hre|]. split.
    { split; [now apply begun_sizes|].
      destruct Himp; [now left | right; now apply begun_finished_started]. }
    split; [now apply begun_tallies|]. split; [exact Hc|].
    destruct Hp as [Hle Hf]. split; [exact Hle|].
    change (slot_of rdid (begun r t q)) with (slot_of rdid q).
    unfold begun. qsimpl.
    destruct (Nat.eq_dec (slot_of r q) (slot_of rdid q)) as [->|Hne].
    + apply list_lookup_insert_eq. rewrite grow_length. lia.
    + rewrite list_lookup_insert_ne by assumption. now rewrite grow_lookup_old.
  - destruct Ho as [Hr Hne].
    destruct (finishRead_Ok_inv NDEBUG NFLUSH_THRESH rec r t q q' Hre Hck Htal Hstep)
      as (_ & _ & _ & Hck' & ->).
    apply stays_pending_after_flush; [assumption|].
    split; [exact Hre|]. split; [exact Hck'|].
    split; [now apply stored_tallies|]. split; [exact Hc|].
    destruct Hp as [Hle Hf]. split; [exact Hle|].
    change (slot_of rdid (stored rec r t q)) with (slot_of rdid q).
    unfold stored. qsimpl. rewrite list_lookup_insert_ne; [exact Hf|].
    intros E. apply Hne. now apply (slot_of_inj r rdid q).
  - rewrite (flush_reorder NDEBUG NFLUSH_THRESH force true q Hre Hck Htal) in Hstep.
    injection Hstep as <-. apply stays_pending_after_flush; [assumption|].
    split; [exact Hre|]. split; [exact Hck|]. split; [exact Htal|].
    split; [exact Hc | exact Hp].
Qed.

Lemma stays_pending_run (rdid : Z) (ops : list op) (q q' : OutputQueue) :
  is_TReadId rdid -> Forall (leaves_unfinished rdid) ops -> stays_pending rdid q ->
  run NDEBUG NFLUSH_THRESH ops q = Ok q' -> stays_pending rdid q'.
Proof.
  intros Hid Hops. revert q. induction Hops as [|o ops Ho Hops IH]; intros q Hq Hrun.
  - simpl in Hrun. now injection Hrun as <-.
  - simpl in Hrun. apply bind_Ok_inv in Hrun as (q1 & Hstep & Hrun).
    apply (IH q1); [|assumption]. now apply (stays_pending_step rdid o q).
Qed.

(** C10. [beginRead] on a reordering queue leaves the slot of its id marked
    not finished, whatever the slot held; so after [beginRead] on an id that
    is still in the window (finished or not), the id stays in the window and
    unfinished, hence unwritten, through any later calls that do not include
    a [finishRead] for it. *)
Theorem begin_resets_finished (rdid : Z) (t : nat) (q q' : OutputQueue) :
  reorder_ q = true -> checks_ok NDEBUG q -> tallies_ok q ->
  is_TReadId (cur_ q) -> is_TReadId rdid -> (cur_ q <= rdid)%Z ->
  beginRead NDEBUG rdid t q = Ok q' ->
  finished_ q' !! slot_of rdid q' = Some false /\
  forall ops q'',
    Forall (leaves_unfinished rdid) ops ->
    run NDEBUG NFLUSH_THRESH ops q' = Ok q'' ->
    pending rdid q''.
Proof.
  intros Hre Hck Htal Hc Hid Hle Hbegin. pose proof Hck as [Hsz Himp].
  destruct (beginRead_Ok_inv NDEBUG rdid t q q' Hre Hsz Htal Hbegin) as (_ & _ & _ & ->).
  assert (Hf : finished_ (begun rdid t q) !! slot_of rdid (begun rdid t q) = Some false).
  { change (slot_of rdid (begun rdid t q)) with (slot_of rdid q).
    unfold begun. qsimpl. apply list_lookup_insert_eq. rewrite grow_length. lia. }
  split; [exact Hf|].
  intros ops q'' Hops Hrun.
  apply (stays_pending_run rdid ops (begun rdid t q) q'' Hid Hops); [|exact Hrun].
  split; [exact Hre|]. split.
  { split; [now apply begun_sizes|].
    destruct Himp; [now left | right; now apply begun_finished_started]. }
  split; [now apply begun_tallies|]. split; [exact Hc|]. now split.
Qed.

(** *** Order preservation *)

Lemma sim_finished_started (out0 : string) (ph : list phase) (c : nat) (q : OutputQueue) :
  sim out0 ph c q -> finished_started q.
Proof.
  intros (_ & [Hs Hf] & _ & _ & _ & Hlen & _ & Hslot & _) i Hfin.
  specialize (Hslot i). rewrite Hfin in Hslot.
  apply lookup_lt_Some in Hfin as Hi.
  destruct (lookup_lt_is_Some_2 ph (c + i)) as [p Hp]; [lia|].
  rewrite Hp in Hslot. destruct p as [| |t]; simpl in Hslot.
  - destruct Hslot as [_ H]. now destruct H.
  - destruct Hslot as [_ H]. discriminate H.
  - apply Hslot.
Qed.

Lemma sim_checks (out0 : string) (ph : list phase) (c : nat) (q : OutputQueue) :
  sim out0 ph c q -> checks_ok NDEBUG q.
Proof.
  intros H. split; [apply H|]. right. now apply (sim_finished_started out0 ph c).
Qed.

(** An id that is not done lies in or past the window. *)
Lemma sim_not_done (out0 : string) (ph : list phase) (c : nat) (q : OutputQueue)
    (id : nat) (p : phase) :
  sim out0 ph c q -> ph !! id = Some p -> (forall t, p <> Done t) -> c <= id.
Proof.
  intros (_ & _ & _ & _ & _ & _ & Hdone & _) Hp Hnd.
  destruct (Nat.le_gt_cases c id) as [|Hlt]; [assumption|].
  destruct (Hdone id Hlt) as [t Ht]. rewrite Hp in Ht. injection Ht as ->.
  now destruct (Hnd t).
Qed.

Lemma slot_of_nat (id c : nat) (q : OutputQueue) :
  cur_ q = Z.of_nat c -> c <= id -> (Z.of_nat id < two64)%Z ->
  slot_of (Z.of_nat id) q = id - c.
Proof.
  intros Hc Hle Hid. unfold slot_of. rewrite Hc, wrap64_small by lia. lia.
Qed.

(** A flush attempt keeps the simulation and moves the window start past
    what it wrote. *)
Lemma sim_after_flush (out0 : string) (ph : list phase) (c : nat) (force : bool)
    (q : OutputQueue) :
  sim out0 ph c q ->
  sim out0 ph
      (c + if force || (NFLUSH_THRESH <=? run_length (finished_ q))
           then run_length (finished_ q) else 0)
      (after_flush NFLUSH_THRESH force q).
Proof.
  intros Hsim. unfold after_flush.
  destruct (force || (NFLUSH_THRESH <=? run_length (finished_ q)));
    [|now rewrite Nat.add_0_r].
  destruct Hsim as (Hre & [Hs Hf] & Htal & HN & Hcur & Hlen & Hdone & Hslot & Hout).
  pose proof (run_length_le (finished_ q)) as Hn.
  set (n := run_length (finished_ q)) in *.
  assert (Hrun : forall i, i < n ->
            exists t, ph !! (c + i) = Some (Done t) /\ lines_ q !! i = Some t).
  { intros i Hi. specialize (Hslot i).
    rewrite (run_length_lookup (finished_ q) i Hi) in Hslot.
    destruct (lookup_lt_is_Some_2 ph (c + i)) as [p Hp]; [lia|].
    rewrite Hp in Hslot. destruct p as [| |t]; simpl in Hslot.
    - destruct Hslot as [_ H]. now destruct H.
    - destruct Hslot as [_ H]. discriminate H.
    - exists t. split; [exact Hp | apply Hslot]. }
  split; [exact Hre|]. split; [now apply flushed_sizes|].
  split; [now apply flushed_tallies|]. split; [exact HN|].
  unfold flushed. qsimpl. rewrite length_drop.
  split; [rewrite Hcur, wrap64_small by lia; lia|].
  split; [lia|]. split.
  { intros i Hi. destruct (Nat.lt_ge_cases i c) as [Hic|Hic]; [now apply Hdone|].
    destruct (Hrun (i - c)) as (t & Ht & _); [lia|]. exists t.
    now replace (c + (i - c)) with i in Ht by lia. }
  split.
  { intros i. rewrite !lookup_drop, <- Nat.add_assoc. apply Hslot. }
  unfold out at 1. qsimpl.
  destruct Htal as (_ & _ & _ & _ & _ & _ & Ho).
  rewrite list_lookup_insert_eq by assumption. simpl.
  rewrite Hout, append_assoc. f_equal.
  rewrite <- (take_take_drop ph c n), fmap_app, cat_all_app. f_equal. f_equal.
  apply list_eq. intros i. rewrite list_lookup_fmap.
  destruct (Nat.lt_ge_cases i n) as [Hi|Hi].
  - destruct (Hrun i Hi) as (t & Hp & Hl).
    rewrite !lookup_take_lt, lookup_drop, Hp, Hl by assumption. reflexivity.
  - rewrite !lookup_take_ge by assumption. reflexivity.
Qed.

Lemma sim_begin (out0 : string) (ph : list phase) (c : nat) (q : OutputQueue)
    (id t : nat) :
  sim out0 ph c q -> ph !! id = Some Fresh -> t < nthreads_ q ->
  beginRead NDEBUG (Z.of_nat id) t q = Ok (begun (Z.of_nat id) t q) /\
  sim out0 (<[id := Begun]> ph) c (begun (Z.of_nat id) t q).
Proof.
  intros Hsim Hp Ht.
  assert (Hcid : c <= id) by (apply (sim_not_done out0 ph c q id Fresh); [assumption..|discriminate]).
  destruct Hsim as (Hre & Hsz & Htal & HN & Hcur & Hlen & Hdone & Hslot & Hout).
  apply lookup_lt_Some in Hp as Hid.
  assert (Hk : slot_of (Z.of_nat id) q = id - c) by (apply slot_of_nat; lia).
  split.
  - rewrite beginRead_is_Impl, beginReadImpl_spec by assumption.
    rewrite <- slot_of_Z, Hk, Hcur.
    replace (t <? nthreads_ q) with true by (symmetry; apply Nat.ltb_lt; lia).
    replace (Z.of_nat c <=? Z.of_nat id)%Z with true by (symmetry; apply Z.leb_le; lia).
    replace (Z.of_nat (id - c) + 1 <? two64)%Z with true
      by (symmetry; apply Z.ltb_lt; lia).
    rewrite orb_true_r. now destruct NDEBUG.
  - destruct Hsz as [Hs Hf].
    split; [exact Hre|]. split; [now apply begun_sizes|].
    split; [now apply begun_tallies|]. rewrite length_insert.
    split; [exact HN|]. split; [exact Hcur|].
    unfold begun. qsimpl. rewrite Hk, grow_length.
    split; [lia|]. split.
    { intros i Hi. rewrite list_lookup_insert_ne by lia. now apply Hdone. }
    split.
    { intros i. specialize (Hslot i).
      destruct (Nat.eq_dec i (id - c)) as [->|Hne].
      - replace (c + (id - c)) with id by lia.
        rewrite !list_lookup_insert_eq by (rewrite ?grow_length; lia). simpl. auto.
      - rewrite !list_lookup_insert_ne by lia.
        destruct (Nat.lt_ge_cases i (length (lines_ q))) as [Hi|Hi].
        + now rewrite !grow_lookup_old by lia.
        + rewrite (lookup_ge_None_2 (started_ q)), (lookup_ge_None_2 (finished_ q)) in Hslot
            by lia.
          destruct (ph !! (c + i)) as [[| |tx]|]; simpl in *.
          * destruct (Nat.lt_ge_cases i (S (id - c))).
            -- rewrite !grow_lookup_new by lia. split; discriminate.
            -- rewrite !grow_lookup_out by lia. split; discriminate.
          * destruct Hslot as [H _]. discriminate H.
          * destruct Hslot as [H _]. discriminate H.
          * exact I. }
    rewrite take_insert_ge by lia. exact Hout.
Qed.

Lemma sim_stored (out0 : string) (ph : list phase) (c : nat) (q : OutputQueue)
    (id t : nat) (rec : string) :
  sim out0 ph c q -> ph !! id = Some Begun ->
  c <= id /\ slot_of (Z.of_nat id) q = id - c /\
  started_ q !! (id - c) = Some true /\ finished_ q !! (id - c) = Some false /\
  sim out0 (<[id := Done rec]> ph) c (stored rec (Z.of_nat id) t q).
Proof.
  intros Hsim Hp.
  assert (Hcid : c <= id) by (apply (sim_not_done out0 ph c q id Begun); [assumption..|discriminate]).
  destruct Hsim as (Hre & Hsz & Htal & HN & Hcur & Hlen & Hdone & Hslot & Hout).
  apply lookup_lt_Some in Hp as Hid.
  assert (Hk : slot_of (Z.of_nat id) q = id - c) by (apply slot_of_nat; lia).
  pose proof (Hslot (id - c)) as Hmine.
  replace (c + (id - c)) with id in Hmine by lia. rewrite Hp in Hmine.
  destruct Hmine as [Hst Hfin]. apply lookup_lt_Some in Hst as Hlt.
  destruct Hsz as [Hs Hf].
  split; [exact Hcid|]. split; [exact Hk|]. split; [exact Hst|]. split; [exact Hfin|].
  split; [exact Hre|]. split; [now apply stored_sizes|].
  split; [now apply stored_tallies|]. rewrite length_insert.
  split; [exact HN|]. split; [exact Hcur|].
  unfold stored. qsimpl. rewrite Hk, length_insert.
  split; [lia|]. split.
  { intros i Hi. rewrite list_lookup_insert_ne by lia. now apply Hdone. }
  split.
  { intros i. specialize (Hslot i).
    destruct (Nat.eq_dec i (id - c)) as [->|Hne].
    - replace (c + (id - c)) with id by lia.
      rewrite !list_lookup_insert_eq by lia. simpl. auto.
    - now rewrite !list_lookup_insert_ne by lia. }
  rewrite take_insert_ge by lia. exact Hout.
Qed.

Lemma sim_finish (out0 : string) (ph : list phase) (c : nat) (q : OutputQueue)
    (id t : nat) (rec : string) :
  sim out0 ph c q -> ph !! id = Some Begun -> t < nthreads_ q ->
  finishRead NDEBUG NFLUSH_THRESH rec (Z.of_nat id) t q =
    Ok (after_flush NFLUSH_THRESH false (stored rec (Z.of_nat id) t q)) /\
  sim out0 (<[id := Done rec]> ph) c (stored rec (Z.of_nat id) t q).
Proof.
  intros Hsim Hp Ht.
  destruct (sim_stored out0 ph c q id t rec Hsim Hp) as (Hcid & Hk & Hst & Hfin & Hsim').
  split; [|exact Hsim'].
  destruct Hsim as (Hre & Hsz & Htal & HN & Hcur & Hlen & Hdone & Hslot & Hout).
  rewrite finishRead_is_Impl, finishReadImpl_spec by assumption. cbv zeta.
  rewrite Hk, Hst, Hfin, Hcur. apply lookup_lt_Some in Hst as Hlt.
  destruct Hsz as [Hs Hf].
  replace (t <? nthreads_ q) with true by (symmetry; apply Nat.ltb_lt; lia).
  replace (Z.of_nat c <=? Z.of_nat id)%Z with true by (symmetry; apply Z.leb_le; lia).
  replace (id - c <? length (lines_ q)) with true by (symmetry; apply Nat.ltb_lt; lia).
  simpl. rewrite andb_false_r. simpl.
  apply flushImpl_reorder; [exact Hre | now apply (sim_checks _ _ _ _ Hsim') | apply Hsim'].
Qed.

Lemma after_flush_nthreads (force : bool) (q : OutputQueue) :
  nthreads_ (after_flush NFLUSH_THRESH force q) = nthreads_ q.
Proof.
  unfold after_flush.
  now destruct (force || (NFLUSH_THRESH <=? run_length (finished_ q))).
Qed.

Lemma client_run_length (ops : list op) (ph ph' : list phase) :
  client_run ph ops = Some ph' -> length ph' = length ph.
Proof.
  revert ph. induction ops as [|o ops IH]; intros ph H; simpl in H.
  - now injection H as <-.
  - destruct (client_step ph o) as [ph1|] eqn:Hstep; [|discriminate].
    rewrite (IH _ H).
    destruct o as [rdid t|rec rdid t|force]; simpl in Hstep.
    + destruct (rdid <? 0)%Z; [discriminate|].
      destruct (ph !! Z.to_nat rdid) as [[| |?]|]; try discriminate.
      injection Hstep as <-. apply length_insert.
    + destruct (rdid <? 0)%Z; [discriminate|].
      destruct (ph !! Z.to_nat rdid) as [[| |?]|]; try discriminate.
      injection Hstep as <-. apply length_insert.
    + now injection Hstep as <-.
Qed.

(** Every trace that follows the callers' protocol runs without failure
    and keeps the simulation. *)
Lemma sim_run (out0 : string) (n : nat) (ops : list op) (ph ph' : list phase) (c : nat)
    (q : OutputQueue) :
  sim out0 ph c q -> nthreads_ q = n ->
  Forall (thread_ok n) ops ->
  client_run ph ops = Some ph' ->
  exists c' q', run NDEBUG NFLUSH_THRESH ops q = Ok q' /\ sim out0 ph' c' q'.
Proof.
  intros Hsim Hn Hops. revert ph c q Hsim Hn.
  induction Hops as [|o ops Ho Hops IH]; intros ph c q Hsim Hn Hrun; simpl in Hrun.
  - injection Hrun as <-. exists c, q. now split.
  - destruct (client_step ph o) as [ph1|] eqn:Hstep; [|discriminate].
    destruct o as [rdid t|rec rdid t|force]; simpl in Hstep, Ho; simpl run.
    + destruct (Z.ltb_spec rdid 0) as [|Hpos]; [discriminate|].
      destruct (ph !! Z.to_nat rdid) as [[| |?]|] eqn:Hp; try discriminate.
      injection Hstep as <-.
      destruct (sim_begin out0 ph c q (Z.to_nat rdid) t Hsim Hp) as [Hb Hsim']; [lia|].
      rewrite Z2Nat.id in Hb, Hsim' by assumption.
      rewrite Hb. cbn [bind]. apply (IH _ c _ Hsim'); [exact Hn | exact Hrun].
    + destruct (Z.ltb_spec rdid 0) as [|Hpos]; [discriminate|].
      destruct (ph !! Z.to_nat rdid) as [[| |?]|] eqn:Hp; try discriminate.
      injection Hstep as <-.
      destruct (sim_finish out0 ph c q (Z.to_nat rdid) t rec Hsim Hp) as [Hf Hsim']; [lia|].
      rewrite Z2Nat.id in Hf, Hsim' by assumption.
      rewrite Hf. cbn [bind].
      apply (IH _ _ _ (sim_after_flush out0 _ c false _ Hsim'));
        [now rewrite after_flush_nthreads | exact Hrun].
    + injection Hstep as <-.
      rewrite (flush_reorder NDEBUG NFLUSH_THRESH force true q);
        [|apply Hsim | now apply (sim_checks out0 ph c) | apply Hsim].
      cbn [bind].
      apply (IH _ _ _ (sim_after_flush out0 ph c force q Hsim));
        [now rewrite after_flush_nthreads | exact Hrun].
Qed.

Lemma text_of_Done (texts : list string) : text_of <$> (Done <$> texts) = texts.
Proof. induction texts as [|x l IH]; simpl; [reflexivity | now f_equal]. Qed.

(** C1. Start from an empty reordering queue at id 0.  For every trace in
    which each id of [0..N-1] is begun once and then finished once, in any
    order and from any threads, with flushes anywhere in between: no call
    fails, and after a final forced flush the output is what it was before
    followed by the [N] records in increasing id order, each exactly once;
    the window is empty and [cur_] is [N]. *)
Theorem order_preservation (N : nat) (ops : list op) (texts : list string)
    (q0 : OutputQueue) :
  reorder_ q0 = true -> cur_ q0 = 0%Z ->
  lines_ q0 = [] -> started_ q0 = [] -> finished_ q0 = [] ->
  tallies_ok q0 ->
  (Z.of_nat N < two64)%Z ->
  Forall (thread_ok (nthreads_ q0)) ops ->
  client_run (replicate N Fresh) ops = Some (Done <$> texts) ->
  exists q1 q2,
    run NDEBUG NFLUSH_THRESH ops q0 = Ok q1 /\
    flush NDEBUG NFLUSH_THRESH true true q1 = Ok q2 /\
    out q2 = out q0 ++ cat_all texts /\
    lines_ q2 = [] /\ cur_ q2 = Z.of_nat N.
Proof.
  intros Hre Hcur Hl Hs Hf Htal HN Hthr Hrun.
  assert (Hsim0 : sim (out q0) (replicate N Fresh) 0 q0).
  { split; [exact Hre|]. split; [split; now rewrite ?Hl, ?Hs, ?Hf|].
    split; [exact Htal|]. rewrite length_replicate, Hl, Hs, Hf.
    split; [exact HN|]. split; [exact Hcur|]. split; [simpl; lia|].
    split; [intros i Hi; lia|]. split.
    - intros i. simpl.
      destruct (replicate N Fresh !! i) as [p|] eqn:Hp; [|exact I].
      apply lookup_replicate in Hp as [-> _]. simpl. split; discriminate.
    - rewrite take_0. simpl. now rewrite append_nil_r. }
  destruct (sim_run (out q0) (nthreads_ q0) ops _ _ 0 q0 Hsim0 eq_refl Hthr Hrun)
    as (c & q1 & Hq1 & Hsim).
  pose proof (client_run_length _ _ _ Hrun) as Hlen.
  rewrite length_fmap, length_replicate in Hlen.
  pose proof (sim_after_flush (out q0) _ c true q1 Hsim) as Hsim2.
  exists q1, (after_flush NFLUSH_THRESH true q1).
  split; [exact Hq1|]. split.
  { apply flush_reorder;
      [apply Hsim | now apply (sim_checks (out q0) (Done <$> texts) c) | apply Hsim]. }
  destruct Hsim as (_ & [Hs1 Hf1] & _ & _ & Hc1 & Hlen1 & _ & Hslot & _).
  rewrite length_fmap in Hlen1.
  (* every slot of the window is finished *)
  assert (Hall : run_length (finished_ q1) = length (finished_ q1)).
  { apply run_length_all. intros i Hi. specialize (Hslot i).
    destruct (lookup_lt_is_Some_2 texts (c + i)) as [t Ht]; [lia|].
    rewrite list_lookup_fmap, Ht in Hslot. apply Hslot. }
  (* and the window reaches the last id *)
  assert (Hend : c + length (lines_ q1) = N).
  { destruct (Nat.eq_dec (c + length (lines_ q1)) N) as [|Hne]; [assumption|].
    exfalso. specialize (Hslot (length (lines_ q1))).
    destruct (lookup_lt_is_Some_2 texts (c + length (lines_ q1))) as [t Ht]; [lia|].
    rewrite list_lookup_fmap, Ht in Hslot. destruct Hslot as [H _].
    apply lookup_lt_Some in H. lia. }
  simpl orb in Hsim2. cbv iota in Hsim2. rewrite Hall, Hf1, Hend in Hsim2.
  destruct Hsim2 as (_ & _ & _ & _ & Hc2 & _ & _ & _ & Hout2).
  split; [|split; [|exact Hc2]].
  - rewrite Hout2, take_ge by (rewrite length_fmap; lia). now rewrite text_of_Done.
  - unfold after_flush. simpl orb. cbv iota. unfold flushed. qsimpl.
    apply drop_ge. rewrite Hall. lia.
Qed.

End OutQ_Claims.

(** *** The storage of the lists *)

Section OutQ_Storage.

Variable NDEBUG : bool.
Variable NFLUSH_THRESH : nat.

(** What [finishRead] does to a reordering queue. *)
Lemma finishRead_spec (rec : string) (rdid : Z) (t : nat) (q : OutputQueue) :
  reorder_ q = true -> checks_ok NDEBUG q -> tallies_ok q ->
  finishRead NDEBUG NFLUSH_THRESH rec rdid t q =
    let k := slot_of rdid q in
    if negb NDEBUG &&
       negb ((t <? nthreads_ q) && (cur_ q <=? rdid)%Z && (k <? length (lines_ q)) &&
             default false (started_ q !! k) && negb (default true (finished_ q !! k)))
    then Fail AssertionFailed
    else if negb ((k <? length (lines_ q)) && (t <? nthreads_ q)) then Fail Undefined
    else Ok (after_flush NFLUSH_THRESH false (stored rec rdid t q)).
Proof.
  intros Hre Hck Htal. pose proof Hck as [Hsz Himp].
  rewrite finishRead_is_Impl, finishReadImpl_spec by assumption. cbv zeta.
  set (k := slot_of rdid q).
  match goal with |- (if ?c then _ else _) = _ => destruct c eqn:Hassert end;
    [reflexivity|].
  match goal with |- (if ?c then _ else _) = _ => destruct c eqn:Hin end;
    [reflexivity|].
  apply flushImpl_reorder; [assumption| |now apply stored_tallies].
  apply stored_checks; [assumption|]. fold k.
  destruct NDEBUG; [now left|]. right. cbn [negb andb] in Hassert.
  apply negb_false_iff in Hassert. rewrite !andb_true_iff in Hassert.
  destruct Hassert as [[_ Hst] _].
  destruct (started_ q !! k) as [[|]|]; (reflexivity || discriminate).
Qed.

Lemma same_but_unfinished_lines_refl (q : OutputQueue) : same_but_unfinished_lines q q.
Proof. repeat split; now destruct q. Qed.

(** A flush writes finished slots only. *)
Lemma after_flush_same (force : bool) (q q' : OutputQueue) :
  same_but_unfinished_lines q q' ->
  same_but_unfinished_lines (after_flush NFLUSH_THRESH force q)
                            (after_flush NFLUSH_THRESH force q').
Proof.
  intros (Hq & Hlen & Hl). rewrite Hq. unfold after_flush. qsimpl.
  set (L := lines_ q') in *. clearbody L. clear Hq q'.
  destruct (force || (NFLUSH_THRESH <=? run_length (finished_ q)));
    [|repeat split; assumption].
  set (n := run_length (finished_ q)).
  assert (Htake : take n L = take n (lines_ q)).
  { apply list_eq. intros i. destruct (Nat.lt_ge_cases i n) as [Hi|Hi].
    - rewrite !lookup_take_lt by assumption. apply Hl. now apply run_length_lookup.
    - now rewrite !lookup_take_ge by assumption. }
  unfold same_but_unfinished_lines, flushed, out. qsimpl. rewrite Htake.
  split; [reflexivity|]. split; [rewrite !length_drop; lia|].
  intros i. rewrite !lookup_drop. apply Hl.
Qed.

Lemma same_sizes (q : OutputQueue) (L : list string) :
  length L = length (lines_ q) -> sizes_ok q -> sizes_ok (set_lines L q).
Proof. intros HL [Hs Hf]. unfold sizes_ok. qsimpl. lia. Qed.

Lemma step_on_related (st : Storage) (o : op) (q q' : OutputQueue) :
  related NDEBUG q q' ->
  outcome_rel (related NDEBUG) (step NDEBUG NFLUSH_THRESH o q)
                               (step_on NDEBUG NFLUSH_THRESH st o q').
Proof.
  intros [(Hre & Hck & Htal) (Hq & Hlen & Hl)]. pose proof Hck as [Hsz Himp].
  rewrite Hq. set (L := lines_ q') in *. clearbody L. clear Hq q'.
  assert (Hsz' : sizes_ok (set_lines L q)) by now apply same_sizes.
  assert (Hck' : checks_ok NDEBUG (set_lines L q)) by (split; assumption).
  destruct o as [rdid t|rec rdid t|force]; cbn [step step_on].
  - rewrite beginRead_is_Impl, beginReadImpl_spec by assumption.
    rewrite beginRead_on_is_Impl, beginReadImpl_on_spec by assumption.
    unfold slot_of. qsimpl. rewrite Hlen. fold (slot_of rdid q).
    match goal with |- outcome_rel _ (if ?c then _ else _) _ => destruct c end;
      [reflexivity|].
    match goal with |- outcome_rel _ (if ?c then _ else _) _ => destruct c end;
      [reflexivity|].
    match goal with |- outcome_rel _ (if ?c then _ else _) _ => destruct c end;
      [|reflexivity].
    destruct Hsz as [Hs Hf]. cbn [outcome_rel]. split.
    + split; [exact Hre|]. split; [|now apply begun_tallies].
      split; [now apply begun_sizes|].
      destruct Himp; [now left | right; now apply begun_finished_started].
    + unfold same_but_unfinished_lines, begun_on, begun, grow, slot_of. qsimpl.
      fold (slot_of rdid q). split; [reflexivity|].
      split; [rewrite !length_app, length_fmap, length_seq, length_replicate; lia|].
      intros i Hi.
      destruct (Nat.eq_dec (slot_of rdid q) i) as [<-|Hne].
      { apply lookup_lt_Some in Hi as Hil. rewrite length_insert in Hil.
        rewrite list_lookup_insert_eq in Hi by assumption. discriminate. }
      rewrite list_lookup_insert_ne in Hi by assumption.
      destruct (Nat.lt_ge_cases i (length (finished_ q))) as [Hlt|Hge].
      * rewrite lookup_app_l in Hi by assumption.
        rewrite !lookup_app_l by lia. now apply Hl.
      * rewrite lookup_app_r in Hi by assumption.
        apply lookup_replicate in Hi as [Hi _]. discriminate.
  - rewrite !finishRead_spec by assumption. cbv zeta.
    unfold slot_of. qsimpl. rewrite Hlen. fold (slot_of rdid q).
    set (k := slot_of rdid q).
    match goal with |- outcome_rel _ (if ?c then _ else _) _ =>
      destruct c eqn:Hassert end; [reflexivity|].
    match goal with |- outcome_rel _ (if ?c then _ else _) _ =>
      destruct c eqn:Hin end; [reflexivity|].
    cbn [outcome_rel].
    apply negb_false_iff, andb_true_iff in Hin as [Hk Ht]. apply Nat.ltb_lt in Hk.
    assert (Hck2 : checks_ok NDEBUG (stored rec rdid t q)).
    { apply stored_checks; [assumption|]. fold k.
      destruct NDEBUG; [now left|]. right. cbn [negb andb] in Hassert.
      apply negb_false_iff in Hassert. rewrite !andb_true_iff in Hassert.
      destruct Hassert as [[_ Hst] _].
      destruct (started_ q !! k) as [[|]|]; (reflexivity || discriminate). }
    split.
    + split; [now rewrite after_flush_reorder|].
      split; [now apply after_flush_checks|].
      apply after_flush_tallies. now apply stored_tallies.
    + apply after_flush_same.
      unfold same_but_unfinished_lines, stored, slot_of. qsimpl.
      fold (slot_of rdid q). fold k.
      split; [reflexivity|]. split; [now rewrite !length_insert|].
      intros i Hi. destruct (Nat.eq_dec k i) as [<-|Hne].
      * rewrite !list_lookup_insert_eq by lia. reflexivity.
      * rewrite list_lookup_insert_ne in Hi by assumption.
        rewrite !list_lookup_insert_ne by assumption. now apply Hl.
  - rewrite !flush_reorder by assumption. cbn [outcome_rel]. split.
    + split; [now rewrite after_flush_reorder|].
      split; [now apply after_flush_checks | now apply after_flush_tallies].
    + apply after_flush_same. repeat split; assumption.
Qed.

(** The storage does not show in what a run writes.  On a reordering
    queue, a run whose calls find the added slots as [resize] leaves them
    and the run on storage that holds nothing end alike: both fail in the
    same way, or both return, with queues that differ at most in the lines
    of slots that are not finished - the output, the flags, the tallies
    and the lines of the finished slots are the same. *)
Lemma run_on_any_storage (ops : list (Storage * op)) (q q' : OutputQueue) :
  reorder_ q = true -> checks_ok NDEBUG q -> tallies_ok q ->
  same_but_unfinished_lines q q' ->
  outcome_rel same_but_unfinished_lines
    (run NDEBUG NFLUSH_THRESH (snd <$> ops) q)
    (run_on NDEBUG NFLUSH_THRESH ops q').
Proof.
  intros Hre Hck Htal Hsame.
  assert (Hrel : related NDEBUG q q') by (split; [split; [|split]|]; assumption).
  clear Hre Hck Htal Hsame. revert q q' Hrel.
  induction ops as [|[st o] ops IH]; intros q q' Hrel; cbn [fmap list_fmap run run_on snd].
  - exact (proj2 Hrel).
  - pose proof (step_on_related st o q q' Hrel) as Hstep.
    destruct (step NDEBUG NFLUSH_THRESH o q) as [q1|f1];
      destruct (step_on NDEBUG NFLUSH_THRESH st o q') as [q1'|f1'];
      cbn [outcome_rel bind] in *; try contradiction; [|exact Hstep].
    now apply IH.
Qed.

(** Without reordering [beginRead] does not resize the lists, and the
    storage plays no part. *)
Lemma step_on_unordered (st : Storage) (o : op) (q : OutputQueue) :
  reorder_ q = false ->
  step_on NDEBUG NFLUSH_THRESH st o q = step NDEBUG NFLUSH_THRESH o q.
Proof.
  intros Hre. destruct o as [rdid t| |]; cbn [step step_on]; [|reflexivity..].
  rewrite beginRead_is_Impl, beginRead_on_is_Impl.
  unfold beginReadImpl, beginReadImpl_on.
  destruct (assert_ NDEBUG (Ok (t <? nthreads_ q))); [|reflexivity]. cbn [bind].
  match goal with |- bind ?m _ = _ => destruct m; [|reflexivity] end. cbn [bind].
  match goal with |- bind ?m _ = _ => destruct m; [|reflexivity] end. cbn [bind].
  qsimpl. now rewrite Hre.
Qed.

End OutQ_Storage.

(** *** The claims at concrete queues *)

Lemma unforced_flush_below_threshold_witness :
  flush false 8 false true slot_finished = Ok slot_finished.
Proof.
  apply (unforced_flush_below_threshold false 8 true slot_finished).
  - reflexivity.
  - concrete_flags.
  - exists 1. split; [lia | discriminate].
Defined.

(** Read 2 is begun on a window that holds read 0 only, on storage that
    shows an old line and set flags in every added slot: slots 1 and 2 are
    added, the flags of both are cleared, and slot 2 is marked started. *)
Lemma window_invariants_witness :
  let q' := mkQ true true 1 1 0%Z 0%Z [""; "old"; "old"] [true; false; true]
                [false; false; false] [] [0%Z] [2%Z] [0%Z] [0%Z] [""] in
  (reorder_ q' = true /\ flags_ok q' /\ tallies_ok q' /\ machine_ok q') /\
  grown_at_tail 2%Z slot_begun q'.
Proof.
  intros q'.
  apply (window_invariants false 1 stale (BeginRead 2%Z 0) slot_begun q').
  - reflexivity.
  - concrete_flags.
  - concrete_tallies.
  - split; [split|]; vm_compute; (reflexivity || discriminate).
  - exact I.
  - vm_compute. reflexivity.
Defined.

Lemma begin_resets_finished_witness :
  let q' := mkQ true true 1 1 0%Z 0%Z ["a"] [true] [false] [] [0%Z] [2%Z] [1%Z] [0%Z] [""] in
  finished_ q' !! slot_of 0%Z q' = Some false /\
  forall ops q'',
    Forall (leaves_unfinished 0%Z) ops ->
    run false 8 ops q' = Ok q'' ->
    pending 0%Z q''.
Proof.
  intros q'.
  apply (begin_resets_finished false 8 0%Z 0 slot_finished q').
  - reflexivity.
  - apply flags_checks. concrete_flags.
  - concrete_tallies.
  - split; vm_compute; (reflexivity || discriminate).
  - split; vm_compute; (reflexivity || discriminate).
  - simpl. lia.
  - reflexivity.
Defined.

Lemma order_preservation_witness :
  exists q1 q2,
    run false 8 case2_ops (fresh_queue 2) = Ok q1 /\
    flush false 8 true true q1 = Ok q2 /\
    out q2 = out (fresh_queue 2) ++ cat_all case2_texts /\
    lines_ q2 = [] /\ cur_ q2 = Z.of_nat 5.
Proof.
  apply (order_preservation false 8 5 case2_ops case2_texts (fresh_queue 2)).
  - reflexivity.
  - reflexivity.
  - reflexivity.
  - reflexivity.
  - reflexivity.
  - concrete_tallies.
  - vm_compute. reflexivity.
  - unfold case2_ops. repeat (constructor; [simpl; lia |]). constructor.
  - reflexivity.
Defined.

(** The expectations of the test driver, evaluated on the model. *)
Example case2_output :
  (do q <- run false 8 case2_ops (fresh_queue 2); flush false 8 true true q) =
  Ok (mkQ true true 2 1 0%Z 5%Z [] [] [] [] [0%Z; 0%Z] [3%Z; 2%Z] [3%Z; 2%Z] [5%Z; 0%Z]
          ["A" ++ LF ++ "B" ++ LF ++ "C" ++ LF ++ "D" ++ LF ++ "E" ++ LF]).
Proof. reflexivity. Qed.

(** The same calls, each on storage that shows old lines and set flags:
    the same output. *)
Example case2_output_on_stale_storage :
  (do q <- run_on false 8 ((fun o => (stale, o)) <$> case2_ops) (fresh_queue 2);
   flush false 8 true true q) =
  Ok (mkQ true true 2 1 0%Z 5%Z [] [] [] [] [0%Z; 0%Z] [3%Z; 2%Z] [3%Z; 2%Z] [5%Z; 0%Z]
          ["A" ++ LF ++ "B" ++ LF ++ "C" ++ LF ++ "D" ++ LF ++ "E" ++ LF]).
Proof. vm_compute. reflexivity. Qed.

Example case1_flushed_counts :
  (do q0 <- run false 8 case1_ops (fresh_queue 1);
   do q1 <- flush false 8 true true q0;
   do q <- finishRead false 8 "r2" 2%Z 0 q1;
   do q2 <- flush false 8 true true q;
   do q <- finishRead false 8 "r1" 1%Z 0 q2;
   do q3 <- flush false 8 true true q;
   Ok (perThreadFlushed_ q0, perThreadFlushed_ q1, perThreadFlushed_ q2,
       perThreadFlushed_ q3, out q3)) =
  Ok ([0%Z], [1%Z], [1%Z], [3%Z], "r0r1r2").
Proof. reflexivity. Qed.

(** A read begun again after it was finished is not written by a forced
    flush; it is written once it is finished again. *)
Example begin_again_discards :
  (do q <- beginRead false 0%Z 0 slot_finished;
   do q1 <- flush false 8 true true q;
   do q <- finishRead false 8 "b" 0%Z 0 q1;
   do q2 <- flush false 8 true true q;
   Ok (out q1, cur_ q1, out q2, cur_ q2)) =
  Ok ("", 0%Z, "b", 1%Z).
Proof. reflexivity. Qed.

(** In a release build the second [finishRead] is accepted and replaces
    the record. *)
Example double_finish_release :
  finishRead true 8 "b" 0%Z 0 slot_finished =
  Ok (mkQ true true 1 1 0%Z 0%Z ["b"] [true] [true] [] [0%Z] [1%Z] [2%Z] [0%Z] [""]).
Proof. reflexivity. Qed.

(** ** The pattern sources *)

Import Pat.

(** C7 (evaluation).  With the input files [reads.fq; missing.fq], of which
    the first can be opened, [open()] opens [reads.fq]; when that file has
    been read to its end and [nextBatch] calls [open()] for the next file,
    the missing file is skipped and the run then exits with "No input read
    files were valid", although a file of the list was valid; the batch just
    read is not returned. *)
Theorem open_exits_after_valid_file :
  open demo_fs [] (unopened ["reads.fq"; "missing.fq"]) =
    Ok (mkSrc ["reads.fq"; "missing.fq"] [false; false] 0 true reads_fq 0%Z true []) /\
  open demo_fs [] (reading ["reads.fq"; "missing.fq"]) =
    Fail (Exited msg_no_valid_files) /\
  CFilePatternSource_nextBatch false demo_fs []
    FastqPatternSource_nextBatchFromFile FastqPatternSource_resetForNextFile
    4 (demo_pt 64 64) true true (reading ["reads.fq"; "missing.fq"]) =
    Fail (Exited msg_no_valid_files).
Proof. repeat (split; [vm_compute; reflexivity |]). vm_compute; reflexivity. Qed.

(** C2 (evaluation).  Batches drawn from [reads.fq], three reads of 16
    bytes.  With a raw buffer that takes the whole file, the one batch holds
    three reads and the counter goes from 0 to 48.  With a target size of
    12, the first batch holds the two reads r1 and r2 (32 bytes) and the
    counter goes from 0 to 32; the second batch therefore gets the base id
    32 for the third read, and the counter ends at 49. *)
Theorem fastq_counter_counts_bytes :
  (exists s1 pt1,
     CFilePatternSource_nextBatch false demo_fs []
       FastqPatternSource_nextBatchFromFile FastqPatternSource_resetForNextFile
       4 (demo_pt 64 64) true true (reading ["reads.fq"]) = Ok (s1, pt1, (true, 48%Z)) /\
     take (raw_bufa_length pt1) (raw_bufa_ pt1) = reads_fq /\
     readCnt_ s1 = 48%Z) /\
  (exists s1 pt1 s2 pt2,
     CFilePatternSource_nextBatch false demo_fs []
       FastqPatternSource_nextBatchFromFile FastqPatternSource_resetForNextFile
       4 (demo_pt 12 40) true true (reading ["reads.fq"]) = Ok (s1, pt1, (false, 32%Z)) /\
     rdid_ pt1 = 0%Z /\
     take (raw_bufa_length pt1) (raw_bufa_ pt1) =
       bytes_of (fq_record "r1" "ACGT" "IIII" ++ fq_record "r2" "GGCC" "JJJJ") /\
     readCnt_ s1 = 32%Z /\
     CFilePatternSource_nextBatch false demo_fs []
       FastqPatternSource_nextBatchFromFile FastqPatternSource_resetForNextFile
       4 pt1 true true s1 = Ok (s2, pt2, (true, 17%Z)) /\
     rdid_ pt2 = 32%Z /\
     readCnt_ s2 = 49%Z).
Proof.
  split.
  - do 2 eexists. repeat (split; [vm_compute; reflexivity |]). vm_compute; reflexivity.
  - do 4 eexists. repeat (split; [vm_compute; reflexivity |]). vm_compute; reflexivity.
Qed.

(** C6 (counterexample).  With target size 12 and head-room 10 the buffer
    filled from [reads.fq] ends after "GG" of the sequence line of r2: the
    head-room ran out before the end of a record. *)
Lemma fastq_buffer_cut_mid_record :
  exists s1 pt1,
    FastqPatternSource_nextBatchFromFile (demo_pt 12 10) true (reading ["reads.fq"]) =
      Ok (s1, pt1, (false, 23%Z)) /\
    take (raw_bufa_length pt1) (raw_bufa_ pt1) =
      bytes_of (fq_record "r1" "ACGT" "IIII" ++ "@r2" ++ OutQ.LF ++ "GG") /\
    fp_ s1 = bytes_of ("C" ++ OutQ.LF ++ "+" ++ OutQ.LF ++ "JJJJ" ++ OutQ.LF ++
                       fq_record "r3" "TTAA" "KKKK").
Proof.
  do 2 eexists. repeat (split; [vm_compute; reflexivity |]). vm_compute; reflexivity.
Qed.

(** *** Paired dispatch *)

Section Dual_Claims.

Context {Src : Type} `{PatternSource Src}.
Variable NDEBUG : bool.

(** What the composer compares are the integers that the two calls of
    [nextBatch] return.  When they differ, [DualPatternComposer::nextBatch]
    never returns a batch: it fails, and the failure is the thrown
    diagnostic that names the side with the smaller integer ("fewer reads in
    file specified with -2" for end B, "... with -1" for end A), or, in a
    build with assertions only, the failed assertion on the read counts
    that precedes the comparison.  In a release build it is always the
    diagnostic. *)
Lemma paired_mismatch_is_fatal (fuel : nat) (pt pt1 pt2 : PerThreadReadBuf)
    (c : Dual.DualPatternComposer Src) (a a' b b' : Src) (da db : bool) (na nb : Z) :
  Dual.srca_ c !! Dual.cur_ c = Some a ->
  Dual.srcb_ c !! Dual.cur_ c = Some (Some b) ->
  nextBatch pt true false a = Ok (a', pt1, (da, na)) ->
  nextBatch pt1 false false b = Ok (b', pt2, (db, nb)) ->
  na <> nb ->
  let diagnostic := if (nb <? na)%Z then msg_fewer_2 else msg_fewer_1 in
  (exists f, Dual.nextBatch NDEBUG (S fuel) pt c = Fail f /\
             (f = AssertionFailed \/ f = Thrown diagnostic)) /\
  (NDEBUG = true -> Dual.nextBatch NDEBUG (S fuel) pt c = Fail (Thrown diagnostic)).
Proof.
  intros Ha Hb Hda Hdb Hne diagnostic.
  assert (Hrun : Dual.nextBatch NDEBUG (S fuel) pt c =
                 bind (assert_ NDEBUG (Ok (readCount a' =? readCount b')%Z))
                      (fun _ => Fail (Thrown diagnostic))).
  { unfold Dual.nextBatch. cbn [Dual.loop].
    apply lookup_lt_Some in Ha as Hlt.
    destruct (Nat.ltb_spec (Dual.cur_ c) (length (Dual.srca_ c))) as [_|]; [|lia].
    unfold src_get. rewrite Ha, Hb. cbn [bind]. rewrite Hda. cbn [bind].
    rewrite Hdb. cbn [bind fst snd].
    destruct (assert_ NDEBUG (Ok (readCount a' =? readCount b')%Z)); [|reflexivity].
    cbn [bind]. unfold diagnostic.
    destruct (Z.ltb_spec na nb) as [Hlt1|Hge1].
    - destruct (Z.ltb_spec nb na); [lia | reflexivity].
    - destruct (Z.eqb_spec na 0) as [Hz|Hz]; destruct (Z.eqb_spec nb 0) as [Hz'|Hz'];
        cbn [andb]; try lia;
        (destruct (Z.ltb_spec nb na); [reflexivity | lia]). }
  rewrite Hrun. split.
  - unfold assert_. destruct NDEBUG; cbn [bind]; [eauto|].
    destruct (readCount a' =? readCount b')%Z; cbn [bind]; eauto.
  - intros ->. reflexivity.
Qed.

End Dual_Claims.

(** A pair of FASTQ files of 48 bytes and of 16 bytes: the two sources
    return these lengths, and the mismatch is reported against the file
    given with -2. *)
Lemma paired_mismatch_is_fatal_witness :
  let c := Dual.mkDual 0 [reading ["reads.fq"]]
             [Some (mkSrc ["mates.fq"] [false] 1 true
                          (bytes_of (fq_record "r1" "ACGT" "IIII")) 0%Z true [])] in
  (exists f,
     Dual.nextBatch (H := FastqPatternSource true demo_fs [] 4) true 1 (demo_pt 64 64) c
       = Fail f /\
     (f = AssertionFailed \/ f = Thrown msg_fewer_2)) /\
  (true = true ->
   Dual.nextBatch (H := FastqPatternSource true demo_fs [] 4) true 1 (demo_pt 64 64) c
     = Fail (Thrown msg_fewer_2)).
Proof.
  intros c.
  eapply (@paired_mismatch_is_fatal _ (FastqPatternSource true demo_fs [] 4) true 0
            (demo_pt 64 64) _ _ c _ _ _ _ _ _ 48%Z 16%Z).
  - reflexivity.
  - reflexivity.
  - vm_compute. reflexivity.
  - vm_compute. reflexivity.
  - discriminate.
Defined.

(** C3 (evaluation).  For FASTQ files the integers that the composer
    compares are the byte lengths of the two batches, not their numbers of
    reads.  A file of two reads given with -1 and a file of one read given
    with -2, both of 32 bytes, pass as one batch, in a build with assertions
    and without: no diagnostic, the two reads in buffer A and the one read
    in buffer B.  Two files of one read each, of 16 and of 20 bytes, are
    refused: a release build throws "fewer reads in file specified with
    -1", a debug build fails the assertion on the read counts. *)
Theorem paired_mismatch_compares_bytes :
  let pair := fun a b : string => Dual.mkDual 0 [mate_file a] [Some (mate_file b)] in
  let two := (fq_record "r1" "ACGT" "IIII" ++ fq_record "r2" "GGCC" "JJJJ")%string in
  let one := fq_record "r1" "ACGTACGTACGT" "IIIIIIIIIIII" in
  let short := fq_record "r1" "ACGT" "IIII" in
  let long := fq_record "r1" "ACGTAC" "IIIIII" in
  (forall NDEBUG : bool,
     exists c' pt',
       Dual.nextBatch (H := FastqPatternSource NDEBUG demo_fs [] 4) NDEBUG 2
         (demo_pt 64 64) (pair two one) = Ok (c', pt', (true, 32%Z)) /\
       take (raw_bufa_length pt') (raw_bufa_ pt') = bytes_of two /\
       take (raw_bufb_length pt') (raw_bufb_ pt') = bytes_of one) /\
  Dual.nextBatch (H := FastqPatternSource true demo_fs [] 4) true 2
    (demo_pt 64 64) (pair short long) = Fail (Thrown msg_fewer_1) /\
  Dual.nextBatch (H := FastqPatternSource false demo_fs [] 4) false 2
    (demo_pt 64 64) (pair short long) = Fail AssertionFailed.
Proof.
  intros pair two one short long. split; [|split].
  - intros [|]; do 2 eexists;
      (split; [vm_compute; reflexivity |]); split; vm_compute; reflexivity.
  - vm_compute. reflexivity.
  - vm_compute. reflexivity.
Qed.

(** *** Termination of the per-thread reader *)

Section Solo_Claims.

Context {Src : Type} `{PatternSource Src}.
Variable NDEBUG : bool.

(** The draw loop asks the source again after an empty result that does
    not signal exhaustion. *)
Lemma solo_draw_retries (fuel : nat) (pt pt' : PerThreadReadBuf) (s s' : Src) :
  nextBatch pt true true s = Ok (s', pt', (false, 0%Z)) ->
  Solo.draw (S fuel) pt s = Solo.draw fuel pt' s'.
Proof. intros Hs. cbn [Solo.draw]. rewrite Hs. reflexivity. Qed.

(** What the draw loop returns is never empty without exhaustion. *)
Lemma solo_draw_result (fuel : nat) (pt pt' : PerThreadReadBuf) (s s' : Src)
    (res : bool * Z) :
  Solo.draw fuel pt s = Ok (s', pt', res) -> snd res = 0%Z -> fst res = true.
Proof.
  revert pt s. induction fuel as [|fuel IH]; intros pt s Hd Hz; [discriminate|].
  cbn [Solo.draw] in Hd. apply bind_Ok_inv in Hd as ([[s1 pt1] r1] & Hs & Hd).
  destruct (negb (fst r1) && (snd r1 =? 0)%Z) eqn:Hretry.
  - now apply (IH pt1 s1).
  - injection Hd as <- <- <-. rewrite Hz in Hretry. cbn in Hretry.
    rewrite andb_true_r in Hretry. now apply negb_false_iff in Hretry.
Qed.

(** An empty batch leaves the composer only as its final "done": every
    source of the list has been used up. *)
Lemma solo_loop_empty (fuel : nat) (pt pt' : PerThreadReadBuf)
    (c c' : Solo.SoloPatternComposer Src) (d : bool) (n : Z) :
  Solo.loop NDEBUG fuel (Solo.cur_ c) pt c = Ok (c', pt', (d, n)) ->
  n = 0%Z -> d = true /\ length (Solo.src_ c') <= Solo.cur_ c'.
Proof.
  revert pt c. induction fuel as [|fuel IH]; intros pt c Hl Hz; [discriminate|].
  cbn [Solo.loop] in Hl.
  destruct (Nat.ltb_spec (Solo.cur_ c) (length (Solo.src_ c))) as [Hlt|Hge].
  - apply bind_Ok_inv in Hl as (s & _ & Hl).
    apply bind_Ok_inv in Hl as ([[s1 pt1] [d1 n1]] & _ & Hl).
    cbn [Solo.cur_ Solo.src_ snd] in Hl.
    destruct (Z.eqb_spec n1 0) as [Hn1|Hn1].
    + match type of Hl with Solo.loop _ _ (Solo.cur_ ?c1) _ _ = _ =>
        exact (IH pt1 c1 Hl Hz) end.
    + injection Hl as _ _ _ Hn. congruence.
  - apply bind_Ok_inv in Hl as (_ & _ & Hl). injection Hl as <- <- <- <-.
    split; [reflexivity | exact Hge].
Qed.

Variable exhausted : PerThreadReadBuf -> bool.
Variable next : PerThreadReadBuf -> PerThreadReadBuf.
Variable cur_buf_ : PerThreadReadBuf -> nat.
Variable read_a_empty : PerThreadReadBuf -> bool.
Variable read_b_readOrigBuf_empty : PerThreadReadBuf -> bool.
Variable is_last : PerThreadReadBuf -> Z -> bool.
Variable parse : PerThreadReadBuf -> outcome (PerThreadReadBuf * bool).
Variable finalize : PerThreadReadBuf -> PerThreadReadBuf.
Variable finalizePair : PerThreadReadBuf -> PerThreadReadBuf.
Variable fuel : nat.

Local Abbreviation reader := (PerThread.PatternSourcePerThread PerThreadReadBuf
                                (Solo.SoloPatternComposer Src)).

Local Abbreviation nextReadPair :=
  (PerThread.nextReadPair NDEBUG PerThreadReadBuf (Solo.SoloPatternComposer Src)
     exhausted next cur_buf_ read_a_empty read_b_readOrigBuf_empty is_last parse
     finalize finalizePair (Solo.nextBatch NDEBUG fuel)).

(** C8. A reader over the single-file composer reports "no more work"
    ([(false, true)]) only when its buffer was exhausted and the batch it
    then requested came back as [(true, 0)]: empty with the composer done,
    every source of the list used up.  Inside the composer an empty result
    of a source without exhaustion makes the draw loop call that source
    again, and no call of the composer returns such a result. *)
Theorem no_more_work_only_when_exhausted (st st' : reader) :
  nextReadPair st = Ok (st', (false, true)) ->
  (exhausted (PerThread.buf_ st) = true /\
   Solo.nextBatch NDEBUG fuel (PerThread.buf_ st) (PerThread.composer_ st) =
     Ok (PerThread.composer_ st', PerThread.buf_ st', (true, 0%Z)) /\
   length (Solo.src_ (PerThread.composer_ st')) <= Solo.cur_ (PerThread.composer_ st')) /\
  (forall k pt pt' (s s' : Src),
     nextBatch pt true true s = Ok (s', pt', (false, 0%Z)) ->
     Solo.draw (S k) pt s = Solo.draw k pt' s') /\
  (forall k pt pt' c c' d n,
     Solo.nextBatch NDEBUG k pt c = Ok (c', pt', (d, n)) ->
     (d, n) <> (false, 0%Z)).
Proof.
  intros Hnext. split; [|split].
  - unfold PerThread.nextReadPair in Hnext.
    apply bind_Ok_inv in Hnext as ([st1 nomore] & Hprep & Hrest).
    destruct (exhausted (PerThread.buf_ st)) eqn:Hex.
    + apply bind_Ok_inv in Hprep as ([st2 res] & Hnb & Hprep).
      unfold PerThread.nextBatch in Hnb.
      apply bind_Ok_inv in Hnb as ([[c b] res'] & Hcomp & Hnb).
      injection Hnb as <- <-.
      destruct (fst res' && (snd res' =? 0)%Z) eqn:Hdone.
      * injection Hprep as <- <-. injection Hrest as <-. cbn.
        apply andb_true_iff in Hdone as [Hd Hn]. apply Z.eqb_eq in Hn.
        destruct res' as [d n]. cbn in Hd, Hn. subst d n.
        split; [reflexivity|]. split; [exact Hcomp|].
        now apply (solo_loop_empty fuel _ _ _ _ true 0%Z Hcomp).
      * apply bind_Ok_inv in Hprep as (_ & _ & Hprep). injection Hprep as <- <-.
        exfalso. cbn in Hrest.
        apply bind_Ok_inv in Hrest as (_ & _ & Hrest).
        apply bind_Ok_inv in Hrest as ([b1 parsed] & _ & Hrest).
        destruct parsed; cbn in Hrest; discriminate.
    + exfalso. apply bind_Ok_inv in Hprep as (_ & _ & Hprep). injection Hprep as <- <-.
      cbn in Hrest.
      apply bind_Ok_inv in Hrest as (_ & _ & Hrest).
      apply bind_Ok_inv in Hrest as ([b1 parsed] & _ & Hrest).
      destruct parsed; cbn in Hrest; discriminate.
  - intros k pt pt' s s'. apply solo_draw_retries.
  - intros k pt pt' c c' d n Hc Hdn. injection Hdn as -> ->.
    now destruct (solo_loop_empty k _ _ _ _ _ _ Hc eq_refl).
Qed.

End Solo_Claims.

(** A reader over one scripted source that answers "empty, not exhausted"
    twice and then "exhausted": the composer asks three times, and only
    then does the reader report that there is no more work. *)
Lemma no_more_work_only_when_exhausted_witness :
  let exhausted := fun _ : PerThreadReadBuf => true in
  let st := PerThread.mkPerThread (demo_pt 4 4) false 0%Z
              (Solo.mkSolo 0 [([(false, 0%Z); (false, 0%Z); (true, 0%Z)], 0%Z)]) in
  let st' := PerThread.mkPerThread (demo_pt 4 4) false 0%Z
               (Solo.mkSolo 1 [([] : list (bool * Z), 0%Z)]) in
  (exhausted (PerThread.buf_ st) = true /\
   Solo.nextBatch (H := ScriptedSource) false 5 (PerThread.buf_ st) (PerThread.composer_ st) =
     Ok (PerThread.composer_ st', PerThread.buf_ st', (true, 0%Z)) /\
   length (Solo.src_ (PerThread.composer_ st')) <= Solo.cur_ (PerThread.composer_ st')) /\
  (forall k pt pt' (s s' : list (bool * Z) * Z),
     nextBatch (PatternSource := ScriptedSource) pt true true s = Ok (s', pt', (false, 0%Z)) ->
     Solo.draw (H := ScriptedSource) (S k) pt s = Solo.draw (H := ScriptedSource) k pt' s') /\
  (forall k pt pt' c c' d n,
     Solo.nextBatch (H := ScriptedSource) false k pt c = Ok (c', pt', (d, n)) ->
     (d, n) <> (false, 0%Z)).
Proof.
  intros exhausted st st'.
  apply (@no_more_work_only_when_exhausted _ ScriptedSource false exhausted
           (fun b => b) (fun _ => 0) (fun _ => true) (fun _ => true) (fun _ _ => true)
           (fun b => Ok (b, true)) (fun b => b) (fun b => b) 5 st st').
  vm_compute. reflexivity.
Defined.

(** When the source has reads after its empty answers, the retry hands
    them out and the reader goes on. *)
Example retry_then_batch :
  PerThread.nextReadPair false PerThreadReadBuf _
    (fun _ => true) (fun b => b) (fun _ => 0) (fun _ => true) (fun _ => true)
    (fun _ _ => false) (fun b => Ok (b, true)) (fun b => b) (fun b => b)
    (Solo.nextBatch (H := ScriptedSource) false 5)
    (PerThread.mkPerThread (demo_pt 4 4) false 0%Z
       (Solo.mkSolo 0 [([(false, 0%Z); (false, 0%Z); (false, 3%Z)], 0%Z)])) =
  Ok (PerThread.mkPerThread (demo_pt 4 4) false 3%Z
        (Solo.mkSolo 0 [([] : list (bool * Z), 3%Z)]), (true, false)).
Proof. vm_compute. reflexivity. Qed.

(** The same pair of files in a build with assertions: the assertion on
    the read counts fails before the comparison of the batch sizes. *)
Example paired_mismatch_debug_build :
  Dual.nextBatch (H := FastqPatternSource false demo_fs [] 4) false 1 (demo_pt 64 64)
    (Dual.mkDual 0 [reading ["reads.fq"]]
       [Some (mkSrc ["mates.fq"] [false] 1 true
                    (bytes_of (fq_record "r1" "ACGT" "IIII")) 0%Z true [])]) =
  Fail AssertionFailed.
Proof. vm_compute. reflexivity. Qed.

(** *** The FASTQ light parser reads on to a record boundary *)

Local Open Scope list_scope.

Lemma buf_set_ok (buf : list Z) (i : nat) (c : Z) :
  i < length buf -> buf_set buf i c = Ok (<[i := c]> buf).
Proof. intros Hi. unfold buf_set. destruct (Nat.ltb_spec i (length buf)); [reflexivity|lia]. Qed.

(** The fill loop copies [n] bytes when the stream has them. *)
Lemma fill_exact (l : list Z) (k : nat) (fp buf : list Z) :
  k + length l <= length buf ->
  exists buf',
    fill (length l) k (l ++ fp) buf = Ok (k + length l, fp, buf') /\
    length buf' = length buf /\
    take (k + length l) buf' = take k buf ++ l.
Proof.
  revert k buf. induction l as [|c l IH]; intros k buf Hlen; simpl in *.
  - exists buf. rewrite Nat.add_0_r, app_nil_r. auto.
  - rewrite buf_set_ok by lia. cbn [bind].
    destruct (IH (S k) (<[k := c]> buf)) as (buf' & Hf & Hl & Ht).
    { rewrite length_insert. lia. }
    exists buf'. rewrite Hf. replace (k + S (length l)) with (S k + length l) by lia.
    split; [reflexivity|]. split; [now rewrite Hl, length_insert|].
    rewrite Ht, take_insert_snoc by lia. now rewrite <- app_assoc.
Qed.

Lemma scan_cons (hr br : nat) (y : Z) (fp : list Z) (st : scan_state) :
  scan hr br (y :: fp) st =
  if scan_continues hr st
  then do st' <- scan_body br y st; scan hr br fp st'
  else Ok (st, y :: fp).
Proof. reflexivity. Qed.

Lemma scan_continues_intro (hr : nat) (st : scan_state) :
  (0 <= sc_c st)%Z -> sc_i st < hr ->
  sc_new_record st = false \/ (sc_newlines st < 4)%Z ->
  scan_continues hr st = true.
Proof.
  intros Hc Hi Hn. unfold scan_continues.
  destruct (Z.leb_spec 0 (sc_c st)); [|lia].
  destruct (Nat.ltb_spec (sc_i st) hr); [|lia]. simpl.
  destruct Hn as [->|Hn]; [reflexivity|].
  destruct (Z.ltb_spec (sc_newlines st) 4); [|lia]. apply orb_true_r.
Qed.

(** Storing the bytes of a line: the flags do not change before the byte
    [x] that follows the line is read. *)
Lemma scan_line (hr br : nat) (l : list Z) (x : Z) (fp : list Z) (st : scan_state) :
  text_line (sc_c st :: l) ->
  sc_i st + S (length l) <= hr ->
  br + sc_i st + S (length l) <= length (sc_buf st) ->
  sc_new_record st = false \/ (sc_newlines st < 4)%Z ->
  exists buf' pc,
    scan hr br (l ++ x :: fp) st =
    scan hr br fp
      (mkScan x (sc_i st + S (length l)) (sc_prev_line_start_c st) pc
              (sc_new_record st)
              (if is_newline x then sc_newlines st + 1 else sc_newlines st)%Z buf') /\
    length buf' = length (sc_buf st) /\
    take (br + sc_i st + S (length l)) buf' =
      take (br + sc_i st) (sc_buf st) ++ sc_c st :: l.
Proof.
  revert st. induction l as [|y l IH]; intros st Hline Hhr Hcap Hn.
  - apply Forall_cons in Hline as [[Hc Hnl] _]. cbn [app length] in *.
    rewrite scan_cons, scan_continues_intro by (assumption || lia).
    unfold scan_body. rewrite buf_set_ok by lia. cbn [bind].
    rewrite Hnl, andb_false_r. cbn [andb].
    exists (<[br + sc_i st := sc_c st]> (sc_buf st)), (sc_c st).
    replace (S (sc_i st)) with (sc_i st + 1) by lia.
    split; [reflexivity|]. split; [apply length_insert|].
    replace (br + sc_i st + 1) with (S (br + sc_i st)) by lia.
    apply take_insert_snoc. lia.
  - apply Forall_cons in Hline as [[Hc Hnl] Hrest]. cbn [length] in Hhr, Hcap.
    pose proof Hrest as Hrest'. apply Forall_cons in Hrest' as [[Hy Hynl] _].
    cbn [app]. rewrite scan_cons, scan_continues_intro by (assumption || lia).
    unfold scan_body. rewrite buf_set_ok by lia. cbn [bind].
    rewrite Hnl, Hynl, andb_false_r. cbn [andb].
    match goal with |- context [scan hr br (l ++ x :: fp) ?st1] =>
      destruct (IH st1) as (buf' & pc & Hs & Hl & Ht) end;
      cbn [sc_c sc_i sc_buf sc_new_record sc_newlines sc_prev_line_start_c];
      try assumption; try (rewrite ?length_insert; lia).
    cbn [sc_c sc_i sc_buf sc_new_record sc_newlines sc_prev_line_start_c] in *.
    exists buf', pc. rewrite Hs.
    replace (S (sc_i st) + S (length l)) with (sc_i st + S (length (y :: l)))
      by (simpl; lia).
    split; [reflexivity|]. rewrite length_insert in Hl. split; [exact Hl|].
    replace (br + sc_i st + S (length (y :: l))) with (br + S (sc_i st) + S (length l))
      by (simpl; lia).
    rewrite Ht. replace (br + S (sc_i st)) with (S (br + sc_i st)) by lia.
    rewrite take_insert_snoc by lia. now rewrite <- app_assoc.
Qed.

(** From the newline that ends a line through the next line, up to the
    newline [x] that ends it.  The byte [y] after the first newline is where
    the parser looks for the start of a record. *)
Lemma scan_nl_line (hr br : nat) (line : list Z) (x : Z) (fp : list Z) (st : scan_state) :
  is_newline (sc_c st) = true -> (0 <= sc_c st)%Z ->
  text_line line -> is_newline x = true ->
  sc_i st + S (length line) <= hr ->
  br + sc_i st + S (length line) <= length (sc_buf st) ->
  let y := hd x line in
  let found := negb (sc_new_record st) && (sc_prev_line_start_c st =? ch_at)%Z &&
               seq_start y in
  let nr' := if found then true else sc_new_record st in
  let nl0 := if found then 1%Z else sc_newlines st in
  sc_new_record st = false \/ (sc_newlines st < 4)%Z ->
  nr' = false \/ (nl0 < 4)%Z ->
  exists buf' pc,
    scan hr br (line ++ x :: fp) st =
    scan hr br fp (mkScan x (sc_i st + S (length line)) y pc nr' (nl0 + 1)%Z buf') /\
    length buf' = length (sc_buf st) /\
    take (br + sc_i st + S (length line)) buf' =
      take (br + sc_i st) (sc_buf st) ++ sc_c st :: line.
Proof.
  intros Hnl Hc Hline Hx Hhr Hcap y found nr' nl0 Hn Hn'.
  destruct line as [|y0 l]; cbn [app length hd] in *.
  - rewrite scan_cons, scan_continues_intro by (assumption || lia).
    unfold scan_body. rewrite buf_set_ok by lia. cbn [bind].
    rewrite Hnl, Hx. fold (seq_start x). rewrite andb_true_r.
    change (negb (sc_new_record st) && (sc_prev_line_start_c st =? ch_at)%Z &&
            seq_start x) with found.
    fold nr' nl0.
    exists (<[br + sc_i st := sc_c st]> (sc_buf st)), (sc_c st).
    replace (S (sc_i st)) with (sc_i st + 1) by lia.
    split; [reflexivity|]. split; [apply length_insert|].
    replace (br + sc_i st + 1) with (S (br + sc_i st)) by lia.
    apply take_insert_snoc. lia.
  - pose proof Hline as Hline'. apply Forall_cons in Hline' as [[Hy Hynl] _].
    rewrite scan_cons, scan_continues_intro by (assumption || lia).
    unfold scan_body. rewrite buf_set_ok by lia. cbn [bind].
    rewrite Hnl, Hynl. fold (seq_start y0). rewrite andb_true_r.
    change (negb (sc_new_record st) && (sc_prev_line_start_c st =? ch_at)%Z &&
            seq_start y0) with found.
    fold nr' nl0.
    match goal with |- context [scan hr br (l ++ x :: fp) ?st1] =>
      destruct (scan_line hr br l x fp st1) as (buf' & pc & Hs & Hl & Ht) end;
      cbn [sc_c sc_i sc_buf sc_new_record sc_newlines sc_prev_line_start_c];
      try assumption; try (rewrite ?length_insert; lia).
    cbn [sc_c sc_i sc_buf sc_new_record sc_newlines sc_prev_line_start_c] in *.
    rewrite Hx in Hs. exists buf', pc. rewrite Hs.
    replace (S (sc_i st) + S (length l)) with (sc_i st + S (S (length l))) by lia.
    split; [reflexivity|]. rewrite length_insert in Hl. split; [exact Hl|].
    replace (br + sc_i st + S (S (length l))) with (br + S (sc_i st) + S (length l)) by lia.
    rewrite Ht. replace (br + S (sc_i st)) with (S (br + sc_i st)) by lia.
    rewrite take_insert_snoc by lia. now rewrite <- app_assoc.
Qed.

Lemma scan_stop (hr br : nat) (fp : list Z) (st : scan_state) :
  sc_new_record st = true -> sc_newlines st = 4%Z ->
  scan hr br fp st = Ok (st, fp).
Proof.
  intros Hn Hl.
  assert (Hc : scan_continues hr st = false).
  { unfold scan_continues. rewrite Hn, Hl. cbn. apply andb_false_r. }
  destruct fp; cbn [scan]; now rewrite Hc.
Qed.

(** From the newline before a record to the last newline of the record:
    the header and the sequence line that follows it start the count of
    newlines, and the loop stops at the fourth. *)
Lemma scan_record (hr br : nat) (name seq plus qual more : list Z) (s0 : Z)
    (st : scan_state) :
  sc_c st = ch_LF -> sc_new_record st = false ->
  text_line name -> text_line (s0 :: seq) -> seq_start s0 = true ->
  text_line plus -> text_line qual ->
  let record := fastq_record name (s0 :: seq) plus qual in
  sc_i st + length record <= hr ->
  br + sc_i st + length record <= length (sc_buf st) ->
  exists buf' pc pls,
    scan hr br (record ++ more) st =
      Ok (mkScan ch_LF (sc_i st + length record) pls pc true 4%Z buf', more) /\
    length buf' = length (sc_buf st) /\
    take (br + sc_i st + length record) buf' =
      take (br + sc_i st) (sc_buf st) ++ ch_LF :: record_body name (s0 :: seq) plus qual.
Proof.
  intros Hc Hnr Hname Hseq Hs0 Hplus Hqual record Hhr Hcap.
  assert (Hlen : length record =
                 S (S (length name)) + S (S (length seq)) + S (S (length plus)) +
                 S (length qual)).
  { unfold record, fastq_record, record_body. cbn [length].
    repeat (rewrite length_app; cbn [length]). lia. }
  assert (Hat : text_line (ch_at :: name)).
  { apply Forall_cons. split; [split; [unfold ch_at; lia | reflexivity] | exact Hname]. }
  assert (Hpl : text_line (ch_plus :: plus)).
  { apply Forall_cons. split; [split; [unfold ch_plus; lia | reflexivity] | exact Hplus]. }
  (* the header line *)
  destruct (scan_nl_line hr br (ch_at :: name) ch_LF
              ((s0 :: seq) ++ ch_LF :: (ch_plus :: plus) ++ ch_LF :: qual ++ ch_LF :: more) st)
    as (b1 & pc1 & H1 & Hl1 & Ht1);
    [ now rewrite Hc | rewrite Hc; unfold ch_LF; lia | exact Hat | reflexivity
    | cbn [length]; lia | cbn [length]; lia | now left
    | cbn [hd]; change (seq_start ch_at) with false; rewrite andb_false_r; now left | ].
  cbn [hd length] in H1, Ht1. change (seq_start ch_at) with false in H1.
  rewrite andb_false_r, Hnr in H1.
  (* the sequence line: the record is recognised *)
  match type of H1 with _ = scan _ _ _ ?st1 =>
    destruct (scan_nl_line hr br (s0 :: seq) ch_LF
                ((ch_plus :: plus) ++ ch_LF :: qual ++ ch_LF :: more) st1)
      as (b2 & pc2 & H2 & Hl2 & Ht2) end;
    cbn [sc_c sc_i sc_buf sc_new_record sc_newlines sc_prev_line_start_c hd length];
    [ reflexivity | unfold ch_LF; lia | exact Hseq | reflexivity
    | lia | rewrite Hl1; lia | now left
    | rewrite Hs0; right; cbn; lia | ].
  cbn [sc_c sc_i sc_buf sc_new_record sc_newlines sc_prev_line_start_c hd length]
    in H2, Hl2, Ht2.
  rewrite Hs0 in H2. change (negb false && (ch_at =? ch_at)%Z && true) with true in H2.
  cbn iota in H2.
  (* the '+' line *)
  match type of H2 with _ = scan _ _ _ ?st2 =>
    destruct (scan_nl_line hr br (ch_plus :: plus) ch_LF (qual ++ ch_LF :: more) st2)
      as (b3 & pc3 & H3 & Hl3 & Ht3) end;
    cbn [sc_c sc_i sc_buf sc_new_record sc_newlines sc_prev_line_start_c hd length
         negb andb];
    [ reflexivity | unfold ch_LF; lia | exact Hpl | reflexivity
    | lia | rewrite Hl2, Hl1; lia | right; lia | right; lia | ].
  cbn [sc_c sc_i sc_buf sc_new_record sc_newlines sc_prev_line_start_c hd length negb andb]
    in H3, Hl3, Ht3.
  (* the quality line *)
  match type of H3 with _ = scan _ _ _ ?st3 =>
    destruct (scan_nl_line hr br qual ch_LF more st3)
      as (b4 & pc4 & H4 & Hl4 & Ht4) end;
    cbn [sc_c sc_i sc_buf sc_new_record sc_newlines sc_prev_line_start_c hd length
         negb andb];
    [ reflexivity | unfold ch_LF; lia | exact Hqual | reflexivity
    | lia | rewrite Hl3, Hl2, Hl1; lia | right; lia | right; lia | ].
  cbn [sc_c sc_i sc_buf sc_new_record sc_newlines sc_prev_line_start_c hd length negb andb]
    in H4, Hl4, Ht4.
  exists b4, pc4, (hd ch_LF qual).
  split.
  { rewrite Hlen. unfold record, fastq_record, record_body.
    do 4 (try rewrite <- !app_assoc; cbn [app]).
    cbn [app] in H1, H2, H3.
    rewrite H1, H2, H3, H4.
    rewrite scan_stop by reflexivity. f_equal. f_equal. f_equal. lia. }
  split; [now rewrite Hl4, Hl3, Hl2, Hl1|].
  replace (br + sc_i st + length record) with
    (br + (sc_i st + S (S (length name)) + S (S (length seq)) + S (S (length plus))) +
     S (length qual)) by lia.
  rewrite Ht4.
  replace (br + (sc_i st + S (S (length name)) + S (S (length seq)) + S (S (length plus))))
    with (br + (sc_i st + S (S (length name)) + S (S (length seq))) + S (S (length plus)))
    by lia.
  rewrite Ht3.
  replace (br + (sc_i st + S (S (length name)) + S (S (length seq))))
    with (br + (sc_i st + S (S (length name))) + S (S (length seq))) by lia.
  rewrite Ht2.
  replace (br + (sc_i st + S (S (length name)))) with (br + sc_i st + S (S (length name)))
    by lia.
  rewrite Ht1, Hc. unfold record_body.
  do 6 (try rewrite <- !app_assoc; cbn [app]). reflexivity.
Qed.

Lemma raw_buf_set (b : bool) (len : nat) (v : list Z) (pt : PerThreadReadBuf) :
  raw_buf b (set_raw_buf_length b len (set_raw_buf b v pt)) = v /\
  raw_buf_length b (set_raw_buf_length b len (set_raw_buf b v pt)) = len.
Proof. destruct b; split; reflexivity. Qed.

Lemma lines_text_cons (l : list Z) (ls : list (list Z)) :
  lines_text (l :: ls) = l ++ ch_LF :: lines_text ls.
Proof. unfold lines_text. rewrite fmap_cons. cbn [concat]. now rewrite <- app_assoc. Qed.

(** The rest of a record holds no line that looks like the start of one. *)
Lemma record_rest_quiet (lines : list (list Z)) :
  record_rest lines -> Forall text_line lines /\ no_record_start (-1) lines.
Proof.
  assert (Hpl : forall plus, text_line plus -> text_line (ch_plus :: plus)).
  { intros plus Hplus. apply Forall_cons.
    split; [split; [unfold ch_plus; lia | reflexivity] | exact Hplus]. }
  intros [seq plus qual Hseq Hplus Hqual | plus qual Hplus Hqual | qual Hqual | ];
    cbn [no_record_start hd];
    (split;
     [repeat (apply Forall_cons; split; [first [assumption | now apply Hpl] |]);
      constructor |]).
  - change (seq_start ch_plus) with false. rewrite andb_false_r.
    repeat split; reflexivity.
  - repeat split; reflexivity.
  - repeat split; reflexivity.
  - exact I.
Qed.

(** From the bytes that follow the filled part to the line feed that ends
    the current line. *)
Lemma scan_rest (hr br : nat) (rest fp buf1 : list Z) :
  text_line rest -> length rest < hr -> br + length rest < length buf1 ->
  exists buf2 pc nl,
    (let '(c, fp') := getc (rest ++ ch_LF :: fp) in
     scan hr br fp' (mkScan c 0 (-1)%Z (-1)%Z false 0%Z buf1)) =
    scan hr br fp (mkScan ch_LF (length rest) (-1)%Z pc false nl buf2) /\
    length buf2 = length buf1 /\
    take (br + length rest) buf2 = take br buf1 ++ rest.
Proof.
  intros Hrest Hhr Hcap. destruct rest as [|r0 rest'].
  - cbn [app getc length]. exists buf1, (-1)%Z, 0%Z.
    rewrite Nat.add_0_r, app_nil_r. auto.
  - cbn [app getc length] in *.
    destruct (scan_line hr br rest' ch_LF fp (mkScan r0 0 (-1)%Z (-1)%Z false 0%Z buf1))
      as (buf2 & pc2 & Hs2 & Hl2 & Ht2);
      cbn [sc_c sc_i sc_buf sc_new_record sc_newlines]; try assumption;
      [lia | lia | now left |].
    cbn [sc_c sc_i sc_buf sc_new_record sc_newlines sc_prev_line_start_c Nat.add]
      in Hs2, Hl2, Ht2.
    change (is_newline ch_LF) with true in Hs2. cbn iota in Hs2.
    exists buf2, pc2, (0 + 1)%Z. split; [exact Hs2|]. split; [exact Hl2|].
    rewrite Nat.add_0_r in Ht2. exact Ht2.
Qed.

(** Lines that hold no start of a record are stored one after the other;
    the line feed of the last one is the byte read last. *)
Lemma scan_lines (hr br : nat) (lines : list (list Z)) (fp : list Z) :
  Forall text_line lines ->
  forall st : scan_state,
    sc_c st = ch_LF -> sc_new_record st = false ->
    no_record_start (sc_prev_line_start_c st) lines ->
    sc_i st + length (lines_text lines) < hr ->
    br + sc_i st + length (lines_text lines) < length (sc_buf st) ->
    exists buf' pc pls nl,
      scan hr br (lines_text lines ++ fp) st =
      scan hr br fp
        (mkScan ch_LF (sc_i st + length (lines_text lines)) pls pc false nl buf') /\
      length buf' = length (sc_buf st) /\
      take (br + sc_i st + length (lines_text lines)) buf' ++ [ch_LF] =
        take (br + sc_i st) (sc_buf st) ++ ch_LF :: lines_text lines.
Proof.
  induction 1 as [|l ls Hl _ IH]; intros st Hc Hnr Hq Hhr Hcap.
  - cbn [lines_text fmap list_fmap concat app length] in *.
    exists (sc_buf st), (sc_prev_c st), (sc_prev_line_start_c st), (sc_newlines st).
    rewrite !Nat.add_0_r. split; [|split; reflexivity].
    destruct st. cbn in *. now subst.
  - rewrite lines_text_cons in *. rewrite length_app in Hhr, Hcap. cbn [length] in Hhr, Hcap.
    destruct Hq as [Hfound Hq]. rewrite <- app_assoc. cbn [app].
    destruct (scan_nl_line hr br l ch_LF (lines_text ls ++ fp) st)
      as (b1 & pc1 & H1 & Hl1 & Ht1);
      [ now rewrite Hc | rewrite Hc; unfold ch_LF; lia | exact Hl | reflexivity
      | lia | lia | now left
      | left; rewrite Hnr; cbn [negb andb]; now rewrite Hfound | ].
    rewrite Hnr in H1. cbn [negb andb] in H1. rewrite Hfound in H1.
    match type of H1 with _ = scan _ _ _ ?st1 =>
      destruct (IH st1) as (buf' & pc & pls & nl & Hs & Hlen & Ht) end;
      cbn [sc_c sc_i sc_buf sc_new_record sc_prev_line_start_c];
      try reflexivity; try assumption; try (rewrite ?Hl1; lia).
    cbn [sc_c sc_i sc_buf sc_new_record sc_prev_line_start_c] in Hs, Hlen, Ht.
    exists buf', pc, pls, nl. rewrite H1, Hs.
    rewrite length_app. cbn [length].
    replace (sc_i st + (length l + S (length (lines_text ls))))
      with (sc_i st + S (length l) + length (lines_text ls)) by lia.
    split; [reflexivity|]. split; [now rewrite Hlen|].
    replace (br + sc_i st + (length l + S (length (lines_text ls))))
      with (br + (sc_i st + S (length l)) + length (lines_text ls)) by lia.
    rewrite Ht.
    replace (br + (sc_i st + S (length l))) with (br + sc_i st + S (length l)) by lia.
    rewrite Ht1, Hc, <- !app_assoc. reflexivity.
Qed.

(** From the byte that follows the filled part to the last line feed of
    the record in which the buffer is full. *)
Lemma scan_cut_record (hr br : nat) (rest : list Z) (lines : list (list Z))
    (fp buf1 : list Z) :
  text_line rest -> record_rest lines ->
  length rest + length (lines_text lines) < hr ->
  br + (length rest + length (lines_text lines)) < length buf1 ->
  exists buf3 pc pls nl,
    (let '(c, fp') := getc (rest ++ ch_LF :: lines_text lines ++ fp) in
     scan hr br fp' (mkScan c 0 (-1)%Z (-1)%Z false 0%Z buf1)) =
    scan hr br fp
      (mkScan ch_LF (length rest + length (lines_text lines)) pls pc false nl buf3) /\
    length buf3 = length buf1 /\
    take (br + (length rest + length (lines_text lines))) buf3 ++ [ch_LF] =
      take br buf1 ++ rest ++ ch_LF :: lines_text lines.
Proof.
  intros Hrest Hlines Hhr Hcap.
  destruct (record_rest_quiet lines Hlines) as [Htext Hquiet].
  set (lt := lines_text lines) in *.
  destruct (scan_rest hr br rest (lt ++ fp) buf1)
    as (buf2 & pc2 & nl2 & Hs2 & Hl2 & Ht2); [assumption | lia | lia |].
  rewrite Hs2.
  match goal with |- context [scan _ _ _ ?st2] =>
    destruct (scan_lines hr br lines fp Htext st2)
      as (buf3 & pc3 & pls3 & nl3 & Hs3 & Hl3 & Ht3) end;
    cbn [sc_c sc_i sc_buf sc_new_record sc_prev_line_start_c]; fold lt;
    try reflexivity; try assumption; try lia.
  cbn [sc_c sc_i sc_buf sc_new_record sc_prev_line_start_c] in Hs3, Hl3, Ht3.
  fold lt in Hs3, Ht3.
  exists buf3, pc3, pls3, nl3. split; [exact Hs3|]. split; [congruence|].
  replace (br + (length rest + length lt)) with (br + length rest + length lt) by lia.
  rewrite Ht3, Ht2, <- !app_assoc. reflexivity.
Qed.

(** At the end of the input the loop stores the line feed read last and
    stops. *)
Lemma scan_end (hr br i : nat) (pls pc nl : Z) (buf : list Z) :
  i < hr -> br + i < length buf ->
  exists pls' nl',
    scan hr br [] (mkScan ch_LF i pls pc false nl buf) =
    Ok (mkScan EOF (S i) pls' ch_LF false nl' (<[br + i := ch_LF]> buf), []).
Proof.
  intros Hhr Hcap. cbn [scan]. unfold scan_continues.
  cbn [sc_c sc_i sc_new_record sc_newlines negb orb].
  destruct (Z.leb_spec 0 ch_LF) as [_|Hneg]; [|unfold ch_LF in Hneg; lia].
  destruct (Nat.ltb_spec i hr) as [_|]; [|lia]. cbn [andb].
  unfold scan_body. cbn [sc_c sc_i sc_buf sc_new_record sc_newlines sc_prev_line_start_c].
  rewrite buf_set_ok by lia. cbn [bind].
  change ((65 <=? EOF)%Z || (EOF =? ch_star)%Z || (EOF =? ch_dash)%Z) with false.
  rewrite andb_false_r. change (is_newline EOF) with false.
  change (is_newline ch_LF) with true. cbn iota.
  now exists EOF, nl.
Qed.

(** Once the buffer holds [filled], of the target size, the finishing
    branch reads the rest of the record and then one more record or up to
    the end of the input, when the head-room has room for these bytes. *)
Lemma finishRecord_boundary (pt : PerThreadReadBuf) (s : CFilePatternSource)
    (batch_a : bool) (filled rest : list Z) (lines : list (list Z)) (e : ending)
    (buf1 : list Z) :
  let tail := rest ++ ch_LF :: lines_text lines ++ read_on e in
  length filled = max_raw_buf_ pt ->
  take (length filled) buf1 = filled ->
  text_line rest -> record_rest lines -> ending_ok e ->
  length tail <= max_raw_buf_overrun_ pt ->
  length filled + length tail <= length buf1 ->
  exists pt',
    FastqPatternSource_finishRecord pt batch_a s (length filled)
        (tail ++ left_unread e) buf1 =
      Ok (set_stream (is_open_ s) (left_unread e) s, pt',
          (at_end e, to_int (Z.of_nat (raw_buf_length batch_a pt')))) /\
    raw_buf_length batch_a pt' =
      length filled + length tail + (if at_end e then 1 else 0) /\
    take (length filled + length tail) (raw_buf batch_a pt') = filled ++ tail.
Proof.
  intros tail Hfilled Ht1 Hrest Hlines He Hroom Hcap.
  set (lt := lines_text lines) in *.
  assert (Htail : length tail = length rest + S (length lt + length (read_on e))).
  { unfold tail. rewrite length_app. cbn [length]. rewrite length_app. reflexivity. }
  set (m := length rest + length lt).
  unfold FastqPatternSource_finishRecord. rewrite <- Hfilled, Nat.sub_diag. cbn [Nat.add].
  destruct (scan_cut_record (max_raw_buf_overrun_ pt) (length filled) rest lines
              (read_on e ++ left_unread e) buf1)
    as (buf3 & pc3 & pls3 & nl3 & Hs3 & Hl3 & Ht3); fold lt;
    [assumption | assumption | lia | lia |].
  fold lt m in Hs3, Ht3. rewrite Ht1 in Ht3.
  remember (length tail) as n eqn:Hn. clear Hn. rename Htail into Hn.
  unfold tail. rewrite <- !app_assoc. cbn [app]. rewrite <- !app_assoc. fold lt.
  unfold lt in Hs3 at 1. fold lt in Hs3.
  destruct (getc (rest ++ ch_LF :: lt ++ read_on e ++ left_unread e)) as [c fp].
  rewrite Hs3. clear Hs3.
  destruct e as [name s0 seq plus qual more|];
    cbn [read_on left_unread at_end ending_ok] in *.
  - destruct He as (Hname & Hseq & Hs0 & Hplus & Hqual).
    set (record := fastq_record name (s0 :: seq) plus qual) in *.
    assert (Hrec : 0 < length record).
    { unfold record, fastq_record. rewrite length_app. cbn [length]. lia. }
    destruct (scan_record (max_raw_buf_overrun_ pt) (length filled) name seq plus qual
                more s0 (mkScan ch_LF m pls3 pc3 false nl3 buf3))
      as (buf' & pc & pls & Hs & Hl & Ht);
      cbn [sc_c sc_i sc_buf sc_new_record]; try reflexivity; try assumption;
      [fold record; lia | fold record; lia |].
    cbn [sc_c sc_i sc_buf sc_new_record] in Hs, Hl, Ht. fold record in Hs, Ht.
    rewrite Hs. cbn [bind sc_c sc_i sc_buf].
    destruct (Z.leb_spec 0 ch_LF) as [_|Hneg]; [|unfold ch_LF in Hneg; lia].
    destruct (Nat.ltb_spec (m + length record) (max_raw_buf_overrun_ pt)) as [_|]; [|lia].
    cbn [andb]. rewrite buf_set_ok by lia. cbn [bind].
    destruct (Nat.ltb_spec 0 (m + length record)) as [_|]; [|lia].
    destruct (raw_buf_set batch_a (length filled + (m + length record) + 1)
                (<[length filled + (m + length record) := ch_LF]> buf') pt)
      as [Hbuf' Hlen'].
    eexists. split; [|split].
    + change (ch_LF <? 0)%Z with false. rewrite Hlen'. reflexivity.
    + rewrite Hlen'. lia.
    + rewrite Hbuf'.
      replace (length filled + n) with (S (length filled + (m + length record))) by lia.
      rewrite take_insert_snoc by lia.
      replace (length filled + (m + length record))
        with (length filled + m + length record) by lia.
      rewrite Ht.
      change (take (length filled + m) buf3 ++
              ch_LF :: record_body name (s0 :: seq) plus qual)
        with (take (length filled + m) buf3 ++
              [ch_LF] ++ record_body name (s0 :: seq) plus qual).
      rewrite app_assoc, Ht3. unfold record, fastq_record.
      rewrite <- !app_assoc. cbn [app]. rewrite <- ?app_assoc. reflexivity.
  - cbn [length] in Hn. rewrite Nat.add_0_r in Hn. cbn [app].
    destruct (scan_end (max_raw_buf_overrun_ pt) (length filled) m pls3 pc3 nl3 buf3)
      as (pls & nl & Hs); [lia | lia |].
    rewrite Hs. cbn [bind sc_c sc_i sc_buf].
    change (0 <=? EOF)%Z with false. cbn [andb bind].
    change (0 <? S m) with true. cbn iota.
    destruct (raw_buf_set batch_a (length filled + S m + 1)
                (<[length filled + m := ch_LF]> buf3) pt)
      as [Hbuf' Hlen'].
    eexists. split; [|split].
    + change (EOF <? 0)%Z with true. rewrite Hlen'. reflexivity.
    + rewrite Hlen'. lia.
    + rewrite Hbuf'.
      replace (length filled + n) with (S (length filled + m)) by lia.
      rewrite take_insert_snoc by lia. rewrite Ht3. now rewrite app_nil_r.
Qed.

Lemma skip_newlines_prefix (nls : list Z) (c : Z) (fp : list Z) :
  Forall (fun c => is_newline c = true) nls -> is_newline c = false ->
  skip_newlines (nls ++ c :: fp) = (c, fp).
Proof.
  intros Hnls Hc. induction Hnls as [|x nls Hx _ IH]; cbn [app skip_newlines].
  - now rewrite Hc.
  - now rewrite Hx.
Qed.

(** C6 (as amended).  The lines of the input are ended by line feeds.  The
    stream fills the buffer to exactly its target size, in any of the four
    lines of a record, and continues with the rest of that line and the
    lines of the record that follow it.  After the record comes one more
    complete record (header line starting with '@', sequence line starting
    with a letter, '*' or '-', '+' line, quality line) and anything after
    that, or the input ends.  If the head-room has room for the rest of the
    record and for the record that follows, the light parser reads exactly
    up to the last line feed of the record that follows: the buffer handed
    to the worker is the filled part followed by these bytes, it ends at a
    record boundary, the stream continues right after it, and the source is
    not done.  If the input ends with the record and the head-room has room
    for its rest, the buffer holds the input to its end and the source is
    done; the length that is reported then counts one byte more than was
    read. *)
Theorem fastq_reads_on_to_boundary (pt : PerThreadReadBuf) (s : CFilePatternSource)
    (batch_a : bool) (filled rest : list Z) (lines : list (list Z)) (e : ending) :
  let tail := rest ++ ch_LF :: lines_text lines ++ read_on e in
  batch_input s filled (tail ++ left_unread e) ->
  length filled = max_raw_buf_ pt -> 0 < max_raw_buf_ pt ->
  text_line rest -> record_rest lines -> ending_ok e ->
  length tail <= max_raw_buf_overrun_ pt ->
  max_raw_buf_ pt + length tail <= length (raw_buf batch_a pt) ->
  exists s' pt',
    FastqPatternSource_nextBatchFromFile pt batch_a s =
      Ok (s', pt', (at_end e, to_int (Z.of_nat (raw_buf_length batch_a pt')))) /\
    raw_buf_length batch_a pt' =
      max_raw_buf_ pt + length tail + (if at_end e then 1 else 0) /\
    take (max_raw_buf_ pt + length tail) (raw_buf batch_a pt') = filled ++ tail /\
    fp_ s' = left_unread e.
Proof.
  intros tail Hin Hfilled Hmax Hrest Hlines He Hroom Hcap.
  unfold FastqPatternSource_nextBatchFromFile.
  set (pt1 := set_use_byte_buffer true pt).
  assert (Hbuf : raw_buf batch_a pt1 = raw_buf batch_a pt) by now destruct batch_a.
  rewrite Hbuf. change (max_raw_buf_ pt1) with (max_raw_buf_ pt).
  unfold batch_input in Hin. rewrite <- Hfilled in Hcap. rewrite <- Hfilled.
  destruct (first_ s) eqn:Hfirst.
  - destruct Hin as (nls & filled' & Hnls & -> & Hfp).
    rewrite Hfp. cbn [app]. rewrite skip_newlines_prefix by (assumption || reflexivity).
    change (negb (ch_at =? ch_at)%Z) with false. cbn iota.
    cbn [length] in *. rewrite buf_set_ok by lia. cbn [bind].
    replace (S (length filled') - 1) with (length filled') by lia.
    destruct (fill_exact filled' 1 (tail ++ left_unread e)
                (<[0 := ch_at]> (raw_buf batch_a pt)))
      as (buf1 & Hfill & Hl1 & Ht1); [rewrite length_insert; lia|].
    rewrite Hfill. cbn [bind Nat.add]. cbn [Nat.add] in Ht1.
    rewrite (take_insert_snoc _ 0) in Ht1 by lia. rewrite take_0 in Ht1. cbn [app] in Ht1.
    cbn [Nat.eqb]. rewrite length_insert in Hl1.
    destruct (finishRecord_boundary pt1 (set_first false s) batch_a (ch_at :: filled')
                rest lines e buf1)
      as (pt' & Hfin & Hlen & Htake); try assumption;
      try (cbn [length]; fold tail; lia); try (cbn [length]; exact Ht1).
    cbn [length] in Hfin, Hlen, Htake. fold tail in Hfin, Hlen, Htake.
    eexists _, pt'. rewrite Hfin. split; [reflexivity|]. split; [exact Hlen|].
    split; [exact Htake | reflexivity].
  - rewrite Hin. cbn [bind]. rewrite Nat.sub_0_r.
    destruct (fill_exact filled 0 (tail ++ left_unread e) (raw_buf batch_a pt))
      as (buf1 & Hfill & Hl1 & Ht1); [lia|].
    rewrite Hfill. cbn [bind Nat.add]. rewrite take_0 in Ht1. cbn [app Nat.add] in Ht1.
    destruct (Nat.eqb_spec (length filled) 0) as [|_]; [lia|].
    destruct (finishRecord_boundary pt1 s batch_a filled rest lines e buf1)
      as (pt' & Hfin & Hlen & Htake); try assumption;
      try (fold tail; lia).
    fold tail in Hfin, Hlen, Htake.
    eexists _, pt'. rewrite Hfin. split; [reflexivity|]. split; [exact Hlen|].
    split; [exact Htake | reflexivity].
Qed.

Ltac concrete_line :=
  unfold text_line; cbn;
  repeat (constructor; [split; [lia | reflexivity] |]); constructor.

(** [reads.fq] read with target size 18 and head-room 40: the buffer is
    full in the header line of r2, after "@r"; the parser reads the rest of
    r2 and all of r3 and stops at the last line feed of r3. *)
Lemma fastq_reads_on_to_boundary_witness :
  let filled := bytes_of (fq_record "r1" "ACGT" "IIII" ++ "@r")%string in
  let tail := bytes_of ("2" ++ OutQ.LF ++ "GGCC" ++ OutQ.LF ++ "+" ++ OutQ.LF ++ "JJJJ" ++
                        OutQ.LF ++ fq_record "r3" "TTAA" "KKKK")%string in
  exists s' pt',
    FastqPatternSource_nextBatchFromFile (demo_pt 18 40) true (reading ["reads.fq"]) =
      Ok (s', pt', (false, to_int (Z.of_nat (raw_buf_length true pt')))) /\
    raw_buf_length true pt' = 18 + length tail + 0 /\
    take (18 + length tail) (raw_buf true pt') = filled ++ tail /\
    fp_ s' = [].
Proof.
  intros filled tail.
  apply (fastq_reads_on_to_boundary (demo_pt 18 40) (reading ["reads.fq"]) true
           filled (bytes_of "2") [bytes_of "GGCC"; [ch_plus]; bytes_of "JJJJ"]
           (NextRecord (bytes_of "r3") 84%Z (bytes_of "TAA") [] (bytes_of "KKKK") [])).
  - exists [], (bytes_of ("r1" ++ OutQ.LF ++ "ACGT" ++ OutQ.LF ++ "+" ++ OutQ.LF ++ "IIII" ++
                          OutQ.LF ++ "@r")%string).
    split; [constructor|]. split; reflexivity.
  - reflexivity.
  - cbn. lia.
  - concrete_line.
  - apply (after_header (bytes_of "GGCC") [] (bytes_of "JJJJ")); concrete_line.
  - split; [concrete_line|]. split; [concrete_line|]. split; [reflexivity|].
    split; concrete_line.
  - cbn. lia.
  - cbn. lia.
Defined.

(** The end of the input.  [reads.fq] read with target size 40 and
    head-room 40: the buffer is full in the quality line of r3, the last
    record; the parser reads to the end of the input, 48 bytes, and reports
    the length 49. *)
Example fastq_last_record_to_end :
  exists s' pt',
    FastqPatternSource_nextBatchFromFile (demo_pt 40 40) true (reading ["reads.fq"]) =
      Ok (s', pt', (true, 49%Z)) /\
    raw_buf_length true pt' = 49 /\
    take 48 (raw_buf true pt') = reads_fq /\
    fp_ s' = [].
Proof.
  do 2 eexists. repeat (split; [vm_compute; reflexivity |]). vm_compute; reflexivity.
Qed.

(** A sequence line that starts with '.'.  The three reads of [reads.fq],
    the second with the sequence ".GCC", read with target size 12 and
    head-room 30: the head-room has room for the rest of r1 and all of r2,
    20 bytes, but the sequence line of r2 does not start as the check for a
    new record expects; the record that is seen is r3, for which the
    head-room has no room, and the buffer ends after the '+' of r3. *)
Example fastq_dot_sequence_not_seen :
  exists s1 pt1,
    FastqPatternSource_nextBatchFromFile (demo_pt 12 30) true
        (mate_file (fq_record "r1" "ACGT" "IIII" ++ fq_record "r2" ".GCC" "JJJJ" ++
                    fq_record "r3" "TTAA" "KKKK")) =
      Ok (s1, pt1, (false, 43%Z)) /\
    take (raw_bufa_length pt1) (raw_bufa_ pt1) =
      bytes_of (fq_record "r1" "ACGT" "IIII" ++ fq_record "r2" ".GCC" "JJJJ" ++
                "@r3" ++ OutQ.LF ++ "TTAA" ++ OutQ.LF ++ "+")%string.
Proof.
  do 2 eexists. split; vm_compute; reflexivity.
Qed.

(** Lines ended by carriage return and line feed.  The three reads of
    [reads.fq] with such line ends, 20 bytes each, read with target size 12
    and head-room 30: the head-room has room for the rest of r1 and all of
    r2, 28 bytes, and with line feeds only the buffer ends after r2.  Here
    the byte that [prev_line_start_c] gets after a carriage return is the
    line feed, no header line is seen, the loop runs until the head-room is
    used up, and the buffer ends after "@r" of r3. *)
Example fastq_crlf_cut_mid_record :
  (exists s1 pt1,
     FastqPatternSource_nextBatchFromFile (demo_pt 12 30) true (mate_file reads_crlf) =
       Ok (s1, pt1, (false, 43%Z)) /\
     take (raw_bufa_length pt1) (raw_bufa_ pt1) =
       bytes_of (fq_record_crlf "r1" "ACGT" "IIII" ++ fq_record_crlf "r2" "GGCC" "JJJJ" ++
                 "@r")%string) /\
  (exists s1 pt1,
     FastqPatternSource_nextBatchFromFile (demo_pt 12 30) true (reading ["reads.fq"]) =
       Ok (s1, pt1, (false, 32%Z)) /\
     take (raw_bufa_length pt1) (raw_bufa_ pt1) =
       bytes_of (fq_record "r1" "ACGT" "IIII" ++ fq_record "r2" "GGCC" "JJJJ")%string).
Proof.
  split; do 2 eexists; (split; [vm_compute; reflexivity |]); vm_compute; reflexivity.
Qed.

(** ** Output files only grow *)

Lemma for_range_rel {St : Type} (R : St -> St -> Prop) (body : nat -> St -> outcome St) :
  (forall s, R s s) -> (forall a b c, R a b -> R b c -> R a c) ->
  (forall i s s', body i s = Ok s' -> R s s') ->
  forall n lo s s', for_range lo n body s = Ok s' -> R s s'.
Proof.
  intros Hrefl Htrans Hbody. induction n as [|n IH]; intros lo s s' H; simpl in H.
  - injection H as <-. apply Hrefl.
  - apply bind_Ok_inv in H as (s1 & H1 & H2). eauto.
Qed.

Lemma extends_refl (q : OutputQueue) : extends q q.
Proof.
  split; [reflexivity|]. intros k s H. exists ""%string. now rewrite append_nil_r.
Qed.

Lemma extends_trans (a b c : OutputQueue) : extends a b -> extends b c -> extends a c.
Proof.
  intros [L1 H1] [L2 H2]. split; [congruence|].
  intros k s Hk. destruct (H1 k s Hk) as (w1 & Hw1). destruct (H2 k _ Hw1) as (w2 & Hw2).
  exists (w1 ++ w2)%string. now rewrite <- append_assoc.
Qed.

Lemma same_ofhs_extends (q q' : OutputQueue) : ofhs_ q' = ofhs_ q -> extends q q'.
Proof. intros H. unfold extends. rewrite H. apply extends_refl. Qed.

Lemma writeString_extends (s : string) (i : nat) (q q' : OutputQueue) :
  writeString s i q = Ok q' -> extends q q'.
Proof.
  unfold writeString, arr_get, arr_set. intros H.
  destruct (ofhs_ q !! i) as [o|] eqn:Ho; [|discriminate]. cbn [bind] in H.
  destruct (i <? length (ofhs_ q)); [|discriminate]. cbn [bind] in H.
  injection H as <-. split; qsimpl.
  - apply length_insert.
  - intros k x Hk. destruct (decide (k = i)) as [->|Hne].
    + exists s. rewrite list_lookup_insert_eq by (eapply lookup_lt_Some; eauto). congruence.
    + exists ""%string. rewrite list_lookup_insert_ne by congruence. now rewrite append_nil_r.
Qed.

(** Splits the successful sequences of calls among the hypotheses into
    their steps. *)
Ltac binds :=
  repeat match goal with
  | H : bind ?m _ = Ok _ |- _ =>
      let a := fresh "a" in let Ha := fresh "Ha" in
      apply bind_Ok_inv in H as (a & Ha & H)
  | H : (if ?b then _ else _) = Ok _ |- _ => destruct b eqn:?
  | H : Fail _ = Ok _ |- _ => discriminate H
  | H : Ok _ = Ok _ |- _ => injection H as H; subst
  end.

Section Extends.

Variable NDEBUG : bool.
Variable NFLUSH_THRESH : nat.

Lemma clear_new_slots_ofhs (oldsz : nat) (q q' : OutputQueue) :
  clear_new_slots NDEBUG oldsz q = Ok q' -> ofhs_ q' = ofhs_ q.
Proof.
  unfold clear_new_slots.
  apply (for_range_rel (fun a b => ofhs_ b = ofhs_ a)); [reflexivity | congruence |].
  intros i s s' Hs. binds. reflexivity.
Qed.

Lemma beginReadImpl_ofhs (rdid : Z) (t : nat) (q q' : OutputQueue) :
  beginReadImpl NDEBUG rdid t q = Ok q' -> ofhs_ q' = ofhs_ q.
Proof.
  unfold beginReadImpl, beginReadImpl_on. intros H. binds; qsimpl; try reflexivity.
  match goal with H : clear_new_slots _ _ _ = Ok _ |- _ =>
    apply clear_new_slots_ofhs in H; exact H end.
Qed.

Lemma write_rows_extends (i outidx lo n : nat) (q q' : OutputQueue) :
  for_range lo n
    (fun j q => do row <- arr_get (perThreadBuf_ q) i;
                do s <- arr_get row j; writeString s outidx q) q = Ok q' ->
  extends q q'.
Proof.
  apply for_range_rel; [apply extends_refl | apply extends_trans |].
  intros j s1 s2 Hj. binds. eapply writeString_extends; eauto.
Qed.

Lemma write_lines_extends (lo n : nat) (q q' : OutputQueue) :
  for_range lo n
    (fun i q =>
       check assert_ NDEBUG (EList_get NDEBUG (started_ q) (Z.of_nat i));
       check assert_ NDEBUG (EList_get NDEBUG (finished_ q) (Z.of_nat i));
       do s <- EList_get NDEBUG (lines_ q) (Z.of_nat i);
       writeString s 0 q) q = Ok q' ->
  extends q q'.
Proof.
  apply for_range_rel; [apply extends_refl | apply extends_trans |].
  intros j s1 s2 Hj. binds. eapply writeString_extends; eauto.
Qed.

Lemma flushImpl_extends (force : bool) (q q' : OutputQueue) :
  flushImpl NDEBUG NFLUSH_THRESH force q = Ok q' -> extends q q'.
Proof.
  unfold flushImpl. intros H. destruct (negb (reorder_ q)).
  - revert H. apply for_range_rel; [apply extends_refl | apply extends_trans |].
    intros i s s' Hs. binds.
    match goal with H : for_range _ _ _ _ = Ok _ |- _ => apply write_rows_extends in H end.
    eapply extends_trans; [eassumption|]. apply same_ofhs_extends. reflexivity.
  - binds; [|apply extends_refl].
    match goal with H : for_range _ _ _ _ = Ok _ |- _ => apply write_lines_extends in H end.
    eapply extends_trans; [eassumption|]. apply same_ofhs_extends. reflexivity.
Qed.

Lemma finishReadImpl_extends (rec : string) (rdid : Z) (t : nat) (q q' : OutputQueue) :
  finishReadImpl NDEBUG NFLUSH_THRESH rec rdid t q = Ok q' -> extends q q'.
Proof.
  unfold finishReadImpl. intros H. destruct (reorder_ q).
  - binds. rewrite flush_is_flushImpl in H. apply flushImpl_extends in H.
    eapply extends_trans; [|exact H]. apply same_ofhs_extends. reflexivity.
  - binds; qsimpl.
    + match goal with H : for_range _ _ _ _ = Ok _ |- _ => apply write_rows_extends in H end.
      eapply extends_trans; [|apply same_ofhs_extends; reflexivity].
      eapply extends_trans; [|eassumption]. apply same_ofhs_extends. reflexivity.
    + apply same_ofhs_extends. reflexivity.
Qed.

Lemma step_extends (o : op) (q q' : OutputQueue) :
  step NDEBUG NFLUSH_THRESH o q = Ok q' -> extends q q'.
Proof.
  destruct o as [rdid t|rec rdid t|force]; simpl; intros H.
  - rewrite beginRead_is_Impl in H. apply same_ofhs_extends.
    eapply beginReadImpl_ofhs; eauto.
  - unfold finishRead in H. binds; eapply finishReadImpl_extends; eauto.
  - rewrite flush_is_flushImpl in H. eapply flushImpl_extends; eauto.
Qed.

End Extends.

(** X1. Whatever the calls and the mode of the queue, a run that does not
    fail only appends to the output files: each file keeps the bytes it had
    as a prefix, and no file is added or removed. *)
Theorem output_only_grows (NDEBUG : bool) (NFLUSH_THRESH : nat) (ops : list op)
    (q q' : OutputQueue) :
  run NDEBUG NFLUSH_THRESH ops q = Ok q' -> extends q q'.
Proof.
  revert q. induction ops as [|o ops IH]; intros q H; simpl in H.
  - injection H as <-. apply extends_refl.
  - apply bind_Ok_inv in H as (q1 & H1 & H2).
    eapply extends_trans; [eapply step_extends; eauto | eauto].
Qed.

(** ** Unordered output *)

Lemma arr_get_lookup {A : Type} (l : list A) (i : nat) (x : A) :
  l !! i = Some x -> arr_get l i = Ok x.
Proof. intros H. unfold arr_get. now rewrite H. Qed.

Lemma arr_set_lt {A : Type} (l : list A) (i : nat) (x : A) :
  i < length l -> arr_set l i x = Ok (<[i := x]> l).
Proof. intros H. unfold arr_set. destruct (Nat.ltb_spec i (length l)); [reflexivity | lia]. Qed.

(** The loop that writes the first [k] records of the buffer of thread
    [i] to output 0. *)
Lemma write_rows (i : nat) (row : list string) (q : OutputQueue) (k lo : nat)
    (o : list string) :
  perThreadBuf_ q !! i = Some row -> lo + k <= length row -> 0 < length o ->
  for_range lo k
    (fun j q => do row <- arr_get (perThreadBuf_ q) i;
                do s <- arr_get row j; writeString s 0 q)
    (set_ofhs o q)
  = Ok (set_ofhs (<[0 := (default "" (o !! 0) ++ cat_all (take k (drop lo row)))%string]> o) q).
Proof.
  intros Hrow. revert lo o. induction k as [|k IH]; intros lo o Hlen Ho; simpl.
  - rewrite append_nil_r. f_equal. f_equal. symmetry. apply list_insert_id.
    destruct o; simpl in *; [lia | reflexivity].
  - qsimpl. rewrite (arr_get_lookup _ _ _ Hrow). cbn [bind].
    destruct (lookup_lt_is_Some_2 row lo) as [s Hs]; [lia|].
    rewrite (arr_get_lookup _ _ _ Hs). cbn [bind].
    destruct o as [|o0 o]; simpl in Ho; [lia|].
    rewrite (writeString_ok s 0 (set_ofhs (o0 :: o) q) o0) by reflexivity.
    change (set_ofhs _ (set_ofhs (o0 :: o) q)) with (set_ofhs ((o0 ++ s)%string :: o) q).
    cbn [bind]. rewrite (IH (S lo) ((o0 ++ s)%string :: o)); simpl; try lia.
    rewrite (drop_S _ _ _ Hs). simpl. fold (cat_all (take k (drop (S lo) row))).
    now rewrite append_assoc.
Qed.

Section Unordered.

Variable NDEBUG : bool.
Variable NFLUSH_THRESH : nat.

(** What an unordered queue holds for a thread it was built for. *)
Lemma unordered_thread (t : nat) (q : OutputQueue) :
  unordered_ok q -> t < nthreads_ q ->
  exists c row fi fl st,
    perThreadCounter_ q !! t = Some c /\ perThreadBuf_ q !! t = Some row /\
    perThreadFinished_ q !! t = Some fi /\ perThreadFlushed_ q !! t = Some fl /\
    perThreadStarted_ q !! t = Some st /\
    (0 <= c <= perThreadBufSize_ q)%Z /\ length row = Z.to_nat (perThreadBufSize_ q).
Proof.
  intros (_ & _ & _ & _ & Hc & Hs & Hfi & Hfl & Hb & Hrows & Hcs) Ht.
  destruct (lookup_lt_is_Some_2 (perThreadCounter_ q) t) as [c Hc']; [lia|].
  destruct (lookup_lt_is_Some_2 (perThreadBuf_ q) t) as [row Hrow]; [lia|].
  destruct (lookup_lt_is_Some_2 (perThreadFinished_ q) t) as [fi Hfi']; [lia|].
  destruct (lookup_lt_is_Some_2 (perThreadFlushed_ q) t) as [fl Hfl']; [lia|].
  destruct (lookup_lt_is_Some_2 (perThreadStarted_ q) t) as [st Hst]; [lia|].
  exists c, row, fi, fl, st. repeat (split; [assumption|]). split.
  - eapply (proj1 (Forall_lookup _ _) Hcs); eauto.
  - eapply (proj1 (Forall_lookup _ _) Hrows); eauto.
Qed.

(** One round of the loop of [flushImpl] over the threads. *)
Lemma flush_thread (i : nat) (q : OutputQueue) :
  unordered_ok q -> i < nthreads_ q ->
  (do cnt <- arr_get (perThreadCounter_ q) i;
   do q <- for_range 0 (Z.to_nat cnt)
             (fun j q => do row <- arr_get (perThreadBuf_ q) i;
                         do s <- arr_get row j; writeString s 0 q) q;
   do fl <- arr_add (perThreadFlushed_ q) i cnt;
   do ctr <- arr_set (perThreadCounter_ q) i 0%Z;
   Ok (set_perThreadCounter ctr (set_perThreadFlushed fl q)))
  = Ok (thread_flushed i q).
Proof.
  intros Hok Hi.
  destruct (unordered_thread i q Hok Hi) as (c & row & fi & fl & st & Hc & Hrow & _ & Hfl & _ & Hcr & Hlen).
  destruct Hok as (_ & _ & Ho & _).
  rewrite (arr_get_lookup _ _ _ Hc). cbn [bind].
  pose proof (write_rows i row q (Z.to_nat c) 0 (ofhs_ q) Hrow) as Hw.
  replace (set_ofhs (ofhs_ q) q) with q in Hw by (now destruct q).
  rewrite Hw by lia. cbn [bind]. qsimpl.
  rewrite (arr_add_lookup _ _ _ _ Hfl). cbn [bind].
  rewrite arr_set_lt by (eapply lookup_lt_Some; eauto). cbn [bind].
  unfold thread_flushed, buffered, out. rewrite Hc, Hfl, Hrow, drop_0. reflexivity.
Qed.

Lemma thread_flushed_ok (i : nat) (q : OutputQueue) :
  unordered_ok q -> unordered_ok (thread_flushed i q).
Proof.
  intros (H1 & H2 & H3 & H4 & H5 & H6 & H7 & H8 & H9 & H10 & H11).
  unfold unordered_ok, thread_flushed; qsimpl. rewrite !length_insert.
  repeat (split; [assumption|]).
  apply Forall_insert; [assumption | lia].
Qed.


End Unordered.

Lemma for_range_inv {St : Type} (P : nat -> St -> Prop) (body : nat -> St -> outcome St)
    (n lo : nat) (s : St) :
  P lo s ->
  (forall i s, lo <= i < lo + n -> P i s -> exists s', body i s = Ok s' /\ P (S i) s') ->
  exists s', for_range lo n body s = Ok s' /\ P (lo + n) s'.
Proof.
  revert lo s. induction n as [|n IH]; intros lo s HP Hbody; simpl.
  - exists s. rewrite Nat.add_0_r. auto.
  - destruct (Hbody lo s) as (s1 & -> & HP1); [lia | assumption |]. cbn [bind].
    destruct (IH (S lo) s1 HP1) as (s' & Hs' & HP').
    + intros i s2 Hi. apply Hbody. lia.
    + exists s'. split; [assumption|]. now replace (lo + S n) with (S lo + n) by lia.
Qed.










Lemma thread_flushed_nthreads (i : nat) (q : OutputQueue) :
  nthreads_ (thread_flushed i q) = nthreads_ q.
Proof. reflexivity. Qed.

Section Unordered_Runs.

Variable NDEBUG : bool.
Variable NFLUSH_THRESH : nat.






End Unordered_Runs.


Lemma thread_flushed_balance (i : nat) (q : OutputQueue) :
  unordered_ok q -> tally_balance q -> tally_balance (thread_flushed i q).
Proof.
  intros Hok Hbal t fl c fi. unfold thread_flushed; qsimpl.
  destruct Hok as (_ & _ & _ & _ & Hlc & _ & _ & Hlf & _).
  destruct (decide (t = i)) as [->|Hne].
  - intros Hfl Hc Hfi.
    destruct (decide (i < nthreads_ q)) as [Hlt|Hge].
    + rewrite list_lookup_insert_eq in Hfl by lia.
      rewrite list_lookup_insert_eq in Hc by lia.
      injection Hfl as <-. injection Hc as <-.
      destruct (lookup_lt_is_Some_2 (perThreadFlushed_ q) i) as [fl0 Hfl0]; [lia|].
      destruct (lookup_lt_is_Some_2 (perThreadCounter_ q) i) as [c0 Hc0]; [lia|].
      rewrite Hfl0, Hc0. cbn [default from_option id].
      rewrite Z.add_0_r. eapply Hbal; eauto.
    + apply lookup_lt_Some in Hc. rewrite length_insert in Hc. lia.
  - rewrite !list_lookup_insert_ne by congruence. apply Hbal.
Qed.


Section Unordered_Tallies.

Variable NDEBUG : bool.
Variable NFLUSH_THRESH : nat.

Lemma flush_unordered_balance (force getLock : bool) (q : OutputQueue) :
  unordered_ok q -> tally_balance q ->
  exists q',
    flush NDEBUG NFLUSH_THRESH force getLock q = Ok q' /\
    unordered_ok q' /\ tally_balance q' /\ nthreads_ q' = nthreads_ q /\
    forall t, t < nthreads_ q -> perThreadCounter_ q' !! t = Some 0%Z.
Proof.
  intros Hok Hbal. rewrite flush_is_flushImpl. unfold flushImpl.
  destruct Hok as (Hre & Hok). rewrite Hre. cbn [negb].
  pose proof (conj Hre Hok : unordered_ok q) as Hok'.
  pose (P := fun (i : nat) (s : OutputQueue) =>
    unordered_ok s /\ tally_balance s /\ nthreads_ s = nthreads_ q /\
    forall t, t < i -> perThreadCounter_ s !! t = Some 0%Z).
  destruct (for_range_inv P
    (fun i q =>
       do cnt <- arr_get (perThreadCounter_ q) i;
       do q <- for_range 0 (Z.to_nat cnt)
                 (fun j q => do row <- arr_get (perThreadBuf_ q) i;
                             do s <- arr_get row j; writeString s 0 q) q;
       do fl <- arr_add (perThreadFlushed_ q) i cnt;
       do ctr <- arr_set (perThreadCounter_ q) i 0%Z;
       Ok (set_perThreadCounter ctr (set_perThreadFlushed fl q)))
    (nthreads_ q) 0 q) as (q' & Hq' & Hok1 & Hbal1 & Hn & Hzero).
  - split; [assumption|]. split; [assumption|]. split; [reflexivity | intros; lia].
  - intros i s Hi (Hok1 & Hbal1 & Hn1 & Hz1).
    exists (thread_flushed i s). split; [apply flush_thread; [assumption | lia]|].
    split; [now apply thread_flushed_ok|]. split; [now apply thread_flushed_balance|].
    split; [assumption|].
    intros t Ht. unfold thread_flushed; qsimpl.
    destruct (decide (t = i)) as [->|Hne].
    + apply list_lookup_insert_eq. destruct Hok1 as (_ & _ & _ & _ & -> & _). lia.
    + rewrite list_lookup_insert_ne by congruence. apply Hz1. lia.
  - exists q'. repeat (split; [assumption|]). exact Hzero.
Qed.


End Unordered_Tallies.


Lemma run_length_drop (l : list bool) : run_length (drop (run_length l) l) = 0.
Proof. induction l as [|[] l IH]; simpl; auto. Qed.

Lemma flushed_0 (q : OutputQueue) : is_TReadId (cur_ q) -> flushed 0 q = q.
Proof.
  intros Hcur. unfold flushed. rewrite !drop_0, take_0, Z.add_0_r, wrap64_small by exact Hcur.
  simpl cat_all. rewrite append_nil_r.
  replace (<[0:=(default 0%Z (perThreadFlushed_ q !! 0%nat) + 0)%Z]> (perThreadFlushed_ q))
    with (perThreadFlushed_ q).
  2:{ destruct (perThreadFlushed_ q) as [|x l]; [reflexivity|]. simpl. now rewrite Z.add_0_r. }
  replace (<[0:=out q]> (ofhs_ q)) with (ofhs_ q).
  2:{ unfold out. destruct (ofhs_ q) as [|x l]; reflexivity. }
  now destruct q.
Qed.

Lemma thread_flushed_id (i : nat) (q : OutputQueue) :
  perThreadCounter_ q !! i = Some 0%Z -> thread_flushed i q = q.
Proof.
  intros Hc. unfold thread_flushed, buffered. rewrite Hc. cbn [default from_option id Z.to_nat].
  rewrite take_0. simpl cat_all. rewrite append_nil_r, Z.add_0_r.
  rewrite (list_insert_id _ _ _ Hc).
  replace (<[i:=default 0%Z (perThreadFlushed_ q !! i)]> (perThreadFlushed_ q))
    with (perThreadFlushed_ q).
  2:{ destruct (perThreadFlushed_ q !! i) as [x|] eqn:Hx; cbn [default from_option id].
      - symmetry. now apply list_insert_id.
      - symmetry. apply list_insert_ge. now apply lookup_ge_None_1. }
  replace (<[0:=out q]> (ofhs_ q)) with (ofhs_ q).
  2:{ unfold out. destruct (ofhs_ q) as [|x l]; reflexivity. }
  now destruct q.
Qed.

(** X4. A forced flush leaves nothing to flush: on a well-formed queue, with
    or without reordering, it succeeds, and a flush that follows it
    directly (forced or not) writes nothing and returns the queue
    unchanged. *)
Theorem flush_after_forced_flush (NDEBUG : bool) (NFLUSH_THRESH : nat)
    (force getLock getLock' : bool) (q : OutputQueue) :
  (reorder_ q = true /\ flags_ok q /\ tallies_ok q) \/ (unordered_ok q /\ tally_balance q) ->
  exists q',
    flush NDEBUG NFLUSH_THRESH true getLock q = Ok q' /\
    flush NDEBUG NFLUSH_THRESH force getLock' q' = Ok q'.
Proof.
  intros [(Hre & Hfl & Htal)|(Hok & Hbal)].
  - pose proof (flags_checks NDEBUG q Hfl) as Hch.
    exists (after_flush NFLUSH_THRESH true q).
    split; [now apply flush_reorder|].
    rewrite flush_reorder.
    + f_equal. set (q1 := after_flush NFLUSH_THRESH true q).
      assert (Hq1 : q1 = flushed (run_length (finished_ q)) q) by reflexivity.
      assert (Hrl : run_length (finished_ q1) = 0)
        by (rewrite Hq1; unfold flushed; qsimpl; apply run_length_drop).
      unfold after_flush. rewrite Hrl.
      destruct (force || (NFLUSH_THRESH <=? 0)); [|reflexivity].
      apply flushed_0. rewrite Hq1. unfold flushed; qsimpl. apply wrap64_range.
    + now rewrite after_flush_reorder.
    + now apply after_flush_checks.
    + now apply after_flush_tallies.
  - destruct (flush_unordered_balance NDEBUG NFLUSH_THRESH true getLock q Hok Hbal)
      as (q' & Hq' & Hok' & Hbal' & Hn & Hzero).
    exists q'. split; [assumption|].
    rewrite flush_is_flushImpl. unfold flushImpl.
    pose proof (proj1 Hok') as Hre. rewrite Hre. cbn [negb].
    pose (P := fun (i : nat) (s : OutputQueue) => s = q').
    destruct (for_range_inv P
      (fun i q =>
         do cnt <- arr_get (perThreadCounter_ q) i;
         do q <- for_range 0 (Z.to_nat cnt)
                   (fun j q => do row <- arr_get (perThreadBuf_ q) i;
                               do s <- arr_get row j; writeString s 0 q) q;
         do fl <- arr_add (perThreadFlushed_ q) i cnt;
         do ctr <- arr_set (perThreadCounter_ q) i 0%Z;
         Ok (set_perThreadCounter ctr (set_perThreadFlushed fl q)))
      (nthreads_ q') 0 q') as (q'' & Hq'' & ->); [reflexivity| |exact Hq''].
    intros i s Hi ->. exists q'. split; [|reflexivity].
    rewrite flush_thread by (assumption || lia).
    f_equal. apply thread_flushed_id. apply Hzero. lia.
Qed.

Section Open_Props.

Variable fs : string -> option (list Z).
Variable stdin_ : list Z.

(** The loop of [open()] from a cursor [d] files before the first file
    that can be opened. *)
Lemma open_loop_skips (d : nat) (fuel : nat) (s : CFilePatternSource)
    (name : string) (bytes : list Z) :
  d < fuel ->
  length (errs_ s) = length (infiles_ s) ->
  infiles_ s !! (filecur_ s + d) = Some name ->
  opens fs stdin_ name = Some bytes ->
  (forall i n, filecur_ s <= i < filecur_ s + d -> infiles_ s !! i = Some n ->
               opens fs stdin_ n = None) ->
  open_loop fs stdin_ fuel s =
  Ok (mkSrc (infiles_ s)
            (take (filecur_ s) (errs_ s) ++ replicate d true ++
             drop (filecur_ s + d) (errs_ s))
            (filecur_ s + d) true bytes (readCnt_ s) (first_ s)
            (cerr_ s ++ warnings (take d (drop (filecur_ s) (infiles_ s)))
                                 (drop (filecur_ s) (errs_ s)))).
Proof.
  revert fuel s. induction d as [|d IH]; intros fuel s Hfuel Hlen Hname Hopen Hskip.
  - destruct fuel as [|fuel]; [lia|]. cbn [open_loop].
    rewrite Nat.add_0_r in *. pose proof (lookup_lt_Some _ _ _ Hname) as Hlt.
    destruct (Nat.ltb_spec (filecur_ s) (length (infiles_ s))); [|lia].
    rewrite Hname. unfold opens in Hopen.
    cbn [replicate app take warnings]. rewrite take_drop, app_nil_r.
    destruct (String.eqb name "-").
    + injection Hopen as <-. reflexivity.
    + rewrite Hopen. reflexivity.
  - destruct fuel as [|fuel]; [lia|]. cbn [open_loop].
    pose proof (lookup_lt_Some _ _ _ Hname) as Hlt.
    destruct (Nat.ltb_spec (filecur_ s) (length (infiles_ s))); [|lia].
    destruct (lookup_lt_is_Some_2 (infiles_ s) (filecur_ s)) as [n Hn]; [lia|].
    destruct (lookup_lt_is_Some_2 (errs_ s) (filecur_ s)) as [e He]; [lia|].
    rewrite Hn.
    assert (Hno : opens fs stdin_ n = None) by (apply (Hskip (filecur_ s)); [lia | exact Hn]).
    unfold opens in Hno. destruct (String.eqb n "-"); [discriminate|]. rewrite Hno, He.
    set (s1 := set_filecur _ _).
    assert (Hs1 : infiles_ s1 = infiles_ s /\ filecur_ s1 = S (filecur_ s) /\
                  readCnt_ s1 = readCnt_ s /\ first_ s1 = first_ s /\
                  errs_ s1 = <[filecur_ s := true]> (errs_ s) /\
                  cerr_ s1 = cerr_ s ++ (if e then [] else [msg_could_not_open n])).
    { subst s1. destruct e; cbn; repeat split; try reflexivity.
      - symmetry. now apply list_insert_id.
      - now rewrite app_nil_r. }
    destruct Hs1 as (Hi1 & Hc1 & Hr1 & Hf1 & He1 & Hce1).
    rewrite (IH fuel s1); rewrite ?Hi1, ?Hc1, ?He1, ?Hr1, ?Hf1, ?Hce1.
    + replace (S (filecur_ s) + d) with (filecur_ s + S d) by lia. do 2 f_equal.
      * rewrite (take_S_r _ _ true) by (apply list_lookup_insert_eq; lia).
        rewrite take_insert_ge by lia. rewrite drop_insert_lt by lia.
        rewrite <- app_assoc. reflexivity.
      * rewrite <- app_assoc. f_equal.
        rewrite (drop_S _ _ _ Hn), (drop_S _ _ _ He). rewrite drop_insert_lt by lia.
        reflexivity.
    + lia.
    + now rewrite length_insert.
    + now replace (S (filecur_ s) + d) with (filecur_ s + S d) by lia.
    + assumption.
    + intros i n' Hi. apply Hskip. lia.
Qed.

(** The loop of [open()] when no file from the cursor on can be opened. *)
Lemma open_loop_exits (k : nat) (fuel : nat) (s : CFilePatternSource) :
  length (infiles_ s) - filecur_ s = k -> k < fuel ->
  length (errs_ s) = length (infiles_ s) ->
  (forall i n, filecur_ s <= i -> infiles_ s !! i = Some n -> opens fs stdin_ n = None) ->
  open_loop fs stdin_ fuel s = Fail (Exited msg_no_valid_files).
Proof.
  revert fuel s. induction k as [|k IH]; intros fuel s Hk Hfuel Hlen Hskip;
    (destruct fuel as [|fuel]; [lia|]); cbn [open_loop].
  - destruct (Nat.ltb_spec (filecur_ s) (length (infiles_ s))); [lia | reflexivity].
  - destruct (Nat.ltb_spec (filecur_ s) (length (infiles_ s))); [|lia].
    destruct (lookup_lt_is_Some_2 (infiles_ s) (filecur_ s)) as [n Hn]; [lia|].
    destruct (lookup_lt_is_Some_2 (errs_ s) (filecur_ s)) as [e He]; [lia|].
    rewrite Hn.
    assert (Hno : opens fs stdin_ n = None) by (apply (Hskip (filecur_ s)); [lia | exact Hn]).
    unfold opens in Hno. destruct (String.eqb n "-"); [discriminate|]. rewrite Hno, He.
    apply IH.
    + destruct e; cbn; lia.
    + lia.
    + destruct e; cbn; [assumption | now rewrite length_insert].
    + intros i n' Hi Hi'. apply (Hskip i); [destruct e; cbn in Hi; lia|].
      destruct e; exact Hi'.
Qed.

End Open_Props.

(** X5. [open()] goes to the first file, from the cursor on, that can be
    opened ("-" is standard input): the cursor is left on it and its bytes
    are the stream.  The files passed over get their error flag set, and a
    warning is written for each of them whose flag was not set before (one
    warning per file, however often it is tried); the list of files and the
    read counter are unchanged. *)
Theorem open_takes_first_openable (fs : string -> option (list Z)) (stdin_ : list Z)
    (s : CFilePatternSource) (k : nat) (name : string) (bytes : list Z) :
  length (errs_ s) = length (infiles_ s) ->
  filecur_ s <= k ->
  infiles_ s !! k = Some name ->
  opens fs stdin_ name = Some bytes ->
  (forall i n, filecur_ s <= i < k -> infiles_ s !! i = Some n -> opens fs stdin_ n = None) ->
  exists s',
    open fs stdin_ s = Ok s' /\
    filecur_ s' = k /\ is_open_ s' = true /\ fp_ s' = bytes /\
    infiles_ s' = infiles_ s /\ readCnt_ s' = readCnt_ s /\ first_ s' = first_ s /\
    errs_ s' = take (filecur_ s) (errs_ s) ++ replicate (k - filecur_ s) true ++
               drop k (errs_ s) /\
    cerr_ s' = cerr_ s ++ warnings (take (k - filecur_ s) (drop (filecur_ s) (infiles_ s)))
                                   (drop (filecur_ s) (errs_ s)).
Proof.
  intros Hlen Hk Hname Hopen Hskip. unfold open.
  set (s0 := if is_open_ s then set_stream false [] s else s).
  assert (Hs0 : infiles_ s0 = infiles_ s /\ filecur_ s0 = filecur_ s /\
                readCnt_ s0 = readCnt_ s /\ first_ s0 = first_ s /\
                errs_ s0 = errs_ s /\ cerr_ s0 = cerr_ s)
    by (subst s0; destruct (is_open_ s); repeat split; reflexivity).
  destruct Hs0 as (Hi0 & Hc0 & Hr0 & Hf0 & He0 & Hce0).
  pose proof (lookup_lt_Some _ _ _ Hname) as Hlt.
  rewrite (open_loop_skips fs stdin_ (k - filecur_ s) _ s0 name bytes);
    rewrite ?Hi0, ?Hc0, ?He0, ?Hr0, ?Hf0, ?Hce0;
    replace (filecur_ s + (k - filecur_ s)) with k by lia; try assumption; try lia.
  - eexists. split; [reflexivity|]. cbn. repeat split; reflexivity.
Qed.

(** X6. When no file from the cursor on can be opened, [open()] ends the
    program with "No input read files were valid" - also when files before
    the cursor were opened and read. *)
Theorem open_exits_without_openable (fs : string -> option (list Z)) (stdin_ : list Z)
    (s : CFilePatternSource) :
  length (errs_ s) = length (infiles_ s) ->
  (forall i n, filecur_ s <= i -> infiles_ s !! i = Some n -> opens fs stdin_ n = None) ->
  open fs stdin_ s = Fail (Exited msg_no_valid_files).
Proof.
  intros Hlen Hskip. unfold open.
  set (s0 := if is_open_ s then set_stream false [] s else s).
  assert (Hs0 : infiles_ s0 = infiles_ s /\ filecur_ s0 = filecur_ s /\ errs_ s0 = errs_ s)
    by (subst s0; destruct (is_open_ s); repeat split; reflexivity).
  destruct Hs0 as (Hi0 & Hc0 & He0).
  apply (open_loop_exits fs stdin_ (length (infiles_ s0) - filecur_ s0));
    rewrite ?Hi0, ?Hc0, ?He0; try assumption; lia.
Qed.

(** ** [nextBatch] of a FASTQ source returns *)

Lemma fill_bound (n br : nat) (fp buf : list Z) (br' : nat) (fp' buf' : list Z) :
  fill n br fp buf = Ok (br', fp', buf') -> br <= br' <= br + n.
Proof.
  revert br fp buf. induction n as [|n IH]; intros br fp buf H; simpl in H.
  - injection H as <- _ _. lia.
  - destruct fp as [|c fp]; [injection H as <- _ _; lia|].
    apply bind_Ok_inv in H as (b & _ & H). apply IH in H. lia.
Qed.

Lemma fill_fuel (n br : nat) (fp buf : list Z) : fill n br fp buf <> Fail OutOfFuel.
Proof.
  revert br fp buf. induction n as [|n IH]; intros br fp buf; simpl; [discriminate|].
  destruct fp as [|c fp]; [discriminate|].
  unfold buf_set. destruct (br <? length buf); [apply IH | discriminate].
Qed.

Lemma scan_body_i (br : nat) (c : Z) (st st' : scan_state) :
  scan_body br c st = Ok st' -> sc_i st' = S (sc_i st).
Proof.
  unfold scan_body. intros H. apply bind_Ok_inv in H as (b & _ & H). now injection H as <-.
Qed.

Lemma scan_body_fuel (br : nat) (c : Z) (st : scan_state) :
  scan_body br c st <> Fail OutOfFuel.
Proof.
  unfold scan_body, buf_set. destruct (_ <? _); discriminate.
Qed.

Lemma scan_bound (hr br : nat) (fp : list Z) (st st' : scan_state) (fp' : list Z) :
  scan hr br fp st = Ok (st', fp') -> sc_i st <= hr -> sc_i st' <= hr.
Proof.
  revert st. induction fp as [|c fp IH]; intros st H Hle; simpl in H.
  - destruct (scan_continues hr st) eqn:Hc.
    + apply bind_Ok_inv in H as (st1 & H1 & H). injection H as <- _.
      apply scan_body_i in H1. unfold scan_continues in Hc.
      apply andb_prop in Hc as [Hc _]. apply andb_prop in Hc as [_ Hc].
      apply Nat.ltb_lt in Hc. lia.
    + now injection H as <- _.
  - destruct (scan_continues hr st) eqn:Hc.
    + apply bind_Ok_inv in H as (st1 & H1 & H). apply IH in H; [assumption|].
      apply scan_body_i in H1. unfold scan_continues in Hc.
      apply andb_prop in Hc as [Hc _]. apply andb_prop in Hc as [_ Hc].
      apply Nat.ltb_lt in Hc. lia.
    + now injection H as <- _.
Qed.

Lemma scan_fuel (hr br : nat) (fp : list Z) (st : scan_state) :
  scan hr br fp st <> Fail OutOfFuel.
Proof.
  revert st. induction fp as [|c fp IH]; intros st; simpl;
    (destruct (scan_continues hr st); [|discriminate]).
  - destruct (scan_body br EOF st) eqn:E; cbn [bind]; [discriminate|].
    intros [= ->]. now apply scan_body_fuel in E.
  - destruct (scan_body br c st) eqn:E; cbn [bind]; [apply IH|].
    intros [= ->]. now apply scan_body_fuel in E.
Qed.


Lemma to_int_small (z : Z) : (-2147483648 <= z < 2147483648)%Z -> to_int z = z.
Proof. intros H. unfold to_int. rewrite Z.mod_small by lia. lia. Qed.

Lemma set_raw_buf_fields (b : bool) (v : list Z) (pt : PerThreadReadBuf) :
  rdid_ (set_raw_buf b v pt) = rdid_ pt /\
  max_raw_buf_ (set_raw_buf b v pt) = max_raw_buf_ pt /\
  max_raw_buf_overrun_ (set_raw_buf b v pt) = max_raw_buf_overrun_ pt.
Proof. destruct b; repeat split; reflexivity. Qed.

Lemma set_raw_buf_length_fields (b : bool) (v : nat) (pt : PerThreadReadBuf) :
  rdid_ (set_raw_buf_length b v pt) = rdid_ pt /\
  max_raw_buf_ (set_raw_buf_length b v pt) = max_raw_buf_ pt /\
  max_raw_buf_overrun_ (set_raw_buf_length b v pt) = max_raw_buf_overrun_ pt.
Proof. destruct b; repeat split; reflexivity. Qed.

Lemma finishRecord_ok (pt : PerThreadReadBuf) (batch_a : bool) (s : CFilePatternSource)
    (br : nat) (fp buf : list Z) (r : CFilePatternSource * PerThreadReadBuf * (bool * Z)) :
  1 <= br <= max_raw_buf_ pt ->
  (Z.of_nat (max_raw_buf_ pt + max_raw_buf_overrun_ pt) < 2147483647)%Z ->
  FastqPatternSource_finishRecord pt batch_a s br fp buf = Ok r ->
  light_parse_ok pt s r.
Proof.
  intros Hbr Hsize H. unfold FastqPatternSource_finishRecord in H.
  destruct (getc fp) as [c fp1].
  apply bind_Ok_inv in H as ([st fp2] & Hscan & H).
  apply bind_Ok_inv in H as (buf2 & _ & H). injection H as <-.
  apply scan_bound in Hscan; [|cbn; lia].
  destruct (set_raw_buf_fields batch_a buf2 pt) as (E1 & E2 & E3).
  destruct (set_raw_buf_length_fields batch_a
              (br + sc_i st + (if 0 <? sc_i st then 1 else 0))
              (set_raw_buf batch_a buf2 pt)) as (F1 & F2 & F3).
  unfold light_parse_ok. rewrite F1, F2, F3, E1, E2, E3.
  repeat (split; [reflexivity|]). intros _.
  rewrite to_int_small; destruct (0 <? sc_i st); lia.
Qed.

Lemma finishRecord_fuel (pt : PerThreadReadBuf) (batch_a : bool) (s : CFilePatternSource)
    (br : nat) (fp buf : list Z) :
  FastqPatternSource_finishRecord pt batch_a s br fp buf <> Fail OutOfFuel.
Proof.
  unfold FastqPatternSource_finishRecord. destruct (getc fp) as [c fp1].
  match goal with |- bind ?m _ <> _ => destruct m as [[st fp2]|f] eqn:E end; cbn [bind].
  - unfold buf_set. destruct (_ && _); [destruct (_ <? _)|]; discriminate.
  - intros [= ->]. now apply scan_fuel in E.
Qed.

Lemma nextBatchFromFile_ok (pt : PerThreadReadBuf) (batch_a : bool) (s : CFilePatternSource)
    (r : CFilePatternSource * PerThreadReadBuf * (bool * Z)) :
  0 < max_raw_buf_ pt ->
  (Z.of_nat (max_raw_buf_ pt + max_raw_buf_overrun_ pt) < 2147483647)%Z ->
  FastqPatternSource_nextBatchFromFile pt batch_a s = Ok r ->
  light_parse_ok pt s r.
Proof.
  intros Hmax Hsize H. unfold FastqPatternSource_nextBatchFromFile in H.
  apply bind_Ok_inv in H as ([[[s1 fp1] buf1] br1] & Hfirst & H).
  assert (Hs1 : readCnt_ s1 = readCnt_ s /\ infiles_ s1 = infiles_ s /\
                filecur_ s1 = filecur_ s /\ errs_ s1 = errs_ s /\ br1 <= 1).
  { destruct (first_ s).
    - destruct (skip_newlines (fp_ s)) as [c fp0].
      destruct (negb (c =? ch_at)%Z); [discriminate|].
      apply bind_Ok_inv in Hfirst as (b & _ & Hfirst). injection Hfirst as <- _ _ <-.
      repeat split; try reflexivity.
    - injection Hfirst as <- _ _ <-. repeat split; try reflexivity; lia. }
  destruct Hs1 as (R1 & R2 & R3 & R4 & Hbr1).
  apply bind_Ok_inv in H as ([[br2 fp2] buf2] & Hfill & H).
  apply fill_bound in Hfill. cbn [max_raw_buf_ set_use_byte_buffer] in Hfill.
  destruct (Nat.eqb_spec br2 0) as [->|Hne].
  - injection H as <-. unfold light_parse_ok.
    destruct (set_raw_buf_fields batch_a buf2 (set_use_byte_buffer true pt)) as (E1 & E2 & E3).
    rewrite E1, E2, E3. cbn. repeat (split; [assumption || reflexivity|]). discriminate.
  - apply finishRecord_ok in H; cbn [max_raw_buf_ max_raw_buf_overrun_ set_use_byte_buffer];
      [|lia|assumption].
    destruct r as [[s' pt'] [done n]]. unfold light_parse_ok in *. cbn in H.
    destruct H as (H1 & H2 & H3 & H4 & H5 & H6 & H7 & H8).
    repeat split; try congruence. exact H8.
Qed.

Lemma nextBatchFromFile_fuel (pt : PerThreadReadBuf) (batch_a : bool)
    (s : CFilePatternSource) :
  FastqPatternSource_nextBatchFromFile pt batch_a s <> Fail OutOfFuel.
Proof.
  unfold FastqPatternSource_nextBatchFromFile.
  match goal with |- bind ?m _ <> _ => destruct m as [[[[s1 fp1] buf1] br1]|f] eqn:E end;
    cbn [bind].
  - match goal with |- bind ?m _ <> _ => destruct m as [[[br2 fp2] buf2]|f] eqn:E2 end;
      cbn [bind].
    + destruct (br2 =? 0); [discriminate | apply finishRecord_fuel].
    + intros [= ->]. now apply fill_fuel in E2.
  - intros [= ->]. destruct (first_ s); [|discriminate].
    destruct (skip_newlines (fp_ s)) as [c fp0].
    destruct (negb (c =? ch_at)%Z); [discriminate|].
    unfold buf_set in E. destruct (_ <? _); discriminate.
Qed.

Section Fastq_NextBatch.

Variable NDEBUG : bool.
Variable fs : string -> option (list Z).
Variable stdin_ : list Z.

Local Abbreviation fq_draw :=
  (draw FastqPatternSource_nextBatchFromFile).
Local Abbreviation fq_loop :=
  (next_file_loop fs stdin_ FastqPatternSource_nextBatchFromFile
                  FastqPatternSource_resetForNextFile).

(** The retry loop runs the light parser once. *)
Lemma fastq_draw_once (fuel : nat) (pt : PerThreadReadBuf) (batch_a : bool)
    (s : CFilePatternSource) :
  0 < max_raw_buf_ pt ->
  (Z.of_nat (max_raw_buf_ pt + max_raw_buf_overrun_ pt) < 2147483647)%Z ->
  fq_draw (S fuel) pt batch_a s = FastqPatternSource_nextBatchFromFile pt batch_a s.
Proof.
  intros Hmax Hsize. cbn [draw].
  destruct (FastqPatternSource_nextBatchFromFile pt batch_a s) as [[[s' pt'] [done n]]|f] eqn:E;
    cbn [bind]; [|reflexivity].
  apply nextBatchFromFile_ok in E; [|assumption..].
  destruct E as (_ & _ & _ & _ & _ & _ & _ & Hn).
  destruct done; cbn [negb andb]; [reflexivity|].
  destruct (Z.eqb_spec n 0); [|reflexivity]. specialize (Hn eq_refl). lia.
Qed.

Lemma open_loop_fields (fuel : nat) (s s' : CFilePatternSource) :
  open_loop fs stdin_ fuel s = Ok s' ->
  filecur_ s <= filecur_ s' < length (infiles_ s) /\
  infiles_ s' = infiles_ s /\ readCnt_ s' = readCnt_ s.
Proof.
  revert s. induction fuel as [|fuel IH]; intros s H; cbn [open_loop] in H; [discriminate|].
  destruct (Nat.ltb_spec (filecur_ s) (length (infiles_ s))); [|discriminate].
  destruct (infiles_ s !! filecur_ s) as [name|]; [|discriminate].
  destruct (String.eqb name "-").
  { injection H as <-. cbn. repeat split; lia. }
  destruct (fs name).
  { injection H as <-. cbn. repeat split; lia. }
  destruct (errs_ s !! filecur_ s) as [e|]; [|discriminate].
  apply IH in H. destruct e; cbn in H; repeat split; try tauto; lia.
Qed.

Lemma open_loop_fuel (fuel : nat) (s : CFilePatternSource) :
  length (infiles_ s) - filecur_ s < fuel ->
  open_loop fs stdin_ fuel s <> Fail OutOfFuel.
Proof.
  revert s. induction fuel as [|fuel IH]; intros s Hf; [lia|]. cbn [open_loop].
  destruct (Nat.ltb_spec (filecur_ s) (length (infiles_ s))); [|discriminate].
  destruct (infiles_ s !! filecur_ s) as [name|]; [|discriminate].
  destruct (String.eqb name "-"); [discriminate|].
  destruct (fs name); [discriminate|].
  destruct (errs_ s !! filecur_ s) as [e|]; [|discriminate].
  apply IH. destruct e; cbn; lia.
Qed.

Lemma open_fields (s s' : CFilePatternSource) :
  open fs stdin_ s = Ok s' ->
  filecur_ s <= filecur_ s' < length (infiles_ s) /\
  infiles_ s' = infiles_ s /\ readCnt_ s' = readCnt_ s.
Proof.
  unfold open. intros H. apply open_loop_fields in H.
  destruct (is_open_ s); exact H.
Qed.

Lemma open_fuel (s : CFilePatternSource) : open fs stdin_ s <> Fail OutOfFuel.
Proof.
  unfold open. apply open_loop_fuel. destruct (is_open_ s); cbn; lia.
Qed.

(** The loop over the files: it goes round at most once for each file
    left, and leaves the read counter and the batch's id alone. *)
Lemma fastq_file_loop (fuel : nat) (pt : PerThreadReadBuf) (batch_a : bool)
    (s : CFilePatternSource) :
  0 < max_raw_buf_ pt ->
  (Z.of_nat (max_raw_buf_ pt + max_raw_buf_overrun_ pt) < 2147483647)%Z ->
  length (infiles_ s) - filecur_ s < fuel ->
  match fq_loop fuel pt batch_a s with
  | Ok (s', pt', (done, n)) =>
      readCnt_ s' = readCnt_ s /\ rdid_ pt' = rdid_ pt /\ infiles_ s' = infiles_ s /\
      filecur_ s <= filecur_ s' /\ (done = false -> (0 < n)%Z)
  | Fail f => f <> OutOfFuel
  end.
Proof.
  revert pt s. induction fuel as [|fuel IH]; intros pt s Hmax Hsize Hfuel; [lia|].
  cbn [next_file_loop]. rewrite fastq_draw_once by assumption.
  destruct (FastqPatternSource_nextBatchFromFile pt batch_a s)
    as [[[s1 pt1] [done n]]|f] eqn:E; cbn [bind].
  2:{ intros ->. now apply nextBatchFromFile_fuel in E. }
  apply nextBatchFromFile_ok in E; [|assumption..].
  destruct E as (R1 & R2 & R3 & R4 & R5 & R6 & R7 & Hn).
  destruct (done && (filecur_ s1 <? length (infiles_ s1))) eqn:Hmore.
  2:{ repeat split; try assumption. lia. }
  destruct (open fs stdin_ s1) as [s2|f] eqn:Hopen; cbn [bind].
  2:{ intros ->. now apply open_fuel in Hopen. }
  apply open_fields in Hopen. destruct Hopen as (Hcur & O2 & O3).
  destruct (Z.eqb_spec n 0) as [->|Hne].
  - specialize (IH pt1 (set_filecur (S (filecur_ (FastqPatternSource_resetForNextFile s2)))
                          (FastqPatternSource_resetForNextFile s2))).
    cbn [filecur_ infiles_ readCnt_ set_filecur FastqPatternSource_resetForNextFile
         set_first] in IH.
    assert (P1 : 0 < max_raw_buf_ pt1) by lia.
    assert (P2 : (Z.of_nat (max_raw_buf_ pt1 + max_raw_buf_overrun_ pt1) < 2147483647)%Z)
      by (rewrite R6, R7; exact Hsize).
    assert (P3 : length (infiles_ s2) - S (filecur_ s2) < fuel)
      by (rewrite O2, R2 in *; lia).
    specialize (IH P1 P2 P3).
    destruct (fq_loop fuel pt1 batch_a _) as [[[s3 pt3] [done3 n3]]|f] eqn:E3.
    + destruct IH as (I1 & I2 & I3 & I4 & I5).
      repeat split; try congruence; try lia; exact I5.
    + exact IH.
  - cbn. repeat split; try congruence; try lia; exact Hn.
Qed.

End Fastq_NextBatch.

(** X7. [nextBatch] of a FASTQ source always returns.  When raw buffer and
    head-room fit in an [int], the retry loop [while(!done && nread == 0)]
    never repeats (a batch that is not the last of its file is never
    empty), and the loop over the files goes round at most once per file
    that is left.  On return the batch's base id is the read counter as it
    was, and the counter has advanced by the count that is returned. *)
Theorem fastq_nextBatch_returns (NDEBUG : bool) (fs : string -> option (list Z))
    (stdin_ : list Z) (fuel : nat) (pt : PerThreadReadBuf) (batch_a lock : bool)
    (s : CFilePatternSource) :
  0 < max_raw_buf_ pt ->
  (Z.of_nat (max_raw_buf_ pt + max_raw_buf_overrun_ pt) < 2147483647)%Z ->
  length (infiles_ s) - filecur_ s < fuel ->
  match CFilePatternSource_nextBatch NDEBUG fs stdin_
          FastqPatternSource_nextBatchFromFile FastqPatternSource_resetForNextFile
          fuel pt batch_a lock s with
  | Ok (s', pt', (done, n)) =>
      rdid_ pt' = readCnt_ s /\ readCnt_ s' = wrap64 (readCnt_ s + n) /\
      infiles_ s' = infiles_ s /\ filecur_ s <= filecur_ s' /\
      (done = false -> (0 < n)%Z)
  | Fail f => f <> OutOfFuel
  end.
Proof.
  intros Hmax Hsize Hfuel. unfold CFilePatternSource_nextBatch.
  pose proof (fastq_file_loop fs stdin_ fuel (setReadId (readCnt_ s) pt) batch_a s
                Hmax Hsize Hfuel) as H.
  destruct (next_file_loop _ _ _ _ _ _ _ _) as [[[s1 pt1] [done n]]|f]; cbn [bind];
    [|exact H].
  destruct H as (H1 & H2 & H3 & H4 & H5).
  unfold assert_. destruct NDEBUG; cbn [bind].
  - cbn. rewrite H1. auto.
  - destruct (0 <=? n)%Z; cbn [bind]; [|discriminate]. cbn. rewrite H1. auto.
Qed.

Lemma skip_newlines_all (nls : list Z) :
  Forall (fun c => is_newline c = true) nls -> skip_newlines nls = (EOF, []).
Proof.
  intros H. induction H as [|x nls Hx _ IH]; cbn [skip_newlines]; [reflexivity|].
  now rewrite Hx.
Qed.

(** X8. The first byte of a file that is not a line break has to be '@'.  A
    file that is empty, holds only line breaks, or starts (after line
    breaks) with another byte is not read: [nextBatch] throws with "reads
    file does not look like a FASTQ file", whatever else the file holds. *)
Theorem fastq_first_byte_checked (NDEBUG : bool) (fs : string -> option (list Z))
    (stdin_ : list Z) (fuel : nat) (pt : PerThreadReadBuf) (batch_a lock : bool)
    (s : CFilePatternSource) (nls rest : list Z) :
  first_ s = true ->
  fp_ s = nls ++ rest ->
  Forall (fun c => is_newline c = true) nls ->
  match rest with
  | [] => True
  | c :: _ => is_newline c = false /\ c <> ch_at
  end ->
  CFilePatternSource_nextBatch NDEBUG fs stdin_
    FastqPatternSource_nextBatchFromFile FastqPatternSource_resetForNextFile
    (S fuel) pt batch_a lock s = Fail (Thrown msg_not_fastq).
Proof.
  intros Hfirst Hfp Hnls Hrest.
  assert (E : FastqPatternSource_nextBatchFromFile (setReadId (readCnt_ s) pt) batch_a s =
              Fail (Thrown msg_not_fastq)).
  { unfold FastqPatternSource_nextBatchFromFile. rewrite Hfirst, Hfp.
    destruct rest as [|c rest].
    - rewrite app_nil_r, skip_newlines_all by assumption. reflexivity.
    - destruct Hrest as [Hc Hne]. rewrite skip_newlines_prefix by assumption.
      destruct (Z.eqb_spec c ch_at); [contradiction | reflexivity]. }
  unfold CFilePatternSource_nextBatch. cbn [next_file_loop draw]. now rewrite E.
Qed.

(** X9. A source that has nothing left - its last file is read to the end
    and no file follows - still "returns a batch": [nextBatch] reports
    [done] and, as count, the length that the thread's raw buffer had
    before the call; the buffer is not touched and the read counter
    advances by that length once more. *)
Theorem fastq_exhausted_source_recounts (NDEBUG : bool) (fs : string -> option (list Z))
    (stdin_ : list Z) (fuel : nat) (pt : PerThreadReadBuf) (batch_a lock : bool)
    (s : CFilePatternSource) :
  first_ s = false -> fp_ s = [] -> length (infiles_ s) <= filecur_ s ->
  (Z.of_nat (raw_buf_length batch_a pt) < 2147483648)%Z ->
  exists s' pt',
    CFilePatternSource_nextBatch NDEBUG fs stdin_
      FastqPatternSource_nextBatchFromFile FastqPatternSource_resetForNextFile
      (S fuel) pt batch_a lock s = Ok (s', pt', (true, Z.of_nat (raw_buf_length batch_a pt))) /\
    readCnt_ s' = wrap64 (readCnt_ s + Z.of_nat (raw_buf_length batch_a pt)) /\
    rdid_ pt' = readCnt_ s /\
    raw_buf batch_a pt' = raw_buf batch_a pt /\
    raw_buf_length batch_a pt' = raw_buf_length batch_a pt.
Proof.
  intros Hfirst Hfp Hcur Hlen.
  unfold CFilePatternSource_nextBatch. cbn [next_file_loop draw].
  unfold FastqPatternSource_nextBatchFromFile. rewrite Hfirst, Hfp. cbn [bind].
  assert (Hfill : forall n buf, fill n 0 [] buf = Ok (0, [], buf)) by (now intros [|n] buf).
  rewrite Hfill. cbn [bind Nat.eqb negb andb filecur_ infiles_ set_stream].
  destruct (Nat.ltb_spec (filecur_ s) (length (infiles_ s))) as [Hlt|_]; [lia|].
  replace (raw_buf_length batch_a (set_raw_buf batch_a _ _)) with (raw_buf_length batch_a pt)
    by (now destruct batch_a).
  rewrite to_int_small by lia. cbn [bind].
  rewrite (assert_true NDEBUG) by (destruct (Z.leb_spec 0 (Z.of_nat (raw_buf_length batch_a pt))); [reflexivity | lia]).
  cbn [bind]. do 2 eexists. split; [reflexivity|].
  destruct batch_a; cbn; auto.
Qed.

(** ** Per-read seeds *)

Lemma mix_name_slash (NDEBUG : bool) (name rest : list Z) (i : nat) (rseed : Z) :
  Seed.mix_name NDEBUG i (name ++ Seed.ch_slash :: rest) rseed =
  Seed.mix_name NDEBUG i name rseed.
Proof.
  revert i rseed. induction name as [|p name IH]; intros i rseed; cbn [app Seed.mix_name].
  - now rewrite Z.eqb_refl.
  - destruct (p =? Seed.ch_slash)%Z; [reflexivity|].
    destruct (assert_ NDEBUG (Ok (p <=? 255)%Z)); cbn [bind]; [apply IH | reflexivity].
Qed.

(** X10. The seed of a read takes its name only up to the first '/': what
    follows the slash (the mate suffix, as in "r7/1" and "r7/2") does not
    change the seed, so two mates with equal sequence and qualities get
    equal seeds, the same as under the name without suffix. *)
Theorem seed_ignores_mate_suffix (NDEBUG : bool) (qry qual name rest : list Z) (seed : Z) :
  Seed.genRandSeed NDEBUG qry qual (name ++ Seed.ch_slash :: rest) seed =
  Seed.genRandSeed NDEBUG qry qual name seed.
Proof.
  unfold Seed.genRandSeed.
  destruct (Seed.mix_query NDEBUG 0 qry _) as [r1|f]; cbn [bind]; [|reflexivity].
  destruct (Seed.mix_quals NDEBUG (length qry) 0 qual r1) as [r2|f]; cbn [bind];
    [|reflexivity].
  apply mix_name_slash.
Qed.

(** ** The set-up of the composer *)

Import Setup.

Section Setup_Props.

Variable USE_SRA : bool.
Variable NDEBUG : bool.
Variable p : PatternParams.
Variable nthreads : nat.

Local Abbreviation sources_for := (Setup.sources_for USE_SRA p nthreads).

Lemma sources_for_grouped (mk : list string -> PatternSourceObj) (m : list string) :
  (forall qs, patsrcFromStrings USE_SRA p qs nthreads = Ok (mk qs)) ->
  sources_for m m = Ok (grouped p mk m).
Proof.
  intros Hmk. unfold grouped. destruct (fileParallel p) eqn:Hpar.
  - generalize m at 1. intros all. induction m as [|f m IH]; cbn [Setup.sources_for].
    + reflexivity.
    + rewrite Hpar, Hmk. cbn [bind negb]. rewrite IH. reflexivity.
  - destruct m as [|f m]; cbn [Setup.sources_for]; [reflexivity|].
    rewrite Hpar, Hmk. reflexivity.
Qed.

End Setup_Props.

(** X11. How the input files are grouped into sources.  For a format that
    [patsrcFromStrings] knows, each kind of input (interleaved pairs, mate
    1, mate 2, unpaired) gets one source holding all its files or, with
    [fileParallel], one source per file.  If there are interleaved files, a
    solo composer over their sources is returned; otherwise a dual composer
    whose sources are those of mate 1 followed by the unpaired ones, lined
    up with those of mate 2 followed by a NULL for each unpaired source.
    In a debug build the numbers of mate-1 and mate-2 sources have to
    agree. *)
Theorem setup_groups_files (USE_SRA NDEBUG : bool) (p : PatternParams) (nthreads : nat)
    (mk : list string -> PatternSourceObj) (si m1 m2 m12 : list string) :
  (forall qs, patsrcFromStrings USE_SRA p qs nthreads = Ok (mk qs)) ->
  NDEBUG = true \/ length (grouped p mk m1) = length (grouped p mk m2) ->
  setupPatternComposer USE_SRA NDEBUG si m1 m2 m12 p nthreads =
  Ok (if 0 <? length m12
      then new_SoloPatternComposer (grouped p mk m12)
      else new_DualPatternComposer
             (grouped p mk m1 ++ grouped p mk si)
             ((Some <$> grouped p mk m2) ++ ((fun _ => None) <$> grouped p mk si))).
Proof.
  intros Hmk Hpair. unfold setupPatternComposer.
  rewrite !(sources_for_grouped USE_SRA p nthreads mk) by assumption. cbn [bind].
  replace (assert_ NDEBUG (Ok (length (grouped p mk m1) =? length (grouped p mk m2))))
    with (Ok tt : outcome unit).
  2:{ unfold assert_. destruct Hpair as [-> | ->]; [reflexivity|].
      destruct NDEBUG; [reflexivity|]. cbn [bind]. now rewrite Nat.eqb_refl. }
  cbn [bind]. now destruct (0 <? length m12).
Qed.

(** X12. Interleaved input takes all.  When files with interleaved pairs are
    given, the composer that is returned reads only them: the mate-1,
    mate-2 and unpaired files do not reach it, whatever they are. *)
Theorem setup_interleaved_only (USE_SRA NDEBUG : bool) (p : PatternParams)
    (nthreads : nat) (si m1 m2 si' m1' m2' m12 : list string)
    (c c' : PatternComposerObj) :
  m12 <> [] ->
  setupPatternComposer USE_SRA NDEBUG si m1 m2 m12 p nthreads = Ok c ->
  setupPatternComposer USE_SRA NDEBUG si' m1' m2' m12 p nthreads = Ok c' ->
  c = c' /\ exists src, c = new_SoloPatternComposer src /\
                        Setup.sources_for USE_SRA p nthreads m12 m12 = Ok src.
Proof.
  intros Hne H H'. unfold setupPatternComposer in H, H'.
  assert (Hlen : (0 <? length m12) = true)
    by (destruct m12; [contradiction | reflexivity]).
  rewrite Hlen in H, H'.
  apply bind_Ok_inv in H as (ab & Hab & H). apply bind_Ok_inv in H' as (ab' & Hab' & H').
  assert (ab' = ab) as -> by congruence.
  repeat (apply bind_Ok_inv in H as (? & _ & H)).
  repeat (apply bind_Ok_inv in H' as (? & _ & H')).
  injection H as <-. injection H' as <-. split; [reflexivity|]. eauto.
Qed.

(** *** The properties at concrete inputs *)


Lemma output_only_grows_witness :
  let q' := mkQ true true 1 1 0%Z 1%Z [] [] [] [] [0%Z] [1%Z] [1%Z] [1%Z] ["a"%string] in
  extends slot_begun q'.
Proof.
  intros q'.
  apply (output_only_grows false 8 [FinishRead "a" 0%Z 0; Flush true] slot_begun q').
  vm_compute. reflexivity.
Defined.



Lemma flush_after_forced_flush_witness :
  exists q',
    flush false 8 true true slot_finished = Ok q' /\
    flush false 8 false true q' = Ok q'.
Proof.
  apply (flush_after_forced_flush false 8 false true true slot_finished).
  left. split; [reflexivity|]. split; [concrete_flags | concrete_tallies].
Defined.

Lemma open_takes_first_openable_witness :
  let s := unopened ["missing.fq"; "reads.fq"] in
  exists s',
    open demo_fs [] s = Ok s' /\
    filecur_ s' = 1 /\ is_open_ s' = true /\ fp_ s' = reads_fq /\
    infiles_ s' = infiles_ s /\ readCnt_ s' = readCnt_ s /\ first_ s' = first_ s /\
    errs_ s' = take (filecur_ s) (errs_ s) ++ replicate (1 - filecur_ s) true ++
               drop 1 (errs_ s) /\
    cerr_ s' = cerr_ s ++ warnings (take (1 - filecur_ s) (drop (filecur_ s) (infiles_ s)))
                                   (drop (filecur_ s) (errs_ s)).
Proof.
  intros s.
  apply (open_takes_first_openable demo_fs [] s 1 "reads.fq" reads_fq).
  - reflexivity.
  - cbn. lia.
  - reflexivity.
  - reflexivity.
  - intros [|i] n Hi Hn; [|cbn in Hi; lia]. cbn in Hn. injection Hn as <-. reflexivity.
Defined.

Lemma open_exits_without_openable_witness :
  open demo_fs [] (reading ["reads.fq"; "missing.fq"]) = Fail (Exited msg_no_valid_files).
Proof.
  apply (open_exits_without_openable demo_fs [] (reading ["reads.fq"; "missing.fq"])).
  - reflexivity.
  - intros [|[|[|i]]] n Hi Hn; cbn in Hi, Hn; try lia; try discriminate.
    injection Hn as <-. reflexivity.
Defined.

Lemma fastq_nextBatch_returns_witness :
  match CFilePatternSource_nextBatch false demo_fs []
          FastqPatternSource_nextBatchFromFile FastqPatternSource_resetForNextFile
          4 (demo_pt 12 40) true true (reading ["reads.fq"]) with
  | Ok (s', pt', (done, n)) =>
      rdid_ pt' = readCnt_ (reading ["reads.fq"]) /\
      readCnt_ s' = wrap64 (readCnt_ (reading ["reads.fq"]) + n) /\
      infiles_ s' = infiles_ (reading ["reads.fq"]) /\
      filecur_ (reading ["reads.fq"]) <= filecur_ s' /\
      (done = false -> (0 < n)%Z)
  | Fail f => f <> OutOfFuel
  end.
Proof.
  apply (fastq_nextBatch_returns false demo_fs [] 4 (demo_pt 12 40) true true
           (reading ["reads.fq"])).
  - cbn. lia.
  - cbn. lia.
  - cbn. lia.
Defined.

Lemma fastq_first_byte_checked_witness :
  CFilePatternSource_nextBatch false demo_fs []
    FastqPatternSource_nextBatchFromFile FastqPatternSource_resetForNextFile
    1 (demo_pt 12 40) true true
    (mkSrc ["x.fa"] [false] 1 true (bytes_of (OutQ.LF ++ ">r1" ++ OutQ.LF ++ "ACGT")) 0%Z true [])
  = Fail (Thrown msg_not_fastq).
Proof.
  apply (fastq_first_byte_checked false demo_fs [] 0 (demo_pt 12 40) true true
           (mkSrc ["x.fa"] [false] 1 true
                  (bytes_of (OutQ.LF ++ ">r1" ++ OutQ.LF ++ "ACGT")) 0%Z true [])
           [10%Z] (bytes_of (">r1" ++ OutQ.LF ++ "ACGT"))).
  - reflexivity.
  - reflexivity.
  - repeat constructor.
  - cbn. split; [reflexivity | discriminate].
Defined.

Lemma fastq_exhausted_source_recounts_witness :
  let pt := mkPT 0%Z true (bytes_of (fq_record "r1" "ACGT" "IIII")) [] 16 0 16 0 in
  let s := mkSrc ["mates.fq"] [false] 1 true [] 16%Z false [] in
  exists s' pt',
    CFilePatternSource_nextBatch false demo_fs []
      FastqPatternSource_nextBatchFromFile FastqPatternSource_resetForNextFile
      1 pt true true s = Ok (s', pt', (true, Z.of_nat (raw_buf_length true pt))) /\
    readCnt_ s' = wrap64 (readCnt_ s + Z.of_nat (raw_buf_length true pt)) /\
    rdid_ pt' = readCnt_ s /\
    raw_buf true pt' = raw_buf true pt /\
    raw_buf_length true pt' = raw_buf_length true pt.
Proof.
  intros pt s.
  apply (fastq_exhausted_source_recounts false demo_fs [] 0 pt true true s).
  - reflexivity.
  - reflexivity.
  - cbn. lia.
  - cbn. lia.
Defined.

Lemma setup_groups_files_witness :
  let p := mkParams FASTQ true in
  setupPatternComposer false false ["s.fq"] ["a_1.fq"; "b_1.fq"] ["a_2.fq"; "b_2.fq"] []
    p 4 =
  Ok (if 0 <? length (@nil string)
      then new_SoloPatternComposer (grouped p new_FastqPatternSource [])
      else new_DualPatternComposer
             (grouped p new_FastqPatternSource ["a_1.fq"; "b_1.fq"] ++
              grouped p new_FastqPatternSource ["s.fq"])
             ((Some <$> grouped p new_FastqPatternSource ["a_2.fq"; "b_2.fq"]) ++
              ((fun _ => None) <$> grouped p new_FastqPatternSource ["s.fq"]))).
Proof.
  intros p.
  apply (setup_groups_files false false p 4 new_FastqPatternSource
           ["s.fq"] ["a_1.fq"; "b_1.fq"] ["a_2.fq"; "b_2.fq"] []).
  - intros qs. reflexivity.
  - right. reflexivity.
Defined.

Lemma setup_interleaved_only_witness :
  let c := new_SoloPatternComposer [new_FastqPatternSource ["ab.fq"]] in
  c = c /\ exists src, c = new_SoloPatternComposer src /\
    Setup.sources_for false (mkParams FASTQ false) 4 ["ab.fq"] ["ab.fq"] = Ok src.
Proof.
  intros c.
  apply (setup_interleaved_only false false (mkParams FASTQ false) 4
           ["s.fq"] ["a_1.fq"] ["a_2.fq"] [] [] [] ["ab.fq"] c c).
  - discriminate.
  - reflexivity.
  - reflexivity.
Defined.

(** ** The light parser of FASTA files *)

Lemma read_record_body (b fb buf : list Z) :
  Reads.record_text b ->
  Reads.read_record (b ++ Reads.ch_gt :: fb) buf = (false, fb, buf ++ b).
Proof.
  intros Hb. revert buf. induction Hb as [|c b [Hc Hgt] _ IH]; intros buf;
    cbn [app Reads.read_record].
  - rewrite Z.eqb_refl, app_nil_r. reflexivity.
  - destruct (Z.ltb_spec c 0); [lia|]. destruct (Z.eqb_spec c Reads.ch_gt); [contradiction|].
    rewrite IH, <- app_assoc. reflexivity.
Qed.

Lemma read_record_last (b buf : list Z) :
  Reads.record_text b -> Reads.read_record b buf = (true, [], buf ++ b).
Proof.
  intros Hb. revert buf. induction Hb as [|c b [Hc Hgt] _ IH]; intros buf;
    cbn [Reads.read_record].
  - now rewrite app_nil_r.
  - destruct (Z.ltb_spec c 0); [lia|]. destruct (Z.eqb_spec c Reads.ch_gt); [contradiction|].
    rewrite IH, <- app_assoc. reflexivity.
Qed.

(** The loop over the reads of a batch takes one record for each read. *)
Lemma read_records_split (NDEBUG : bool) (bodies : list (list Z)) :
  bodies <> [] -> Forall Reads.record_text bodies ->
  forall (n readi : nat) (readbuf : list Reads.Read),
    readi + Nat.min (length bodies) n <= length readbuf ->
    exists rb',
      Reads.read_records NDEBUG n readi (Reads.joined bodies) readbuf =
        Ok (length bodies <=? n, readi + Nat.min (length bodies) n,
            Reads.joined (drop n bodies), rb') /\
      length rb' = length readbuf /\
      (forall i, i < readi \/ readi + Nat.min (length bodies) n <= i ->
                 rb' !! i = readbuf !! i) /\
      (forall j b r, j < n -> bodies !! j = Some b -> readbuf !! (readi + j) = Some r ->
                     rb' !! (readi + j) = Some (Reads.set_readOrigBuf (Reads.ch_gt :: b) r)).
Proof.
  induction bodies as [|b bodies IH]; [contradiction|]. intros _ Hall n readi readbuf Hlen.
  apply Forall_cons in Hall as [Hb Hall].
  destruct n as [|n].
  { exists readbuf. cbn [Reads.read_records length Nat.leb drop].
    rewrite Nat.min_0_r, Nat.add_0_r. repeat split; try reflexivity. intros; lia. }
  cbn [Reads.read_records].
  assert (Hreadi : readi < length readbuf) by (cbn [length] in Hlen; lia).
  destruct (lookup_lt_is_Some_2 readbuf readi Hreadi) as [r0 Hr0].
  unfold src_get. rewrite Hr0. cbn [bind].
  destruct bodies as [|b2 bodies].
  - cbn [Reads.joined]. rewrite read_record_last by assumption. cbn [app length drop Nat.leb].
    rewrite drop_nil. cbn [Reads.joined].
    exists (<[readi := Reads.set_readOrigBuf (Reads.ch_gt :: b) r0]> readbuf).
    replace (readi + Nat.min 1 (S n)) with (S readi) by lia.
    split; [reflexivity|]. split; [apply length_insert|]. split.
    + intros i Hi. apply list_lookup_insert_ne. lia.
    + intros [|j] b' r Hj Hb' Hr; [|destruct j; discriminate].
      injection Hb' as <-. rewrite Nat.add_0_r in *.
      rewrite list_lookup_insert_eq by assumption. congruence.
  - change (Reads.joined (b :: b2 :: bodies))
      with (b ++ Reads.ch_gt :: Reads.joined (b2 :: bodies)).
    rewrite read_record_body by assumption. cbn [app].
    set (rb1 := <[readi := Reads.set_readOrigBuf (Reads.ch_gt :: b) r0]> readbuf).
    destruct (IH ltac:(discriminate) Hall n (S readi) rb1) as (rb' & Hrec & Hl & Hout & Hin).
    { subst rb1. rewrite length_insert. cbn [length] in *. lia. }
    exists rb'. rewrite Hrec. cbn [length drop Nat.leb] in *.
    replace (readi + Nat.min (S (S (length bodies))) (S n))
      with (S readi + Nat.min (S (length bodies)) n) by lia.
    split; [reflexivity|]. split; [subst rb1; now rewrite Hl, length_insert|]. split.
    + intros i Hi. rewrite Hout by lia. subst rb1. apply list_lookup_insert_ne. lia.
    + intros [|j] b' r Hj Hb' Hr.
      * injection Hb' as <-. rewrite Nat.add_0_r in *. rewrite Hout by lia.
        subst rb1. rewrite list_lookup_insert_eq by assumption. congruence.
      * replace (readi + S j) with (S readi + j) in * by lia.
        apply Hin; [lia | exact Hb' |]. subst rb1.
        rewrite list_lookup_insert_ne by lia. exact Hr.
Qed.

(** The light parser on a stream of records: the source and the reads it
    leaves. *)
Lemma fasta_light_parse (NDEBUG : bool) (pt : Reads.PerThreadReadBuf)
    (batch_a : bool) (s : Reads.BufferedFilePatternSource) (bodies : list (list Z)) :
  Reads.fasta_input s (Reads.joined bodies) ->
  bodies <> [] -> Forall Reads.record_text bodies ->
  let k := Nat.min (length bodies) (Reads.max_buf_ pt) in
  k <= length (Reads.readbuf batch_a pt) ->
  (Z.of_nat k < 2147483648)%Z ->
  exists rb',
    Reads.FastaPatternSource_nextBatchFromFile NDEBUG pt batch_a s =
      Ok (Reads.mkSrc (Reads.infiles_ s) (Reads.errs_ s) (Reads.filecur_ s)
                      (Reads.fb_isOpen s) (Reads.joined (drop k bodies))
                      (Reads.readCnt_ s) false (Reads.cerr_ s),
          Reads.set_readbuf batch_a rb' pt,
          (length bodies <=? Reads.max_buf_ pt, Z.of_nat k)) /\
    length rb' = length (Reads.readbuf batch_a pt) /\
    (forall i, k <= i -> rb' !! i = Reads.readbuf batch_a pt !! i) /\
    (forall i b r, i < k -> bodies !! i = Some b -> Reads.readbuf batch_a pt !! i = Some r ->
       rb' !! i = Some (Reads.set_readOrigBuf (Reads.ch_gt :: b) r)).
Proof.
  intros Hin Hne Hall k Hk Hint. unfold Reads.FastaPatternSource_nextBatchFromFile.
  destruct (read_records_split NDEBUG bodies Hne Hall (Reads.max_buf_ pt) 0
              (Reads.readbuf batch_a pt)) as (rb' & Hrec & Hl & Hout & Hin').
  { exact Hk. }
  cbn [Nat.add] in Hrec, Hout, Hin'. fold k in Hrec, Hout.
  assert (Hkdrop : Reads.joined (drop (Reads.max_buf_ pt) bodies) = Reads.joined (drop k bodies)).
  { subst k. destruct (Nat.min_spec (length bodies) (Reads.max_buf_ pt)) as [[Hlt ->]|[Hge ->]];
      [|reflexivity]. now rewrite !drop_ge by lia. }
  exists rb'. split; [|split; [assumption|split]].
  - unfold Reads.fasta_input in Hin. destruct (Reads.first_ s) eqn:Hf.
    + destruct Hin as (nls & Hnls & ->).
      rewrite skip_newlines_prefix by (assumption || reflexivity).
      rewrite Z.eqb_refl. cbn [negb bind Reads.fb_ Reads.set_first Reads.set_fb].
      rewrite Hrec. cbn [bind]. rewrite to_int_small, Hkdrop by lia. reflexivity.
    + cbn [bind]. rewrite Hin, Hrec. cbn [bind]. rewrite to_int_small, Hkdrop by lia.
      unfold Reads.set_fb. now rewrite Hf.
  - intros i Hi. apply Hout. lia.
  - intros i b r Hi. apply Hin'. subst k. lia.
Qed.

(** X13. One call of the FASTA light parser takes the records of the stream
    in order, one into each read of the batch, until the batch is full or
    the file ends: with [k] the smaller of the number of records left and
    [max_buf_], it returns the count [k] (a number of records), the [i]-th
    read holds '>' and the bytes of the [i]-th record, the other reads are
    untouched, and the stream is left at the records that follow.  [done]
    is returned exactly if the file ended. *)
Theorem fasta_batch_takes_records (NDEBUG : bool) (pt : Reads.PerThreadReadBuf)
    (batch_a : bool) (s : Reads.BufferedFilePatternSource) (bodies : list (list Z)) :
  Reads.fasta_input s (Reads.joined bodies) ->
  bodies <> [] -> Forall Reads.record_text bodies ->
  let k := Nat.min (length bodies) (Reads.max_buf_ pt) in
  k <= length (Reads.readbuf batch_a pt) ->
  (Z.of_nat k < 2147483648)%Z ->
  exists s' pt',
    Reads.FastaPatternSource_nextBatchFromFile NDEBUG pt batch_a s =
      Ok (s', pt', (length bodies <=? Reads.max_buf_ pt, Z.of_nat k)) /\
    Reads.fb_ s' = Reads.joined (drop k bodies) /\
    Reads.first_ s' = false /\
    Reads.readCnt_ s' = Reads.readCnt_ s /\
    Reads.rdid_ pt' = Reads.rdid_ pt /\
    length (Reads.readbuf batch_a pt') = length (Reads.readbuf batch_a pt) /\
    Reads.readbuf (negb batch_a) pt' = Reads.readbuf (negb batch_a) pt /\
    (forall i, k <= i -> Reads.readbuf batch_a pt' !! i = Reads.readbuf batch_a pt !! i) /\
    (forall i b r, i < k -> bodies !! i = Some b -> Reads.readbuf batch_a pt !! i = Some r ->
       Reads.readbuf batch_a pt' !! i = Some (Reads.set_readOrigBuf (Reads.ch_gt :: b) r)).
Proof.
  intros Hin Hne Hall k Hk Hint.
  destruct (fasta_light_parse NDEBUG pt batch_a s bodies Hin Hne Hall Hk Hint)
    as (rb' & Hcall & Hlen & Hout & Hrec).
  do 2 eexists. split; [exact Hcall|].
  assert (Hpt : Reads.readbuf batch_a (Reads.set_readbuf batch_a rb' pt) = rb')
    by now destruct batch_a.
  rewrite Hpt. cbn [Reads.fb_ Reads.first_ Reads.readCnt_].
  split; [reflexivity|]. split; [reflexivity|]. split; [reflexivity|].
  split; [now destruct batch_a|]. split; [assumption|]. split; [now destruct batch_a|].
  split; assumption.
Qed.

(** X14. Batches of a FASTA source are numbered without gaps.  A call of
    [nextBatch] on a FASTA source gives the batch the read counter as its
    base id, takes [k] records (those left in the file, at most [max_buf_])
    and advances the counter by [k]; the stream is left at the next record,
    so the batch drawn next starts at the id after the last one of this
    batch.  (The last file of the source is being read.) *)
Theorem fasta_ids_without_gaps (NDEBUG : bool) (fs : string -> option (list Z))
    (stdin_ : list Z) (fuel : nat) (pt : Reads.PerThreadReadBuf) (batch_a lock : bool)
    (s : Reads.BufferedFilePatternSource) (bodies : list (list Z)) :
  Reads.fasta_input s (Reads.joined bodies) ->
  bodies <> [] -> Forall Reads.record_text bodies ->
  length (Reads.infiles_ s) <= Reads.filecur_ s ->
  let k := Nat.min (length bodies) (Reads.max_buf_ pt) in
  0 < Reads.max_buf_ pt ->
  k <= length (Reads.readbuf batch_a pt) ->
  (Z.of_nat k < 2147483648)%Z ->
  exists s' pt',
    Reads.BufferedFilePatternSource_nextBatch NDEBUG fs stdin_
      (Reads.FastaPatternSource_nextBatchFromFile NDEBUG)
      Reads.FastaPatternSource_resetForNextFile (S fuel) pt batch_a lock s =
      Ok (s', pt', (length bodies <=? Reads.max_buf_ pt, Z.of_nat k)) /\
    Reads.rdid_ pt' = Reads.readCnt_ s /\
    Reads.readCnt_ s' = wrap64 (Reads.readCnt_ s + Z.of_nat k) /\
    Reads.fb_ s' = Reads.joined (drop k bodies) /\
    Reads.first_ s' = false /\
    (forall i b, i < k -> bodies !! i = Some b ->
       Reads.readOrigBuf <$> (Reads.readbuf batch_a pt' !! i) = Some (Reads.ch_gt :: b)).
Proof.
  intros Hin Hne Hall Hlast k Hmax Hk Hint.
  assert (Hkpos : 0 < k) by (subst k; destruct bodies; [contradiction | cbn [length]; lia]).
  set (pt0 := Reads.setReadId (Reads.readCnt_ s) pt).
  assert (Hrb : Reads.readbuf batch_a pt0 = Reads.readbuf batch_a pt) by now destruct batch_a.
  destruct (fasta_light_parse NDEBUG pt0 batch_a s bodies Hin Hne Hall)
    as (rb' & Hcall & Hlen & Hout & Hrec).
  { now rewrite Hrb. }
  { exact Hint. }
  cbn [Reads.max_buf_ pt0 Reads.setReadId] in Hcall. fold k in Hcall, Hrec.
  unfold Reads.BufferedFilePatternSource_nextBatch. fold pt0.
  cbn [Reads.next_file_loop Reads.draw]. rewrite Hcall. cbn [bind].
  replace (negb (length bodies <=? Reads.max_buf_ pt) && (Z.of_nat k =? 0)%Z) with false
    by (destruct (Z.eqb_spec (Z.of_nat k) 0); [lia | now rewrite andb_false_r]).
  cbn [bind Reads.filecur_ Reads.infiles_].
  replace (Reads.filecur_ s <? length (Reads.infiles_ s)) with false
    by (symmetry; apply Nat.ltb_ge; exact Hlast).
  rewrite andb_false_r. cbn [bind].
  rewrite (assert_true NDEBUG)
    by (destruct (Z.leb_spec 0 (Z.of_nat k)); [reflexivity | lia]).
  cbn [bind]. do 2 eexists. split; [reflexivity|].
  assert (Hpt : Reads.readbuf batch_a (Reads.set_readbuf batch_a rb' pt0) = rb')
    by now destruct batch_a.
  rewrite Hpt. cbn [Reads.readCnt_ Reads.set_readCnt Reads.fb_ Reads.first_].
  split; [now destruct batch_a|]. repeat (split; [reflexivity|]).
  intros i b Hi Hb.
  destruct (lookup_lt_is_Some_2 (Reads.readbuf batch_a pt0) i) as [r Hr]; [rewrite Hrb; lia|].
  rewrite (Hrec i b r Hi Hb Hr). reflexivity.
Qed.

(** ** The heavy parsers *)

Import Reads Heavy.

Section Bases.

Variable gTrim5 : Z.
Variable asc2dna : Z -> Z.

Local Abbreviation take_base := (Heavy.take_base gTrim5 asc2dna).

(** The bases that a run over [line] adds to those read before. *)
Lemma take_base_fold (line : list Z) (before : list Z) :
  (0 <= gTrim5)%Z ->
  foldl (fun st c => take_base c (fst st) (snd st))
        (length (bases asc2dna before),
         drop (Z.to_nat gTrim5) (bases asc2dna before)) line =
  (length (bases asc2dna (before ++ line)),
   drop (Z.to_nat gTrim5) (bases asc2dna (before ++ line))).
Proof.
  intros Hg. revert before. induction line as [|c line IH]; intros before.
  - now rewrite app_nil_r.
  - cbn [foldl fst snd].
    replace (before ++ c :: line) with ((before ++ [c]) ++ line) by now rewrite <- app_assoc.
    rewrite <- IH. f_equal.
    unfold Heavy.take_base, bases. rewrite !fmap_app. cbn [fmap list_fmap].
    rewrite !List.filter_app. cbn [List.filter].
    set (c1 := if (c =? ch_dot)%Z then ch_N else c).
    set (B := List.filter isalpha _).
    destruct (isalpha c1).
    + rewrite fmap_app, length_app. cbn [fmap list_fmap length].
      rewrite length_fmap. f_equal; [lia|].
      destruct (Z.leb_spec gTrim5 (Z.of_nat (length B))) as [Hle|Hgt].
      * rewrite drop_app_le by (rewrite length_fmap; lia). reflexivity.
      * rewrite !drop_ge by (rewrite ?length_app, ?length_fmap; cbn [length]; lia).
        reflexivity.
    + now rewrite app_nil_r.
Qed.

End Bases.

(** Closes a goal between two results that differ in how the cursor is
    written. *)
Ltac cursor_eq :=
  match goal with
  | |- Ok (_, ?a, _, _) = Ok (_, ?b, _, _) => replace a with b by lia; reflexivity
  | |- Ok (?a, _, _, _) = Ok (?b, _, _, _) => replace a with b by lia; reflexivity
  | |- Ok (_, ?a, _) = Ok (_, ?b, _) => replace a with b by lia; reflexivity
  | |- Ok (?a, _, _) = Ok (?b, _, _) => replace a with b by lia; reflexivity
  end.

Section Fasta_Parse.

Variable NDEBUG : bool.
Variable gTrim5 gTrim3 : Z.
Variable readCnt_ : Z.
Variable asc2dna : Z -> Z.
Variable itoa10 : Z -> list Z.
Variable patFw_trimEnd : Z -> list Z -> list Z * Z.
Variable Read_empty : Read -> bool.

Local Abbreviation take_base := (Heavy.take_base gTrim5 asc2dna).
Local Abbreviation fasta_seq := (Heavy.fasta_seq NDEBUG gTrim5 asc2dna).
Local Abbreviation fasta_parse_read :=
  (Heavy.fasta_parse_read NDEBUG gTrim5 gTrim3 readCnt_ asc2dna itoa10 patFw_trimEnd
                          Read_empty).
Local Abbreviation parse :=
  (FastaPatternSource_parse NDEBUG gTrim5 gTrim3 readCnt_ asc2dna itoa10 patFw_trimEnd
                            Read_empty).

(** The name is the header line; the line breaks after it are skipped. *)
Lemma fasta_name_line (nm : list Z) (c0 : Z) (rest : list Z) (cur : nat) (nm0 : list Z) :
  text_line nm -> is_newline c0 = false ->
  fasta_name NDEBUG (nm ++ ch_LF :: c0 :: rest) cur nm0 =
  Ok (c0, cur + length nm + 2, rest, nm0 ++ nm).
Proof.
  intros Hnm Hc0. revert cur nm0.
  induction Hnm as [|c nm [_ Hc] _ IH]; intros cur nm0; cbn [app fasta_name].
  - replace (is_newline ch_LF) with true by reflexivity.
    cbn [fasta_skip_breaks]. rewrite Hc0. cbn [bind length].
    rewrite app_nil_r. cursor_eq.
  - rewrite Hc, IH, <- app_assoc. cbn [length app]. cursor_eq.
Qed.

Lemma fasta_seq_feed (rest : list Z) (cur nchar : nat) (pat : list Z) :
  fasta_seq rest ch_LF cur nchar pat = Ok (cur, rest, nchar, pat).
Proof. destruct rest; reflexivity. Qed.

(** The sequence loop goes over the first line after the header. *)
Lemma fasta_seq_line (line more : list Z) (c0 : Z) (cur nchar : nat) (pat : list Z) :
  Forall (fun c => c <> ch_LF) (c0 :: line) ->
  fasta_seq (line ++ ch_LF :: more) c0 cur nchar pat =
  Ok (cur + length line + 1, more,
      fst (foldl (fun st c => take_base c (fst st) (snd st)) (nchar, pat) (c0 :: line)),
      snd (foldl (fun st c => take_base c (fst st) (snd st)) (nchar, pat) (c0 :: line))).
Proof.
  revert c0 cur nchar pat. induction line as [|c line IH]; intros c0 cur nchar pat Hall;
    apply Forall_cons in Hall as [Hc0 Hall].
  - cbn [app Heavy.fasta_seq foldl fst snd]. destruct (Z.eqb_spec c0 ch_LF); [contradiction|].
    destruct (take_base c0 nchar pat) as [n1 p1]. cbn [fst snd].
    fold (Heavy.fasta_seq NDEBUG gTrim5 asc2dna). rewrite fasta_seq_feed.
    cbn [length]. cursor_eq.
  - cbn [app Heavy.fasta_seq]. destruct (Z.eqb_spec c0 ch_LF); [contradiction|].
    cbn [foldl fst snd]. destruct (take_base c0 nchar pat) as [n1 p1] eqn:E. cbn [fst snd].
    fold (Heavy.fasta_seq NDEBUG gTrim5 asc2dna).
    rewrite IH by assumption. cbn [foldl length fst snd]. cursor_eq.
Qed.


Lemma text_line_no_feed (l : list Z) : text_line l -> Forall (fun c => c <> ch_LF) l.
Proof.
  intros H. eapply Forall_impl; [exact H|]. intros c [_ Hc] ->. discriminate.
Qed.

Lemma bases_length_le (l : list Z) : length (bases asc2dna l) <= length l.
Proof.
  unfold bases. rewrite length_fmap.
  etransitivity; [apply List.filter_length_le|]. now rewrite length_fmap.
Qed.

End Fasta_Parse.

Lemma demo_trimEnd_trims_end : trims_end demo_trimEnd.
Proof.
  intros n l. unfold demo_trimEnd. rewrite Nat2Z.id. f_equal. lia.
Qed.

Lemma assert_passes (NDEBUG b : bool) :
  NDEBUG = true \/ b = true -> assert_ NDEBUG (Ok b) = Ok tt.
Proof. intros [->| ->]; [reflexivity|]. unfold assert_. now destruct NDEBUG. Qed.

Section Fasta_Parse_Props.

Variable NDEBUG : bool.
Variable gTrim5 gTrim3 : Z.
Variable readCnt_ : Z.
Variable asc2dna : Z -> Z.
Variable itoa10 : Z -> list Z.
Variable patFw_trimEnd : Z -> list Z -> list Z * Z.
Variable Read_empty : Read -> bool.

Local Abbreviation fasta_parse_read :=
  (Heavy.fasta_parse_read NDEBUG gTrim5 gTrim3 readCnt_ asc2dna itoa10 patFw_trimEnd
                          Read_empty).
Local Abbreviation parse :=
  (FastaPatternSource_parse NDEBUG gTrim5 gTrim3 readCnt_ asc2dna itoa10 patFw_trimEnd
                            Read_empty).

(** The sequence and the trim counts that the parsers make of a line. *)
Lemma trimmed_sequence (line : list Z) :
  (0 <= gTrim5)%Z -> (0 <= gTrim3 < two64)%Z -> trims_end patFw_trimEnd ->
  (Z.of_nat (length line) < 2147483648)%Z ->
  let B := bases asc2dna line in
  let P0 := drop (Z.to_nat gTrim5) B in
  to_int (Z.of_nat (length B) - Z.of_nat (length P0)) =
    Z.of_nat (Nat.min (Z.to_nat gTrim5) (length B)) /\
  patFw_trimEnd (wrap64 gTrim3) P0 =
    (take (length P0 - Z.to_nat gTrim3) P0, Z.of_nat (Nat.min (Z.to_nat gTrim3) (length P0))) /\
  to_int (Z.of_nat (Nat.min (Z.to_nat gTrim3) (length P0))) =
    Z.of_nat (Nat.min (Z.to_nat gTrim3) (length P0)).
Proof.
  intros H5 H3 Htrim Hlen B P0.
  pose proof (bases_length_le asc2dna line) as HB. fold B in HB.
  assert (HP0 : length P0 = length B - Z.to_nat gTrim5) by (subst P0; apply length_drop).
  split; [|split].
  - rewrite to_int_small by lia. lia.
  - rewrite wrap64_small by exact H3.
    rewrite <- (Z2Nat.id gTrim3) at 1 by lia. apply Htrim.
  - apply to_int_small. lia.
Qed.

(** What the parse of one read makes of a header line and the line after
    it. *)
Lemma fasta_parse_read_line (r : Read) (nm line more : list Z) :
  readOrigBuf r = ch_gt :: nm ++ ch_LF :: line ++ ch_LF :: more ->
  text_line nm -> text_line line -> line <> [] ->
  patFw r = [] ->
  NDEBUG = true \/ (Read_empty r = true /\ name r = []) ->
  (0 <= gTrim5)%Z -> (0 <= gTrim3 < two64)%Z -> trims_end patFw_trimEnd ->
  (Z.of_nat (length line) < 2147483648)%Z ->
  let B := bases asc2dna line in
  let P0 := drop (Z.to_nat gTrim5) B in
  let P := take (length P0 - Z.to_nat gTrim3) P0 in
  fasta_parse_read r =
  Ok (mkRead (readOrigBuf r) (readOrigRawBuf r) (raw_buf_len_ r) (cur_raw_buf_ r)
             (if is_nil (name r ++ nm) then itoa10 readCnt_ else name r ++ nm)
             P (qual r ++ replicate (length P) ch_I)
             (Z.of_nat (Nat.min (Z.to_nat gTrim5) (length B)))
             (Z.of_nat (Nat.min (Z.to_nat gTrim3) (length P0)))
             (parsed r)).
Proof.
  intros Hbuf Hnm Hline Hne Hpat Hfresh H5 H3 Htrim Hlen B P0 P.
  destruct (trimmed_sequence line H5 H3 Htrim Hlen) as (Ht5 & Hend & Ht3).
  fold B P0 in Ht5, Hend, Ht3.
  pose proof (take_base_fold gTrim5 asc2dna line [] H5) as Hfold.
  change (bases asc2dna []) with (@nil Z) in Hfold.
  rewrite drop_nil in Hfold. cbn [app length] in Hfold. fold B P0 in Hfold.
  destruct line as [|c0 line]; [contradiction|].
  pose proof (Forall_inv Hline) as [_ Hc0].
  unfold Heavy.fasta_parse_read.
  rewrite (assert_passes NDEBUG) by (right; now rewrite Hbuf). cbn [bind].
  rewrite (assert_passes NDEBUG (Read_empty r)) by tauto. cbn [bind].
  rewrite (assert_passes NDEBUG (is_nil (name r)))
    by (destruct Hfresh as [?|[_ ->]]; [now left | now right]).
  cbn [bind]. rewrite Hbuf. cbn [drop app]. rewrite drop_0.
  rewrite fasta_name_line by assumption. cbn [bind].
  cbn [patFw set_name]. rewrite Hpat.
  rewrite (assert_passes NDEBUG) by (now right). cbn [bind].
  rewrite (fasta_seq_line NDEBUG gTrim5 asc2dna line more c0)
    by (apply text_line_no_feed; exact Hline).
  cbn [bind]. rewrite Hfold. cbn [fst snd]. rewrite Ht5, Hend, Ht3.
  change (c0 :: line ++ ch_LF :: more) with ((c0 :: line) ++ ch_LF :: more).
  rewrite <- Hbuf. fold P.
  unfold set_name, set_qual, set_trimmed, set_patFw.
  cbn [name patFw qual readOrigBuf readOrigRawBuf raw_buf_len_ cur_raw_buf_ trimmed5
       trimmed3 parsed].
  destruct (is_nil (name r ++ nm)); reflexivity.
Qed.

(** X15. The heavy parse of a FASTA read takes the header line as the name
    and the one line after it as the sequence; what follows that line in
    the record is not read.  Of the sequence line the letters are kept ('.'
    counts as 'N', other bytes are skipped), [gTrim5] bases are trimmed from
    the front and [gTrim3] from the end; every base gets the quality 'I';
    the trim counts are the numbers of bases actually removed, and a read
    without name is named after the read counter. *)
Theorem fasta_parse_takes_first_line (fuel : nat) (r rb : Read) (nm line more : list Z) :
  readOrigBuf r = ch_gt :: nm ++ ch_LF :: line ++ ch_LF :: more ->
  text_line nm -> text_line line -> line <> [] ->
  name r = [] -> patFw r = [] -> qual r = [] ->
  NDEBUG = true \/ Read_empty r = true ->
  is_nil (readOrigBuf rb) || negb (is_nil (patFw rb)) = true ->
  (0 <= gTrim5)%Z -> (0 <= gTrim3 < two64)%Z -> trims_end patFw_trimEnd ->
  (Z.of_nat (length line) < 2147483648)%Z ->
  let B := bases asc2dna line in
  let P0 := drop (Z.to_nat gTrim5) B in
  let P := take (length P0 - Z.to_nat gTrim3) P0 in
  parse (S fuel) r rb =
  Ok (true,
      mkRead (readOrigBuf r) (readOrigRawBuf r) (raw_buf_len_ r) (cur_raw_buf_ r)
             (if is_nil nm then itoa10 readCnt_ else nm)
             P (replicate (length P) ch_I)
             (Z.of_nat (Nat.min (Z.to_nat gTrim5) (length B)))
             (Z.of_nat (Nat.min (Z.to_nat gTrim3) (length P0)))
             (parsed r),
      rb).
Proof.
  intros Hbuf Hnm Hline Hne Hname Hpat Hqual Hfresh Hrb H5 H3 Htrim Hlen B P0 P.
  cbn [FastaPatternSource_parse].
  rewrite (fasta_parse_read_line r nm line more) by (assumption || tauto).
  cbn [bind]. rewrite Hname, Hqual. cbn [app]. fold B P0 P.
  replace (negb (is_nil (readOrigBuf rb)) && is_nil (patFw rb)) with false.
  - reflexivity.
  - destruct (is_nil (readOrigBuf rb)), (is_nil (patFw rb)); cbn in *; congruence.
Qed.


(** One parse leaves a read that trims to nothing as such. *)
Lemma trims_to_nothing_parsed (r : Read) :
  NDEBUG = true ->
  (0 <= gTrim5)%Z -> (0 <= gTrim3 < two64)%Z -> trims_end patFw_trimEnd ->
  trims_to_nothing gTrim5 gTrim3 asc2dna r ->
  exists r', fasta_parse_read r = Ok r' /\ trims_to_nothing gTrim5 gTrim3 asc2dna r'.
Proof.
  intros Hrel H5 H3 Htrim (nm & line & more & Hbuf & Hnm & Hline & Hne & Hlen & Hnone & Hpat).
  eexists. split.
  - apply (fasta_parse_read_line r nm line more); auto.
  - exists nm, line, more. cbn [readOrigBuf patFw]. repeat (split; [assumption|]).
    assert (E : length (drop (Z.to_nat gTrim5) (bases asc2dna line)) - Z.to_nat gTrim3 = 0)
      by (rewrite length_drop; lia).
    rewrite E. apply take_0.
Qed.

(** X17. Two FASTA mates of which trimming leaves nothing: in a release
    build [parse] never returns.  After a read is parsed the other one is
    parsed if it has raw bytes and no sequence; with two such reads that is
    always the case, and [parse] calls itself without end. *)
Theorem fasta_parse_pair_never_ends (fuel : nat) (r rb : Read) :
  NDEBUG = true ->
  (0 <= gTrim5)%Z -> (0 <= gTrim3 < two64)%Z -> trims_end patFw_trimEnd ->
  trims_to_nothing gTrim5 gTrim3 asc2dna r ->
  trims_to_nothing gTrim5 gTrim3 asc2dna rb ->
  parse fuel r rb = Fail OutOfFuel.
Proof.
  intros Hrel H5 H3 Htrim. revert r rb.
  induction fuel as [|fuel IH]; intros r rb Hr Hrb; [reflexivity|].
  cbn [FastaPatternSource_parse].
  destruct (trims_to_nothing_parsed r Hrel H5 H3 Htrim Hr) as (r' & -> & Hr'). cbn [bind].
  destruct Hrb as (nm & line & more & Hbuf & Hrest).
  assert (Hgo : negb (is_nil (readOrigBuf rb)) && is_nil (patFw rb) = true).
  { rewrite Hbuf. destruct Hrest as (_ & _ & _ & _ & _ & ->). reflexivity. }
  rewrite Hgo. rewrite IH; [reflexivity | | exact Hr'].
  exists nm, line, more. tauto.
Qed.

End Fasta_Parse_Props.

(** *** FASTQ *)

(** The bytes before the first '@' are passed over. *)
Lemma find_at_junk (junk rest : list Z) (cur buflen : nat) :
  Forall (fun c => c <> ch_at) junk -> cur + length junk < buflen ->
  find_at (junk ++ ch_at :: rest) cur buflen = Ok (ch_at, cur + length junk + 1, rest).
Proof.
  intros Hj. revert cur. induction Hj as [|c junk Hc _ IH]; intros cur Hlen;
    cbn [app find_at length] in *.
  - rewrite Z.eqb_refl, andb_false_r. cursor_eq.
  - destruct (Nat.ltb_spec (S cur) buflen); [|lia].
    destruct (Z.eqb_spec c ch_at); [contradiction|]. cbn [negb andb].
    rewrite IH by lia. cursor_eq.
Qed.

(** Without '@' among the first [buflen - 1] bytes the search ends at
    [buflen]. *)
Lemma find_at_none (buf : list Z) (cur buflen : nat) :
  cur + length buf = buflen -> buf <> [] ->
  Forall (fun c => c <> ch_at) (take (length buf - 1) buf) ->
  forall more, exists c rest, find_at (buf ++ more) cur buflen = Ok (c, buflen, rest).
Proof.
  revert cur. induction buf as [|c buf IH]; intros cur Hlen Hne Hall more; [contradiction|].
  cbn [app find_at length] in *. destruct buf as [|c2 buf].
  - destruct (Nat.ltb_spec (S cur) buflen); [cbn [length] in *; lia|]. cbn [andb].
    exists c, more. cbn [length] in Hlen. cursor_eq.
  - cbn [length] in *. replace (S (S (length buf)) - 1) with (S (length buf)) in Hall by lia.
    cbn [take] in Hall. apply Forall_cons in Hall as [Hc Hall].
    destruct (Nat.ltb_spec (S cur) buflen); [|lia].
    destruct (Z.eqb_spec c ch_at); [contradiction|]. cbn [negb andb].
    apply IH; [cbn [length]; lia | discriminate |].
    cbn [length]. now replace (S (length buf) - 1) with (length buf) by lia.
Qed.

Section Fastq_Loops.

Variable NDEBUG : bool.
Variable gTrim5 : Z.
Variable solQuals_ phred64Quals_ : bool.
Variable asc2dna : Z -> Z.
Variable charToPhred33 : Z -> bool -> bool -> outcome Z.

Local Abbreviation take_base := (Heavy.take_base gTrim5 asc2dna).
Local Abbreviation fastq_seq := (Heavy.fastq_seq NDEBUG gTrim5 asc2dna).
Local Abbreviation fastq_quals := (Heavy.fastq_quals solQuals_ phred64Quals_ charToPhred33).

Lemma assert_lt (a b : nat) : NDEBUG = true \/ a < b -> assert_ NDEBUG (Ok (a <? b)) = Ok tt.
Proof.
  intros H. apply assert_passes. destruct H as [?|H]; [now left | right].
  now apply Nat.ltb_lt.
Qed.

Lemma fastq_name_line (nm : list Z) (c0 : Z) (rest : list Z) (cur buflen : nat)
    (nm0 : list Z) :
  text_line nm -> is_newline c0 = false ->
  NDEBUG = true \/ cur + length nm < buflen ->
  fastq_name NDEBUG (nm ++ ch_LF :: c0 :: rest) cur buflen nm0 =
  Ok (c0, cur + length nm + 2, rest, nm0 ++ nm).
Proof.
  intros Hnm Hc0. revert cur nm0.
  induction Hnm as [|c nm [_ Hc] _ IH]; intros cur nm0 Hlen; cbn [app fastq_name length] in *.
  - rewrite assert_lt by (destruct Hlen; [now left | right; lia]). cbn [bind].
    replace (is_newline ch_LF) with true by reflexivity.
    cbn [skip_breaks]. rewrite Hc0. cbn [bind]. rewrite app_nil_r. cursor_eq.
  - rewrite assert_lt by (destruct Hlen; [now left | right; lia]). cbn [bind].
    rewrite Hc, IH, <- app_assoc by (destruct Hlen; [now left | right; lia]).
    cbn [app]. cursor_eq.
Qed.

Lemma fastq_seq_plus (rest : list Z) (cur buflen nchar : nat) (pat : list Z) :
  fastq_seq rest ch_plus cur buflen nchar pat = Ok (cur, rest, nchar, pat).
Proof. destruct rest; reflexivity. Qed.

(** The sequence loop goes over the bytes up to the first '+'. *)
Lemma fastq_seq_run (l rest : list Z) (c0 : Z) (cur buflen nchar : nat) (pat : list Z) :
  Forall (fun c => c <> ch_plus) (c0 :: l) ->
  NDEBUG = true \/ cur + length l < buflen ->
  fastq_seq (l ++ ch_plus :: rest) c0 cur buflen nchar pat =
  Ok (cur + length l + 1, rest,
      fst (foldl (fun st c => take_base c (fst st) (snd st)) (nchar, pat) (c0 :: l)),
      snd (foldl (fun st c => take_base c (fst st) (snd st)) (nchar, pat) (c0 :: l))).
Proof.
  revert c0 cur nchar pat. induction l as [|c l IH]; intros c0 cur nchar pat Hall Hlen;
    apply Forall_cons in Hall as [Hc0 Hall]; cbn [app Heavy.fastq_seq foldl fst snd length] in *;
    (destruct (Z.eqb_spec c0 ch_plus); [contradiction|]);
    destruct (take_base c0 nchar pat) as [n1 p1] eqn:E; cbn [fst snd];
    rewrite assert_lt by (destruct Hlen; [now left | right; lia]); cbn [bind];
    fold (Heavy.fastq_seq NDEBUG gTrim5 asc2dna).
  - rewrite fastq_seq_plus. cursor_eq.
  - rewrite IH by (assumption || (destruct Hlen; [now left | right; lia])). cursor_eq.
Qed.

Lemma skip_plus_line_run (plus rest : list Z) (cur buflen : nat) :
  text_line plus ->
  NDEBUG = true \/ cur + length plus < buflen ->
  skip_plus_line NDEBUG (plus ++ ch_LF :: rest) cur buflen =
  Ok (ch_LF, cur + length plus + 1, rest).
Proof.
  intros Hp. revert cur. induction Hp as [|c plus [_ Hc] _ IH]; intros cur Hlen;
    cbn [app skip_plus_line length] in *;
    rewrite assert_lt by (destruct Hlen; [now left | right; lia]); cbn [bind].
  - replace (is_newline ch_LF) with true by reflexivity. cursor_eq.
  - rewrite Hc, IH by (destruct Hlen; [now left | right; lia]). cursor_eq.
Qed.

Lemma skip_breaks_within_stop (rest : list Z) (c : Z) (cur buflen : nat) :
  is_newline c = false -> skip_breaks_within rest c cur buflen = Ok (c, cur, rest).
Proof.
  intros Hc. destruct rest; cbn [skip_breaks_within]; now rewrite Hc, andb_false_r.
Qed.

(** The quality values that the loop adds: those at position [t5] and
    after, [nqual] being the position of the first byte of [ql]. *)
Lemma fastq_quals_run (phred : Z -> Z) (ql more : list Z) (cur buflen nqual : nat)
    (t5 : Z) (nm q : list Z) :
  quality_values charToPhred33 solQuals_ phred64Quals_ phred ql ->
  cur + length ql < buflen -> (0 <= t5)%Z ->
  fastq_quals (ql ++ ch_LF :: more) cur buflen nqual t5 nm q =
  Ok (cur + length ql + 1, more, q ++ drop (Z.to_nat t5 - nqual) (phred <$> ql)).
Proof.
  intros Hq. revert cur nqual q.
  induction Hq as [|c ql (Hnl & Hsp & Hph) _ IH]; intros cur nqual q Hlen Ht5;
    cbn [app Heavy.fastq_quals length] in *;
    (destruct (Nat.ltb_spec cur buflen); [|lia]).
  - replace (ch_LF =? ch_space)%Z with false by reflexivity.
    replace (is_newline ch_LF) with true by reflexivity.
    rewrite fmap_nil, drop_nil, app_nil_r. cursor_eq.
  - destruct (Z.eqb_spec c ch_space); [contradiction|]. rewrite Hnl, Hph. cbn [bind].
    fold (Heavy.fastq_quals solQuals_ phred64Quals_ charToPhred33).
    rewrite IH by lia. rewrite fmap_cons.
    destruct (Z.leb_spec t5 (Z.of_nat nqual)) as [Hle|Hgt].
    + replace (Z.to_nat t5 - nqual) with 0 by lia.
      replace (Z.to_nat t5 - S nqual) with 0 by lia.
      rewrite !drop_0, <- app_assoc. cbn [app]. cursor_eq.
    + replace (Z.to_nat t5 - nqual) with (S (Z.to_nat t5 - S nqual)) by lia.
      cbn [drop]. cursor_eq.
Qed.

(** A space among the quality values ends the run. *)
Lemma fastq_quals_space (phred : Z -> Z) (ql rest : list Z) (cur buflen nqual : nat)
    (t5 : Z) (nm q : list Z) :
  quality_values charToPhred33 solQuals_ phred64Quals_ phred ql ->
  cur + length ql < buflen ->
  fastq_quals (ql ++ ch_space :: rest) cur buflen nqual t5 nm q =
  Fail (Thrown (msg_wrong_quality nm)).
Proof.
  intros Hq. revert cur nqual q.
  induction Hq as [|c ql (Hnl & Hsp & Hph) _ IH]; intros cur nqual q Hlen;
    cbn [app Heavy.fastq_quals length] in *;
    (destruct (Nat.ltb_spec cur buflen); [|lia]).
  - now rewrite Z.eqb_refl.
  - destruct (Z.eqb_spec c ch_space); [contradiction|]. rewrite Hnl, Hph. cbn [bind].
    apply IH. lia.
Qed.

End Fastq_Loops.

Lemma trimmed_length (n5 n3 : Z) (l : list Z) :
  length (trimmed n5 n3 l) = length l - Z.to_nat n5 - Z.to_nat n3.
Proof. unfold trimmed. rewrite length_take, length_drop. lia. Qed.

(** Trimming by what could be trimmed of a list of the same length is
    trimming by the full amounts. *)
Lemma trimmed_min (n5 n3 : Z) (n : nat) (l : list Z) :
  length l = n ->
  trimmed (Z.of_nat (Nat.min (Z.to_nat n5) n))
          (Z.of_nat (Nat.min (Z.to_nat n3) (n - Z.to_nat n5))) l = trimmed n5 n3 l.
Proof.
  intros Hl. unfold trimmed. rewrite !Nat2Z.id.
  assert (Hd : drop (Nat.min (Z.to_nat n5) n) l = drop (Z.to_nat n5) l).
  { destruct (Nat.le_gt_cases (Z.to_nat n5) n).
    - now rewrite Nat.min_l.
    - rewrite Nat.min_r by lia. now rewrite !drop_ge by lia. }
  rewrite Hd. f_equal. rewrite length_drop. lia.
Qed.

Section Fastq_Parse_Props.

Variable NDEBUG : bool.
Variable gTrim5 gTrim3 : Z.
Variable intQuals_ solQuals_ phred64Quals_ : bool.
Variable readCnt_ : Z.
Variable asc2dna : Z -> Z.
Variable charToPhred33 : Z -> bool -> bool -> outcome Z.
Variable itoa10 : Z -> list Z.
Variable patFw_trimEnd : Z -> list Z -> list Z * Z.
Variable qual_trimEnd : Z -> list Z -> list Z * Z.
Variable Read_empty : Read -> bool.

Local Abbreviation fastq_parse_quals :=
  (Heavy.fastq_parse_quals NDEBUG intQuals_ solQuals_ phred64Quals_ readCnt_
     charToPhred33 itoa10 qual_trimEnd).
Local Abbreviation fastq_parse_read :=
  (Heavy.fastq_parse_read NDEBUG gTrim5 gTrim3 intQuals_ solQuals_ phred64Quals_ readCnt_
     asc2dna charToPhred33 itoa10 patFw_trimEnd qual_trimEnd Read_empty).
Local Abbreviation parse :=
  (FastqPatternSource_parse NDEBUG gTrim5 gTrim3 intQuals_ solQuals_ phred64Quals_ readCnt_
     asc2dna charToPhred33 itoa10 patFw_trimEnd qual_trimEnd Read_empty).

(** The first half of the parse of one read: name, sequence and '+' line
    of a record; it leaves the first quality value as the byte read
    last. *)
Lemma fastq_parse_read_head (r : Read) (mem : list nat) (junk nm line plus : list Z)
    (q0 : Z) (tail : list Z) :
  readOrigRawBuf r = fastq_head junk nm line plus ++ q0 :: tail ->
  fastq_lines junk nm line plus -> is_newline q0 = false ->
  length (fastq_head junk nm line plus) < raw_buf_len_ r ->
  name r = [] -> patFw r = [] ->
  NDEBUG = true \/ Read_empty r = true ->
  (0 <= gTrim5)%Z -> (0 <= gTrim3 < two64)%Z -> trims_end patFw_trimEnd ->
  (Z.of_nat (length line) < 2147483648)%Z ->
  let B := bases asc2dna line in
  let P0 := drop (Z.to_nat gTrim5) B in
  fastq_parse_read r mem =
  fastq_parse_quals
    (mkRead (readOrigBuf r) (readOrigRawBuf r) (raw_buf_len_ r) (cur_raw_buf_ r)
            nm (take (length P0 - Z.to_nat gTrim3) P0) (qual r)
            (Z.of_nat (Nat.min (Z.to_nat gTrim5) (length B)))
            (Z.of_nat (Nat.min (Z.to_nat gTrim3) (length P0)))
            (parsed r))
    q0 (length (fastq_head junk nm line plus) + 1) tail mem.
Proof.
  intros Hbuf (Hjunk & Hnm & Hline & Hne & Hplusfree & Hplus) Hq0 Hlen Hname Hpat Hfresh
         H5 H3 Htrim Hsize B P0.
  destruct (trimmed_sequence gTrim5 gTrim3 asc2dna patFw_trimEnd line H5 H3 Htrim Hsize)
    as (Ht5 & Hend & Ht3).
  fold B P0 in Ht5, Hend, Ht3.
  pose proof (take_base_fold gTrim5 asc2dna (line ++ [ch_LF]) [] H5) as Hfold.
  change (bases asc2dna []) with (@nil Z) in Hfold.
  rewrite drop_nil in Hfold. cbn [app length] in Hfold.
  assert (HB : bases asc2dna (line ++ [ch_LF]) = B).
  { unfold B, bases. rewrite fmap_app, List.filter_app. cbn. now rewrite app_nil_r. }
  rewrite HB in Hfold. fold P0 in Hfold.
  assert (Hheadlen : length (fastq_head junk nm line plus) =
                     length junk + length nm + length line + length plus + 5).
  { unfold fastq_head. repeat (rewrite length_app; cbn [length]). lia. }
  rewrite Hheadlen in *.
  destruct line as [|c0 line]; [contradiction|].
  pose proof (Forall_inv Hline) as [_ Hc0].
  unfold Heavy.fastq_parse_read.
  rewrite (assert_passes NDEBUG)
    by (right; apply Nat.ltb_lt; lia).
  cbn [bind]. rewrite (assert_passes NDEBUG (Read_empty r)) by assumption. cbn [bind].
  rewrite Hbuf. unfold fastq_head. rewrite <- !app_assoc. cbn [app].
  rewrite find_at_junk by (assumption || lia). cbn [bind].
  destruct (Nat.leb_spec (raw_buf_len_ r) (0 + length junk + 1)); [lia|].
  rewrite Hname. cbn [is_nil]. rewrite (assert_passes NDEBUG true) by now right. cbn [bind].
  rewrite <- !app_assoc. cbn [app].
  rewrite (fastq_name_line NDEBUG) by (assumption || (right; lia)). cbn [bind app].
  cbn [patFw set_name]. rewrite Hpat. cbn [is_nil].
  rewrite (assert_passes NDEBUG true) by now right. cbn [bind].
  repeat (rewrite <- app_assoc; cbn [app]).
  replace (line ++ ch_LF :: ch_plus :: plus ++ ch_LF :: q0 :: tail)
    with ((line ++ [ch_LF]) ++ ch_plus :: plus ++ ch_LF :: q0 :: tail)
    by (now rewrite <- app_assoc).
  rewrite (fastq_seq_run NDEBUG gTrim5 asc2dna).
  2:{ change (c0 :: line ++ [ch_LF]) with ((c0 :: line) ++ [ch_LF]).
      apply Forall_app. split; [assumption|]. repeat constructor. discriminate. }
  2:{ right. rewrite length_app. cbn [length] in *. lia. }
  cbn [bind]. change (c0 :: line ++ [ch_LF]) with ((c0 :: line) ++ [ch_LF]).
  rewrite Hfold. cbn [fst snd]. rewrite Ht5, Hend, Ht3.
  rewrite (skip_plus_line_run NDEBUG)
    by (assumption || (right; rewrite length_app; cbn [length] in *; lia)).
  cbn [bind]. cbn [skip_breaks_within].
  match goal with |- context [(?a <? ?b) && is_newline ch_LF] =>
    destruct (Nat.ltb_spec a b) as [_|Hge];
      [|rewrite length_app in Hge; cbn [length] in *; lia] end.
  replace (is_newline ch_LF) with true by reflexivity. cbn [andb].
  rewrite skip_breaks_within_stop by assumption. cbn [bind].
  unfold set_trimmed, set_patFw, set_name.
  cbn [name patFw qual readOrigBuf readOrigRawBuf raw_buf_len_ cur_raw_buf_ trimmed5
       trimmed3 parsed].
  rewrite length_app. cbn [length].
  match goal with |- _ ?R1 _ ?n1 _ _ = _ ?R2 _ ?n2 _ _ =>
    replace n1 with n2 by (clear; lia); replace R2 with R1; [reflexivity|] end.
  f_equal. rewrite Hbuf. unfold fastq_head. now repeat (rewrite <- app_assoc; cbn [app]).
Qed.

(** The second half on a line of quality values: the values are converted
    and trimmed, and compared in number with the bases. *)
Lemma fastq_parse_quals_line (r : Read) (mem : list nat) (phred : Z -> Z)
    (q0 : Z) (ql more : list Z) (cur : nat) :
  quality_values charToPhred33 solQuals_ phred64Quals_ phred (q0 :: ql) ->
  cur + length ql < raw_buf_len_ r ->
  qual r = [] -> intQuals_ = false ->
  (0 <= trimmed5 r)%Z -> (0 <= trimmed3 r < two64)%Z -> trims_end qual_trimEnd ->
  let q := trimmed (trimmed5 r) (trimmed3 r) (phred <$> q0 :: ql) in
  fastq_parse_quals r q0 cur (ql ++ ch_LF :: more) mem =
  if length q <? length (patFw r) then tooFewQualities (name r)
  else if length (patFw r) <? length q then tooManyQualities (name r)
  else
    do mem <- cursor_add mem (cur_raw_buf_ r) (cur + length ql + 1);
    Ok (true,
        mkRead (readOrigBuf r) (readOrigRawBuf r) (raw_buf_len_ r) (cur_raw_buf_ r)
               (if is_nil (name r) then itoa10 readCnt_ else name r)
               (patFw r) q (trimmed5 r) (trimmed3 r) true,
        mem).
Proof.
  intros Hq Hlen Hqual Hint H5 H3 Htrim q.
  pose proof (Forall_inv Hq) as (_ & _ & Hq0). apply Forall_inv_tail in Hq.
  unfold Heavy.fastq_parse_quals. rewrite Hqual, Hint. cbn [is_nil].
  rewrite (assert_passes NDEBUG true) by now right. cbn [bind].
  rewrite Hq0. cbn [bind].
  rewrite (fastq_quals_run solQuals_ phred64Quals_ charToPhred33 phred) by assumption.
  cbn [bind].
  assert (Hacc : (if (trimmed5 r <=? 0)%Z then [] ++ [phred q0] else []) ++
                 drop (Z.to_nat (trimmed5 r) - 1) (phred <$> ql) =
                 drop (Z.to_nat (trimmed5 r)) (phred <$> q0 :: ql)).
  { rewrite fmap_cons. destruct (Z.leb_spec (trimmed5 r) 0).
    - replace (Z.to_nat (trimmed5 r)) with 0 by lia. now rewrite !drop_0.
    - replace (Z.to_nat (trimmed5 r)) with (S (Z.to_nat (trimmed5 r) - 1)) at 2 by lia.
      reflexivity. }
  rewrite Hacc. rewrite wrap64_small by assumption.
  rewrite <- (Z2Nat.id (trimmed3 r)) at 1 by lia. rewrite Htrim.
  fold (trimmed (trimmed5 r) (trimmed3 r) (phred <$> q0 :: ql)). fold q.
  unfold set_qual. cbn [qual patFw name].
  destruct (length q <? length (patFw r)); [reflexivity|].
  destruct (length (patFw r) <? length q); [reflexivity|].
  destruct (is_nil (name r)); reflexivity.
Qed.

(** One read on a record of four lines: both halves together. *)
Lemma fastq_parse_read_line (r : Read) (mem : list nat) (phred : Z -> Z)
    (junk nm line plus : list Z) (q0 : Z) (ql more : list Z) :
  readOrigRawBuf r = fastq_head junk nm line plus ++ q0 :: ql ++ ch_LF :: more ->
  fastq_lines junk nm line plus ->
  quality_values charToPhred33 solQuals_ phred64Quals_ phred (q0 :: ql) ->
  length (fastq_head junk nm line plus) + length ql + 1 < raw_buf_len_ r ->
  name r = [] -> patFw r = [] -> qual r = [] ->
  NDEBUG = true \/ Read_empty r = true -> intQuals_ = false ->
  (0 <= gTrim5)%Z -> (0 <= gTrim3 < two64)%Z ->
  trims_end patFw_trimEnd -> trims_end qual_trimEnd ->
  (Z.of_nat (length line) < 2147483648)%Z ->
  let B := bases asc2dna line in
  let t5 := Z.of_nat (Nat.min (Z.to_nat gTrim5) (length B)) in
  let t3 := Z.of_nat (Nat.min (Z.to_nat gTrim3) (length B - Z.to_nat gTrim5)) in
  let P := trimmed gTrim5 gTrim3 B in
  let q := trimmed t5 t3 (phred <$> q0 :: ql) in
  fastq_parse_read r mem =
  if length q <? length P then tooFewQualities nm
  else if length P <? length q then tooManyQualities nm
  else
    do mem <- cursor_add mem (cur_raw_buf_ r)
                (length (fastq_head junk nm line plus) + length ql + 2);
    Ok (true,
        mkRead (readOrigBuf r) (readOrigRawBuf r) (raw_buf_len_ r) (cur_raw_buf_ r)
               (if is_nil nm then itoa10 readCnt_ else nm) P q t5 t3 true,
        mem).
Proof.
  intros Hbuf Hlines Hq Hlen Hname Hpat Hqual Hfresh Hint H5 H3 Htrim Htrimq Hsize B t5 t3 P q.
  rewrite (fastq_parse_read_head r mem junk nm line plus q0 (ql ++ ch_LF :: more));
    try assumption; [|now apply Forall_inv in Hq|lia].
  fold B. rewrite length_drop. fold t5 t3.
  assert (HP : take (length B - Z.to_nat gTrim5 - Z.to_nat gTrim3)
                 (drop (Z.to_nat gTrim5) B) = P).
  { unfold P, trimmed. now rewrite length_drop. }
  rewrite HP.
  rewrite (fastq_parse_quals_line _ mem phred q0 ql more);
    cbn [qual trimmed5 trimmed3 raw_buf_len_ patFw name cur_raw_buf_ readOrigBuf
         readOrigRawBuf]; try assumption; try lia.
  fold q.
  replace (length (fastq_head junk nm line plus) + 1 + length ql + 1)
    with (length (fastq_head junk nm line plus) + length ql + 2) by lia.
  reflexivity.
Qed.

(** X18. [FastqPatternSource::parse] on a record of four lines with as many
    quality values as bases: the read gets the name (the read count if the
    name is empty), the bases and the converted quality values, both
    without the first [gTrim5] and the last [gTrim3] of them, is marked
    parsed, and the cursor of its buffer goes forward by the bytes before
    the record and the record. *)
Theorem fastq_parse_reads_record (fuel : nat) (r rb : Read) (mem : list nat)
    (phred : Z -> Z) (junk nm line plus : list Z) (q0 : Z) (ql more : list Z) (x : nat) :
  readOrigRawBuf r = fastq_head junk nm line plus ++ q0 :: ql ++ ch_LF :: more ->
  fastq_lines junk nm line plus ->
  quality_values charToPhred33 solQuals_ phred64Quals_ phred (q0 :: ql) ->
  length (fastq_head junk nm line plus) + length ql + 1 < raw_buf_len_ r ->
  name r = [] -> patFw r = [] -> qual r = [] ->
  NDEBUG = true \/ Read_empty r = true -> intQuals_ = false ->
  (0 <= gTrim5)%Z -> (0 <= gTrim3 < two64)%Z ->
  trims_end patFw_trimEnd -> trims_end qual_trimEnd ->
  (Z.of_nat (length line) < 2147483648)%Z ->
  length (q0 :: ql) = length (bases asc2dna line) ->
  mem !! cur_raw_buf_ r = Some x ->
  parsed rb = true \/ raw_buf_len_ rb = 0 ->
  let B := bases asc2dna line in
  parse (S fuel) r rb mem =
  Ok (true,
      mkRead (readOrigBuf r) (readOrigRawBuf r) (raw_buf_len_ r) (cur_raw_buf_ r)
             (if is_nil nm then itoa10 readCnt_ else nm)
             (trimmed gTrim5 gTrim3 B) (trimmed gTrim5 gTrim3 (phred <$> q0 :: ql))
             (Z.of_nat (Nat.min (Z.to_nat gTrim5) (length B)))
             (Z.of_nat (Nat.min (Z.to_nat gTrim3) (length B - Z.to_nat gTrim5)))
             true,
      rb,
      <[cur_raw_buf_ r := x + (length (fastq_head junk nm line plus) + length ql + 2)]> mem).
Proof.
  intros Hbuf Hlines Hq Hlen Hname Hpat Hqual Hfresh Hint H5 H3 Htrim Htrimq Hsize Hsame
         Hcur Hrb B.
  cbn [FastqPatternSource_parse].
  rewrite (fastq_parse_read_line r mem phred junk nm line plus q0 ql more) by assumption.
  fold B. rewrite trimmed_min by (now rewrite length_fmap).
  rewrite !trimmed_length, length_fmap, Hsame. fold B.
  rewrite !Nat.ltb_irrefl. unfold cursor_add. rewrite Hcur. cbn [bind negb parsed raw_buf_len_].
  destruct Hrb as [-> | ->]; [reflexivity|].
  change (0 <? 0) with false. now rewrite andb_false_r.
Qed.

(** X19. More quality values than bases in a record of four lines: the
    parser reports too many quality values, whatever is trimmed. *)
Theorem fastq_parse_too_many_qualities (fuel : nat) (r rb : Read) (mem : list nat)
    (phred : Z -> Z) (junk nm line plus : list Z) (q0 : Z) (ql more : list Z) :
  readOrigRawBuf r = fastq_head junk nm line plus ++ q0 :: ql ++ ch_LF :: more ->
  fastq_lines junk nm line plus ->
  quality_values charToPhred33 solQuals_ phred64Quals_ phred (q0 :: ql) ->
  length (fastq_head junk nm line plus) + length ql + 1 < raw_buf_len_ r ->
  name r = [] -> patFw r = [] -> qual r = [] ->
  NDEBUG = true \/ Read_empty r = true -> intQuals_ = false ->
  (0 <= gTrim5)%Z -> (0 <= gTrim3 < two64)%Z ->
  trims_end patFw_trimEnd -> trims_end qual_trimEnd ->
  (Z.of_nat (length line) < 2147483648)%Z ->
  length (bases asc2dna line) < length (q0 :: ql) ->
  parse (S fuel) r rb mem = Fail (Thrown (msg_too_many_qualities nm)).
Proof.
  intros Hbuf Hlines Hq Hlen Hname Hpat Hqual Hfresh Hint H5 H3 Htrim Htrimq Hsize Hmore.
  cbn [FastqPatternSource_parse].
  rewrite (fastq_parse_read_line r mem phred junk nm line plus q0 ql more) by assumption.
  rewrite !trimmed_length, length_fmap, !Nat2Z.id.
  match goal with |- context [?a <? ?b] =>
    destruct (Nat.ltb_spec a b); [lia|] end.
  match goal with |- context [?a <? ?b] =>
    destruct (Nat.ltb_spec a b); [reflexivity|lia] end.
Qed.

(** X20. Fewer quality values than bases, with bases left after trimming:
    the parser reports too few quality values. *)
Theorem fastq_parse_too_few_qualities (fuel : nat) (r rb : Read) (mem : list nat)
    (phred : Z -> Z) (junk nm line plus : list Z) (q0 : Z) (ql more : list Z) :
  readOrigRawBuf r = fastq_head junk nm line plus ++ q0 :: ql ++ ch_LF :: more ->
  fastq_lines junk nm line plus ->
  quality_values charToPhred33 solQuals_ phred64Quals_ phred (q0 :: ql) ->
  length (fastq_head junk nm line plus) + length ql + 1 < raw_buf_len_ r ->
  name r = [] -> patFw r = [] -> qual r = [] ->
  NDEBUG = true \/ Read_empty r = true -> intQuals_ = false ->
  (0 <= gTrim5)%Z -> (0 <= gTrim3 < two64)%Z ->
  trims_end patFw_trimEnd -> trims_end qual_trimEnd ->
  (Z.of_nat (length line) < 2147483648)%Z ->
  length (q0 :: ql) < length (bases asc2dna line) ->
  (gTrim5 + gTrim3 < Z.of_nat (length (bases asc2dna line)))%Z ->
  parse (S fuel) r rb mem = Fail (Thrown (msg_too_few_qualities nm)).
Proof.
  intros Hbuf Hlines Hq Hlen Hname Hpat Hqual Hfresh Hint H5 H3 Htrim Htrimq Hsize Hless Hleft.
  cbn [FastqPatternSource_parse].
  rewrite (fastq_parse_read_line r mem phred junk nm line plus q0 ql more) by assumption.
  rewrite !trimmed_length, length_fmap, !Nat2Z.id.
  match goal with |- context [?a <? ?b] =>
    destruct (Nat.ltb_spec a b); [reflexivity|lia] end.
Qed.

(** X21. A space among the quality values: the parser reports the wrong
    quality format, with the name of the read. *)
Theorem fastq_parse_space_in_qualities (fuel : nat) (r rb : Read) (mem : list nat)
    (phred : Z -> Z) (junk nm line plus : list Z) (q0 : Z) (ql more : list Z) :
  readOrigRawBuf r = fastq_head junk nm line plus ++ q0 :: ql ++ ch_space :: more ->
  fastq_lines junk nm line plus ->
  quality_values charToPhred33 solQuals_ phred64Quals_ phred (q0 :: ql) ->
  length (fastq_head junk nm line plus) + length ql + 1 < raw_buf_len_ r ->
  name r = [] -> patFw r = [] -> qual r = [] ->
  NDEBUG = true \/ Read_empty r = true -> intQuals_ = false ->
  (0 <= gTrim5)%Z -> (0 <= gTrim3 < two64)%Z -> trims_end patFw_trimEnd ->
  (Z.of_nat (length line) < 2147483648)%Z ->
  parse (S fuel) r rb mem = Fail (Thrown (msg_wrong_quality nm)).
Proof.
  intros Hbuf Hlines Hq Hlen Hname Hpat Hqual Hfresh Hint H5 H3 Htrim Hsize.
  cbn [FastqPatternSource_parse].
  rewrite (fastq_parse_read_head r mem junk nm line plus q0 (ql ++ ch_space :: more));
    try assumption; [|now apply Forall_inv in Hq|lia].
  pose proof (Forall_inv Hq) as (_ & _ & Hq0). apply Forall_inv_tail in Hq.
  unfold Heavy.fastq_parse_quals. cbn [qual name trimmed5 raw_buf_len_].
  rewrite Hqual, Hint. cbn [is_nil].
  rewrite (assert_passes NDEBUG true) by now right. cbn [bind].
  rewrite Hq0. cbn [bind].
  rewrite (fastq_quals_space solQuals_ phred64Quals_ charToPhred33 phred) by (assumption || lia).
  reflexivity.
Qed.

(** X22. With integer qualities asked for, a record whose name, sequence and
    '+' line are read is refused: the parser throws. *)
Theorem fastq_parse_integer_qualities (fuel : nat) (r rb : Read) (mem : list nat)
    (junk nm line plus : list Z) (q0 : Z) (tail : list Z) :
  readOrigRawBuf r = fastq_head junk nm line plus ++ q0 :: tail ->
  fastq_lines junk nm line plus -> is_newline q0 = false ->
  length (fastq_head junk nm line plus) < raw_buf_len_ r ->
  name r = [] -> patFw r = [] -> qual r = [] ->
  NDEBUG = true \/ Read_empty r = true -> intQuals_ = true ->
  (0 <= gTrim5)%Z -> (0 <= gTrim3 < two64)%Z -> trims_end patFw_trimEnd ->
  (Z.of_nat (length line) < 2147483648)%Z ->
  parse (S fuel) r rb mem = Fail (Thrown "").
Proof.
  intros Hbuf Hlines Hq0 Hlen Hname Hpat Hqual Hfresh Hint H5 H3 Htrim Hsize.
  cbn [FastqPatternSource_parse].
  rewrite (fastq_parse_read_head r mem junk nm line plus q0 tail) by assumption.
  unfold Heavy.fastq_parse_quals. cbn [qual]. rewrite Hqual, Hint. cbn [is_nil].
  rewrite (assert_passes NDEBUG true) by now right. reflexivity.
Qed.

(** X23. A buffer without '@' before its last byte: the parser gives the
    read up.  It returns false, leaves the read as it was and sets the
    cursor of the buffer to the length of the buffer. *)
Theorem fastq_parse_without_record (fuel : nat) (r rb : Read) (mem : list nat)
    (buf more : list Z) :
  readOrigRawBuf r = buf ++ more -> length buf = raw_buf_len_ r -> buf <> [] ->
  Forall (fun c => c <> ch_at) (take (length buf - 1) buf) ->
  NDEBUG = true \/ Read_empty r = true ->
  cur_raw_buf_ r < length mem ->
  parse (S fuel) r rb mem = Ok (false, r, rb, <[cur_raw_buf_ r := raw_buf_len_ r]> mem).
Proof.
  intros Hbuf Hlen Hne Hall Hfresh Hcur.
  cbn [FastqPatternSource_parse]. unfold Heavy.fastq_parse_read.
  rewrite (assert_passes NDEBUG)
    by (right; apply Nat.ltb_lt; destruct buf; [contradiction | cbn [length] in Hlen; lia]).
  cbn [bind]. rewrite (assert_passes NDEBUG (Read_empty r)) by assumption. cbn [bind].
  rewrite Hbuf.
  destruct (find_at_none buf 0 (raw_buf_len_ r) Hlen Hne Hall more) as (c & rest & ->).
  cbn [bind]. rewrite Nat.leb_refl. unfold cursor_store.
  destruct (Nat.ltb_spec (cur_raw_buf_ r) (length mem)); [|lia]. reflexivity.
Qed.

End Fastq_Parse_Props.

(** *** The parsers at concrete inputs *)

Ltac concrete_bytes :=
  cbn; repeat first [ split | constructor | reflexivity | lia | discriminate ].

(** Two records and a batch of two reads. *)
Lemma fasta_batch_takes_records_witness :
  let r0 := Heavy.fasta_read "" in
  let b1 := Pat.bytes_of ("r1" ++ OutQ.LF ++ "ACGT" ++ OutQ.LF) in
  let b2 := Pat.bytes_of ("r2" ++ OutQ.LF ++ "GG" ++ OutQ.LF) in
  let s := Reads.mkSrc ["a.fa"] [false] 1 true
             (Pat.bytes_of (">r1" ++ OutQ.LF ++ "ACGT" ++ OutQ.LF ++
                            ">r2" ++ OutQ.LF ++ "GG" ++ OutQ.LF)) 0%Z true [] in
  let pt := Reads.mkPT 0%Z [r0; r0; r0] [] 3 in
  exists s' pt',
    Reads.FastaPatternSource_nextBatchFromFile false pt true s = Ok (s', pt', (true, 2%Z)) /\
    Reads.fb_ s' = [] /\
    Reads.first_ s' = false /\
    Reads.readCnt_ s' = 0%Z /\
    Reads.rdid_ pt' = 0%Z /\
    length (Reads.readbuf true pt') = 3 /\
    Reads.readbuf false pt' = [] /\
    (forall i, 2 <= i -> Reads.readbuf true pt' !! i = Reads.readbuf true pt !! i) /\
    (forall i b r, i < 2 -> [b1; b2] !! i = Some b -> Reads.readbuf true pt !! i = Some r ->
       Reads.readbuf true pt' !! i = Some (Reads.set_readOrigBuf (Reads.ch_gt :: b) r)).
Proof.
  intros r0 b1 b2 s pt.
  apply (fasta_batch_takes_records false pt true s [b1; b2]).
  - exists []. split; [constructor | reflexivity].
  - discriminate.
  - unfold Reads.record_text. concrete_bytes.
  - cbn. lia.
  - cbn. lia.
Defined.

Lemma fasta_ids_without_gaps_witness :
  let r0 := Heavy.fasta_read "" in
  let b1 := Pat.bytes_of ("r1" ++ OutQ.LF ++ "ACGT" ++ OutQ.LF) in
  let b2 := Pat.bytes_of ("r2" ++ OutQ.LF ++ "GG" ++ OutQ.LF) in
  let s := Reads.mkSrc ["a.fa"] [false] 1 true
             (Pat.bytes_of (">r1" ++ OutQ.LF ++ "ACGT" ++ OutQ.LF ++
                            ">r2" ++ OutQ.LF ++ "GG" ++ OutQ.LF)) 40%Z true [] in
  let pt := Reads.mkPT 0%Z [r0] [] 1 in
  exists s' pt',
    Reads.BufferedFilePatternSource_nextBatch false Pat.demo_fs []
      (Reads.FastaPatternSource_nextBatchFromFile false)
      Reads.FastaPatternSource_resetForNextFile 1 pt true true s =
      Ok (s', pt', (false, 1%Z)) /\
    Reads.rdid_ pt' = 40%Z /\
    Reads.readCnt_ s' = wrap64 (40 + 1) /\
    Reads.fb_ s' = b2 /\
    Reads.first_ s' = false /\
    (forall i b, i < 1 -> [b1; b2] !! i = Some b ->
       Reads.readOrigBuf <$> (Reads.readbuf true pt' !! i) = Some (Reads.ch_gt :: b)).
Proof.
  intros r0 b1 b2 s pt.
  apply (fasta_ids_without_gaps false Pat.demo_fs [] 0 pt true true s [b1; b2]).
  - exists []. split; [constructor | reflexivity].
  - discriminate.
  - unfold Reads.record_text. concrete_bytes.
  - cbn. lia.
  - cbn. lia.
  - cbn. lia.
  - cbn. lia.
Defined.

Import Reads Heavy.

(** A record of two sequence lines, one base trimmed at each end. *)
Lemma fasta_parse_takes_first_line_witness :
  let text := (">r1" ++ OutQ.LF ++ "AC.GT" ++ OutQ.LF ++ "TTTT" ++ OutQ.LF)%string in
  FastaPatternSource_parse false 1 1 7 demo_asc2dna demo_itoa10 demo_trimEnd
    (fun r => is_nil (patFw r)) 1 (fasta_read text) (fasta_read "") =
  Ok (true,
      mkRead (Pat.bytes_of text) [] 0 0 (Pat.bytes_of "r1") [1; 4; 2]%Z [73; 73; 73]%Z
             1%Z 1%Z false,
      fasta_read "").
Proof.
  intros text.
  apply (fasta_parse_takes_first_line false 1 1 7 demo_asc2dna demo_itoa10 demo_trimEnd
           (fun r => is_nil (patFw r)) 0 (fasta_read text) (fasta_read "")
           (Pat.bytes_of "r1") (Pat.bytes_of "AC.GT") (Pat.bytes_of ("TTTT" ++ OutQ.LF))).
  - reflexivity.
  - concrete_line.
  - concrete_line.
  - discriminate.
  - reflexivity.
  - reflexivity.
  - reflexivity.
  - now right.
  - reflexivity.
  - lia.
  - unfold two64. lia.
  - exact demo_trimEnd_trims_end.
  - cbn. lia.
Defined.


(** Two mates of two bases, with two bases trimmed at the front. *)
Lemma fasta_parse_pair_never_ends_witness :
  let r := fasta_read (">r1" ++ OutQ.LF ++ "AC" ++ OutQ.LF)%string in
  FastaPatternSource_parse true 2 0 7 demo_asc2dna demo_itoa10 demo_trimEnd
    (fun r => is_nil (patFw r)) 1000 r r = Fail OutOfFuel.
Proof.
  intros r.
  assert (Hr : trims_to_nothing 2 0 demo_asc2dna r).
  { exists (Pat.bytes_of "r1"), (Pat.bytes_of "AC"), [].
    split; [reflexivity|]. split; [concrete_line|]. split; [concrete_line|].
    split; [discriminate|]. split; [vm_compute; reflexivity|].
    split; [vm_compute; discriminate | reflexivity]. }
  apply (fasta_parse_pair_never_ends true 2 0 7 demo_asc2dna demo_itoa10 demo_trimEnd
           (fun r => is_nil (patFw r)) 1000 r r).
  - reflexivity.
  - lia.
  - unfold two64. lia.
  - exact demo_trimEnd_trims_end.
  - exact Hr.
  - exact Hr.
Defined.

Ltac concrete_size :=
  first [ cbn; lia | vm_compute; first [ lia | reflexivity | discriminate ] ].

Ltac concrete_fastq_lines :=
  unfold fastq_lines;
  split; [concrete_bytes|]; split; [concrete_line|]; split; [concrete_line|];
  split; [discriminate|]; split; [concrete_bytes|]; concrete_line.

Ltac concrete_qualities :=
  unfold quality_values; cbn;
  repeat (constructor; [split; [reflexivity | split; [discriminate | reflexivity]] |]);
  constructor.

(** A record after a blank line, one base trimmed at each end; the cursor
    of the buffer is at 5. *)
Lemma fastq_parse_reads_record_witness :
  let text := (OutQ.LF ++ Pat.fq_record "r1" "ACGT" "IJKL")%string in
  FastqPatternSource_parse false 1 1 false false false 7 demo_asc2dna demo_charToPhred33
    demo_itoa10 demo_trimEnd demo_trimEnd (fun r => is_nil (patFw r))
    1 (fastq_read text) (fastq_read "") [5] =
  Ok (true,
      mkRead [] (Pat.bytes_of text) 17 0 (Pat.bytes_of "r1") [1; 2]%Z [74; 75]%Z
             1%Z 1%Z true,
      fastq_read "", [22]).
Proof.
  intros text.
  apply (fastq_parse_reads_record false 1 1 false false false 7 demo_asc2dna
           demo_charToPhred33 demo_itoa10 demo_trimEnd demo_trimEnd
           (fun r => is_nil (patFw r)) 0 (fastq_read text) (fastq_read "") [5]
           (fun c => c) [10%Z] (Pat.bytes_of "r1") (Pat.bytes_of "ACGT") []
           73%Z (Pat.bytes_of "JKL") [] 5).
  - reflexivity.
  - concrete_fastq_lines.
  - concrete_qualities.
  - concrete_size.
  - reflexivity.
  - reflexivity.
  - reflexivity.
  - now right.
  - reflexivity.
  - lia.
  - unfold two64. lia.
  - exact demo_trimEnd_trims_end.
  - exact demo_trimEnd_trims_end.
  - concrete_size.
  - reflexivity.
  - reflexivity.
  - now right.
Defined.

Lemma fastq_parse_too_many_qualities_witness :
  FastqPatternSource_parse false 2 2 false false false 7 demo_asc2dna demo_charToPhred33
    demo_itoa10 demo_trimEnd demo_trimEnd (fun r => is_nil (patFw r))
    1 (fastq_read (Pat.fq_record "r1" "ACG" "IJKL")) (fastq_read "") [0] =
  Fail (Thrown "Error: Read r1 has more quality values than read characters.").
Proof.
  apply (fastq_parse_too_many_qualities false 2 2 false false false 7 demo_asc2dna
           demo_charToPhred33 demo_itoa10 demo_trimEnd demo_trimEnd
           (fun r => is_nil (patFw r)) 0 (fastq_read (Pat.fq_record "r1" "ACG" "IJKL"))
           (fastq_read "") [0]
           (fun c => c) [] (Pat.bytes_of "r1") (Pat.bytes_of "ACG") []
           73%Z (Pat.bytes_of "JKL") []).
  - reflexivity.
  - concrete_fastq_lines.
  - concrete_qualities.
  - concrete_size.
  - reflexivity.
  - reflexivity.
  - reflexivity.
  - now right.
  - reflexivity.
  - lia.
  - unfold two64. lia.
  - exact demo_trimEnd_trims_end.
  - exact demo_trimEnd_trims_end.
  - concrete_size.
  - concrete_size.
Defined.

Lemma fastq_parse_too_few_qualities_witness :
  FastqPatternSource_parse false 1 1 false false false 7 demo_asc2dna demo_charToPhred33
    demo_itoa10 demo_trimEnd demo_trimEnd (fun r => is_nil (patFw r))
    1 (fastq_read (Pat.fq_record "r1" "ACGT" "IJ")) (fastq_read "") [0] =
  Fail (Thrown "Error: Read r1 has more read characters than quality values.").
Proof.
  apply (fastq_parse_too_few_qualities false 1 1 false false false 7 demo_asc2dna
           demo_charToPhred33 demo_itoa10 demo_trimEnd demo_trimEnd
           (fun r => is_nil (patFw r)) 0 (fastq_read (Pat.fq_record "r1" "ACGT" "IJ"))
           (fastq_read "") [0]
           (fun c => c) [] (Pat.bytes_of "r1") (Pat.bytes_of "ACGT") []
           73%Z (Pat.bytes_of "J") []).
  - reflexivity.
  - concrete_fastq_lines.
  - concrete_qualities.
  - concrete_size.
  - reflexivity.
  - reflexivity.
  - reflexivity.
  - now right.
  - reflexivity.
  - lia.
  - unfold two64. lia.
  - exact demo_trimEnd_trims_end.
  - exact demo_trimEnd_trims_end.
  - concrete_size.
  - concrete_size.
  - concrete_size.
Defined.

Lemma fastq_parse_space_in_qualities_witness :
  FastqPatternSource_parse false 0 0 false false false 7 demo_asc2dna demo_charToPhred33
    demo_itoa10 demo_trimEnd demo_trimEnd (fun r => is_nil (patFw r))
    1 (fastq_read (Pat.fq_record "r1" "ACGT" "40 40 40 40")) (fastq_read "") [0] =
  Fail (Thrown (msg_wrong_quality (Pat.bytes_of "r1"))).
Proof.
  apply (fastq_parse_space_in_qualities false 0 0 false false false 7 demo_asc2dna
           demo_charToPhred33 demo_itoa10 demo_trimEnd demo_trimEnd
           (fun r => is_nil (patFw r)) 0
           (fastq_read (Pat.fq_record "r1" "ACGT" "40 40 40 40")) (fastq_read "") [0]
           (fun c => c) [] (Pat.bytes_of "r1") (Pat.bytes_of "ACGT") []
           52%Z (Pat.bytes_of "0") (Pat.bytes_of ("40 40 40" ++ OutQ.LF))).
  - reflexivity.
  - concrete_fastq_lines.
  - concrete_qualities.
  - concrete_size.
  - reflexivity.
  - reflexivity.
  - reflexivity.
  - now right.
  - reflexivity.
  - lia.
  - unfold two64. lia.
  - exact demo_trimEnd_trims_end.
  - concrete_size.
Defined.

Lemma fastq_parse_integer_qualities_witness :
  FastqPatternSource_parse false 0 0 true false false 7 demo_asc2dna demo_charToPhred33
    demo_itoa10 demo_trimEnd demo_trimEnd (fun r => is_nil (patFw r))
    1 (fastq_read (Pat.fq_record "r1" "ACGT" "40 40 40 40")) (fastq_read "") [0] =
  Fail (Thrown "").
Proof.
  apply (fastq_parse_integer_qualities false 0 0 true false false 7 demo_asc2dna
           demo_charToPhred33 demo_itoa10 demo_trimEnd demo_trimEnd
           (fun r => is_nil (patFw r)) 0
           (fastq_read (Pat.fq_record "r1" "ACGT" "40 40 40 40")) (fastq_read "") [0]
           [] (Pat.bytes_of "r1") (Pat.bytes_of "ACGT") []
           52%Z (Pat.bytes_of ("0 40 40 40" ++ OutQ.LF))).
  - reflexivity.
  - concrete_fastq_lines.
  - reflexivity.
  - concrete_size.
  - reflexivity.
  - reflexivity.
  - reflexivity.
  - now right.
  - reflexivity.
  - lia.
  - unfold two64. lia.
  - exact demo_trimEnd_trims_end.
  - concrete_size.
Defined.

(** What is left of a record cut off before its '@'. *)
Lemma fastq_parse_without_record_witness :
  let r := fastq_read ("ACGT" ++ OutQ.LF ++ "+" ++ OutQ.LF ++ "IIII" ++ OutQ.LF)%string in
  FastqPatternSource_parse false 0 0 false false false 7 demo_asc2dna demo_charToPhred33
    demo_itoa10 demo_trimEnd demo_trimEnd (fun r => is_nil (patFw r))
    1 r (fastq_read "") [5] =
  Ok (false, r, fastq_read "", [12]).
Proof.
  intros r.
  apply (fastq_parse_without_record false 0 0 false false false 7 demo_asc2dna
           demo_charToPhred33 demo_itoa10 demo_trimEnd demo_trimEnd
           (fun r => is_nil (patFw r)) 0 r (fastq_read "") [5]
           (readOrigRawBuf r) []).
  - cbn. reflexivity.
  - reflexivity.
  - discriminate.
  - concrete_bytes.
  - now right.
  - concrete_size.
Defined.

(** ** The light parsers of raw and tab-delimited files *)

Lemma read_chunk_body (b fb buf : list Z) :
  Reads.record_text b ->
  Raw.read_chunk (b ++ Reads.ch_gt :: fb) buf = (fb, buf ++ b).
Proof.
  intros Hb. revert buf. induction Hb as [|c b [Hc Hgt] _ IH]; intros buf;
    cbn [app Raw.read_chunk].
  - rewrite Z.eqb_refl, orb_true_r, app_nil_r. reflexivity.
  - destruct (Z.ltb_spec c 0); [lia|]. destruct (Z.eqb_spec c Reads.ch_gt); [contradiction|].
    cbn [orb]. rewrite IH, <- app_assoc. reflexivity.
Qed.

Lemma read_chunk_last (b buf : list Z) :
  Reads.record_text b -> Raw.read_chunk b buf = ([], buf ++ b).
Proof.
  intros Hb. revert buf. induction Hb as [|c b [Hc Hgt] _ IH]; intros buf;
    cbn [Raw.read_chunk].
  - now rewrite app_nil_r.
  - destruct (Z.ltb_spec c 0); [lia|]. destruct (Z.eqb_spec c Reads.ch_gt); [contradiction|].
    cbn [orb]. rewrite IH, <- app_assoc. reflexivity.
Qed.

Lemma read_chunk_joined (b : list Z) (bodies : list (list Z)) :
  Reads.record_text b ->
  Raw.read_chunk (Reads.joined (b :: bodies)) [Reads.ch_gt] =
  (Reads.joined bodies, Reads.ch_gt :: b).
Proof.
  intros Hb. destruct bodies as [|b2 bodies].
  - cbn [Reads.joined]. now rewrite read_chunk_last.
  - change (Reads.joined (b :: b2 :: bodies))
      with (b ++ Reads.ch_gt :: Reads.joined (b2 :: bodies)).
    now rewrite read_chunk_body.
Qed.

(** The loop of the two parsers ends after its first round. *)
Lemma read_chunks_once (NDEBUG : bool) (n : nat) (b : list Z) (bodies : list (list Z))
    (readbuf : list Reads.Read) (r : Reads.Read) :
  Reads.record_text b -> readbuf !! 0 = Some r ->
  Raw.read_chunks NDEBUG (S n) 0 false (Reads.joined (b :: bodies)) readbuf =
  Ok (1, Reads.joined bodies, <[0 := Reads.set_readOrigBuf (Reads.ch_gt :: b) r]> readbuf).
Proof.
  intros Hb Hr. cbn [Raw.read_chunks]. unfold src_get. rewrite Hr. cbn [bind].
  rewrite read_chunk_joined by assumption. now destruct n.
Qed.

(** What both parsers do on a stream of records. *)
Lemma raw_light_parse (NDEBUG : bool)
    (light : Reads.PerThreadReadBuf -> bool -> Reads.BufferedFilePatternSource ->
             outcome (Reads.BufferedFilePatternSource * Reads.PerThreadReadBuf * (bool * Z)))
    (pt : Reads.PerThreadReadBuf) (batch_a : bool) (s : Reads.BufferedFilePatternSource)
    (b : list Z) (bodies : list (list Z)) (r : Reads.Read) :
  In light (Raw.light_parsers NDEBUG) ->
  Reads.fasta_input s (Reads.joined (b :: bodies)) -> Reads.record_text b ->
  0 < Reads.max_buf_ pt -> Reads.readbuf batch_a pt !! 0 = Some r ->
  light pt batch_a s =
  Ok (Reads.mkSrc (Reads.infiles_ s) (Reads.errs_ s) (Reads.filecur_ s) (Reads.fb_isOpen s)
                  (Reads.joined bodies) (Reads.readCnt_ s) false (Reads.cerr_ s),
      Reads.set_readbuf batch_a
        (<[0 := Reads.set_readOrigBuf (Reads.ch_gt :: b) r]> (Reads.readbuf batch_a pt)) pt,
      (true, 1%Z)).
Proof.
  intros Hlight Hin Hb Hmax Hr.
  assert (Hraw : Raw.RawPatternSource_nextBatchFromFile NDEBUG pt batch_a s =
    Ok (Reads.mkSrc (Reads.infiles_ s) (Reads.errs_ s) (Reads.filecur_ s) (Reads.fb_isOpen s)
                    (Reads.joined bodies) (Reads.readCnt_ s) false (Reads.cerr_ s),
        Reads.set_readbuf batch_a
          (<[0 := Reads.set_readOrigBuf (Reads.ch_gt :: b) r]> (Reads.readbuf batch_a pt)) pt,
        (true, 1%Z))).
  { unfold Raw.RawPatternSource_nextBatchFromFile, Reads.fasta_input in *.
    destruct (Reads.max_buf_ pt) as [|n] eqn:En; [lia|].
    destruct (Reads.first_ s) eqn:Hfirst.
    - destruct Hin as (nls & Hnls & Hfb). rewrite Hfb.
      rewrite skip_newlines_prefix by (assumption || reflexivity).
      rewrite Z.eqb_refl. cbn [negb bind Reads.fb_ Reads.set_fb Reads.set_first].
      rewrite (read_chunks_once NDEBUG n b bodies _ r) by assumption. reflexivity.
    - cbn [bind]. rewrite Hin.
      rewrite (read_chunks_once NDEBUG n b bodies _ r) by assumption.
      cbn [bind]. unfold Reads.set_fb. rewrite <- Hfirst. reflexivity. }
  destruct Hlight as [<- | [<- | []]]; exact Hraw.
Qed.

(** X24. The light parsers of raw and of tab-delimited files take one record
    for each call, whatever the size of the batch, and report that the
    input is done, whatever is left of it: the first read of the batch gets
    '>' and the bytes up to the next '>', the count is 1, and the stream is
    left at the records that follow. *)
Theorem raw_batch_is_one_record (NDEBUG : bool)
    (light : Reads.PerThreadReadBuf -> bool -> Reads.BufferedFilePatternSource ->
             outcome (Reads.BufferedFilePatternSource * Reads.PerThreadReadBuf * (bool * Z)))
    (pt : Reads.PerThreadReadBuf) (batch_a : bool) (s : Reads.BufferedFilePatternSource)
    (b : list Z) (bodies : list (list Z)) (r : Reads.Read) :
  In light (Raw.light_parsers NDEBUG) ->
  Reads.fasta_input s (Reads.joined (b :: bodies)) -> Reads.record_text b ->
  0 < Reads.max_buf_ pt -> Reads.readbuf batch_a pt !! 0 = Some r ->
  exists s' pt',
    light pt batch_a s = Ok (s', pt', (true, 1%Z)) /\
    Reads.fb_ s' = Reads.joined bodies /\
    Reads.first_ s' = false /\
    Reads.readbuf batch_a pt' !! 0 = Some (Reads.set_readOrigBuf (Reads.ch_gt :: b) r) /\
    (forall i, 0 < i -> Reads.readbuf batch_a pt' !! i = Reads.readbuf batch_a pt !! i) /\
    Reads.readbuf (negb batch_a) pt' = Reads.readbuf (negb batch_a) pt.
Proof.
  intros Hlight Hin Hb Hmax Hr.
  do 2 eexists. split; [exact (raw_light_parse NDEBUG light pt batch_a s b bodies r
                                 Hlight Hin Hb Hmax Hr)|].
  cbn [Reads.fb_ Reads.first_]. split; [reflexivity|]. split; [reflexivity|].
  assert (Hpt : forall rb, Reads.readbuf batch_a (Reads.set_readbuf batch_a rb pt) = rb)
    by (intros; now destruct batch_a).
  rewrite Hpt. split; [|split].
  - apply list_lookup_insert_eq. now apply lookup_lt_Some in Hr.
  - intros i Hi. apply list_lookup_insert_ne. lia.
  - now destruct batch_a.
Qed.

(** X25. The first byte of a raw or tab-delimited file that is not a line
    break has to be '>': any other file is refused by [nextBatch], with
    the message of the FASTQ parser. *)
Theorem raw_first_byte_checked (NDEBUG : bool)
    (light : Reads.PerThreadReadBuf -> bool -> Reads.BufferedFilePatternSource ->
             outcome (Reads.BufferedFilePatternSource * Reads.PerThreadReadBuf * (bool * Z)))
    (fs : string -> option (list Z)) (stdin_ : list Z) (fuel : nat)
    (pt : Reads.PerThreadReadBuf) (batch_a lock : bool)
    (s : Reads.BufferedFilePatternSource) (nls rest : list Z) :
  In light (Raw.light_parsers NDEBUG) ->
  Reads.first_ s = true ->
  Reads.fb_ s = nls ++ rest ->
  Forall (fun c => Pat.is_newline c = true) nls ->
  match rest with
  | [] => True
  | c :: _ => Pat.is_newline c = false /\ c <> Reads.ch_gt
  end ->
  Reads.BufferedFilePatternSource_nextBatch NDEBUG fs stdin_ light
    Raw.RawPatternSource_resetForNextFile (S fuel) pt batch_a lock s =
  Fail (Thrown Pat.msg_not_fastq).
Proof.
  intros Hlight Hfirst Hfb Hnls Hrest.
  assert (E : light (Reads.setReadId (Reads.readCnt_ s) pt) batch_a s =
              Fail (Thrown Pat.msg_not_fastq)).
  { assert (Hraw : Raw.RawPatternSource_nextBatchFromFile NDEBUG
                     (Reads.setReadId (Reads.readCnt_ s) pt) batch_a s =
                   Fail (Thrown Pat.msg_not_fastq)).
    { unfold Raw.RawPatternSource_nextBatchFromFile. rewrite Hfirst, Hfb.
      destruct rest as [|c rest].
      - rewrite app_nil_r, skip_newlines_all by assumption. reflexivity.
      - destruct Hrest as [Hc Hne]. rewrite skip_newlines_prefix by assumption.
        destruct (Z.eqb_spec c Reads.ch_gt); [contradiction | reflexivity]. }
    destruct Hlight as [<- | [<- | []]]; exact Hraw. }
  unfold Reads.BufferedFilePatternSource_nextBatch.
  cbn [Reads.next_file_loop Reads.draw]. now rewrite E.
Qed.

(** X26. A raw or tab-delimited file that is not the last one of its source
    is left after its first record: the record is reported as the last of
    the file, [nextBatch] opens the file that follows, and the records
    that the first file still holds are not read. *)
Theorem raw_rest_of_file_dropped (NDEBUG : bool)
    (light : Reads.PerThreadReadBuf -> bool -> Reads.BufferedFilePatternSource ->
             outcome (Reads.BufferedFilePatternSource * Reads.PerThreadReadBuf * (bool * Z)))
    (fs : string -> option (list Z)) (stdin_ : list Z) (fuel : nat)
    (pt : Reads.PerThreadReadBuf) (batch_a lock : bool)
    (s : Reads.BufferedFilePatternSource)
    (b : list Z) (bodies : list (list Z)) (r : Reads.Read) (next : string) (bytes : list Z) :
  In light (Raw.light_parsers NDEBUG) ->
  Reads.fasta_input s (Reads.joined (b :: bodies)) -> Reads.record_text b ->
  0 < Reads.max_buf_ pt -> Reads.readbuf batch_a pt !! 0 = Some r ->
  Reads.infiles_ s !! Reads.filecur_ s = Some next ->
  next <> "-" -> fs next = Some bytes ->
  exists s' pt',
    Reads.BufferedFilePatternSource_nextBatch NDEBUG fs stdin_ light
      Raw.RawPatternSource_resetForNextFile (S fuel) pt batch_a lock s =
      Ok (s', pt', (true, 1%Z)) /\
    Reads.fb_ s' = bytes /\
    Reads.first_ s' = true /\
    Reads.filecur_ s' = S (Reads.filecur_ s) /\
    Reads.readCnt_ s' = wrap64 (Reads.readCnt_ s + 1) /\
    Reads.rdid_ pt' = Reads.readCnt_ s /\
    Reads.readbuf batch_a pt' !! 0 = Some (Reads.set_readOrigBuf (Reads.ch_gt :: b) r).
Proof.
  intros Hlight Hin Hb Hmax Hr Hnext Hname Hfs.
  set (pt0 := Reads.setReadId (Reads.readCnt_ s) pt).
  assert (Hrb : Reads.readbuf batch_a pt0 = Reads.readbuf batch_a pt) by now destruct batch_a.
  pose proof (raw_light_parse NDEBUG light pt0 batch_a s b bodies r Hlight Hin Hb) as Hcall.
  rewrite Hrb in Hcall. specialize (Hcall Hmax Hr).
  assert (Hlt : Reads.filecur_ s < length (Reads.infiles_ s))
    by (now apply lookup_lt_Some in Hnext).
  unfold Reads.BufferedFilePatternSource_nextBatch. fold pt0.
  cbn [Reads.next_file_loop Reads.draw]. rewrite Hcall.
  cbn [bind negb andb Reads.filecur_ Reads.infiles_].
  destruct (Nat.ltb_spec (Reads.filecur_ s) (length (Reads.infiles_ s))); [|lia].
  unfold Reads.open. cbn [Reads.fb_isOpen Reads.set_fb Reads.infiles_ Reads.filecur_].
  replace (S (length (Reads.infiles_ s) - Reads.filecur_ s))
    with (S (S (length (Reads.infiles_ s) - Reads.filecur_ s - 1))) by lia.
  assert (Hopen : forall st, Reads.infiles_ st = Reads.infiles_ s ->
            Reads.filecur_ st = Reads.filecur_ s -> forall n,
            Reads.open_loop fs stdin_ (S n) st = Ok (Reads.set_fb true bytes st)).
  { intros st Hi Hc n. cbn [Reads.open_loop]. rewrite Hi, Hc.
    destruct (Nat.ltb_spec (Reads.filecur_ s) (length (Reads.infiles_ s))); [|lia].
    rewrite Hnext. destruct (String.eqb_spec next "-"); [contradiction|].
    now rewrite Hfs. }
  rewrite Hopen by (destruct (Reads.fb_isOpen s); reflexivity).
  cbn [bind]. change (1 =? 0)%Z with false. cbn [bind].
  rewrite (assert_true NDEBUG) by reflexivity. cbn [bind].
  do 2 eexists. split; [reflexivity|].
  assert (Hpt : forall rb, Reads.readbuf batch_a (Reads.set_readbuf batch_a rb pt0) = rb)
    by (intros; now destruct batch_a).
  rewrite Hpt.
  destruct (Reads.fb_isOpen s);
    cbn [Reads.fb_ Reads.first_ Reads.filecur_ Reads.readCnt_ Reads.set_readCnt
         Reads.set_filecur Reads.set_fb Reads.set_first Raw.RawPatternSource_resetForNextFile];
    (repeat (split; [reflexivity|]));
    (split; [now destruct batch_a|]);
    apply list_lookup_insert_eq; now apply lookup_lt_Some in Hr.
Qed.

(** ** Reads given on the command line *)

Lemma pad_replicate (n : nat) (vq : list Z) :
  Vector.pad n vq = vq ++ replicate n ch_I.
Proof.
  revert vq. induction n as [|n IH]; intros vq; cbn [Vector.pad replicate].
  - now rewrite app_nil_r.
  - rewrite IH, <- app_assoc. reflexivity.
Qed.

Section Vector_Props.

Variable NDEBUG : bool.
Variables gTrim5 gTrim3 : Z.
Variable tokenize : list Z -> string -> nat -> list (list Z).
Variable installChars : list Z -> list Z.

Hypothesis trim5_pos : (0 <= gTrim5)%Z.
Hypothesis trim3_pos : (0 <= gTrim3)%Z.
Hypothesis trims_fit : (gTrim5 + gTrim3 <= 2147483647)%Z.

Lemma trim_sum_small : Vector.trim_sum gTrim3 gTrim5 = Ok (gTrim5 + gTrim3)%Z.
Proof.
  unfold Vector.trim_sum.
  destruct (Z.leb_spec (-2147483648) (gTrim3 + gTrim5)); [|lia].
  destruct (Z.leb_spec (gTrim3 + gTrim5) 2147483647); [|lia].
  cbn [andb]. rewrite wrap64_small by (unfold two64; lia). f_equal. lia.
Qed.

(** A string longer than what is to be trimmed loses its two ends. *)
Lemma trim_ends_trimmed (s : list Z) :
  (Z.of_nat (length s) < two64)%Z ->
  (gTrim5 + gTrim3 < Z.of_nat (length s))%Z ->
  Vector.trim_ends gTrim3 s gTrim5 = Ok (trimmed gTrim5 gTrim3 s).
Proof.
  intros Hsize Hlong. unfold Vector.trim_ends, Vector.erase_front, trimmed.
  assert (Hfront : (if (0 <? gTrim5)%Z then Ok (drop (Z.to_nat gTrim5) s) else Ok s) =
                   Ok (drop (Z.to_nat gTrim5) s)).
  { destruct (Z.ltb_spec 0 gTrim5); [reflexivity|].
    replace (Z.to_nat gTrim5) with 0 by lia. now rewrite drop_0. }
  rewrite Hfront. cbn [bind]. set (s1 := drop (Z.to_nat gTrim5) s).
  assert (Hlen : length s1 = length s - Z.to_nat gTrim5) by (subst s1; apply length_drop).
  destruct (Z.ltb_spec 0 gTrim3).
  - unfold Vector.erase_from. rewrite wrap64_small by lia.
    destruct (Z.ltb_spec (Z.of_nat (length s1)) (Z.of_nat (length s1) - gTrim3)); [lia|].
    do 2 f_equal. lia.
  - replace (Z.to_nat gTrim3) with 0 by lia. rewrite Nat.sub_0_r.
    now rewrite firstn_all.
Qed.

(** A string that is not longer trims to nothing. *)
Lemma trimmed_short (s : list Z) :
  (Z.of_nat (length s) <= gTrim5 + gTrim3)%Z -> trimmed gTrim5 gTrim3 s = [].
Proof.
  intros Hshort. unfold trimmed.
  replace (length (drop (Z.to_nat gTrim5) s) - Z.to_nat gTrim3) with 0
    by (rewrite length_drop; lia).
  apply take_0.
Qed.

(** One entry: the trimmed sequence and its qualities. *)
Lemma entry_tokens (x : list Z) (e : list Z * option (list Z)) :
  Vector.entry_of tokenize x e ->
  Vector.entry NDEBUG gTrim5 gTrim3 tokenize x =
  Ok (trimmed gTrim5 gTrim3 (fst e),
      Vector.stored_quals gTrim5 gTrim3 (length (trimmed gTrim5 gTrim3 (fst e))) (snd e)).
Proof.
  intros (Htok & Hs64 & Hq64). destruct e as [s oq]. cbn [fst snd] in *.
  unfold Vector.entry. rewrite Htok.
  set (P := trimmed gTrim5 gTrim3 s).
  assert (Hsizes : 0 < length (Vector.tokens (s, oq)) <= 2)
    by (unfold Vector.tokens; destruct oq; cbn; lia).
  rewrite (assert_passes NDEBUG) by (right; apply Nat.ltb_lt; lia). cbn [bind].
  rewrite (assert_passes NDEBUG) by (right; apply Nat.leb_le; lia). cbn [bind].
  assert (Hs : src_get NDEBUG (Vector.tokens (s, oq)) 0 = Ok s)
    by (unfold Vector.tokens; now destruct oq).
  rewrite Hs. cbn [bind]. rewrite trim_sum_small. cbn [bind].
  assert (Hseq : (if (Z.of_nat (length s) <=? gTrim5 + gTrim3)%Z then Ok []
                  else Vector.trim_ends gTrim3 s gTrim5) = Ok P).
  { destruct (Z.leb_spec (Z.of_nat (length s)) (gTrim5 + gTrim3)).
    - subst P. now rewrite trimmed_short.
    - now apply trim_ends_trimmed. }
  rewrite Hseq. cbn [bind].
  assert (Hvq : (if length (Vector.tokens (s, oq)) =? 2
                 then src_get NDEBUG (Vector.tokens (s, oq)) 1 else Ok []) =
                Ok (default [] oq))
    by (unfold Vector.tokens; now destruct oq).
  rewrite Hvq. cbn [bind].
  set (vq := default [] oq).
  set (vq1 := if (gTrim5 + gTrim3 <? Z.of_nat (length vq))%Z
              then trimmed gTrim5 gTrim3 vq else vq).
  assert (Hq : (if (gTrim5 + gTrim3 <? Z.of_nat (length vq))%Z
                then Vector.trim_ends gTrim3 vq gTrim5 else Ok vq) = Ok vq1).
  { subst vq1. destruct (Z.ltb_spec (gTrim5 + gTrim3) (Z.of_nat (length vq)));
      [now apply trim_ends_trimmed | reflexivity]. }
  rewrite Hq. cbn [bind]. rewrite pad_replicate.
  set (padded := vq1 ++ replicate (length P - length vq1) ch_I).
  assert (Hpadded : length P <= length padded).
  { subst padded. rewrite length_app, length_replicate. lia. }
  assert (Hcut : (if length P <? length padded
                  then Vector.erase_from padded (Z.of_nat (length P)) else Ok padded) =
                 Ok (take (length P) padded)).
  { destruct (Nat.ltb_spec (length P) (length padded)).
    - unfold Vector.erase_from.
      destruct (Z.ltb_spec (Z.of_nat (length padded)) (Z.of_nat (length P))); [lia|].
      now rewrite Nat2Z.id.
    - now rewrite firstn_all2 by lia. }
  rewrite Hcut. cbn [bind].
  rewrite (assert_passes NDEBUG)
    by (right; apply Nat.eqb_eq; rewrite length_take; lia).
  reflexivity.
Qed.

(** The loop of the constructor appends one read for each entry. *)
Lemma entries_tokens (v : list (list Z)) (es : list (list Z * option (list Z))) :
  Forall2 (Vector.entry_of tokenize) v es ->
  forall src,
    Vector.entries NDEBUG gTrim5 gTrim3 tokenize installChars v src =
    Ok (Vector.mkVec (Vector.readCnt_ src) (Vector.cur_ src) (Vector.skip_ src)
          (Vector.paired_ src)
          (Vector.v_ src ++
             ((fun e => installChars (trimmed gTrim5 gTrim3 (fst e))) <$> es))
          (Vector.quals_ src ++
             ((fun e => Vector.stored_quals gTrim5 gTrim3
                          (length (trimmed gTrim5 gTrim3 (fst e))) (snd e)) <$> es))
          (Vector.names_ src ++
             (Vector.decimal <$> seq (length (Vector.names_ src)) (length es)))
          (Vector.trimmed3_ src ++ replicate (length es) gTrim3)
          (Vector.trimmed5_ src ++ replicate (length es) gTrim5)).
Proof.
  induction 1 as [|x e v es Htok _ IH]; intros src.
  - cbn [Vector.entries fmap list_fmap length seq replicate]. rewrite !app_nil_r.
    now destruct src.
  - cbn [Vector.entries]. rewrite (entry_tokens x e Htok). cbn [bind]. rewrite IH.
    cbn [Vector.readCnt_ Vector.cur_ Vector.skip_ Vector.paired_ Vector.v_ Vector.quals_
         Vector.names_ Vector.trimmed3_ Vector.trimmed5_].
    rewrite !fmap_cons, length_app. cbn [length seq replicate].
    rewrite fmap_cons, <- !app_assoc. cbn [app].
    replace (length (Vector.names_ src) + 1) with (S (length (Vector.names_ src))) by lia.
    reflexivity.
Qed.

(** X27. The constructor of [VectorPatternSource] stores one read for each
    entry [sequence] or [sequence:qualities]: the sequence without its first
    [gTrim5] and last [gTrim3] characters, qualities made as long as the
    sequence (trimmed if they are longer than the two amounts together,
    then padded with 'I' or cut), the position of the entry in decimal as
    name, and [gTrim5] and [gTrim3] as trim counts even where the sequence
    is shorter; each read has as many qualities as bases. *)
Theorem vector_source_holds_trimmed_reads
    (v : list (list Z)) (es : list (list Z * option (list Z))) (skip readCnt : Z) :
  Forall2 (Vector.entry_of tokenize) v es ->
  (forall s, length (installChars s) = length s) ->
  exists src,
    Vector.VectorPatternSource_new NDEBUG gTrim5 gTrim3 tokenize installChars v skip readCnt =
      Ok src /\
    Vector.cur_ src = skip /\ Vector.readCnt_ src = readCnt /\
    Vector.v_ src = (fun e => installChars (trimmed gTrim5 gTrim3 (fst e))) <$> es /\
    Vector.quals_ src =
      (fun e => Vector.stored_quals gTrim5 gTrim3
                  (length (trimmed gTrim5 gTrim3 (fst e))) (snd e)) <$> es /\
    Vector.names_ src = Vector.decimal <$> seq 0 (length v) /\
    Vector.trimmed5_ src = replicate (length v) gTrim5 /\
    Vector.trimmed3_ src = replicate (length v) gTrim3 /\
    Forall2 (fun r q => length q = length r) (Vector.v_ src) (Vector.quals_ src).
Proof.
  intros Htok Hinstall.
  pose proof (Forall2_length _ _ _ Htok) as Hlen.
  unfold Vector.VectorPatternSource_new. rewrite (entries_tokens v es Htok).
  cbn [bind Vector.v_ Vector.quals_ app length].
  rewrite (assert_passes NDEBUG) by (right; apply Nat.eqb_eq; now rewrite !length_fmap).
  cbn [bind]. eexists. split; [reflexivity|].
  cbn [Vector.cur_ Vector.readCnt_ Vector.v_ Vector.quals_ Vector.names_ Vector.trimmed5_
       Vector.trimmed3_].
  rewrite Hlen. repeat (split; [reflexivity|]).
  apply Forall2_fmap, Forall_Forall2_diag, Forall_forall. intros e _.
  rewrite Hinstall. unfold Vector.stored_quals. rewrite length_take, length_app, length_replicate.
  lia.
Qed.

End Vector_Props.

Section Vector_Dispensing.

Variable NDEBUG : bool.
Variable PerThreadReadBuf_reset : Pat.PerThreadReadBuf -> Pat.PerThreadReadBuf.

(** A call of [nextBatch] on a source whose count is a [size_t] leaves
    the source as it is. *)
Lemma vector_nextBatch_nothing (pt : Pat.PerThreadReadBuf) (batch_a lock : bool)
    (s : Vector.VectorPatternSource) :
  (0 <= Vector.readCnt_ s < two64)%Z ->
  Vector.VectorPatternSource_nextBatch PerThreadReadBuf_reset pt batch_a lock s =
  Ok (s, Pat.setReadId (Vector.readCnt_ s) (PerThreadReadBuf_reset pt), (true, 0%Z)).
Proof.
  intros Hcnt. unfold Vector.VectorPatternSource_nextBatch, Vector.set_readCnt.
  rewrite Z.add_0_r, wrap64_small by exact Hcnt. now destruct s.
Qed.

(** The loop of the composer passes over sources of this kind. *)
Lemma vector_solo_loop (n : nat) :
  forall (fuel : nat) (pt : Pat.PerThreadReadBuf)
         (c : Solo.SoloPatternComposer Vector.VectorPatternSource),
    Forall (fun s => (0 <= Vector.readCnt_ s < two64)%Z) (Solo.src_ c) ->
    Solo.cur_ c <= length (Solo.src_ c) ->
    length (Solo.src_ c) - Solo.cur_ c = n -> n < fuel ->
    exists pt',
      Solo.loop (H := Vector.VectorSource PerThreadReadBuf_reset) NDEBUG fuel
        (Solo.cur_ c) pt c =
      Ok (Solo.mkSolo (length (Solo.src_ c)) (Solo.src_ c), pt', (true, 0%Z)).
Proof.
  induction n as [|n IH]; intros fuel pt c Hcnt Hcur Hn Hfuel;
    (destruct fuel as [|fuel]; [lia|]); cbn [Solo.loop].
  - destruct (Nat.ltb_spec (Solo.cur_ c) (length (Solo.src_ c))); [lia|].
    rewrite (assert_passes NDEBUG) by (right; apply Nat.leb_le; lia).
    cbn [bind]. exists pt. replace (length (Solo.src_ c)) with (Solo.cur_ c) at 1 by lia.
    now destruct c.
  - destruct (Nat.ltb_spec (Solo.cur_ c) (length (Solo.src_ c))) as [Hlt|]; [|lia].
    destruct (lookup_lt_is_Some_2 _ _ Hlt) as [s Hs].
    unfold src_get. rewrite Hs. cbn [bind Solo.draw].
    change (@nextBatch _ (Vector.VectorSource PerThreadReadBuf_reset))
      with (Vector.VectorPatternSource_nextBatch PerThreadReadBuf_reset).
    rewrite vector_nextBatch_nothing
      by (exact (proj1 (Forall_lookup _ _) Hcnt _ _ Hs)).
    cbn [bind fst snd negb andb Solo.cur_ Solo.src_]. rewrite list_insert_id by exact Hs.
    change (0 =? 0)%Z with true. cbn iota.
    destruct (Nat.ltb_spec (Solo.cur_ c) (Solo.cur_ c + 1)); [|lia].
    cbn [Solo.cur_].
    destruct (IH fuel (Pat.setReadId (Vector.readCnt_ s) (PerThreadReadBuf_reset pt))
                (Solo.mkSolo (S (Solo.cur_ c)) (Solo.src_ c))) as [pt' Hloop];
      cbn [Solo.cur_ Solo.src_]; [assumption | lia | lia | lia |].
    cbn [Solo.cur_ Solo.src_] in Hloop. exists pt'. exact Hloop.
Qed.

(** X28. Reads given on the command line are never handed out.  [nextBatch]
    of a [VectorPatternSource] returns an empty batch and "done" whatever
    the source holds, so the single-source composer over such sources goes
    past all of them and answers (true, 0) - no more work - at the first
    request, leaving the sources as they are. *)
Theorem vector_reads_never_dispensed (fuel : nat) (pt : Pat.PerThreadReadBuf)
    (c : Solo.SoloPatternComposer Vector.VectorPatternSource) :
  Forall (fun s => (0 <= Vector.readCnt_ s < two64)%Z) (Solo.src_ c) ->
  Solo.cur_ c <= length (Solo.src_ c) ->
  length (Solo.src_ c) - Solo.cur_ c < fuel ->
  exists pt',
    Solo.nextBatch (H := Vector.VectorSource PerThreadReadBuf_reset) NDEBUG fuel pt c =
    Ok (Solo.mkSolo (length (Solo.src_ c)) (Solo.src_ c), pt', (true, 0%Z)).
Proof.
  intros Hcnt Hcur Hfuel. unfold Solo.nextBatch.
  exact (vector_solo_loop _ fuel pt c Hcnt Hcur eq_refl Hfuel).
Qed.

End Vector_Dispensing.

(** *** The other sources at concrete inputs *)

(** Two records and a batch of three reads. *)
Lemma raw_batch_is_one_record_witness :
  let r0 := fasta_read "" in
  let b1 := Pat.bytes_of ("ACGT" ++ OutQ.LF)%string in
  let b2 := Pat.bytes_of ("GGCC" ++ OutQ.LF)%string in
  let s := Reads.mkSrc ["a.raw"] [false] 1 true
             (Pat.bytes_of (">ACGT" ++ OutQ.LF ++ ">GGCC" ++ OutQ.LF)%string) 0%Z true [] in
  let pt := Reads.mkPT 0%Z [r0; r0; r0] [] 3 in
  exists s' pt',
    Raw.RawPatternSource_nextBatchFromFile false pt true s = Ok (s', pt', (true, 1%Z)) /\
    Reads.fb_ s' = Reads.joined [b2] /\
    Reads.first_ s' = false /\
    Reads.readbuf true pt' !! 0 = Some (Reads.set_readOrigBuf (Reads.ch_gt :: b1) r0) /\
    (forall i, 0 < i -> Reads.readbuf true pt' !! i = Reads.readbuf true pt !! i) /\
    Reads.readbuf (negb true) pt' = Reads.readbuf (negb true) pt.
Proof.
  intros r0 b1 b2 s pt.
  apply (raw_batch_is_one_record false (Raw.RawPatternSource_nextBatchFromFile false)
           pt true s b1 [b2] r0).
  - left. reflexivity.
  - exists []. split; [constructor | reflexivity].
  - unfold Reads.record_text. concrete_bytes.
  - cbn. lia.
  - reflexivity.
Defined.

(** A file of sequences, one on each line. *)
Lemma raw_first_byte_checked_witness :
  let s := Reads.mkSrc ["a.raw"] [false] 1 true
             (Pat.bytes_of ("ACGT" ++ OutQ.LF ++ "GGCC" ++ OutQ.LF)%string) 0%Z true [] in
  Reads.BufferedFilePatternSource_nextBatch false Pat.demo_fs []
    (Raw.RawPatternSource_nextBatchFromFile false) Raw.RawPatternSource_resetForNextFile
    1 (Reads.mkPT 0%Z [fasta_read ""] [] 1) true true s =
  Fail (Thrown "Error: reads file does not look like a FASTQ file").
Proof.
  intros s.
  apply (raw_first_byte_checked false (Raw.RawPatternSource_nextBatchFromFile false)
           Pat.demo_fs [] 0 (Reads.mkPT 0%Z [fasta_read ""] [] 1) true true s
           [] (Pat.bytes_of ("ACGT" ++ OutQ.LF ++ "GGCC" ++ OutQ.LF)%string)).
  - left. reflexivity.
  - reflexivity.
  - reflexivity.
  - constructor.
  - split; [reflexivity | discriminate].
Defined.

(** The first of two files holds two records. *)
Lemma raw_rest_of_file_dropped_witness :
  let r0 := fasta_read "" in
  let b1 := Pat.bytes_of "r1" ++ 9%Z :: Pat.bytes_of ("ACGT" ++ OutQ.LF)%string in
  let b2 := Pat.bytes_of "r2" ++ 9%Z :: Pat.bytes_of ("GGCC" ++ OutQ.LF)%string in
  let s := Reads.mkSrc ["a.tab"; "reads.fq"] [false; false] 1 true
             (Reads.joined [b1; b2]) 0%Z false [] in
  let pt := Reads.mkPT 0%Z [r0; r0] [] 2 in
  exists s' pt',
    Reads.BufferedFilePatternSource_nextBatch false Pat.demo_fs []
      (Raw.TabbedPatternSource_nextBatchFromFile false) Raw.RawPatternSource_resetForNextFile
      1 pt true true s = Ok (s', pt', (true, 1%Z)) /\
    Reads.fb_ s' = Pat.reads_fq /\
    Reads.first_ s' = true /\
    Reads.filecur_ s' = 2 /\
    Reads.readCnt_ s' = wrap64 (0 + 1) /\
    Reads.rdid_ pt' = 0%Z /\
    Reads.readbuf true pt' !! 0 = Some (Reads.set_readOrigBuf (Reads.ch_gt :: b1) r0).
Proof.
  intros r0 b1 b2 s pt.
  apply (raw_rest_of_file_dropped false (Raw.TabbedPatternSource_nextBatchFromFile false)
           Pat.demo_fs [] 0 pt true true s b1 [b2] r0 "reads.fq" Pat.reads_fq).
  - right. left. reflexivity.
  - reflexivity.
  - unfold Reads.record_text. concrete_bytes.
  - cbn. lia.
  - reflexivity.
  - reflexivity.
  - discriminate.
  - reflexivity.
Defined.

(** The entries ACGT:IJKL and GG, with one base trimmed at the front. *)
Lemma vector_source_holds_trimmed_reads_witness :
  let install := fun s : list Z => demo_asc2dna <$> s in
  exists src,
    Vector.VectorPatternSource_new false 1 0 Vector.demo_tokenize install
      [Pat.bytes_of "ACGT:IJKL"; Pat.bytes_of "GG"] 0 0 = Ok src /\
    Vector.cur_ src = 0%Z /\ Vector.readCnt_ src = 0%Z /\
    Vector.v_ src = [[1; 2; 3]%Z; [2%Z]] /\
    Vector.quals_ src = [Pat.bytes_of "JKL"; Pat.bytes_of "I"] /\
    Vector.names_ src = ["0"; "1"]%string /\
    Vector.trimmed5_ src = [1; 1]%Z /\
    Vector.trimmed3_ src = [0; 0]%Z /\
    Forall2 (fun r q => length q = length r) (Vector.v_ src) (Vector.quals_ src).
Proof.
  intros install.
  apply (vector_source_holds_trimmed_reads false 1 0 Vector.demo_tokenize install
           ltac:(lia) ltac:(lia) ltac:(lia)
           [Pat.bytes_of "ACGT:IJKL"; Pat.bytes_of "GG"]
           [(Pat.bytes_of "ACGT", Some (Pat.bytes_of "IJKL")); (Pat.bytes_of "GG", None)]
           0%Z 0%Z).
  - repeat constructor; vm_compute; reflexivity.
  - intros s. apply length_fmap.
Defined.

Lemma vector_reads_never_dispensed_witness :
  let c := Solo.mkSolo 0 [Vector.demo_source; Vector.demo_source] in
  exists pt',
    Solo.nextBatch (H := Vector.VectorSource (fun pt => pt)) false 3 (Pat.demo_pt 12 40) c =
    Ok (Solo.mkSolo 2 [Vector.demo_source; Vector.demo_source], pt', (true, 0%Z)).
Proof.
  intros c.
  apply (vector_reads_never_dispensed false (fun pt => pt) 3 (Pat.demo_pt 12 40) c).
  - repeat constructor; vm_compute; discriminate.
  - cbn. lia.
  - cbn. lia.
Defined.
